(* ===== verification/_CoqProject ===== *)
-Q . S2P
Prelude.v
Constants.v
Slug.v
Store.v
Versioning.v
Query.v
Publish.v
Throttling.v
Lookups.v
Tags.v
QueryString.v
Mixins.v
Views.v
Pagination.v
PyDate.v
Images.v
Widgets.v
Tagging.v
Mailer.v
CoreUtils.v
Fields.v
Admin.v
Migrations.v
