(* ===== verification/Prelude.v ===== *)
(** * A verification development of tunobase-core

    tunobase-core is a content-management layer over Django.  Its content
    models carry a publication [state]; a versioning scheme groups the
    revisions of one content item into a series and decides which revision
    the site shows; query sets scope content to the current site and state;
    around this sit tagging, outbound-mail tracking, session throttling,
    access-control view mixins, template tags and widgets, and small
    utilities.  This library models the program's logic as executable Rocq
    functions (shallow embedding) over explicit state, proves what makes it
    correct and, where it is not, proves that too.

    ** How the parts interact

    Content rows, [Version]s and [VersionSeries] live in one database ([DB]
    of [Store]).  The manager methods ([Versioning]) and the periodic task
    ([Publish]) change the states of versions and rows; the query sets
    ([Query]) read both tables to decide what is visible; the lookups, the
    inclusion tags and the views ([Lookups], [Tags], [Views]) go through
    those query sets; [Images] draws default images through the same
    [permitted()] query.  Tagging and mail keep their own tables.  The
    mixins, the widgets and the template tags work on requests, template
    contexts and posted data.  The models' field declarations ([Admin])
    are what the admin classes are validated and searched against, and
    what the tables of the South migrations ([Migrations]) are compared
    with.

    ** Files, in dependency order, and what each models

    - [Prelude] (this file): Python and Django exceptions ([pyerror]); the
      result of a call that may raise ([exc], with [x <-! r ;; k]); the
      handler type [M S A = S -> exc A * S] over a store [S], which returns
      the store also when an exception is raised (no transaction wraps the
      handlers, so earlier writes stay); the ORM calls written out once:
      [qs_get] is [QuerySet.get], [update_where] an UPDATE, [fresh_pk] the
      auto-increment key; Python's [l[i]] ([py_index]) and [l[a:b]]
      ([py_slice]); the shared lemmas and the [tb] hint database.
    - [Constants]: the four publication states of [core.constants] (not in
      the sources; modelled from the spec) and the class constants of
      [CoreStateQuerySet] ([core/query.py]).
    - [Slug]: Django's [slugify] on ASCII input (library code the models
      call).
    - [Store]: the rows of [core/models.py] the versioning code reads and
      writes, the [DB] of three tables, [StateModel.save], [SlugModel.save],
      [ContentModel.save], [mark_deleted] and the generic foreign key.
    - [Versioning]: every state-changing method of [CoreStateManager]
      ([core/managers.py]) as a handler [M DB A]; the series invariant
      [wf] and the step relation [manager_step] with its reachable states.
    - [Query]: [get_list], [permitted], [get_console_queryset] and
      [for_current_site] ([core/query.py]), and [resolve], the abstract
      specification of the object a series shows.
    - [Publish]: [VersionManager.publish_objects],
      [CoreStateManager.publish_objects] and the celery task
      ([core/tasks.py]).
    - [Throttling]: [add_to_throttle] and [check_throttle]
      ([core/throttling.py]) over the session.
    - [Lookups]: the [*_or_404] helpers of [core/utils.py] and the lookup
      inclusion tags of [core_widgets.py].
    - [Tags]: breadcrumbs ([core/nodes.py], [create_crumb]), the tags of
      [core_tags.py] and the breadcrumb widgets.
    - [QueryString]: [smart_query_string] and [SmartQueryStringNode], and
      Python 2's [parse_qsl] that reads the rendered string back.
    - [Mixins]: the access-control mixins and [FilterMixin]
      ([core/mixins.py]) as wrappers of a view.
    - [Views]: [MarkDeleteView.delete] and [ContentBlockUpdate.post]
      ([core/views.py]).
    - [Pagination]: [AjaxMorePaginationMixin] over Django 1.6's
      [Paginator], and a client that follows [next_page_number].
    - [PyDate]: the calendar of CPython's [datetime] the widget uses.
    - [Images]: [ImageModel.save], the [DefaultImage] draw
      ([get_random]), [GalleryImage.gallery], [as_leaf_class].
    - [Widgets]: [DateSelectorWidget] ([core/widgets.py]).
    - [Tagging]: the two tables of the tagging app, [TagUpdateForm.save],
      the tag managers, the views [RetrieveTags] and [UpdateTags] and the
      inclusion tags.
    - [Mailer]: [mailer/utils.py] and [OutboundEmail], with the template
      engine and the transport as section parameters.
    - [CoreUtils]: [respond_with_json], [get_choice_value],
      [get_client_ip], [ensure_unicode], [not_null_str].
    - [Fields]: [UUIDField] ([core/fields.py]) and the Python 2.7 [uuid]
      module it calls ([UUID], [uuid1] with its [_last_timestamp] global),
      on unbounded integers with Python's bit operations.
    - [Admin]: every model class of the three apps as data (its fields
      with their [null] and [max_length], bases and class attributes;
      [Site], the user model, [ContentType] and photologue's [ImageModel]
      from Django and photologue), every [ModelAdmin] and
      [admin.site.register] call of [core/admin.py], [tagging/admin.py] and
      [mailer/admin.py], Django 1.6's registration checks and admin
      validation, and [get_search_results] with [Query.build_filter]'s
      lookup resolution.
    - [Migrations]: the South migrations [tagging/migrations/0001],
      [0002] and [core/migrations/0002], [forwards] and [backwards], as
      sequences of South [db] calls ([create_table], [add_column],
      [alter_column], ...) over a schema of tables with rows, with
      PostgreSQL's checks and one transaction per migration; their frozen
      models as data; the tables the models of [Admin] declare; [migrate],
      a plan of migrations.

    ** What the theorems show

    - Versioning: every manager method keeps at most one PUBLISHED and one
      STAGED version per series, on every path, raising ones included, and
      so does every reachable state; what each method writes on each path.
    - Visibility: [get_list] refines [resolve] (it lists exactly the
      resolved, non-DELETED objects); [permitted] selects the site state.
    - Periodic publishing: the task breaks the series invariant (two due
      versions of one series are both published) and revives DELETED
      versions; [CoreStateManager.publish_objects] publishes exactly the due
      rows.
    - Tagging and mail: what [TagUpdateForm.save] and [send_mail] write on
      success and on failure ([set(tags)]'s iteration order is a parameter,
      and the integer columns are PostgreSQL's 32-bit [integer]), the tagging invariant kept by [UpdateTags],
      and that a mail row is recorded only for a message that was sent.
    - Widgets and dates: [value_from_datadict] returns a valid date or
      [''], raises [TypeError] when a select is missing and
      [OverflowError] when a number exceeds a C int (CPython's [date_new]
      parses its arguments as C ints); it inverts [decompress]; the year
      range misses the current year on 1 January of a leap year.
    - UUIDs: [uuid1] never raises and its timestamps strictly increase;
      [UUID(str(u))] and [UUID(u.hex)] give back [u]; the values
      [UUIDField] stores in one process are pairwise distinct; which
      [max_length] fits them.
    - Admin: searching raises [TypeError] exactly in the two admins
      whose [search_fields] name the foreign key [site].
    - Migrations: the tagging migrations create exactly the tables the
      tagging models declare, whatever else the database holds (a frame
      lemma per [db] call); 0001 and 0002 forwards then backwards are the
      identity, 0002's on 0001 data, and 0002 backwards raises [DataError]
      once a title exceeds 32 characters; core 0002 forwards, run on a
      [core_contentmodel] table, drops [polymorphic_ctype_id] and leaves
      [leaf_content_type_id] NULL, so [as_leaf_class] fails on every
      existing row; no plan of the repository's migrations ever creates the
      [Version], [VersionSeries] and [ContentBlockSet] tables.
    - Elsewhere: the access mixins admit only the users they should, and
      [PermissionOrCreatorRequiredMixin] checks GET and HEAD only; the throttle
      counts the attempts of the lockout window and unlocks eventually; the
      "load more" client receives every object once; the rendered query
      string, read back by [parse_qsl], gives the parameters only for keys
      and values without [& ; = + %] (the URL fragment and the HTML
      attribute layer are not modelled); breadcrumbs are not escaped.

    ** Bounds, fuel and evaluation

    - Python integers are [Z] (unbounded, as Python's [int]/[long]); the
      bit operations of [uuid] are [Z.land], [Z.lor], [Z.shiftl],
      [Z.shiftr] and [Z.lnot], which agree with Python's on negative
      numbers too.  The [UUID] constructor's range checks are kept, and
      proved never to fail for [uuid1]'s fields.  Uniqueness of stored
      UUIDs needs the timestamp below [2^60] (about the year 5236), the
      width of the time field.
    - [PyDate.ord2year] is checked by [vm_compute] on the 146097 ordinals
      of one 400-year cycle and carried to every ordinal by the period of
      the Gregorian calendar; that one cycle is enough because the
      calendar repeats every 400 years.
    - [Pagination.load_more] takes fuel; its theorem gives the fuel that
      suffices ([num_pages] requests) and proves the run completes with it.
      [Fields.remove_all_fuel] takes the length of the string, which it
      consumes one character per step.
    - Witnesses of the theorems with hypotheses evaluate the definitions on
      concrete inputs; [Fields.uuid1_str_example] matches what CPython
      prints for the same inputs.

    ** Not modelled

    - The admin's change-list rendering and forms: Django code driven by
      the options that [Admin] models.
    - Of the migrations: indexes ([db_index]) and the md5 suffix
      [shorten_name] adds to names over 63 characters (none here); the
      missing [core/migrations/0001], which the repository does not hold,
      so the core schema is the one the frozen models of 0002 record.
    - [setup.py] and [core/tests.py]: packaging and a test module.
    - Template rendering ([render_to_string], [Template.render]), the
      rendering of [MultiWidget] and of the inclusion tags' templates, and
      the JSON text [json.dumps] writes: library I/O; the tags and widgets
      are modelled up to the context they build.
    - The photologue parent [save()] (thumbnails, EXIF) and the
      [__unicode__] methods; the values of the model fields no code reads
      back ([AuditModel], [SEOModel]; [Admin] has their declarations).
    - The libuuid fast path of [uuid1] and [getnode()]: the node and the
      clock are inputs. *)

From stdpp Require Export base list decidable option strings.
From Stdlib Require Export ZArith Lia.

Declare Scope tb_scope.
Delimit Scope tb_scope with tb.

(** ** Python exceptions raised by the code or by the library calls it makes *)

Inductive pyerror :=
| DoesNotExist
| MultipleObjectsReturned
| IntegrityError
| AttributeError
| IndexError
| KeyError
| ValueError
| TypeError
| UnboundLocalError
| UnicodeEncodeError
| ImproperlyConfigured
| PermissionDenied
| Http404
| TemplateDoesNotExist
| TransportError
| VariableDoesNotExist
| TemplateSyntaxError
| ZeroDivisionError
| EmptyPage
| PageNotAnInteger
| DataError
| NoReverseMatch
| BadHeaderError
| OverflowError
| UnicodeDecodeError
| FieldError
| FieldDoesNotExist
| AlreadyRegistered
| ProgrammingError.

#[global] Instance pyerror_eq_dec : EqDecision pyerror.
Proof. solve_decision. Defined.

(** The outcome of a Python call: a value, or an exception. *)
Inductive exc (A : Type) :=
| Ok (a : A)
| Raise (e : pyerror).
Arguments Ok {A} a.
Arguments Raise {A} e.

(** ** Handlers over a store: state passing where raising keeps the writes *)

Definition M (S A : Type) : Type := S -> exc A * S.

Definition mret {S A} (a : A) : M S A := fun s => (Ok a, s).
Definition mraise {S A} (e : pyerror) : M S A := fun s => (Raise e, s).
Definition mbind {S A B} (m : M S A) (k : A -> M S B) : M S B :=
  fun s =>
    match m s with
    | (Ok a, s') => k a s'
    | (Raise e, s') => (Raise e, s')
    end.
Definition mget {S} : M S S := fun s => (Ok s, s).
Definition mput {S} (s : S) : M S unit := fun _ => (Ok tt, s).
Definition mmodify {S} (f : S -> S) : M S unit := fun s => (Ok tt, f s).
Definition mlift {S A} (r : exc A) : M S A := fun s => (r, s).

Notation "x <- m1 ;; m2" := (mbind m1 (fun x => m2))
  (at level 100, m1 at next level, right associativity) : tb_scope.
Notation "m1 ;; m2" := (mbind m1 (fun _ => m2))
  (at level 100, right associativity) : tb_scope.

Open Scope tb_scope.

(** Sequencing of plain Python calls that may raise. *)
Definition exc_bind {A B} (r : exc A) (k : A -> exc B) : exc B :=
  match r with
  | Ok a => k a
  | Raise e => Raise e
  end.

Notation "x <-! r ;; k" := (exc_bind r (fun x => k))
  (at level 100, r at next level, right associativity) : tb_scope.

(** A step that returns lets the continuation run on its result. *)
Lemma mbind_ok {S A B} (m : M S A) (k : A -> M S B) s a s' :
  m s = (Ok a, s') -> mbind m k s = k a s'.
Proof. intros H. unfold mbind. rewrite H. reflexivity. Qed.

(** The store left by a handler, whatever its outcome. *)
Definition final {S A} (m : M S A) (s : S) : S := snd (m s).

(** A handler preserves [P] when every run from a state in [P] ends in a
    state in [P], the runs that raise included. *)
Definition preserves {S A} (P : S -> Prop) (m : M S A) : Prop :=
  forall s, P s -> P (final m s).

Create HintDb tb discriminated.
Create Rewrite HintDb tb_rw.

Section Preserves.
  Context {S : Type} (P : S -> Prop).

Lemma preserves_ret {A} (a : A) : preserves P (mret a).
  Proof. intros s Hs. exact Hs. Qed.

Lemma preserves_raise {A} e : preserves P (@mraise S A e).
  Proof. intros s Hs. exact Hs. Qed.

Lemma preserves_lift {A} (r : exc A) : preserves P (@mlift S A r).
  Proof. intros s Hs. exact Hs. Qed.

Lemma preserves_modify f : (forall s, P s -> P (f s)) -> preserves P (mmodify f).
  Proof. intros Hf s Hs. exact (Hf s Hs). Qed.

  (** The continuation may depend on the state it starts from: this is the
      rule the handlers need, which read the database before writing it. *)
Lemma preserves_bind {A B} (m : M S A) (k : A -> M S B) :
    preserves P m ->
    (forall s a s', P s -> m s = (Ok a, s') -> P s' -> P (final (k a) s')) ->
    preserves P (mbind m k).
  Proof.
    intros Hm Hk s Hs. unfold final, mbind.
    destruct (m s) as [[a|e] s'] eqn:E.
    - apply (Hk s a s' Hs E). pose proof (Hm s Hs) as H. unfold final in H.
      rewrite E in H. exact H.
    - pose proof (Hm s Hs) as H. unfold final in H. rewrite E in H. exact H.
  Qed.

Lemma preserves_get_bind {A} (k : S -> M S A) :
    (forall s, P s -> P (final (k s) s)) -> preserves P (mbind mget k).
  Proof. intros Hk s Hs. exact (Hk s Hs). Qed.
End Preserves.

#[export] Hint Resolve preserves_ret preserves_raise preserves_lift : tb.

(** ** Django ORM calls, written out once *)

(** [QuerySet.get]: the one row the filter selects. *)
Definition qs_get {A} (p : A -> bool) (l : list A) : exc A :=
  match List.filter p l with
  | [x] => Ok x
  | [] => Raise DoesNotExist
  | _ :: _ :: _ => Raise MultipleObjectsReturned
  end.

(** [QuerySet.update] and, with a primary-key filter, [Model.save()] of a
    fetched instance. *)
Definition update_where {A} (p : A -> bool) (f : A -> A) (l : list A) : list A :=
  map (fun x => if p x then f x else x) l.

(** Rows of a table are identified by their primary key. *)
Class Row (A : Type) := row_pk : A -> nat.

Definition pk_is `{Row A} (k : nat) (x : A) : bool := Nat.eqb (row_pk x) k.

(** [Model.save()] of an instance: an UPDATE when its key is in the table,
    an INSERT otherwise. *)
Definition save_row `{Row A} (r : A) (l : list A) : list A :=
  if existsb (pk_is (row_pk r)) l then update_where (pk_is (row_pk r)) (fun _ => r) l
  else l ++ [r].

(** The key an auto-increment column gives the next inserted row. *)
Definition fresh_pk `{Row A} (l : list A) : nat :=
  S (fold_right (fun x m => Nat.max (row_pk x) m) 0 l).

(** [x in l] on a list of keys (SQL [IN]). *)
Definition mem (x : nat) (l : list nat) : bool := existsb (Nat.eqb x) l.

(** Python's [l[i]]: negative indices count from the end. *)
Definition py_index {A} (l : list A) (i : Z) : exc A :=
  let n := Z.of_nat (length l) in
  let j := if (i <? 0)%Z then (n + i)%Z else i in
  if ((0 <=? j) && (j <? n))%Z then
    match nth_error l (Z.to_nat j) with
    | Some x => Ok x
    | None => Raise IndexError
    end
  else Raise IndexError.

(** Python's truth value of a string. *)
Definition truthy (s : string) : bool := negb (String.eqb s "").

(** Python's slice [l[a:b]]: negative bounds count from the end, and
    both are clamped to the list. *)
Definition py_slice {A} (l : list A) (a b : Z) : list A :=
  let n := Z.of_nat (length l) in
  let norm i := if (i <? 0)%Z then Z.max 0 (n + i) else Z.min i n in
  firstn (Z.to_nat (norm b - norm a)) (skipn (Z.to_nat (norm a)) l).

(** ** Shared lemmas *)

(** A slice with bounds inside the list is a [drop] then a [take]. *)
Lemma py_slice_nonneg {A} (l : list A) a b :
  (0 <= a <= b)%Z -> (b <= Z.of_nat (length l))%Z ->
  py_slice l a b = firstn (Z.to_nat (b - a)) (skipn (Z.to_nat a) l).
Proof.
  intros Hab Hb. unfold py_slice.
  replace (a <? 0)%Z with false by (symmetry; apply Z.ltb_ge; lia).
  replace (b <? 0)%Z with false by (symmetry; apply Z.ltb_ge; lia).
  rewrite !Z.min_l by lia. reflexivity.
Qed.

Lemma mem_In x l : mem x l = true <-> In x l.
Proof.
  unfold mem. rewrite existsb_exists. split.
  - intros [y [Hy Heq]]. apply Nat.eqb_eq in Heq. subst. exact Hy.
  - intros Hx. exists x. split; [exact Hx|apply Nat.eqb_refl].
Qed.

Lemma mem_false x l : mem x l = false <-> ~ In x l.
Proof. rewrite <- mem_In. destruct (mem x l); split; congruence. Qed.

Lemma qs_get_Ok {A} (p : A -> bool) l x :
  qs_get p l = Ok x <-> List.filter p l = [x].
Proof.
  unfold qs_get. split.
  - destruct (List.filter p l) as [|y [|z t]]; congruence.
  - intros ->. reflexivity.
Qed.

Lemma filter_singleton_in {A} (p : A -> bool) l x :
  List.filter p l = [x] -> In x l /\ p x = true.
Proof.
  intros H. apply (filter_In p x l). rewrite H. left. reflexivity.
Qed.

(** When the filter selects exactly [x], every selected row is [x]. *)
Lemma filter_singleton_unique {A} (p : A -> bool) l x y :
  List.filter p l = [x] -> In y l -> p y = true -> y = x.
Proof.
  intros H Hy Hp. assert (In y (List.filter p l)) as Hin by (apply filter_In; auto).
  rewrite H in Hin. destruct Hin as [->|[]]. reflexivity.
Qed.

Lemma qs_get_spec {A} (p : A -> bool) l x :
  qs_get p l = Ok x ->
  In x l /\ p x = true /\ (forall y, In y l -> p y = true -> y = x).
Proof.
  intros H%qs_get_Ok. pose proof (filter_singleton_in _ _ _ H) as [? ?].
  repeat split; auto. intros y. apply filter_singleton_unique; auto.
Qed.

Lemma qs_get_raise {A} (p : A -> bool) l e :
  qs_get p l = Raise e -> e = DoesNotExist \/ e = MultipleObjectsReturned.
Proof. unfold qs_get. destruct (List.filter p l) as [|x [|y t]]; intros [= <-]; auto. Qed.

Lemma qs_get_none {A} (p : A -> bool) l :
  (forall x, In x l -> p x = false) -> qs_get p l = Raise DoesNotExist.
Proof.
  intros H. unfold qs_get. replace (List.filter p l) with (@nil A); [reflexivity|].
  induction l as [|a l IH]; simpl; [reflexivity|].
  rewrite (H a) by (left; reflexivity). apply IH. intros x Hx. apply H. right. exact Hx.
Qed.

Lemma in_update_where {A} (p : A -> bool) f l y :
  In y (update_where p f l) <-> exists x, In x l /\ y = (if p x then f x else x).
Proof.
  unfold update_where. rewrite in_map_iff. split.
  - intros [x [Hy Hx]]. exists x. auto.
  - intros [x [Hx Hy]]. exists x. auto.
Qed.

Lemma map_update_where {A B} (g : A -> B) (p : A -> bool) f l :
  (forall x, g (f x) = g x) -> map g (update_where p f l) = map g l.
Proof.
  intros Hg. unfold update_where. rewrite map_map. apply map_ext. intros x.
  destruct (p x); auto.
Qed.

Lemma update_where_none {A} (p : A -> bool) f l :
  (forall x, In x l -> p x = false) -> update_where p f l = l.
Proof.
  intros H. unfold update_where. rewrite <- (map_id l) at 2. apply map_ext_in.
  intros x Hx. rewrite (H x Hx). reflexivity.
Qed.

(** A map that fixes the rows a filter keeps, and keeps the filter's
    verdict, does not change what the filter returns. *)
Lemma filter_map_fixed {A} (p : A -> bool) (f : A -> A) l :
  (forall x, In x l -> p (f x) = p x /\ (p x = true -> f x = x)) ->
  List.filter p (map f l) = List.filter p l.
Proof.
  induction l as [|x l IH]; simpl; intros H; [reflexivity|].
  destruct (H x (or_introl eq_refl)) as [Hp Hf]. rewrite Hp.
  rewrite IH by (intros y Hy; apply H; right; exact Hy).
  destruct (p x) eqn:E; [rewrite (Hf eq_refl)|]; reflexivity.
Qed.

Lemma filter_filter_andb {A} (p q : A -> bool) l :
  List.filter q (List.filter p l) = List.filter (fun x => p x && q x) l.
Proof. induction l as [|x l IH]; simpl; [reflexivity|]. destruct (p x); simpl; [destruct (q x)|]; congruence. Qed.

Lemma fresh_pk_gt `{Row A} (l : list A) x : In x l -> row_pk x < fresh_pk l.
Proof.
  unfold fresh_pk. induction l as [|y l IH]; simpl; [tauto|].
  intros [->|Hx]; [lia|]. specialize (IH Hx). lia.
Qed.

Lemma fresh_pk_not_in `{Row A} (l : list A) :
  ~ In (fresh_pk l) (map row_pk l).
Proof.
  intros Hin. apply in_map_iff in Hin as [x [Hx Hin]].
  pose proof (fresh_pk_gt l x Hin). lia.
Qed.

Lemma NoDup_snoc {A} (l : list A) x : NoDup l -> ~ In x l -> NoDup (l ++ [x]).
Proof.
  intros Hl Hx. apply NoDup_app. split; [exact Hl|split; [|apply NoDup_singleton]].
  intros y Hy Hy'. apply list_elem_of_singleton in Hy'. subst. apply Hx, list_elem_of_In, Hy.
Qed.

Lemma NoDup_map_inv_in {A B} (f : A -> B) (l : list A) x y :
  NoDup (map f l) -> In x l -> In y l -> f x = f y -> x = y.
Proof.
  induction l as [|z l IH]; simpl; [tauto|]. intros Hnd Hx Hy Hf.
  apply NoDup_cons in Hnd as [Hz Hnd].
  destruct Hx as [<-|Hx], Hy as [<-|Hy]; auto.
  - exfalso. apply Hz, list_elem_of_In. rewrite Hf. apply in_map. exact Hy.
  - exfalso. apply Hz, list_elem_of_In. rewrite <- Hf. apply in_map. exact Hx.
Qed.

Lemma NoDup_map_rows {A B} (f : A -> B) (l : list A) : NoDup (map f l) -> NoDup l.
Proof.
  induction l as [|z l IH]; simpl; intros Hnd; [constructor|].
  apply NoDup_cons in Hnd as [Hz Hnd]. constructor; [|exact (IH Hnd)].
  intros Hin. apply Hz, list_elem_of_In, in_map, list_elem_of_In, Hin.
Qed.

Lemma NoDup_list_filter {A} (p : A -> bool) l : NoDup l -> NoDup (List.filter p l).
Proof.
  induction 1 as [|z l Hz Hl IH]; simpl; [constructor|].
  destruct (p z); [|exact IH]. constructor; [|exact IH].
  intros Hin%list_elem_of_In. apply filter_In in Hin as [Hin _].
  apply Hz, list_elem_of_In, Hin.
Qed.

Lemma NoDup_map_filter {A B} (f : A -> B) (p : A -> bool) l :
  NoDup (map f l) -> NoDup (map f (List.filter p l)).
Proof.
  induction l as [|z l IH]; simpl; intros Hnd; [constructor|].
  apply NoDup_cons in Hnd as [Hz Hnd]. destruct (p z); simpl; [|exact (IH Hnd)].
  constructor; [|exact (IH Hnd)]. intros Hin%list_elem_of_In. apply Hz, list_elem_of_In.
  apply in_map_iff in Hin as (x & Hx & Hin). apply filter_In in Hin as [Hin _].
  rewrite <- Hx. apply in_map, Hin.
Qed.

(** [key IN (keys of the rows a filter keeps)] tests the filter, keys
    being unique. *)
Lemma mem_map_filter {A} (k : A -> nat) (p : A -> bool) l w :
  NoDup (map k l) -> In w l -> mem (k w) (map k (List.filter p l)) = p w.
Proof.
  intros Hnd Hw. destruct (p w) eqn:E.
  - apply mem_In, in_map, filter_In. auto.
  - apply mem_false. intros (x & Hx & Hin)%in_map_iff. apply filter_In in Hin as [Hin Hp].
    rewrite (NoDup_map_inv_in k l x w Hnd Hin Hw Hx) in Hp. congruence.
Qed.

(** [QuerySet.get] returns the row when it is the only one selected. *)
Lemma qs_get_unique {A} (p : A -> bool) l x :
  NoDup l -> In x l -> p x = true -> (forall y, In y l -> p y = true -> y = x) ->
  qs_get p l = Ok x.
Proof.
  intros Hnd Hx Hp Hu. apply qs_get_Ok.
  assert (Hin : In x (List.filter p l)) by (apply filter_In; auto).
  assert (Hall : forall y, In y (List.filter p l) -> y = x)
    by (intros y Hy; apply filter_In in Hy as [Hy Hpy]; auto).
  pose proof (NoDup_list_filter p l Hnd) as Hf.
  destruct (List.filter p l) as [|a [|b k]]; simpl in Hin; [tauto| |].
  - rewrite (Hall a (or_introl eq_refl)). reflexivity.
  - exfalso. apply NoDup_cons in Hf as [Hab _]. apply Hab, list_elem_of_In. left.
    rewrite (Hall a (or_introl eq_refl)), (Hall b (or_intror (or_introl eq_refl))). reflexivity.
Qed.

Lemma qs_get_dne {A} (p : A -> bool) l :
  qs_get p l = Raise DoesNotExist -> forall x, In x l -> p x = false.
Proof.
  unfold qs_get. intros H x Hx. destruct (p x) eqn:E; [|reflexivity].
  assert (In x (List.filter p l)) as Hin by (apply filter_In; auto).
  destruct (List.filter p l) as [|? [|? ?]]; [contradiction|discriminate|discriminate].
Qed.

(** A filter that selects at most one row never raises
    [MultipleObjectsReturned]. *)
Lemma qs_get_at_most_one {A} (p : A -> bool) l :
  NoDup l -> (forall x y, In x l -> In y l -> p x = true -> p y = true -> x = y) ->
  qs_get p l <> Raise MultipleObjectsReturned.
Proof.
  intros Hnd Hu. unfold qs_get. pose proof (NoDup_list_filter p l Hnd) as Hf.
  destruct (List.filter p l) as [|a [|b k]] eqn:E; try discriminate. intros _.
  assert (Ha : In a (List.filter p l)) by (rewrite E; left; reflexivity).
  assert (Hb : In b (List.filter p l)) by (rewrite E; right; left; reflexivity).
  apply filter_In in Ha as [? ?], Hb as [? ?].
  apply NoDup_cons in Hf as [Hab _]. apply Hab, list_elem_of_In. left. apply Hu; auto.
Qed.

Lemma Forall2_Forall_snd {A B} (P : A -> B -> Prop) (Q : B -> Prop) l k :
  Forall2 P l k -> (forall x y, P x y -> Q y) -> Forall Q k.
Proof. intros Hf HQ. induction Hf; constructor; eauto. Qed.

Lemma filter_negb_filter {A} (p : A -> bool) l :
  List.filter p (List.filter (fun x => negb (p x)) l) = [].
Proof. induction l as [|x l IH]; simpl; [reflexivity|]. destruct (p x) eqn:E; simpl; rewrite ?E; auto. Qed.

Lemma filter_idem {A} (p : A -> bool) l : List.filter p (List.filter p l) = List.filter p l.
Proof. induction l as [|x l IH]; simpl; [reflexivity|]. destruct (p x) eqn:E; simpl; rewrite ?E, IH; reflexivity. Qed.

Lemma filter_negb_all {A} (p : A -> bool) l :
  List.filter p l = l -> List.filter (fun x => negb (p x)) l = [].
Proof.
  intros H. assert (Hall : forall x, In x l -> p x = true)
    by (intros x Hx; rewrite <- H in Hx; apply filter_In in Hx; tauto).
  clear H. induction l as [|x l IH]; simpl; [reflexivity|].
  rewrite (Hall x (or_introl eq_refl)). apply IH. intros y Hy. apply Hall. right. exact Hy.
Qed.

Lemma find_update_where_some {A} (p q : A -> bool) f l :
  (forall z, q z = true -> p (f z) = p z) ->
  is_Some (find p l) -> is_Some (find p (update_where q f l)).
Proof.
  intros Hf. induction l as [|z l IH]; simpl; [intros [? Hn]; discriminate Hn|].
  destruct (q z) eqn:Hq; [rewrite (Hf z Hq)|]; destruct (p z); auto.
Qed.

(** Overwriting the selected rows with [y], which the filter also
    selects, makes [y] the row found. *)
Lemma find_update_where_same {A} (p : A -> bool) y l :
  p y = true -> is_Some (find p l) -> find p (update_where p (fun _ => y) l) = Some y.
Proof.
  intros Hy. induction l as [|z l IH]; simpl; [intros [? Hn]; discriminate Hn|].
  destruct (p z) eqn:Hz; [rewrite Hy; reflexivity|]. rewrite Hz. exact IH.
Qed.

Lemma find_app_some {A} (p : A -> bool) l r :
  is_Some (find p l) -> is_Some (find p (l ++ r)).
Proof. induction l as [|z l IH]; simpl; [intros [? Hn]; discriminate Hn|]. destruct (p z); auto. Qed.

(** An update that touches only rows [p] does not select, and turns them
    into rows [p] does not select, leaves [find p] alone. *)
Lemma find_update_where_other {A} (p q : A -> bool) f l :
  (forall z, q z = true -> p z = false /\ p (f z) = false) ->
  find p (update_where q f l) = find p l.
Proof.
  intros Hf. induction l as [|z l IH]; simpl; [reflexivity|].
  destruct (q z) eqn:Hq; [destruct (Hf z Hq) as [-> ->]; exact IH|].
  destruct (p z); [reflexivity|exact IH].
Qed.

Lemma find_snoc_other {A} (p : A -> bool) l y :
  p y = false -> find p (l ++ [y]) = find p l.
Proof.
  intros Hy. induction l as [|z l IH]; simpl; [rewrite Hy; reflexivity|].
  destruct (p z); [reflexivity|exact IH].
Qed.

Lemma py_index_nonneg {A} (l : list A) (i : nat) :
  py_index l (Z.of_nat i) = match nth_error l i with Some x => Ok x | None => Raise IndexError end.
Proof.
  unfold py_index. destruct (Z.ltb_spec (Z.of_nat i) 0); [lia|].
  destruct (Z.ltb_spec (Z.of_nat i) (Z.of_nat (length l))) as [Hlt|Hge].
  - rewrite Nat2Z.id. replace ((0 <=? Z.of_nat i)%Z) with true by (symmetry; apply Z.leb_le; lia).
    reflexivity.
  - rewrite andb_false_r. rewrite (proj2 (nth_error_None l i)) by lia. reflexivity.
Qed.

(** [l[-1]] is the last element of a non-empty list. *)
(** [l[-n]] for [n >= 1]: the [n]-th row from the end, when there is one. *)
Lemma py_index_neg {A} (l : list A) (n : Z) :
  (1 <= n)%Z ->
  py_index l (- n) =
    if (n <=? Z.of_nat (length l))%Z then
      match nth_error l (length l - Z.to_nat n) with Some x => Ok x | None => Raise IndexError end
    else Raise IndexError.
Proof.
  intros Hn. unfold py_index. replace ((- n <? 0)%Z) with true by (symmetry; apply Z.ltb_lt; lia).
  destruct (Z.leb_spec n (Z.of_nat (length l))) as [Hle|Hgt].
  - replace ((0 <=? Z.of_nat (length l) + - n) && (Z.of_nat (length l) + - n <? Z.of_nat (length l)))%Z
      with true by (symmetry; apply andb_true_iff; split; [apply Z.leb_le|apply Z.ltb_lt]; lia).
    replace (Z.to_nat (Z.of_nat (length l) + - n)) with (length l - Z.to_nat n) by lia. reflexivity.
  - replace ((0 <=? Z.of_nat (length l) + - n))%Z with false by (symmetry; apply Z.leb_gt; lia).
    reflexivity.
Qed.

Lemma py_index_cases {A} (l : list A) i :
  (exists x, py_index l i = Ok x /\ In x l) \/ py_index l i = Raise IndexError.
Proof.
  unfold py_index. destruct (_ && _); [|right; reflexivity].
  destruct (nth_error l _) as [x|] eqn:E; [left; exists x; split; [reflexivity|exact (nth_error_In _ _ E)]|right; reflexivity].
Qed.

Lemma fold_max_ge (l : list Z) t : In t l -> (t <= fold_right Z.max 0 l)%Z.
Proof. induction l as [|x l IH]; cbn; [tauto|]. intros [->|H]; [lia|specialize (IH H); lia]. Qed.

Lemma py_index_minus_one {A} (l : list A) x :
  py_index (l ++ [x]) (-1) = Ok x.
Proof.
  unfold py_index. rewrite length_app. simpl.
  replace (Z.of_nat (length l + 1) + -1)%Z with (Z.of_nat (length l)) by lia.
  replace ((0 <=? Z.of_nat (length l)) && (Z.of_nat (length l) <? Z.of_nat (length l + 1)))%Z
    with true by (symmetry; apply andb_true_iff; split; [apply Z.leb_le|apply Z.ltb_lt]; lia).
  rewrite Nat2Z.id, nth_error_app2, Nat.sub_diag by lia. reflexivity.
Qed.

Lemma py_index_last {A} (l : list A) d :
  l <> [] -> py_index l (-1) = Ok (List.last l d).
Proof. intros Hne. rewrite (app_removelast_last d Hne) at 1. apply py_index_minus_one. Qed.

Lemma nth_error_last {A} (l : list A) d :
  l <> [] -> nth_error l (length l - 1) = Some (List.last l d).
Proof.
  intros Hne. rewrite (app_removelast_last d Hne) at 1 2. rewrite length_app. simpl.
  rewrite nth_error_app2 by lia. replace (length (removelast l) + 1 - 1 - length (removelast l)) with 0 by lia.
  reflexivity.
Qed.


(** Boolean tests of the code to the propositions they decide. *)
Ltac tb_bool :=
  repeat match goal with
  | H : (_ && _) = true |- _ => apply andb_prop in H as [? ?]
  | H : Nat.eqb _ _ = true |- _ => apply Nat.eqb_eq in H
  | H : Nat.eqb _ _ = false |- _ => apply Nat.eqb_neq in H
  | H : bool_decide _ = true |- _ => apply bool_decide_eq_true_1 in H
  | H : bool_decide _ = false |- _ => apply bool_decide_eq_false_1 in H
  | H : negb _ = true |- _ => apply negb_true_iff in H
  | H : negb _ = false |- _ => apply negb_false_iff in H
  end.

#[export] Hint Resolve fresh_pk_not_in fresh_pk_gt : tb.
