(* ===== verification/Constants.v ===== *)
(** * Publication states and the state constants of the query set

    [tunobase.core.constants] is imported by [core/models.py],
    [core/managers.py] and [core/query.py] but is not among the sources; its
    four states are modelled from the spec (section 3: unpublished, staged,
    published, deleted).  The class constants of [CoreStateQuerySet]
    ([core/query.py], lines 31-35) are translated from the source: the
    [STAGING] setting is a parameter. *)

From S2P Require Import Prelude.

Inductive State :=
| STATE_UNPUBLISHED
| STATE_STAGED
| STATE_PUBLISHED
| STATE_DELETED.

#[global] Instance State_eq_dec : EqDecision State.
Proof. solve_decision. Defined.

(** [state == other] in the code. *)
Definition state_eqb (a b : State) : bool := bool_decide (a = b).

(** [CoreStateQuerySet.STATE], [NEXT_STATE], [BOTTOM_STATE]: the three
    tiers of [get_list], by descending priority. *)
Definition STATE : State := STATE_PUBLISHED.
Definition NEXT_STATE : State := STATE_STAGED.
Definition BOTTOM_STATE : State := STATE_UNPUBLISHED.

(** [SITE_STATE = STATE_STAGED if settings.STAGING else STATE_PUBLISHED]. *)
Definition SITE_STATE (STAGING : bool) : State :=
  if STAGING then STATE_STAGED else STATE_PUBLISHED.

Lemma state_eqb_true a b : state_eqb a b = true <-> a = b.
Proof. unfold state_eqb. apply bool_decide_eq_true. Qed.

Lemma state_eqb_false a b : state_eqb a b = false <-> a <> b.
Proof. unfold state_eqb. apply bool_decide_eq_false. Qed.

Lemma state_eqb_refl a : state_eqb a a = true.
Proof. apply state_eqb_true. reflexivity. Qed.

#[export] Hint Rewrite state_eqb_refl : tb_rw.
#[export] Hint Resolve state_eqb_refl : tb.

Ltac tb_state :=
  repeat match goal with
  | H : state_eqb _ _ = true |- _ => apply state_eqb_true in H
  | H : state_eqb _ _ = false |- _ => apply state_eqb_false in H
  end.
