(* ===== verification/Slug.v ===== *)
(** * Django's [slugify], as called by [SlugModel.save] and [add_version]

    [core/models.py] (line 67) computes [slugify(unidecode(self.title))] and
    [core/managers.py] (line 112) [slugify(str(obj))].  [slugify] is
    Django's [django.template.defaultfilters.slugify], not part of the
    sources: it is modelled from its definition,
<<
    value = unicodedata.normalize('NFKD', value).encode('ascii', 'ignore')
    value = re.sub('[^\w\s-]', '', value).strip().lower()
    return re.sub('[-\s]+', '-', value)
>>
    on ASCII strings ([unidecode] has already transliterated the title to
    ASCII, and NFKD normalisation is the identity there).  [\w] is
    [[A-Za-z0-9_]] and [\s] is [[ \t\n\r\f\v]] (no [re.UNICODE] flag).
    The theorems: a slug holds only lower-case letters, digits, [_] and
    [-], never two hyphens in a row, and [slugify] is idempotent. *)

From S2P Require Import Prelude.
From Stdlib Require Import Ascii.



Definition code (c : ascii) : nat := nat_of_ascii c.

Definition is_upper (c : ascii) : bool := (65 <=? code c) && (code c <=? 90).
Definition is_lower (c : ascii) : bool := (97 <=? code c) && (code c <=? 122).
Definition is_digit (c : ascii) : bool := (48 <=? code c) && (code c <=? 57).
Definition is_underscore (c : ascii) : bool := code c =? 95.
Definition is_hyphen (c : ascii) : bool := code c =? 45.

(** [\w] and [\s] of Python's [re] without the [UNICODE] flag. *)
Definition is_word (c : ascii) : bool :=
  is_upper c || is_lower c || is_digit c || is_underscore c.
Definition is_space (c : ascii) : bool :=
  (code c =? 32) || ((9 <=? code c) && (code c <=? 13)).

(** [str.lower] on ASCII. *)
Definition lower (c : ascii) : ascii :=
  if is_upper c then ascii_of_nat (code c + 32) else c.

(** [re.sub('[^\w\s-]', '', value)] *)
Definition drop_unsafe (l : list ascii) : list ascii :=
  List.filter (fun c => is_word c || is_space c || is_hyphen c) l.

Fixpoint lstrip (l : list ascii) : list ascii :=
  match l with
  | [] => []
  | c :: l' => if is_space c then lstrip l' else l
  end.

(** [str.strip()] *)
Definition strip (l : list ascii) : list ascii := rev (lstrip (rev (lstrip l))).

(** [re.sub('[-\s]+', '-', value)]: [in_run] is set inside a run of
    hyphens and spaces already replaced by one hyphen. *)
Fixpoint collapse (in_run : bool) (l : list ascii) : list ascii :=
  match l with
  | [] => []
  | c :: l' =>
      if is_hyphen c || is_space c then
        if in_run then collapse true l' else "-"%char :: collapse true l'
      else c :: collapse false l'
  end.

Definition slugify_list (l : list ascii) : list ascii :=
  collapse false (map lower (strip (drop_unsafe l))).

Definition slugify (s : string) : string :=
  String.string_of_list_ascii (slugify_list (String.list_ascii_of_string s)).

(** The characters a slug is made of. *)
Definition slug_char (c : ascii) : bool :=
  is_lower c || is_digit c || is_underscore c || is_hyphen c.

Fixpoint no_double_hyphen (l : list ascii) : bool :=
  match l with
  | c :: ((d :: _) as l') => negb (is_hyphen c && is_hyphen d) && no_double_hyphen l'
  | _ => true
  end.

Definition well_slugged (l : list ascii) : bool :=
  forallb slug_char l && no_double_hyphen l.

(** ** Character lemmas, decided by enumerating the 256 characters *)

Lemma all_ascii (P : ascii -> Prop) :
  (forall n, n < 256 -> P (ascii_of_nat n)) -> forall c, P c.
Proof.
  intros H c. rewrite <- (ascii_nat_embedding c). apply H. apply nat_ascii_bounded.
Qed.

Ltac by_all_ascii :=
  match goal with c : ascii |- _ => pattern c; revert c end;
  apply all_ascii; intros n Hn;
  do 256 (destruct n as [|n];
          [vm_compute; first [reflexivity | intros ?; first [discriminate | reflexivity]]|]);
  lia.

Lemma lower_word c : is_word c = true -> slug_char (lower c) = true.
Proof. by_all_ascii. Qed.

Lemma lower_keeps_class c :
  is_hyphen (lower c) || is_space (lower c) = is_hyphen c || is_space c.
Proof. by_all_ascii. Qed.

Lemma slug_char_lower c : slug_char c = true -> lower c = c.
Proof. by_all_ascii. Qed.

Lemma slug_char_word c :
  slug_char c = true -> is_word c || is_space c || is_hyphen c = true.
Proof. by_all_ascii. Qed.

Lemma slug_char_not_space c : slug_char c = true -> is_space c = false.
Proof. by_all_ascii. Qed.

Lemma kept_class c :
  is_word c || is_space c || is_hyphen c = true ->
  is_hyphen c || is_space c = false -> is_word c = true.
Proof. by_all_ascii. Qed.

Lemma hyphen_is_dash c : is_hyphen c = true -> c = "-"%char.
Proof. by_all_ascii. Qed.

(** ** The stages of [slugify] *)

Lemma lstrip_no_space l : Forall (fun c => is_space c = false) l -> lstrip l = l.
Proof. intros H. destruct H as [|c l Hc _]; simpl; [reflexivity|]. rewrite Hc. reflexivity. Qed.

Lemma strip_no_space l : Forall (fun c => is_space c = false) l -> strip l = l.
Proof.
  intros H. unfold strip. rewrite (lstrip_no_space l H).
  rewrite lstrip_no_space, rev_involutive; [reflexivity|]. apply Forall_rev. exact H.
Qed.

Lemma lstrip_sub P l : Forall P l -> Forall P (lstrip l).
Proof. induction 1 as [|c l Hc Hl IH]; simpl; [constructor|]. destruct (is_space c); auto. Qed.

Lemma strip_sub P l : Forall P l -> Forall P (strip l).
Proof.
  intros H. unfold strip. apply Forall_rev, lstrip_sub, Forall_rev, lstrip_sub. exact H.
Qed.

Lemma drop_unsafe_kept l :
  Forall (fun c => is_word c || is_space c || is_hyphen c = true) (drop_unsafe l).
Proof. apply List.Forall_forall. intros c Hc. apply filter_In in Hc. tauto. Qed.

Lemma drop_unsafe_id l :
  Forall (fun c => is_word c || is_space c || is_hyphen c = true) l -> drop_unsafe l = l.
Proof.
  induction 1 as [|c l Hc Hl IH]; simpl; [reflexivity|]. rewrite Hc, IH. reflexivity.
Qed.

(** What [collapse] emits: [-], or a character that is neither a hyphen
    nor a space; never two hyphens in a row; and no leading hyphen inside
    a run. *)
Lemma collapse_shape b l :
  Forall (fun c => is_hyphen c || is_space c = false -> slug_char c = true) l ->
  well_slugged (collapse b l) = true /\
  (b = true -> forall l', collapse b l <> "-"%char :: l').
Proof.
  revert b. induction l as [|c l IH]; intros b Hl; simpl; [split; [reflexivity|congruence]|].
  apply Forall_cons in Hl as [Hc Hl].
  destruct (is_hyphen c || is_space c) eqn:Hds.
  - destruct (IH true Hl) as [Hw Hlead]. destruct b; [split; auto|].
    split; [|congruence]. unfold well_slugged in *. apply andb_prop in Hw as [Hf Hn].
    simpl. rewrite Hf. simpl. destruct (collapse true l) as [|d t] eqn:E; [reflexivity|].
    simpl in Hn |- *. rewrite Hn. destruct (is_hyphen d) eqn:Hd; [|reflexivity].
    exfalso. apply (Hlead eq_refl t). rewrite (hyphen_is_dash d Hd). reflexivity.
  - destruct (IH false Hl) as [Hw _]. split.
    + unfold well_slugged in *. apply andb_prop in Hw as [Hf Hn]. simpl.
      rewrite (Hc eq_refl), Hf. simpl. destruct (collapse false l) as [|d t]; [reflexivity|].
      simpl in Hn |- *. rewrite Hn. apply orb_false_elim in Hds as [-> _]. reflexivity.
    + intros _ l' [= Heq _]. rewrite Heq in Hds. discriminate.
Qed.

(** [collapse] leaves a well-slugged string alone. *)
Lemma collapse_id b l :
  well_slugged l = true -> (b = true -> forall l', l <> "-"%char :: l') -> collapse b l = l.
Proof.
  revert b. induction l as [|c l IH]; intros b Hw Hb; simpl; [reflexivity|].
  unfold well_slugged in Hw. simpl in Hw. apply andb_prop in Hw as [Hw Hn].
  apply andb_prop in Hw as [Hc Hf].
  rewrite (slug_char_not_space c Hc), orb_false_r.
  assert (Hn' : no_double_hyphen l = true) by (destruct l; [reflexivity|]; apply andb_prop in Hn; tauto).
  assert (Hw' : well_slugged l = true) by (unfold well_slugged; rewrite Hf, Hn'; reflexivity).
  destruct (is_hyphen c) eqn:Hh.
  - rewrite (hyphen_is_dash c Hh) in *. destruct b; [exfalso; exact (Hb eq_refl l eq_refl)|].
    f_equal. apply IH; [exact Hw'|]. intros _ l' ->.
    simpl in Hn. vm_compute in Hn. discriminate.
  - f_equal. apply IH; [exact Hw'|congruence].
Qed.

(** ** The properties of [slugify] *)

Lemma slugify_list_well_slugged l : well_slugged (slugify_list l) = true.
Proof.
  unfold slugify_list. apply (collapse_shape false). apply Forall_map.
  apply (Forall_impl _ _ _ (strip_sub _ _ (drop_unsafe_kept l))).
  intros c Hk Hds. rewrite lower_keeps_class in Hds. apply lower_word, kept_class; assumption.
Qed.

Lemma slugify_list_id l : well_slugged l = true -> slugify_list l = l.
Proof.
  intros Hw. pose proof Hw as Hw0. unfold well_slugged in Hw0.
  apply andb_prop in Hw0 as [Hf0 _].
  assert (Hf : Forall (fun c => slug_char c = true) l)
    by (apply List.Forall_forall, forallb_forall; exact Hf0).
  unfold slugify_list.
  rewrite drop_unsafe_id by (apply (Forall_impl _ _ _ Hf); apply slug_char_word).
  rewrite strip_no_space by (apply (Forall_impl _ _ _ Hf); apply slug_char_not_space).
  rewrite (map_ext_in lower id) by (intros c Hc; apply slug_char_lower;
                                    apply forallb_forall with (x := c) in Hf0; auto).
  rewrite map_id. apply collapse_id; [exact Hw|discriminate].
Qed.

Lemma slugify_list_idem l : slugify_list (slugify_list l) = slugify_list l.
Proof. apply slugify_list_id, slugify_list_well_slugged. Qed.

Lemma slugify_idem s : slugify (slugify s) = slugify s.
Proof. unfold slugify. rewrite String.list_ascii_of_string_of_list_ascii, slugify_list_idem. reflexivity. Qed.

Lemma slugify_well_slugged s : well_slugged (String.list_ascii_of_string (slugify s)) = true.
Proof. unfold slugify. rewrite String.list_ascii_of_string_of_list_ascii. apply slugify_list_well_slugged. Qed.

Example slugify_title : slugify "Content Model Test Case Title" = "content-model-test-case-title"%string.
Proof. vm_compute. reflexivity. Qed.

Example slugify_punctuation : slugify "  Hello,  World -- 2014! "%string = "hello-world-2014"%string.
Proof. vm_compute. reflexivity. Qed.
