(* ===== verification/Store.v ===== *)
(** * The database rows of [core/models.py] and the mixins' [save()]

    The versioning code reads and writes three tables: [VersionSeries],
    [Version] and the table of the content model ([ContentModel] and its
    subclasses, or any [StateModel]).  A content row keeps the fields the
    program's logic touches: the [StateModel] fields ([state], [publish_at],
    [retract_at]), the [SlugModel] fields ([title], [slug]), the content
    fields of [BaseContentModel], the site relation and the
    [leaf_content_type] of [ContentModel].  Content rows of all models live
    in one list and are keyed by their content type and primary key, which
    is how a [Version]'s generic foreign key names them.

    The image fields of [ImageModel] and its [save()] are modelled apart,
    in [Images]; the audit and SEO fields ([AuditModel], [SEOModel]) are
    not modelled: no code of the repository reads them back.  [unidecode]
    is the identity on the ASCII titles the model works with. *)

From S2P Require Import Prelude Constants Slug.

(** [class VersionSeries(models.Model)] *)
Record VersionSeries := mkVersionSeries {
  vs_pk : nat;
  vs_slug : string;
  vs_staged_slug : option string
}.

(** [class Version(models.Model)]: [content_type] and [object_id] form the
    generic foreign key [content_object]. *)
Record Version := mkVersion {
  v_pk : nat;
  v_content_type : nat;
  v_object_id : nat;
  v_series : nat;
  v_number : nat;
  v_state : State
}.

(** A model has either a many-to-many [sites] relation or a [site_id]
    foreign key; [CoreQuerySet.for_current_site] filters on whichever the
    model has. *)
Inductive SiteLink :=
| SitesM2M (site_ids : list nat)
| SiteFK (site_id : option nat).

(** A row of a content model. *)
Record Content := mkContent {
  c_content_type : nat;
  c_pk : nat;
  c_state : State;
  c_publish_at : option Z;
  c_retract_at : option Z;
  c_title : string;
  c_slug : string;
  c_plain_content : option string;
  c_rich_content : option string;
  c_order : nat;
  c_sites : SiteLink;
  c_leaf_content_type : option nat
}.

#[global] Instance VersionSeries_row : Row VersionSeries := vs_pk.
#[global] Instance Version_row : Row Version := v_pk.

(** [version.state = st] *)
Definition set_v_state (st : State) (v : Version) : Version :=
  mkVersion (v_pk v) (v_content_type v) (v_object_id v) (v_series v) (v_number v) st.

(** Field assignments on a content instance. *)
Definition set_c_state (st : State) (c : Content) : Content :=
  mkContent (c_content_type c) (c_pk c) st (c_publish_at c) (c_retract_at c) (c_title c)
    (c_slug c) (c_plain_content c) (c_rich_content c) (c_order c) (c_sites c)
    (c_leaf_content_type c).

Definition set_c_publish_at (t : option Z) (c : Content) : Content :=
  mkContent (c_content_type c) (c_pk c) (c_state c) t (c_retract_at c) (c_title c)
    (c_slug c) (c_plain_content c) (c_rich_content c) (c_order c) (c_sites c)
    (c_leaf_content_type c).

Definition set_c_slug (s : string) (c : Content) : Content :=
  mkContent (c_content_type c) (c_pk c) (c_state c) (c_publish_at c) (c_retract_at c)
    (c_title c) s (c_plain_content c) (c_rich_content c) (c_order c) (c_sites c)
    (c_leaf_content_type c).

Definition set_c_leaf (l : option nat) (c : Content) : Content :=
  mkContent (c_content_type c) (c_pk c) (c_state c) (c_publish_at c) (c_retract_at c)
    (c_title c) (c_slug c) (c_plain_content c) (c_rich_content c) (c_order c) (c_sites c) l.

(** The three tables. *)
Record DB := mkDB {
  db_series : list VersionSeries;
  db_versions : list Version;
  db_content : list Content
}.

Definition with_series (l : list VersionSeries) (db : DB) : DB :=
  mkDB l (db_versions db) (db_content db).
Definition with_versions (l : list Version) (db : DB) : DB :=
  mkDB (db_series db) l (db_content db).
Definition with_content (l : list Content) (db : DB) : DB :=
  mkDB (db_series db) (db_versions db) l.

(** ** The mixins' [save()] *)

(** [StateModel.save]: a published object without a publication date gets
    the current time. *)
Definition state_model_save (now : Z) (c : Content) : Content :=
  match c_publish_at c with
  | None => if state_eqb (c_state c) STATE_PUBLISHED then set_c_publish_at (Some now) c else c
  | Some _ => c
  end.

(** [SlugModel.save]: an empty slug is derived from the title (no model
    of the repository sets [override_slug_save]). *)
Definition slug_model_save (c : Content) : Content :=
  if String.eqb (c_slug c) "" then set_c_slug (slugify (c_title c)) c else c.

(** [ContentModel.save]: records the concrete model's content type, then
    runs the mixins' [save()] in method-resolution order ([ImageModel],
    [StateModel], [SlugModel]). *)
Definition content_model_save (now : Z) (c : Content) : Content :=
  let c1 := set_c_leaf (Some (match c_leaf_content_type c with
                              | Some l => l
                              | None => c_content_type c
                              end)) c in
  slug_model_save (state_model_save now c1).

(** The row a content instance is stored in. *)
Definition same_content (ct pk : nat) (c : Content) : bool :=
  (c_content_type c =? ct) && (c_pk c =? pk).

(** [Model.save()] of a content instance: UPDATE by key, else INSERT. *)
Definition write_content (c : Content) (db : DB) : DB :=
  let p := same_content (c_content_type c) (c_pk c) in
  with_content
    (if existsb p (db_content db) then update_where p (fun _ => c) (db_content db)
     else db_content db ++ [c]) db.

(** [Model.objects.all()] of the model with content type [ct]: the rows
    of its table. *)
Definition model_rows (ct : nat) (db : DB) : list Content :=
  List.filter (fun c => c_content_type c =? ct) (db_content db).

(** [StateModel.mark_deleted], with the model's [save()] as [save]. *)
Definition mark_deleted (save : Content -> Content) (c : Content) (db : DB) : DB :=
  write_content (save (set_c_state STATE_DELETED c)) db.

(** [version.content_object]: the generic foreign key.  A dangling key
    gives [None], as Django's [GenericForeignKey] does. *)
Definition content_object (db : DB) (v : Version) : option Content :=
  find (same_content (v_content_type v) (v_object_id v)) (db_content db).

(** ** Lemmas on rows *)

Lemma set_v_state_pk st v : v_pk (set_v_state st v) = v_pk v.
Proof. reflexivity. Qed.
Lemma set_v_state_series st v : v_series (set_v_state st v) = v_series v.
Proof. reflexivity. Qed.
Lemma set_v_state_state st v : v_state (set_v_state st v) = st.
Proof. reflexivity. Qed.

#[export] Hint Rewrite set_v_state_pk set_v_state_series set_v_state_state : tb_rw.

Lemma write_content_versions c db : db_versions (write_content c db) = db_versions db.
Proof. reflexivity. Qed.
Lemma write_content_series c db : db_series (write_content c db) = db_series db.
Proof. reflexivity. Qed.

#[export] Hint Rewrite write_content_versions write_content_series : tb_rw.

(** Saving a fetched version writes over its own row and no other. *)
Lemma in_save_row_version (vs : list Version) v w :
  In (v_pk v) (map v_pk vs) ->
  In w (save_row v vs) <-> In w vs /\ v_pk w <> v_pk v \/ w = v.
Proof.
  intros Hv. apply in_map_iff in Hv as [u [Hu Hin]]. unfold save_row.
  replace (existsb (pk_is (row_pk v)) vs) with true.
  2:{ symmetry. apply existsb_exists. exists u. split; [exact Hin|]. apply Nat.eqb_eq. exact Hu. }
  rewrite in_update_where. unfold pk_is, row_pk, Version_row. split.
  - intros [x [Hx ->]]. destruct (Nat.eqb_spec (v_pk x) (v_pk v)); auto.
  - intros [[Hw Hne]| ->].
    + exists w. split; [exact Hw|]. destruct (Nat.eqb_spec (v_pk w) (v_pk v)); congruence.
    + exists u. split; [exact Hin|]. rewrite Hu, Nat.eqb_refl. reflexivity.
Qed.

Lemma save_row_keys `{Row A} (v : A) (vs : list A) :
  In (row_pk v) (map row_pk vs) -> map row_pk (save_row v vs) = map row_pk vs.
Proof.
  intros Hin. unfold save_row.
  replace (existsb (pk_is (row_pk v)) vs) with true.
  2:{ symmetry. apply in_map_iff in Hin as [x [Hx Hin]]. apply existsb_exists.
      exists x. split; [exact Hin|]. unfold pk_is. apply Nat.eqb_eq. exact Hx. }
  unfold update_where. rewrite map_map. apply map_ext. intros x. unfold pk_is.
  destruct (Nat.eqb_spec (row_pk x) (row_pk v)); congruence.
Qed.

Lemma save_row_version_keys (v : Version) (vs : list Version) :
  In (v_pk v) (map v_pk vs) -> map v_pk (save_row v vs) = map v_pk vs.
Proof. exact (save_row_keys v vs). Qed.

Lemma state_model_save_fields now c :
  c_content_type (state_model_save now c) = c_content_type c /\
  c_pk (state_model_save now c) = c_pk c /\ c_state (state_model_save now c) = c_state c.
Proof. unfold state_model_save. destruct (c_publish_at c); [|destruct (state_eqb _ _)]; auto. Qed.

Lemma slug_model_save_fields c :
  c_content_type (slug_model_save c) = c_content_type c /\ c_pk (slug_model_save c) = c_pk c /\
  c_state (slug_model_save c) = c_state c /\ c_publish_at (slug_model_save c) = c_publish_at c.
Proof. unfold slug_model_save. destruct (String.eqb _ _); auto. Qed.

(** [ContentModel.save] writes the row it was given: same key, same state. *)
Lemma content_model_save_fields now c :
  c_content_type (content_model_save now c) = c_content_type c /\
  c_pk (content_model_save now c) = c_pk c /\ c_state (content_model_save now c) = c_state c.
Proof.
  unfold content_model_save.
  destruct (slug_model_save_fields (state_model_save now (set_c_leaf
    (Some (match c_leaf_content_type c with Some l => l | None => c_content_type c end)) c)))
    as (-> & -> & -> & _).
  destruct (state_model_save_fields now (set_c_leaf
    (Some (match c_leaf_content_type c with Some l => l | None => c_content_type c end)) c))
    as (-> & -> & ->).
  auto.
Qed.

Lemma content_model_save_keys now c :
  c_content_type (content_model_save now c) = c_content_type c /\
  c_pk (content_model_save now c) = c_pk c.
Proof. destruct (content_model_save_fields now c) as (? & ? & _). auto. Qed.

Lemma content_model_save_state now c : c_state (content_model_save now c) = c_state c.
Proof. apply content_model_save_fields. Qed.

(** A content row that is not PUBLISHED keeps its publication date when
    saved. *)
Lemma content_model_save_unpublished now c :
  c_state c <> STATE_PUBLISHED ->
  c_state (content_model_save now c) = c_state c /\
  c_publish_at (content_model_save now c) = c_publish_at c.
Proof.
  intros Hst. unfold content_model_save.
  destruct (slug_model_save_fields (state_model_save now (set_c_leaf
    (Some (match c_leaf_content_type c with Some l => l | None => c_content_type c end)) c)))
    as (_ & _ & -> & ->).
  unfold state_model_save. simpl. destruct (c_publish_at c) eqn:E; [split; simpl; congruence|].
  replace (state_eqb (c_state c) STATE_PUBLISHED) with false by (symmetry; apply state_eqb_false; exact Hst).
  split; simpl; congruence.
Qed.

(** The generic key finds the row just written under it. *)
Lemma content_object_write_same db v c :
  is_Some (content_object db v) -> same_content (v_content_type v) (v_object_id v) c = true ->
  content_object (write_content c db) v = Some c.
Proof.
  intros Hs Hc. unfold same_content in Hc. apply andb_prop in Hc as [H1 H2].
  apply Nat.eqb_eq in H1, H2. unfold content_object, write_content in *. simpl.
  rewrite H1, H2. replace (existsb _ _) with true.
  - apply find_update_where_same; [|exact Hs]. unfold same_content. rewrite H1, H2, !Nat.eqb_refl. reflexivity.
  - symmetry. destruct Hs as [x Hx]. apply existsb_exists. exists x. split.
    + apply find_some in Hx. tauto.
    + apply find_some in Hx as [_ Hx]. exact Hx.
Qed.



(** Writing a row under another key leaves what a generic key finds. *)
Lemma content_object_write_other db v c :
  (c_content_type c, c_pk c) <> (v_content_type v, v_object_id v) ->
  content_object (write_content c db) v = content_object db v.
Proof.
  intros Hne. unfold content_object, write_content. simpl.
  assert (Hc : same_content (v_content_type v) (v_object_id v) c = false).
  { unfold same_content. destruct (Nat.eqb_spec (c_content_type c) (v_content_type v));
      destruct (Nat.eqb_spec (c_pk c) (v_object_id v)); simpl; congruence. }
  destruct (existsb _ _).
  - apply find_update_where_other. intros z Hz. split; [|exact Hc].
    unfold same_content in *. apply andb_prop in Hz as [H1 H2].
    apply Nat.eqb_eq in H1, H2. rewrite H1, H2. exact Hc.
  - apply find_snoc_other. exact Hc.
Qed.

(** [ContentModel.save] leaves the content fields alone. *)
Lemma content_model_save_payload now c :
  c_plain_content (content_model_save now c) = c_plain_content c /\
  c_rich_content (content_model_save now c) = c_rich_content c.
Proof.
  unfold content_model_save, slug_model_save, state_model_save.
  destruct (c_publish_at _); [|destruct (state_eqb _ _)]; destruct (String.eqb _ _); auto.
Qed.

(** Saving an instance whose row exists replaces every row of its key. *)
Lemma write_content_same_key c db r :
  existsb (same_content (c_content_type c) (c_pk c)) (db_content db) = true ->
  In r (db_content (write_content c db)) -> same_content (c_content_type c) (c_pk c) r = true -> r = c.
Proof.
  intros He Hr Hs. unfold write_content in Hr. simpl in Hr. rewrite He in Hr.
  apply in_update_where in Hr as (x & Hx & ->). destruct (same_content _ _ x) eqn:E; [reflexivity|].
  rewrite Hs in E. discriminate.
Qed.
