(* ===== verification/Versioning.v ===== *)
(** * The version state machine: [CoreStateManager] in [core/managers.py]

    Each method is a handler [M DB A] over the three tables of [Store].
    The section [Manager] takes what the methods read from their
    environment: [ct], the content type of the manager's model
    ([ContentType.objects.get_for_model(self.model)]); [model_save], the
    model's own [save()] applied to an instance before it is written (for a
    [ContentModel] saved at time [now] this is [content_model_save now]);
    [obj_str], [str(obj)].

    The invariant [wf] is what the database guarantees (primary keys are
    unique, a version's series exists) together with the series invariant
    of the spec (section 3): two versions of one series that are both
    PUBLISHED, or both STAGED, are the same version.  The theorems show
    that each method preserves [wf] whatever its outcome, and what each
    method does on each of its paths. *)

From S2P Require Import Prelude Constants Slug Store.

(** States a series may hold at most once. *)
Definition exclusive (st : State) : bool :=
  state_eqb st STATE_PUBLISHED || state_eqb st STATE_STAGED.

(** The series invariant, on the rows of the [Version] table. *)
Definition series_inv (vs : list Version) : Prop :=
  forall v1 v2, In v1 vs -> In v2 vs ->
    v_series v1 = v_series v2 -> v_state v1 = v_state v2 ->
    exclusive (v_state v1) = true -> v_pk v1 = v_pk v2.

(** The invariant of the database the manager works on. *)
Definition wf (db : DB) : Prop :=
  NoDup (map v_pk (db_versions db)) /\
  NoDup (map vs_pk (db_series db)) /\
  (forall v, In v (db_versions db) -> In (v_series v) (map vs_pk (db_series db))) /\
  series_inv (db_versions db).

(** The series invariant as a test that computes. *)
Definition series_inv_b (vs : list Version) : bool :=
  forallb (fun v1 => forallb (fun v2 =>
    negb ((v_series v1 =? v_series v2) && state_eqb (v_state v1) (v_state v2)
          && exclusive (v_state v1)) || (v_pk v1 =? v_pk v2)) vs) vs.

Lemma wf_snoc_series db s :
  wf db -> ~ In (vs_pk s) (map vs_pk (db_series db)) ->
  wf (with_series (db_series db ++ [s]) db).
Proof.
  intros (Hnd & Hsnd & Href & Hinv) Hfresh. split; [exact Hnd|split; [|split; [|exact Hinv]]]; simpl.
  - rewrite map_app. apply NoDup_snoc; assumption.
  - intros v Hv. rewrite map_app. apply in_or_app. left. exact (Href v Hv).
Qed.

(** Inserting a version with a fresh key into an existing series keeps
    [wf] when no version of the series holds its state, or the state is
    not exclusive. *)
Lemma wf_snoc_version db v :
  wf db -> ~ In (v_pk v) (map v_pk (db_versions db)) ->
  In (v_series v) (map vs_pk (db_series db)) ->
  (exclusive (v_state v) = true -> forall w, In w (db_versions db) ->
     v_series w = v_series v -> v_state w = v_state v -> False) ->
  wf (with_versions (db_versions db ++ [v]) db).
Proof.
  intros (Hnd & Hsnd & Href & Hinv) Hfresh Hs Halone.
  split; [|split; [exact Hsnd|split]]; simpl.
  - rewrite map_app. apply NoDup_snoc; assumption.
  - intros w Hw. apply in_app_or in Hw as [Hw|[<-|[]]]; auto.
  - intros w1 w2 H1 H2 Hs12 Hst Hex.
    apply in_app_or in H1 as [H1|[<-|[]]]; apply in_app_or in H2 as [H2|[<-|[]]].
    + exact (Hinv w1 w2 H1 H2 Hs12 Hst Hex).
    + exfalso. rewrite Hst in Hex. exact (Halone Hex w1 H1 Hs12 Hst).
    + exfalso. exact (Halone Hex w2 H2 (eq_sym Hs12) (eq_sym Hst)).
    + reflexivity.
Qed.

Section Manager.
  Context (ct : nat) (model_save : Content -> Content) (obj_str : Content -> string).

  (** [Version.objects.filter(content_type__pk=model_type.id, object_id=object_id)] *)
Definition version_of (object_id : nat) (v : Version) : bool :=
    (v_content_type v =? ct) && (v_object_id v =? object_id).

  (** [Version.objects.filter(series=series, state=st)] *)
Definition in_series_state (series : nat) (st : State) (v : Version) : bool :=
    (v_series v =? series) && state_eqb (v_state v) st.

  (** [version.save()] *)
Definition save_version (v : Version) : M DB unit :=
    mmodify (fun db => with_versions (save_row v (db_versions db)) db).

  (** [version.content_object.state = st; version.content_object.save()]:
      an [AttributeError] when the generic key dangles ([None.state]). *)
Definition save_content_object (v : Version) (st : State) : M DB unit :=
    db <- mget ;;
    match content_object db v with
    | Some c => mmodify (write_content (model_save (set_c_state st c)))
    | None => mraise AttributeError
    end.

  (** [get_series]: the bare [except] turns every failure of the lookup
      (no version, several versions) into [None]. *)
Definition series_of_object (db : DB) (object_id : nat) : option nat :=
    match qs_get (version_of object_id) (db_versions db) with
    | Ok v => if existsb (pk_is (v_series v)) (db_series db) then Some (v_series v) else None
    | Raise _ => None
    end.

Definition get_series (object_id : nat) : M DB (option nat) :=
    db <- mget ;;
    mret (series_of_object db object_id).

  (** [add_series] *)
Definition add_series (slug : string) : M DB nat :=
    db <- mget ;;
    let s := mkVersionSeries (fresh_pk (db_series db)) slug None in
    mput (with_series (db_series db ++ [s]) db) ;;
    mret (vs_pk s).

  (** [Version.objects.create(...)]: the foreign key to the series is
      checked by the database. *)
Definition create_version (object_id series number : nat) (st : State) : M DB unit :=
    db <- mget ;;
    if existsb (pk_is series) (db_series db) then
      mput (with_versions
              (db_versions db ++
               [mkVersion (fresh_pk (db_versions db)) ct object_id series number st]) db)
    else mraise IntegrityError.

  (** [add_version] *)
Definition add_version (obj : Content) : M DB unit :=
    series <- add_series (slugify (obj_str obj)) ;;
    create_version (c_pk obj) series 1 (c_state obj).

  (** [add_to_series]: [filter(series=series).order_by('-number')[0].number + 1],
      or 1 when the [IndexError] of an empty series is caught. *)
Definition next_number (db : DB) (series : nat) : nat :=
    match map v_number (List.filter (fun v => v_series v =? series) (db_versions db)) with
    | [] => 1
    | ns => S (list_max ns)
    end.

Definition add_to_series (series : nat) (obj : Content) : M DB unit :=
    db <- mget ;;
    let latest_version_number := next_number db series in
    create_version (c_pk obj) series latest_version_number STATE_UNPUBLISHED.

  (** [stage_version] *)
Definition stage_version (object_id : nat) : M DB unit :=
    series <- get_series object_id ;;
    db <- mget ;;
    (match series with
     | Some s =>
         if existsb (in_series_state s STATE_STAGED) (db_versions db) then
           staged_version <- mlift (qs_get (in_series_state s STATE_STAGED) (db_versions db)) ;;
           save_version (set_v_state STATE_UNPUBLISHED staged_version) ;;
           save_content_object staged_version STATE_UNPUBLISHED
         else mret tt
     | None => mret tt
     end) ;;
    db <- mget ;;
    version <- mlift (qs_get (version_of object_id) (db_versions db)) ;;
    save_version (set_v_state STATE_STAGED version) ;;
    save_content_object version STATE_STAGED.

  (** [publish_version] *)
Definition publish_version (object_id : nat) : M DB unit :=
    series <- get_series object_id ;;
    db <- mget ;;
    (match series with
     | Some s =>
         if existsb (in_series_state s STATE_PUBLISHED) (db_versions db) then
           published_version <- mlift (qs_get (in_series_state s STATE_PUBLISHED) (db_versions db)) ;;
           save_version (set_v_state STATE_UNPUBLISHED published_version) ;;
           save_content_object published_version STATE_UNPUBLISHED
         else mret tt
     | None => mret tt
     end) ;;
    db <- mget ;;
    version <- mlift (qs_get (version_of object_id) (db_versions db)) ;;
    save_version (set_v_state STATE_PUBLISHED version) ;;
    save_content_object version STATE_PUBLISHED.

  (** [unpublish_version]: the code also assigns
      [version.content_object.publish_date_time = timezone.now()]; no model
      has a field of that name, so [save()] does not store it and
      [publish_at] keeps its value. *)
Definition unpublish_version (object_id : nat) : M DB unit :=
    db <- mget ;;
    version <- mlift (qs_get (version_of object_id) (db_versions db)) ;;
    save_version (set_v_state STATE_UNPUBLISHED version) ;;
    save_content_object version STATE_UNPUBLISHED.

  (** [delete_version] *)
Definition delete_version (object_id : nat) : M DB unit :=
    db <- mget ;;
    version <- mlift (qs_get (version_of object_id) (db_versions db)) ;;
    save_version (set_v_state STATE_DELETED version) ;;
    save_content_object version STATE_DELETED.

  (** [version_list]: the versions of the object's series in state [st];
      computing each [change_url] reads [content_object._meta], an
      [AttributeError] for a dangling key. *)
Definition version_list (object_id : nat) (st : State) : M DB (list Version) :=
    series <- get_series object_id ;;
    db <- mget ;;
    match series with
    | Some s =>
        let qs := List.filter (fun v => (v_series v =? s) && state_eqb (v_state v) st) (db_versions db) in
        if forallb (fun v => bool_decide (is_Some (content_object db v))) qs then mret qs
        else mraise AttributeError
    | None => mret []
    end.

  (** The shape [stage_version] and [publish_version] share: demote the
      holder of [st] in the object's series, then promote the object's
      version to [st]. *)
Definition demote_holder (st : State) (series : option nat) : M DB unit :=
    db <- mget ;;
    match series with
    | Some s =>
        if existsb (in_series_state s st) (db_versions db) then
          holder <- mlift (qs_get (in_series_state s st) (db_versions db)) ;;
          save_version (set_v_state STATE_UNPUBLISHED holder) ;;
          save_content_object holder STATE_UNPUBLISHED
        else mret tt
    | None => mret tt
    end.

Definition promote_tail (st : State) (object_id : nat) : M DB unit :=
    db <- mget ;;
    version <- mlift (qs_get (version_of object_id) (db_versions db)) ;;
    save_version (set_v_state st version) ;;
    save_content_object version st.

Definition promote_version (st : State) (object_id : nat) : M DB unit :=
    series <- get_series object_id ;;
    demote_holder st series ;;
    promote_tail st object_id.

Lemma stage_version_promote object_id :
    stage_version object_id = promote_version STATE_STAGED object_id.
  Proof. reflexivity. Qed.

Lemma publish_version_promote object_id :
    publish_version object_id = promote_version STATE_PUBLISHED object_id.
  Proof. reflexivity. Qed.

  (** ** The invariant, stage by stage *)

Lemma version_of_set_state object_id st v :
    version_of object_id (set_v_state st v) = version_of object_id v.
  Proof. reflexivity. Qed.

Lemma wf_write_content c db : wf db -> wf (write_content c db).
  Proof. intros H. exact H. Qed.

  (** Writing state [st] into a version row keeps [wf] when no other
      version of its series holds [st] (or [st] is not exclusive). *)
Lemma wf_save_version_state db v st :
    wf db -> In v (db_versions db) ->
    (forall w, In w (db_versions db) -> v_series w = v_series v -> v_state w = st ->
               exclusive st = true -> v_pk w = v_pk v) ->
    wf (with_versions (save_row (set_v_state st v) (db_versions db)) db).
  Proof.
    intros (Hnd & Hsnd & Href & Hinv) Hv Hother.
    assert (Hk : In (v_pk (set_v_state st v)) (map v_pk (db_versions db)))
      by (exact (in_map v_pk _ _ Hv)).
    split; [|split; [exact Hsnd|split]]; simpl.
    - rewrite (save_row_version_keys (set_v_state st v) _ Hk). exact Hnd.
    - intros w Hw. apply (in_save_row_version _ _ _ Hk) in Hw as [[Hw _]| ->];
      [exact (Href w Hw)|exact (Href v Hv)].
    - intros w1 w2 H1 H2 Hs Hst Hex.
      apply (in_save_row_version _ _ _ Hk) in H1 as [[H1 Hn1]| ->];
      apply (in_save_row_version _ _ _ Hk) in H2 as [[H2 Hn2]| ->]; simpl in *.
      + exact (Hinv w1 w2 H1 H2 Hs Hst Hex).
      + rewrite Hst in Hex. exact (Hother w1 H1 Hs Hst Hex).
      + symmetry. apply Hother; auto.
      + reflexivity.
  Qed.

Lemma save_version_wf db v st :
    wf db -> In v (db_versions db) ->
    (forall w, In w (db_versions db) -> v_series w = v_series v -> v_state w = st ->
               exclusive st = true -> v_pk w = v_pk v) ->
    wf (final (save_version (set_v_state st v)) db).
  Proof. apply wf_save_version_state. Qed.

Lemma save_content_object_versions v st db :
    db_versions (final (save_content_object v st) db) = db_versions db.
  Proof. unfold final, save_content_object, mbind, mget. simpl. destruct (content_object db v); reflexivity. Qed.

Lemma save_content_object_wf v st : preserves wf (save_content_object v st).
  Proof.
    intros db Hwf. unfold final, save_content_object, mbind, mget. simpl.
    destruct (content_object db v); [apply wf_write_content|]; exact Hwf.
  Qed.

  (** The versions of the object's series, as [get_series] finds them. *)
Lemma series_of_object_some db object_id s :
    series_of_object db object_id = Some s ->
    exists t, qs_get (version_of object_id) (db_versions db) = Ok t /\ v_series t = s.
  Proof.
    unfold series_of_object. destruct (qs_get _ _) as [t|]; [|discriminate].
    destruct (existsb _ _); [|discriminate]. intros [= <-]. eauto.
  Qed.

Lemma series_of_object_none db object_id t :
    wf db -> series_of_object db object_id = None ->
    qs_get (version_of object_id) (db_versions db) <> Ok t.
  Proof.
    intros (_ & _ & Href & _). unfold series_of_object. intros Hn Hq. rewrite Hq in Hn.
    destruct (existsb _ _) eqn:He; [discriminate|].
    apply qs_get_spec in Hq as [Ht _]. apply Href in Ht.
    apply in_map_iff in Ht as [x [Hx Hin]].
    assert (existsb (pk_is (v_series t)) (db_series db) = true) as Hc.
    { apply existsb_exists. exists x. split; [exact Hin|]. apply Nat.eqb_eq. exact Hx. }
    congruence.
  Qed.

  (** What [promote_tail] needs: the version it selects is the only holder
      of [st] in its series, if any. *)
Definition ready (st : State) (object_id : nat) (db : DB) : Prop :=
    wf db /\
    forall t, qs_get (version_of object_id) (db_versions db) = Ok t ->
      forall w, In w (db_versions db) -> v_series w = v_series t -> v_state w = st ->
        v_pk w = v_pk t.

Lemma promote_tail_wf st object_id db :
    ready st object_id db -> wf (final (promote_tail st object_id) db).
  Proof.
    intros [Hwf Hready]. unfold final, promote_tail, mbind, mget, mlift.
    destruct (qs_get (version_of object_id) (db_versions db)) as [t|e] eqn:Ht; [|exact Hwf].
    apply save_content_object_wf, save_version_wf; [exact Hwf| |].
    - apply qs_get_spec in Ht. tauto.
    - intros w Hw Hs Hst _. exact (Hready t eq_refl w Hw Hs Hst).
  Qed.

Lemma demote_holder_wf st series : preserves wf (demote_holder st series).
  Proof.
    intros db Hwf. unfold final, demote_holder, mbind, mget, mret, mlift.
    destruct series as [s|]; [|exact Hwf].
    destruct (existsb _ _); [|exact Hwf].
    destruct (qs_get (in_series_state s st) (db_versions db)) as [h|e] eqn:Hh; [|exact Hwf].
    apply qs_get_spec in Hh as [Hin _].
    assert (Hwf1 : wf (final (save_version (set_v_state STATE_UNPUBLISHED h)) db))
      by (apply save_version_wf; [exact Hwf|exact Hin|discriminate]).
    exact (save_content_object_wf h STATE_UNPUBLISHED _ Hwf1).
  Qed.

  (** After the demotion, the object's version is the only one that can
      hold [st] in its series. *)
Lemma demote_holder_ready st object_id db db1 u :
    wf db -> exclusive st = true ->
    demote_holder st (series_of_object db object_id) db = (Ok u, db1) ->
    ready st object_id db1.
  Proof.
    intros Hwf Hex Hrun. unfold demote_holder, mbind, mget, mret, mlift in Hrun.
    destruct (series_of_object db object_id) as [s|] eqn:Hs.
    2:{ injection Hrun as _ <-. split; [exact Hwf|]. intros t Ht. exfalso.
        exact (series_of_object_none db object_id t Hwf Hs Ht). }
    apply series_of_object_some in Hs as [t0 [Ht0 Hs0]].
    apply qs_get_spec in Ht0 as [Ht0in [Ht0of Ht0u]].
    destruct (existsb (in_series_state s st) (db_versions db)) eqn:He.
    2:{ injection Hrun as _ <-. split; [exact Hwf|]. intros t Ht w Hw Hsw Hstw. exfalso.
        apply qs_get_spec in Ht as [Htin [Htof _]]. rewrite (Ht0u t Htin Htof), Hs0 in Hsw.
        assert (Hc : existsb (in_series_state s st) (db_versions db) = true).
        { apply existsb_exists. exists w. split; [exact Hw|]. unfold in_series_state.
          rewrite Hsw, Nat.eqb_refl, Hstw. apply state_eqb_refl. }
        congruence. }
    destruct (qs_get (in_series_state s st) (db_versions db)) as [h|e] eqn:Hh; [|discriminate].
    apply qs_get_spec in Hh as [Hhin [_ Hhu]].
    set (db' := final (save_version (set_v_state STATE_UNPUBLISHED h)) db).
    assert (Hwf' : wf db') by (apply save_version_wf; [exact Hwf|exact Hhin|discriminate]).
    assert (Hdb1 : db1 = final (save_content_object h STATE_UNPUBLISHED) db')
      by (unfold db', final in *; simpl in *; rewrite Hrun; reflexivity).
    assert (Hk : In (v_pk (set_v_state STATE_UNPUBLISHED h)) (map v_pk (db_versions db)))
      by (exact (in_map v_pk _ _ Hhin)).
    subst db1. split; [exact (save_content_object_wf _ _ _ Hwf')|].
    rewrite save_content_object_versions. simpl.
    intros t Ht w Hw Hsw Hstw. apply qs_get_spec in Ht as [Htin [Htof _]].
    assert (Hts : v_series t = s).
    { apply (in_save_row_version _ _ _ Hk) in Htin as [[Htin _]| ->].
      - rewrite (Ht0u t Htin Htof). exact Hs0.
      - rewrite version_of_set_state in Htof. simpl. rewrite (Ht0u h Hhin Htof). exact Hs0. }
    apply (in_save_row_version _ _ _ Hk) in Hw as [[Hw Hne]| ->].
    - exfalso. apply Hne. simpl. f_equal. apply Hhu; [exact Hw|]. unfold in_series_state.
      rewrite Hsw, Hts, Nat.eqb_refl, Hstw. apply state_eqb_refl.
    - simpl in Hstw. subst st. discriminate Hex.
  Qed.

Lemma promote_version_run st object_id db :
    final (promote_version st object_id) db =
    match demote_holder st (series_of_object db object_id) db with
    | (Ok _, db1) => final (promote_tail st object_id) db1
    | (Raise _, db1) => db1
    end.
  Proof.
    unfold final, promote_version, get_series, mbind at 1 2 3, mget, mret. simpl.
    destruct (demote_holder st (series_of_object db object_id) db) as [[u|e] db1]; reflexivity.
  Qed.

Lemma promote_version_wf st object_id :
    exclusive st = true -> preserves wf (promote_version st object_id).
  Proof.
    intros Hex db Hwf. rewrite promote_version_run.
    destruct (demote_holder st (series_of_object db object_id) db) as [[u|e] db1] eqn:Hd.
    - apply promote_tail_wf. exact (demote_holder_ready st object_id db db1 u Hwf Hex Hd).
    - pose proof (demote_holder_wf st (series_of_object db object_id) db Hwf) as H.
      unfold final in H. rewrite Hd in H. exact H.
  Qed.

Lemma unpublish_version_wf object_id : preserves wf (unpublish_version object_id).
  Proof.
    intros db Hwf. unfold final, unpublish_version, mbind, mget, mlift.
    destruct (qs_get _ _) as [v|e] eqn:Hv; [|exact Hwf]. apply qs_get_spec in Hv as [Hv _].
    apply save_content_object_wf, save_version_wf; [exact Hwf|exact Hv|discriminate].
  Qed.

Lemma delete_version_wf object_id : preserves wf (delete_version object_id).
  Proof.
    intros db Hwf. unfold final, delete_version, mbind, mget, mlift.
    destruct (qs_get _ _) as [v|e] eqn:Hv; [|exact Hwf]. apply qs_get_spec in Hv as [Hv _].
    apply save_content_object_wf, save_version_wf; [exact Hwf|exact Hv|discriminate].
  Qed.

Lemma add_series_wf slug : preserves wf (add_series slug).
  Proof.
    intros db Hwf. apply wf_snoc_series; [exact Hwf|]. apply (fresh_pk_not_in (db_series db)).
  Qed.

Lemma add_version_wf obj : preserves wf (add_version obj).
  Proof.
    intros db Hwf.
    set (s := mkVersionSeries (fresh_pk (db_series db)) (slugify (obj_str obj)) None).
    set (db1 := with_series (db_series db ++ [s]) db).
    assert (Hfresh : ~ In (vs_pk s) (map vs_pk (db_series db))) by apply (fresh_pk_not_in (db_series db)).
    assert (Hwf1 : wf db1) by (apply wf_snoc_series; assumption).
    assert (Hrun : final (add_version obj) db =
      with_versions (db_versions db1 ++
        [mkVersion (fresh_pk (db_versions db1)) ct (c_pk obj) (vs_pk s) 1 (c_state obj)]) db1).
    { unfold final, add_version, add_series, create_version, mbind, mget, mput, mret. simpl.
      rewrite existsb_app. simpl. unfold pk_is at 2. simpl. rewrite Nat.eqb_refl, orb_true_r.
      reflexivity. }
    rewrite Hrun. apply wf_snoc_version; [exact Hwf1|apply (fresh_pk_not_in (db_versions db1))| |].
    - simpl. rewrite map_app. apply in_or_app. right. left. reflexivity.
    - intros _ w Hw Hs _. destruct Hwf as (_ & _ & Href & _). apply Hfresh.
      replace (vs_pk s) with (v_series w) by exact Hs. exact (Href w Hw).
  Qed.

Lemma add_to_series_wf series obj : preserves wf (add_to_series series obj).
  Proof.
    intros db Hwf. unfold final, add_to_series, create_version, mbind, mget, mput, mraise.
    simpl. destruct (existsb (pk_is series) (db_series db)) eqn:He; [|exact Hwf].
    apply wf_snoc_version; simpl; [exact Hwf|apply (fresh_pk_not_in (db_versions db))| |discriminate].
    apply existsb_exists in He as [x [Hx Hp]]. unfold pk_is in Hp. apply Nat.eqb_eq in Hp.
    rewrite <- Hp. apply in_map. exact Hx.
  Qed.
End Manager.

(** ** The invariant as a computation *)

Definition wf_b (db : DB) : bool :=
  bool_decide (NoDup (map v_pk (db_versions db))) &&
  bool_decide (NoDup (map vs_pk (db_series db))) &&
  forallb (fun v => existsb (Nat.eqb (v_series v)) (map vs_pk (db_series db))) (db_versions db) &&
  series_inv_b (db_versions db).

Lemma series_inv_b_sound vs : series_inv_b vs = true -> series_inv vs.
Proof.
  unfold series_inv_b. intros H v1 v2 H1 H2 Hs Hst Hex.
  rewrite forallb_forall in H. specialize (H v1 H1). rewrite forallb_forall in H.
  specialize (H v2 H2). rewrite Hs, Hst, Nat.eqb_refl, state_eqb_refl in H.
  rewrite <- Hst, Hex in H. simpl in H. apply Nat.eqb_eq. exact H.
Qed.

Lemma wf_b_sound db : wf_b db = true -> wf db.
Proof.
  unfold wf_b. intros H. repeat apply andb_prop in H as [H ?]. tb_bool.
  split; [assumption|split; [assumption|split]].
  - intros v Hv. match goal with Hf : forallb _ _ = true |- _ =>
      rewrite forallb_forall in Hf; specialize (Hf v Hv) end.
    apply existsb_exists in H as [k [Hk Heq]] || (match goal with
      Hf : existsb _ _ = true |- _ => apply existsb_exists in Hf as [k [Hk Heq]] end).
    apply Nat.eqb_eq in Heq. subst k. exact Hk.
  - apply series_inv_b_sound. assumption.
Qed.

(** ** Sequences of manager calls *)

(** One call of a state-changing method of [CoreStateManager], on any
    model ([ct]) and with that model's [save()]. *)
Inductive manager_step : DB -> DB -> Prop :=
| step_add_version ct obj_str obj db :
    manager_step db (final (add_version ct obj_str obj) db)
| step_add_to_series ct series obj db :
    manager_step db (final (add_to_series ct series obj) db)
| step_stage_version ct save object_id db :
    manager_step db (final (stage_version ct save object_id) db)
| step_publish_version ct save object_id db :
    manager_step db (final (publish_version ct save object_id) db)
| step_unpublish_version ct save object_id db :
    manager_step db (final (unpublish_version ct save object_id) db)
| step_delete_version ct save object_id db :
    manager_step db (final (delete_version ct save object_id) db).

Inductive reachable (db0 : DB) : DB -> Prop :=
| reach_refl : reachable db0 db0
| reach_step db1 db2 : reachable db0 db1 -> manager_step db1 db2 -> reachable db0 db2.

Lemma manager_step_wf db1 db2 : manager_step db1 db2 -> wf db1 -> wf db2.
Proof.
  destruct 1.
  - apply add_version_wf.
  - apply add_to_series_wf.
  - rewrite stage_version_promote. apply promote_version_wf. reflexivity.
  - rewrite publish_version_promote. apply promote_version_wf. reflexivity.
  - apply unpublish_version_wf.
  - apply delete_version_wf.
Qed.

(** ** A database to run the methods on

    One series ([about]) with version 1 (object 10, PUBLISHED) and
    version 2 (object 11, UNPUBLISHED) of the content type 7. *)

Definition about_v1 : Content :=
  mkContent 7 10 STATE_PUBLISHED (Some 100%Z) None "About" "about" None None 0 (SitesM2M [1]) (Some 7).
Definition about_v2 : Content :=
  mkContent 7 11 STATE_UNPUBLISHED None None "About" "about" None None 0 (SitesM2M [1]) (Some 7).

Definition example_db : DB :=
  mkDB [mkVersionSeries 1 "about" None]
       [mkVersion 1 7 10 1 1 STATE_PUBLISHED; mkVersion 2 7 11 1 2 STATE_UNPUBLISHED]
       [about_v1; about_v2].

(** ** The series invariant is kept by every method *)

(** C1: [stage_version] keeps at most one PUBLISHED and at most one STAGED
    version per series, whether it returns or raises. *)
Theorem stage_version_keeps_series_inv ct save object_id db :
  wf db -> wf (final (stage_version ct save object_id) db).
Proof. rewrite stage_version_promote. apply promote_version_wf. reflexivity. Qed.

Lemma stage_version_keeps_series_inv_witness :
  wf example_db /\ wf (final (stage_version 7 (content_model_save 200) 11) example_db).
Proof.
  split; [apply wf_b_sound; vm_compute; reflexivity|].
  apply stage_version_keeps_series_inv. apply wf_b_sound. vm_compute. reflexivity.
Defined.

(** C2: [publish_version] keeps at most one PUBLISHED and at most one
    STAGED version per series, whether it returns or raises. *)
Theorem publish_version_keeps_series_inv ct save object_id db :
  wf db -> wf (final (publish_version ct save object_id) db).
Proof. rewrite publish_version_promote. apply promote_version_wf. reflexivity. Qed.

Lemma publish_version_keeps_series_inv_witness :
  wf example_db /\ wf (final (publish_version 7 (content_model_save 200) 11) example_db).
Proof.
  split; [apply wf_b_sound; vm_compute; reflexivity|].
  apply publish_version_keeps_series_inv. apply wf_b_sound. vm_compute. reflexivity.
Defined.

(** C3: after any sequence of calls of the manager's state-changing
    methods (add_version, add_to_series, stage, publish, unpublish,
    delete), every series still has at most one PUBLISHED and at most one
    STAGED version. *)
Theorem reachable_series_inv db0 db :
  wf db0 -> reachable db0 db -> wf db.
Proof. intros H0 Hr. induction Hr as [|db1 db2 _ IH Hs]; [exact H0|]. exact (manager_step_wf _ _ Hs IH). Qed.

Lemma reachable_series_inv_witness :
  let db1 := final (stage_version 7 (content_model_save 200) 11) example_db in
  let db2 := final (publish_version 7 (content_model_save 300) 11) db1 in
  wf example_db /\ reachable example_db db2 /\ wf db2.
Proof.
  intros db1 db2.
  assert (H0 : wf example_db) by (apply wf_b_sound; vm_compute; reflexivity).
  assert (Hr : reachable example_db db2)
    by (eapply reach_step; [eapply reach_step; [apply reach_refl|apply step_stage_version]|
                            apply step_publish_version]).
  split; [exact H0|split; [exact Hr|]]. exact (reachable_series_inv example_db db2 H0 Hr).
Defined.

(** ** What the methods do, path by path *)

Section Functional.
  Context (ct : nat) (save : Content -> Content).

Definition has_content (db : DB) (v : Version) : Prop := is_Some (content_object db v).

Lemma has_content_write c db v : has_content db v -> has_content (write_content c db) v.
  Proof.
    unfold has_content, content_object, write_content. simpl.
    destruct (existsb _ _); [|apply find_app_some].
    apply find_update_where_some. intros z Hz. unfold same_content in *.
    apply andb_prop in Hz as [H1 H2]. apply Nat.eqb_eq in H1, H2. rewrite H1, H2. reflexivity.
  Qed.

Lemma save_content_object_ok v st db :
    has_content db v ->
    fst (save_content_object save v st db) = Ok tt /\
    (forall w, has_content db w -> has_content (final (save_content_object save v st) db) w).
  Proof.
    intros [c Hc]. unfold final, save_content_object, mbind, mget, mmodify. simpl. rewrite Hc.
    split; [reflexivity|]. intros w. apply has_content_write.
  Qed.

Lemma save_row_keeps (vs : list Version) v w :
    In w vs -> v_pk w <> v_pk v -> In (v_pk v) (map v_pk vs) -> In w (save_row v vs).
  Proof. intros Hw Hne Hk. apply (in_save_row_version _ _ _ Hk). left. auto. Qed.

Lemma save_row_has (vs : list Version) v :
    In (v_pk v) (map v_pk vs) -> In v (save_row v vs).
  Proof. intros Hk. apply (in_save_row_version _ _ _ Hk). right. reflexivity. Qed.

Lemma promote_tail_run st object_id db t :
    qs_get (version_of ct object_id) (db_versions db) = Ok t ->
    promote_tail ct save st object_id db =
    save_content_object save t st (with_versions (save_row (set_v_state st t) (db_versions db)) db).
  Proof. intros Ht. unfold promote_tail, mbind, mget, mlift. rewrite Ht. reflexivity. Qed.

  (** [promote_tail] when the object's version is found and its content
      object exists. *)
Lemma promote_tail_ok st object_id db t :
    qs_get (version_of ct object_id) (db_versions db) = Ok t -> has_content db t ->
    fst (promote_tail ct save st object_id db) = Ok tt /\
    db_versions (final (promote_tail ct save st object_id) db) =
      save_row (set_v_state st t) (db_versions db).
  Proof.
    intros Ht Hc. unfold final. rewrite (promote_tail_run st object_id db t Ht).
    split; [exact (proj1 (save_content_object_ok t st
                     (with_versions (save_row (set_v_state st t) (db_versions db)) db) Hc))|].
    apply save_content_object_versions.
  Qed.

Lemma promote_version_ok_run st object_id db db1 u :
    demote_holder save st (series_of_object ct db object_id) db = (Ok u, db1) ->
    promote_version ct save st object_id db = promote_tail ct save st object_id db1.
  Proof. intros H. unfold promote_version, get_series, mbind at 1 2 3, mget, mret. rewrite H. reflexivity. Qed.

Lemma demote_holder_run st s db h :
    existsb (in_series_state s st) (db_versions db) = true ->
    qs_get (in_series_state s st) (db_versions db) = Ok h ->
    demote_holder save st (Some s) db =
    save_content_object save h STATE_UNPUBLISHED
      (with_versions (save_row (set_v_state STATE_UNPUBLISHED h) (db_versions db)) db).
  Proof. intros He Hh. unfold demote_holder, mbind, mget, mlift. rewrite He, Hh. reflexivity. Qed.

Lemma series_of_object_found db object_id t :
    wf db -> qs_get (version_of ct object_id) (db_versions db) = Ok t ->
    series_of_object ct db object_id = Some (v_series t).
  Proof.
    intros (_ & _ & Href & _) Ht. unfold series_of_object. rewrite Ht.
    pose proof (Href t (proj1 (qs_get_spec _ _ _ Ht))) as Hs.
    apply in_map_iff in Hs as [x [Hx Hin]].
    replace (existsb (pk_is (v_series t)) (db_series db)) with true; [reflexivity|].
    symmetry. apply existsb_exists. exists x. split; [exact Hin|]. apply Nat.eqb_eq. exact Hx.
  Qed.

  (** Under the invariant, the holder of an exclusive state is the one row
      [QuerySet.get] returns. *)
Lemma holder_get db s st h :
    wf db -> exclusive st = true -> In h (db_versions db) -> v_series h = s -> v_state h = st ->
    qs_get (in_series_state s st) (db_versions db) = Ok h.
  Proof.
    intros (Hnd & _ & _ & Hinv) Hex Hh Hs Hst. apply qs_get_unique.
    - exact (NoDup_map_rows v_pk _ Hnd).
    - exact Hh.
    - unfold in_series_state. rewrite Hs, Hst, Nat.eqb_refl. apply state_eqb_refl.
    - intros y Hy Hp. unfold in_series_state in Hp. apply andb_prop in Hp as [Hys Hyst].
      apply Nat.eqb_eq in Hys. apply state_eqb_true in Hyst.
      apply (NoDup_map_inv_in v_pk _ _ _ Hnd Hy Hh). apply Hinv; auto; congruence.
  Qed.

  (** The object's version is found again after the holder, another row,
      has been demoted. *)
Lemma version_get_after_demote db object_id t h :
    wf db -> qs_get (version_of ct object_id) (db_versions db) = Ok t ->
    In h (db_versions db) -> v_pk h <> v_pk t ->
    qs_get (version_of ct object_id)
      (save_row (set_v_state STATE_UNPUBLISHED h) (db_versions db)) = Ok t.
  Proof.
    intros (Hnd & _) Ht Hh Hne. apply qs_get_spec in Ht as [Htin [Htof Htu]].
    assert (Hk : In (v_pk (set_v_state STATE_UNPUBLISHED h)) (map v_pk (db_versions db)))
      by exact (in_map v_pk _ _ Hh).
    apply qs_get_unique.
    - apply (NoDup_map_rows v_pk). rewrite (save_row_version_keys _ _ Hk). exact Hnd.
    - apply save_row_keeps; auto.
    - exact Htof.
    - intros y Hy Hp. apply (in_save_row_version _ _ _ Hk) in Hy as [[Hy _]| ->]; [auto|].
      rewrite version_of_set_state in Hp. exfalso. apply Hne. rewrite (Htu h Hh Hp). reflexivity.
  Qed.

  (** [stage_version] and [publish_version] when another version of the
      series holds the state: the holder is demoted, then the object's
      version promoted. *)
Lemma promote_version_with_holder st object_id db t h :
    wf db -> exclusive st = true ->
    qs_get (version_of ct object_id) (db_versions db) = Ok t ->
    In h (db_versions db) -> v_series h = v_series t -> v_state h = st -> v_pk h <> v_pk t ->
    has_content db h -> has_content db t ->
    fst (promote_version ct save st object_id db) = Ok tt /\
    db_versions (final (promote_version ct save st object_id) db) =
      save_row (set_v_state st t) (save_row (set_v_state STATE_UNPUBLISHED h) (db_versions db)).
  Proof.
    intros Hwf Hex Ht Hh Hs Hst Hne Hch Hct.
    assert (Hq : qs_get (in_series_state (v_series t) st) (db_versions db) = Ok h)
      by (apply holder_get; auto).
    assert (He : existsb (in_series_state (v_series t) st) (db_versions db) = true)
      by (apply existsb_exists; exists h; split; [exact Hh|exact (proj1 (proj2 (qs_get_spec _ _ _ Hq)))]).
    set (db1 := with_versions (save_row (set_v_state STATE_UNPUBLISHED h) (db_versions db)) db).
    destruct (save_content_object_ok h STATE_UNPUBLISHED db1 Hch) as [Hok1 Hkeep].
    pose proof (save_content_object_versions save h STATE_UNPUBLISHED db1) as Hv2.
    pose proof (Hkeep t Hct) as Hct2. unfold final in Hv2, Hct2.
    destruct (save_content_object save h STATE_UNPUBLISHED db1) as [r db2] eqn:E.
    simpl in Hok1, Hv2, Hct2. subst r.
    assert (Hrun : promote_version ct save st object_id db = promote_tail ct save st object_id db2).
    { apply (promote_version_ok_run st object_id db db2 tt).
      rewrite (series_of_object_found db object_id t Hwf Ht), (demote_holder_run _ _ _ h He Hq).
      exact E. }
    assert (Ht2 : qs_get (version_of ct object_id) (db_versions db2) = Ok t)
      by (rewrite Hv2; apply version_get_after_demote; auto).
    unfold final. rewrite Hrun. rewrite <- Hv2. exact (promote_tail_ok st object_id db2 t Ht2 Hct2).
  Qed.

  (** ... and when no version of the series holds it. *)
Lemma promote_version_no_holder st object_id db t :
    wf db -> qs_get (version_of ct object_id) (db_versions db) = Ok t ->
    (forall w, In w (db_versions db) -> v_series w = v_series t -> v_state w <> st) ->
    has_content db t ->
    fst (promote_version ct save st object_id db) = Ok tt /\
    db_versions (final (promote_version ct save st object_id) db) =
      save_row (set_v_state st t) (db_versions db).
  Proof.
    intros Hwf Ht Hnone Hct.
    assert (He : existsb (in_series_state (v_series t) st) (db_versions db) = false).
    { apply not_true_iff_false. intros [w [Hw Hp]]%existsb_exists.
      unfold in_series_state in Hp. apply andb_prop in Hp as [Hws Hwst].
      apply Nat.eqb_eq in Hws. apply state_eqb_true in Hwst. exact (Hnone w Hw Hws Hwst). }
    assert (Hrun : promote_version ct save st object_id db = promote_tail ct save st object_id db).
    { apply (promote_version_ok_run st object_id db db tt).
      rewrite (series_of_object_found db object_id t Hwf Ht).
      unfold demote_holder, mbind, mget, mret. rewrite He. reflexivity. }
    unfold final. rewrite Hrun. exact (promote_tail_ok st object_id db t Ht Hct).
  Qed.

  (** The rows [demote_holder] can leave behind, on any path. *)
Lemma demote_holder_versions st ser db :
    db_versions (final (demote_holder save st ser) db) = db_versions db \/
    exists h, In h (db_versions db) /\ v_state h = st /\
      db_versions (final (demote_holder save st ser) db) =
        save_row (set_v_state STATE_UNPUBLISHED h) (db_versions db).
  Proof.
    destruct ser as [s|]; [|left; reflexivity].
    destruct (existsb (in_series_state s st) (db_versions db)) eqn:He.
    2:{ left. unfold final, demote_holder, mbind, mget, mret. rewrite He. reflexivity. }
    destruct (qs_get (in_series_state s st) (db_versions db)) as [h|e] eqn:Hh.
    2:{ left. unfold final, demote_holder, mbind, mget, mlift. rewrite He, Hh. reflexivity. }
    right. exists h. pose proof (qs_get_spec _ _ _ Hh) as [Hin [Hp _]].
    unfold in_series_state in Hp. apply andb_prop in Hp as [_ Hp]. apply state_eqb_true in Hp.
    split; [exact Hin|split; [exact Hp|]].
    unfold final. rewrite (demote_holder_run st s db h He Hh). apply save_content_object_versions.
  Qed.

Lemma promote_tail_frame st object_id db w :
    In w (db_versions db) ->
    (forall t', qs_get (version_of ct object_id) (db_versions db) = Ok t' -> v_pk w <> v_pk t') ->
    In w (db_versions (final (promote_tail ct save st object_id) db)).
  Proof.
    intros Hw Hne. destruct (qs_get (version_of ct object_id) (db_versions db)) as [t'|e] eqn:Ht.
    - pose proof (save_content_object_versions save t' st
        (with_versions (save_row (set_v_state st t') (db_versions db)) db)) as Hv.
      unfold final in Hv |- *. rewrite (promote_tail_run st object_id db t' Ht), Hv.
      simpl. apply save_row_keeps; [exact Hw|exact (Hne t' eq_refl)|].
      exact (in_map v_pk _ _ (proj1 (qs_get_spec _ _ _ Ht))).
    - unfold final, promote_tail, mbind, mget, mlift. rewrite Ht. exact Hw.
  Qed.

  (** [stage_version] and [publish_version] rewrite at most two rows: the
      previous holder of the state and the object's version.  Every other
      row is kept, whatever the outcome. *)
Lemma promote_version_frame st object_id db t w :
    wf db -> qs_get (version_of ct object_id) (db_versions db) = Ok t ->
    In w (db_versions db) -> v_pk w <> v_pk t -> v_state w <> st ->
    In w (db_versions (final (promote_version ct save st object_id) db)).
  Proof.
    intros Hwf Ht Hw Hne Hst. pose proof Hwf as (Hnd & _).
    pose proof (demote_holder_versions st (series_of_object ct db object_id) db) as Hd.
    rewrite promote_version_run. unfold final in Hd.
    destruct (demote_holder save st (series_of_object ct db object_id) db) as [[u|e] db1];
      simpl in Hd.
    2:{ destruct Hd as [-> | (h & Hh & Hhst & ->)]; [exact Hw|]. simpl. apply save_row_keeps; [exact Hw| |].
        - intros Heq. apply Hst. rewrite <- Hhst. f_equal.
          exact (NoDup_map_inv_in v_pk _ _ _ Hnd Hw Hh Heq).
        - exact (in_map v_pk _ _ Hh). }
    apply promote_tail_frame.
    - destruct Hd as [-> | (h & Hh & Hhst & ->)]; [exact Hw|]. apply save_row_keeps; [exact Hw| |].
      + intros Heq. apply Hst. rewrite <- Hhst. f_equal.
        exact (NoDup_map_inv_in v_pk _ _ _ Hnd Hw Hh Heq).
      + exact (in_map v_pk _ _ Hh).
    - intros t' Ht'. apply qs_get_spec in Ht as [Htin [_ Htu]].
      apply qs_get_spec in Ht' as [Ht'in [Ht'of _]].
      destruct Hd as [Hv | (h & Hh & _ & Hv)]; rewrite Hv in Ht'in.
      + rewrite (Htu t' Ht'in Ht'of). exact Hne.
      + apply (in_save_row_version _ (set_v_state STATE_UNPUBLISHED h) _ (in_map v_pk _ _ Hh))
          in Ht'in as [[Ht'in _]| ->].
        * rewrite (Htu t' Ht'in Ht'of). exact Hne.
        * rewrite version_of_set_state in Ht'of. simpl. rewrite (Htu h Hh Ht'of). exact Hne.
  Qed.
End Functional.

(** C7: when another version of the object's series is PUBLISHED,
    [publish_version] returns normally, that version is demoted to
    UNPUBLISHED and the object's version is PUBLISHED. *)
Theorem publish_version_demotes_sibling ct save object_id db t h :
  wf db ->
  qs_get (version_of ct object_id) (db_versions db) = Ok t ->
  In h (db_versions db) -> v_series h = v_series t -> v_state h = STATE_PUBLISHED ->
  v_pk h <> v_pk t -> has_content db h -> has_content db t ->
  fst (publish_version ct save object_id db) = Ok tt /\
  In (set_v_state STATE_UNPUBLISHED h) (db_versions (final (publish_version ct save object_id) db)) /\
  In (set_v_state STATE_PUBLISHED t) (db_versions (final (publish_version ct save object_id) db)).
Proof.
  intros Hwf Ht Hh Hs Hst Hne Hch Hct. rewrite publish_version_promote.
  destruct (promote_version_with_holder ct save STATE_PUBLISHED object_id db t h
              Hwf eq_refl Ht Hh Hs Hst Hne Hch Hct) as [Hok Hv].
  pose proof (proj1 (qs_get_spec _ _ _ Ht)) as Htin.
  assert (Hk : In (v_pk (set_v_state STATE_PUBLISHED t))
                 (map v_pk (save_row (set_v_state STATE_UNPUBLISHED h) (db_versions db)))).
  { rewrite save_row_version_keys by exact (in_map v_pk _ _ Hh). exact (in_map v_pk _ _ Htin). }
  rewrite Hv. split; [exact Hok|split].
  - apply save_row_keeps; [apply save_row_has; exact (in_map v_pk _ _ Hh)|exact Hne|exact Hk].
  - apply save_row_has. exact Hk.
Qed.

Lemma publish_version_demotes_sibling_witness :
  let t := mkVersion 2 7 11 1 2 STATE_UNPUBLISHED in
  let h := mkVersion 1 7 10 1 1 STATE_PUBLISHED in
  fst (publish_version 7 (content_model_save 200) 11 example_db) = Ok tt /\
  In (set_v_state STATE_UNPUBLISHED h)
     (db_versions (final (publish_version 7 (content_model_save 200) 11) example_db)) /\
  In (set_v_state STATE_PUBLISHED t)
     (db_versions (final (publish_version 7 (content_model_save 200) 11) example_db)).
Proof.
  intros t h. apply (publish_version_demotes_sibling 7 (content_model_save 200) 11 example_db t h).
  - apply wf_b_sound. vm_compute. reflexivity.
  - vm_compute. reflexivity.
  - simpl. left. reflexivity.
  - reflexivity.
  - reflexivity.
  - simpl. lia.
  - exists about_v1. vm_compute. reflexivity.
  - exists about_v2. vm_compute. reflexivity.
Defined.

(** [stage_version] never touches a PUBLISHED version other than the
    object's own: whatever the outcome, it is still in the table. *)
Theorem stage_version_keeps_other_published ct save object_id db t w :
  wf db -> qs_get (version_of ct object_id) (db_versions db) = Ok t ->
  In w (db_versions db) -> v_state w = STATE_PUBLISHED -> v_pk w <> v_pk t ->
  In w (db_versions (final (stage_version ct save object_id) db)).
Proof.
  intros Hwf Ht Hw Hst Hne. rewrite stage_version_promote.
  apply (promote_version_frame ct save STATE_STAGED object_id db t w Hwf Ht Hw Hne).
  rewrite Hst. discriminate.
Qed.

Lemma stage_version_keeps_other_published_witness :
  In (mkVersion 1 7 10 1 1 STATE_PUBLISHED)
     (db_versions (final (stage_version 7 (content_model_save 200) 11) example_db)).
Proof.
  apply (stage_version_keeps_other_published 7 (content_model_save 200) 11 example_db
           (mkVersion 2 7 11 1 2 STATE_UNPUBLISHED)).
  - apply wf_b_sound. vm_compute. reflexivity.
  - vm_compute. reflexivity.
  - simpl. left. reflexivity.
  - reflexivity.
  - simpl. lia.
Defined.

(** C9: when no version of the object's series is STAGED, [stage_version]
    returns normally and only the object's version changes, to STAGED
    (spec, section 8: v1 PUBLISHED, staging v2 leaves v1 PUBLISHED). *)
Theorem stage_version_stages ct save object_id db t :
  wf db -> qs_get (version_of ct object_id) (db_versions db) = Ok t ->
  (forall w, In w (db_versions db) -> v_series w = v_series t -> v_state w <> STATE_STAGED) ->
  has_content db t ->
  fst (stage_version ct save object_id db) = Ok tt /\
  db_versions (final (stage_version ct save object_id) db) =
    save_row (set_v_state STATE_STAGED t) (db_versions db).
Proof.
  intros Hwf Ht Hnone Hct. rewrite stage_version_promote.
  exact (promote_version_no_holder ct save STATE_STAGED object_id db t Hwf Ht Hnone Hct).
Qed.

Lemma stage_version_stages_witness :
  fst (stage_version 7 (content_model_save 200) 11 example_db) = Ok tt /\
  db_versions (final (stage_version 7 (content_model_save 200) 11) example_db) =
    [mkVersion 1 7 10 1 1 STATE_PUBLISHED; mkVersion 2 7 11 1 2 STATE_STAGED].
Proof.
  destruct (stage_version_stages 7 (content_model_save 200) 11 example_db
              (mkVersion 2 7 11 1 2 STATE_UNPUBLISHED)) as [Hok Hv].
  - apply wf_b_sound. vm_compute. reflexivity.
  - vm_compute. reflexivity.
  - intros w [<-|[<-|[]]] _; discriminate.
  - exists about_v2. vm_compute. reflexivity.
  - split; [exact Hok|]. rewrite Hv. vm_compute. reflexivity.
Defined.

(** When the object has no version, or several, [stage_version]
    raises the lookup's exception ([DoesNotExist],
    [MultipleObjectsReturned]) and writes nothing. *)
Theorem stage_version_lookup_error ct save object_id db e :
  qs_get (version_of ct object_id) (db_versions db) = Raise e ->
  stage_version ct save object_id db = (Raise e, db).
Proof.
  intros He. rewrite stage_version_promote.
  rewrite (promote_version_ok_run ct save STATE_STAGED object_id db db tt).
  - unfold promote_tail, mbind, mget, mlift. rewrite He. reflexivity.
  - unfold series_of_object. rewrite He. reflexivity.
Qed.

Lemma stage_version_lookup_error_witness :
  stage_version 7 (content_model_save 200) 99 example_db = (Raise DoesNotExist, example_db).
Proof. apply stage_version_lookup_error. vm_compute. reflexivity. Defined.

(** A series whose STAGED version (object 11) has lost its content row. *)
Definition about_v3 : Content :=
  mkContent 7 12 STATE_UNPUBLISHED None None "About" "about" None None 0 (SitesM2M [1]) (Some 7).

Definition dangling_db : DB :=
  mkDB [mkVersionSeries 1 "about" None]
       [mkVersion 1 7 10 1 1 STATE_PUBLISHED; mkVersion 2 7 11 1 2 STATE_STAGED;
        mkVersion 3 7 12 1 3 STATE_UNPUBLISHED]
       [about_v1; about_v3].

(** C10: the demotion is not rolled back.  When the STAGED version's
    content row is gone, [stage_version] raises [AttributeError] after
    writing the demotion: the series is left with no STAGED version and
    the object's version is not staged either. *)
Theorem stage_version_demotion_not_rolled_back ct save object_id db t h :
  wf db -> qs_get (version_of ct object_id) (db_versions db) = Ok t ->
  In h (db_versions db) -> v_series h = v_series t -> v_state h = STATE_STAGED ->
  content_object db h = None ->
  stage_version ct save object_id db =
    (Raise AttributeError,
     with_versions (save_row (set_v_state STATE_UNPUBLISHED h) (db_versions db)) db).
Proof.
  intros Hwf Ht Hh Hs Hst Hnone. rewrite stage_version_promote.
  assert (Hq : qs_get (in_series_state (v_series t) STATE_STAGED) (db_versions db) = Ok h)
    by (apply holder_get; auto).
  assert (He : existsb (in_series_state (v_series t) STATE_STAGED) (db_versions db) = true)
    by (apply existsb_exists; exists h; split; [exact Hh|exact (proj1 (proj2 (qs_get_spec _ _ _ Hq)))]).
  assert (Hd : demote_holder save STATE_STAGED (series_of_object ct db object_id) db =
    (Raise AttributeError,
     with_versions (save_row (set_v_state STATE_UNPUBLISHED h) (db_versions db)) db)).
  { rewrite (series_of_object_found ct db object_id t Hwf Ht), (demote_holder_run save _ _ _ h He Hq).
    unfold save_content_object, mbind, mget. simpl. unfold content_object in *. simpl.
    rewrite Hnone. reflexivity. }
  unfold promote_version, get_series, mbind at 1 2 3, mget, mret. rewrite Hd. reflexivity.
Qed.

Lemma stage_version_demotion_not_rolled_back_witness :
  stage_version 7 (content_model_save 200) 12 dangling_db =
    (Raise AttributeError,
     mkDB [mkVersionSeries 1 "about" None]
          [mkVersion 1 7 10 1 1 STATE_PUBLISHED; mkVersion 2 7 11 1 2 STATE_UNPUBLISHED;
           mkVersion 3 7 12 1 3 STATE_UNPUBLISHED]
          [about_v1; about_v3]).
Proof.
  rewrite (stage_version_demotion_not_rolled_back 7 (content_model_save 200) 12 dangling_db
             (mkVersion 3 7 12 1 3 STATE_UNPUBLISHED) (mkVersion 2 7 11 1 2 STATE_STAGED)).
  - vm_compute. reflexivity.
  - apply wf_b_sound. vm_compute. reflexivity.
  - vm_compute. reflexivity.
  - simpl. right. left. reflexivity.
  - reflexivity.
  - reflexivity.
  - vm_compute. reflexivity.
Defined.

(** C11: [unpublish_version] leaves the content's [publish_at] as it was.
    The code assigns [publish_date_time], which no model has; the spec
    (section 4.1) says the publish timestamp is reset to now. *)
Theorem unpublish_version_keeps_publish_at ct now object_id db t c :
  qs_get (version_of ct object_id) (db_versions db) = Ok t ->
  content_object db t = Some c ->
  exists c',
    content_object (final (unpublish_version ct (content_model_save now) object_id) db) t = Some c' /\
    c_state c' = STATE_UNPUBLISHED /\ c_publish_at c' = c_publish_at c.
Proof.
  intros Ht Hc. exists (content_model_save now (set_c_state STATE_UNPUBLISHED c)).
  destruct (content_model_save_unpublished now (set_c_state STATE_UNPUBLISHED c)) as [Hst Hpa];
    [discriminate|].
  split; [|split; [exact Hst|exact Hpa]].
  unfold final, unpublish_version, mbind, mget, mlift. rewrite Ht. simpl.
  unfold save_content_object, mbind, mget, mmodify. simpl.
  assert (Hc1 : content_object (with_versions (save_row (set_v_state STATE_UNPUBLISHED t)
                  (db_versions db)) db) t = Some c) by exact Hc.
  rewrite Hc1. simpl.
  apply content_object_write_same; [exists c; exact Hc|].
  apply find_some in Hc as [_ Hc]. unfold same_content in *.
  destruct (content_model_save_keys now (set_c_state STATE_UNPUBLISHED c)) as [-> ->]. exact Hc.
Qed.

Lemma unpublish_version_keeps_publish_at_witness :
  exists c',
    content_object (final (unpublish_version 7 (content_model_save 200) 10) example_db)
      (mkVersion 1 7 10 1 1 STATE_PUBLISHED) = Some c' /\
    c_state c' = STATE_UNPUBLISHED /\ c_publish_at c' = Some 100%Z.
Proof.
  apply (unpublish_version_keeps_publish_at 7 200 10 example_db
           (mkVersion 1 7 10 1 1 STATE_PUBLISHED) about_v1); vm_compute; reflexivity.
Defined.

(** [add_to_series] appends one UNPUBLISHED version of the object to
    the series, numbered above every version already in it. *)
Theorem add_to_series_numbers_above ct series obj db :
  In series (map vs_pk (db_series db)) ->
  exists v, db_versions (final (add_to_series ct series obj) db) = db_versions db ++ [v] /\
    v_series v = series /\ v_object_id v = c_pk obj /\ v_state v = STATE_UNPUBLISHED /\
    (forall w, In w (db_versions db) -> v_series w = series -> v_number w < v_number v).
Proof.
  intros Hs. exists (mkVersion (fresh_pk (db_versions db)) ct (c_pk obj) series
                              (next_number db series) STATE_UNPUBLISHED).
  split; [|split; [reflexivity|split; [reflexivity|split; [reflexivity|]]]].
  - unfold final, add_to_series, create_version, mbind, mget, mput. simpl.
    replace (existsb (pk_is series) (db_series db)) with true; [reflexivity|].
    symmetry. apply in_map_iff in Hs as [x [Hx Hin]]. apply existsb_exists.
    exists x. split; [exact Hin|]. apply Nat.eqb_eq. exact Hx.
  - intros w Hw Hws. simpl. unfold next_number.
    assert (Hin : In (v_number w) (map v_number (List.filter (fun v => v_series v =? series) (db_versions db))))
      by (apply in_map, filter_In; split; [exact Hw|apply Nat.eqb_eq; exact Hws]).
    destruct (map v_number _) as [|n ns] eqn:E; [destruct Hin|].
    pose proof (proj1 (list_max_le (n :: ns) (list_max (n :: ns))) (Nat.le_refl _)) as Hmax.
    rewrite List.Forall_forall in Hmax. specialize (Hmax _ Hin). lia.
Qed.

Lemma add_to_series_numbers_above_witness :
  exists v, db_versions (final (add_to_series 7 1 about_v3) example_db) = db_versions example_db ++ [v] /\
    v_series v = 1 /\ v_object_id v = 12 /\ v_state v = STATE_UNPUBLISHED /\
    (forall w, In w (db_versions example_db) -> v_series w = 1 -> v_number w < v_number v).
Proof. apply add_to_series_numbers_above. simpl. left. reflexivity. Defined.
