(* ===== verification/Query.v ===== *)
(** * Which revision is visible: [CoreStateQuerySet] in [core/query.py]

    [get_list], [permitted] and [get_console_queryset] filter a query set of
    content rows ([self], here the list [qs]) by the [Version] table.  The
    section [QuerySet] takes the content type [ct] of [self.model].

    The abstract specification is [resolve]: the object a series shows is
    its PUBLISHED version's, else its STAGED version's, else its first
    UNPUBLISHED version's (spec, section 4.2).  [get_list_refines] proves
    that [get_list] returns exactly the rows of [qs] that are the resolved
    object of some series and are not DELETED, under the invariant [wf] of
    [Versioning]. *)

From S2P Require Import Prelude Constants Store Versioning.

(** [CoreQuerySet.for_current_site]: [sites__id__exact] when the model has a
    [sites] relation, [site_id] otherwise. *)
Definition on_site (site : nat) (c : Content) : bool :=
  match c_sites c with
  | SitesM2M ids => mem site ids
  | SiteFK (Some id) => id =? site
  | SiteFK None => false
  end.

Definition for_current_site (site : nat) (qs : list Content) : list Content :=
  List.filter (on_site site) qs.

(** [.exclude(state=constants.STATE_DELETED)] *)
Definition exclude_deleted (qs : list Content) : list Content :=
  List.filter (fun c => negb (state_eqb (c_state c) STATE_DELETED)) qs.

(** [self.filter(pk__in=pks)] *)
Definition filter_pks (pks : list nat) (qs : list Content) : list Content :=
  List.filter (fun c => mem (c_pk c) pks) qs.

(** The loop of [get_list] over [bottom_model_qs]: the object of the first
    version of each series not yet in [series_ids]. *)
Fixpoint first_per_series (series_ids : list nat) (l : list Version) : list nat :=
  match l with
  | [] => []
  | v :: l' =>
      if mem (v_series v) series_ids then first_per_series series_ids l'
      else v_object_id v :: first_per_series (v_series v :: series_ids) l'
  end.

Section QuerySet.
  Context (ct : nat).

  (** [Version.objects.filter(content_type__pk=model_type.id, state=st)] *)
Definition versions_in_state (vs : list Version) (st : State) : list Version :=
    List.filter (fun v => (v_content_type v =? ct) && state_eqb (v_state v) st) vs.

  (** [get_list] *)
Definition get_list (db : DB) (qs : list Content) : list Content :=
    let model_qs := versions_in_state (db_versions db) STATE in
    let model_pks := map v_object_id model_qs in
    let model_series := map v_series model_qs in
    let next_model_qs :=
      List.filter (fun v => negb (mem (v_series v) model_series))
        (versions_in_state (db_versions db) NEXT_STATE) in
    let next_model_pks := map v_object_id next_model_qs in
    let next_model_series := map v_series next_model_qs in
    let bottom_model_qs :=
      List.filter (fun v => negb (mem (v_series v) (model_series ++ next_model_series)))
        (versions_in_state (db_versions db) BOTTOM_STATE) in
    let bottom_model_pks := first_per_series [] bottom_model_qs in
    exclude_deleted (filter_pks (model_pks ++ next_model_pks ++ bottom_model_pks) qs).

  (** [get_console_queryset] *)
Definition get_console_queryset (db : DB) (qs : list Content) : list Content :=
    let model_pks :=
      map v_object_id (List.filter (fun v => v_content_type v =? ct) (db_versions db)) in
    exclude_deleted (filter_pks model_pks qs).

  (** [permitted], with [settings.STAGING] as [staging] *)
Definition permitted (staging : bool) (db : DB) (qs : list Content) : list Content :=
    let model_pks := map v_object_id (versions_in_state (db_versions db) (SITE_STATE staging)) in
    exclude_deleted (filter_pks model_pks qs).

  (** ** The specification: the object a series shows *)

Definition series_in_state (vs : list Version) (s : nat) (st : State) : list Version :=
    List.filter (fun v => (v_series v =? s) && ((v_content_type v =? ct) && state_eqb (v_state v) st)) vs.

Definition resolve (vs : list Version) (s : nat) : option nat :=
    match series_in_state vs s STATE_PUBLISHED, series_in_state vs s STATE_STAGED,
          series_in_state vs s STATE_UNPUBLISHED with
    | p :: _, _, _ => Some (v_object_id p)
    | [], st :: _, _ => Some (v_object_id st)
    | [], [], u :: _ => Some (v_object_id u)
    | [], [], [] => None
    end.
End QuerySet.

(** ** The loop over [bottom_model_qs] *)

(** What the loop emits is the object of the first version of a series
    not yet seen. *)
Lemma first_per_series_sound seen l p :
  In p (first_per_series seen l) ->
  exists w, In w l /\ v_object_id w = p /\ ~ In (v_series w) seen /\
    find (fun v => v_series v =? v_series w) l = Some w.
Proof.
  revert seen. induction l as [|v l IH]; simpl; intros seen Hp; [destruct Hp|].
  destruct (mem (v_series v) seen) eqn:Hm.
  - destruct (IH seen Hp) as (w & Hw & Hwp & Hws & Hf). exists w.
    split; [right; exact Hw|split; [exact Hwp|split; [exact Hws|]]].
    apply mem_In in Hm. destruct (Nat.eqb_spec (v_series v) (v_series w)); [congruence|exact Hf].
  - apply mem_false in Hm. destruct Hp as [<-|Hp].
    + exists v. rewrite Nat.eqb_refl. auto.
    + destruct (IH _ Hp) as (w & Hw & Hwp & Hws & Hf). exists w.
      split; [right; exact Hw|split; [exact Hwp|split; [simpl in Hws; tauto|]]].
      destruct (Nat.eqb_spec (v_series v) (v_series w)); [simpl in Hws; tauto|exact Hf].
Qed.

(** ... and it emits the first version of every series not yet seen. *)
Lemma first_per_series_complete seen l w :
  find (fun v => v_series v =? v_series w) l = Some w -> ~ In (v_series w) seen ->
  In (v_object_id w) (first_per_series seen l).
Proof.
  revert seen. induction l as [|v l IH]; simpl; intros seen Hf Hs; [discriminate|].
  destruct (Nat.eqb_spec (v_series v) (v_series w)) as [Heq|Hne].
  - injection Hf as ->. replace (mem (v_series w) seen) with false
      by (symmetry; apply mem_false; exact Hs). left. reflexivity.
  - destruct (mem (v_series v) seen); [exact (IH seen Hf Hs)|].
    right. apply IH; [exact Hf|]. simpl. intros [H|H]; [congruence|exact (Hs H)].
Qed.

(** ** The three tiers of [get_list], named *)

Section Tiers.
  Context (ct : nat).

Definition model_qs (vs : list Version) := versions_in_state ct vs STATE.
Definition model_series (vs : list Version) := map v_series (model_qs vs).
Definition next_model_qs (vs : list Version) :=
    List.filter (fun v => negb (mem (v_series v) (model_series vs)))
      (versions_in_state ct vs NEXT_STATE).
Definition bottom_model_qs (vs : list Version) :=
    List.filter (fun v => negb (mem (v_series v) (model_series vs ++ map v_series (next_model_qs vs))))
      (versions_in_state ct vs BOTTOM_STATE).
Definition tier_pks (vs : list Version) :=
    map v_object_id (model_qs vs) ++ map v_object_id (next_model_qs vs) ++
    first_per_series [] (bottom_model_qs vs).

Lemma get_list_tiers db qs :
    get_list ct db qs = exclude_deleted (filter_pks (tier_pks (db_versions db)) qs).
  Proof. reflexivity. Qed.

Lemma in_versions_in_state vs st v :
    In v (versions_in_state ct vs st) <-> In v vs /\ v_content_type v = ct /\ v_state v = st.
  Proof.
    unfold versions_in_state. rewrite filter_In, andb_true_iff, Nat.eqb_eq, state_eqb_true. tauto.
  Qed.

Lemma in_series_in_state vs s st v :
    In v (series_in_state ct vs s st) <->
    In v vs /\ v_series v = s /\ v_content_type v = ct /\ v_state v = st.
  Proof.
    unfold series_in_state. rewrite filter_In, !andb_true_iff, !Nat.eqb_eq, state_eqb_true. tauto.
  Qed.

Lemma series_in_state_nil vs s st :
    series_in_state ct vs s st = [] ->
    forall v, In v vs -> v_series v = s -> v_content_type v = ct -> v_state v = st -> False.
  Proof.
    intros Hnil v Hv Hs Hct Hst. assert (Hin : In v (series_in_state ct vs s st))
      by (apply in_series_in_state; auto). rewrite Hnil in Hin. exact Hin.
  Qed.

  (** Under the invariant, the one holder of an exclusive state heads the
      list of its series' versions in that state. *)
Lemma series_in_state_head db s st w :
    wf db -> exclusive st = true -> In w (series_in_state ct (db_versions db) s st) ->
    exists rest, series_in_state ct (db_versions db) s st = w :: rest.
  Proof.
    intros (Hnd & _ & _ & Hinv) Hex Hw.
    pose proof (proj1 (in_series_in_state _ _ _ _) Hw) as (Hw' & Hws & _ & Hwst).
    destruct (series_in_state ct (db_versions db) s st) as [|q rest] eqn:E; [destruct Hw|].
    exists rest. f_equal.
    assert (Hq : In q (series_in_state ct (db_versions db) s st)) by (rewrite E; left; reflexivity).
    apply in_series_in_state in Hq as (Hq & Hqs & _ & Hqst).
    apply (NoDup_map_inv_in v_pk _ _ _ Hnd Hq Hw'). apply Hinv; auto; congruence.
  Qed.

  (** For a series kept by the tier filters, [bottom_model_qs] lists the
      series' UNPUBLISHED versions in table order. *)
Lemma bottom_model_qs_series vs s :
    ~ In s (model_series vs ++ map v_series (next_model_qs vs)) ->
    List.filter (fun v => v_series v =? s) (bottom_model_qs vs) =
    series_in_state ct vs s STATE_UNPUBLISHED.
  Proof.
    intros Hs. unfold bottom_model_qs, series_in_state, versions_in_state.
    revert Hs. generalize (model_series vs ++ map v_series (next_model_qs vs)) as excl.
    intros excl Hs. induction vs as [|v vs IH]; [reflexivity|]. simpl.
    destruct ((v_content_type v =? ct) && state_eqb (v_state v) BOTTOM_STATE) eqn:Hb; simpl;
      unfold BOTTOM_STATE in Hb; rewrite Hb; [|rewrite andb_false_r; exact IH].
    destruct (v_series v =? s) eqn:Hvs; simpl.
    - apply Nat.eqb_eq in Hvs. subst s.
      replace (mem (v_series v) excl) with false by (symmetry; apply mem_false; exact Hs).
      simpl. rewrite Nat.eqb_refl. f_equal. exact IH.
    - destruct (mem (v_series v) excl); simpl; [|rewrite Hvs]; exact IH.
  Qed.

Lemma find_filter_head {A} (p : A -> bool) l w :
    (exists rest, List.filter p l = w :: rest) -> find p l = Some w.
  Proof.
    intros [rest H]. induction l as [|x l IH]; simpl in *; [discriminate|].
    destruct (p x); [congruence|exact (IH H)].
  Qed.

Lemma filter_head_find {A} (p : A -> bool) l w :
    find p l = Some w -> exists rest, List.filter p l = w :: rest.
  Proof.
    induction l as [|x l IH]; simpl; [discriminate|].
    destruct (p x); [intros [= <-]; eauto|exact IH].
  Qed.
End Tiers.

Section Refinement.
  Context (ct : nat).

Lemma model_series_nil vs s :
    series_in_state ct vs s STATE_PUBLISHED = [] -> ~ In s (model_series ct vs).
  Proof.
    intros Hnil Hin. apply in_map_iff in Hin as [w [<- Hw]].
    apply in_versions_in_state in Hw as (Hw & Hct & Hst).
    exact (series_in_state_nil ct vs _ _ Hnil w Hw eq_refl Hct Hst).
  Qed.

Lemma model_series_not_in vs s :
    ~ In s (model_series ct vs) -> series_in_state ct vs s STATE_PUBLISHED = [].
  Proof.
    intros Hs. destruct (series_in_state ct vs s STATE_PUBLISHED) as [|q rest] eqn:E; [reflexivity|].
    exfalso. apply Hs. assert (Hq : In q (series_in_state ct vs s STATE_PUBLISHED)) by (rewrite E; left; reflexivity).
    apply in_series_in_state in Hq as (Hq & <- & Hct & Hst). apply in_map, in_versions_in_state. auto.
  Qed.

Lemma next_series_nil vs s :
    series_in_state ct vs s STATE_STAGED = [] -> ~ In s (map v_series (next_model_qs ct vs)).
  Proof.
    intros Hnil Hin. apply in_map_iff in Hin as [w [<- Hw]]. apply filter_In in Hw as [Hw _].
    apply in_versions_in_state in Hw as (Hw & Hct & Hst).
    exact (series_in_state_nil ct vs _ _ Hnil w Hw eq_refl Hct Hst).
  Qed.

Lemma next_series_not_in vs s :
    ~ In s (model_series ct vs) -> ~ In s (map v_series (next_model_qs ct vs)) ->
    series_in_state ct vs s STATE_STAGED = [].
  Proof.
    intros Hm Hn. destruct (series_in_state ct vs s STATE_STAGED) as [|q rest] eqn:E; [reflexivity|].
    exfalso. apply Hn. assert (Hq : In q (series_in_state ct vs s STATE_STAGED)) by (rewrite E; left; reflexivity).
    apply in_series_in_state in Hq as (Hq & <- & Hct & Hst). apply in_map, filter_In. split.
    - apply in_versions_in_state. auto.
    - apply negb_true_iff, mem_false. exact Hm.
  Qed.

Lemma resolve_some vs s p :
    resolve ct vs s = Some p ->
    exists u, In u vs /\ v_series u = s /\ v_content_type u = ct /\ v_object_id u = p /\
      v_state u <> STATE_DELETED.
  Proof.
    unfold resolve. intros H.
    destruct (series_in_state ct vs s STATE_PUBLISHED) as [|q r] eqn:E1;
    [destruct (series_in_state ct vs s STATE_STAGED) as [|q r] eqn:E2;
     [destruct (series_in_state ct vs s STATE_UNPUBLISHED) as [|q r] eqn:E3; [discriminate|]|]|];
    injection H as <-; exists q;
    [assert (Hq : In q (series_in_state ct vs s STATE_UNPUBLISHED)) by (rewrite E3; left; reflexivity)
    |assert (Hq : In q (series_in_state ct vs s STATE_STAGED)) by (rewrite E2; left; reflexivity)
    |assert (Hq : In q (series_in_state ct vs s STATE_PUBLISHED)) by (rewrite E1; left; reflexivity)];
    apply in_series_in_state in Hq as (Hq & Hs & Hct & Hst); rewrite Hst; repeat split; auto; discriminate.
  Qed.

  (** The keys [get_list] selects are the objects [resolve] picks. *)
Lemma tier_pks_resolve db p :
    wf db -> (In p (tier_pks ct (db_versions db)) <-> exists s, resolve ct (db_versions db) s = Some p).
  Proof.
    intros Hwf. split.
    - unfold tier_pks. intros Hp. apply in_app_or in Hp as [Hp|Hp]; [|apply in_app_or in Hp as [Hp|Hp]].
      + apply in_map_iff in Hp as [w [<- Hw]]. exists (v_series w).
        apply in_versions_in_state in Hw as (Hw & Hct & Hst).
        destruct (series_in_state_head ct db (v_series w) STATE_PUBLISHED w Hwf eq_refl) as [rest E];
          [apply in_series_in_state; auto|].
        unfold resolve. rewrite E. reflexivity.
      + apply in_map_iff in Hp as [w [<- Hw]]. exists (v_series w).
        apply filter_In in Hw as [Hw Hm]. apply negb_true_iff, mem_false in Hm.
        apply in_versions_in_state in Hw as (Hw & Hct & Hst).
        destruct (series_in_state_head ct db (v_series w) STATE_STAGED w Hwf eq_refl) as [rest E];
          [apply in_series_in_state; auto|].
        unfold resolve. rewrite (model_series_not_in _ _ Hm), E. reflexivity.
      + apply first_per_series_sound in Hp as (w & Hw & <- & _ & Hf). exists (v_series w).
        apply filter_In in Hw as [_ Hm]. apply negb_true_iff, mem_false in Hm.
        assert (Hm1 : ~ In (v_series w) (model_series ct (db_versions db))) by (rewrite in_app_iff in Hm; tauto).
        assert (Hm2 : ~ In (v_series w) (map v_series (next_model_qs ct (db_versions db))))
          by (rewrite in_app_iff in Hm; tauto).
        unfold resolve. rewrite (model_series_not_in _ _ Hm1), (next_series_not_in _ _ Hm1 Hm2).
        rewrite <- (bottom_model_qs_series ct _ _ Hm).
        apply filter_head_find in Hf as [rest E]. rewrite E. reflexivity.
    - intros [s Hs]. unfold resolve in Hs. unfold tier_pks. rewrite !in_app_iff.
      destruct (series_in_state ct (db_versions db) s STATE_PUBLISHED) as [|q r] eqn:E1.
      2:{ injection Hs as <-. left. apply in_map.
          assert (Hq : In q (series_in_state ct (db_versions db) s STATE_PUBLISHED)) by (rewrite E1; left; reflexivity).
          apply in_series_in_state in Hq as (Hq & _ & Hct & Hst). apply in_versions_in_state. auto. }
      destruct (series_in_state ct (db_versions db) s STATE_STAGED) as [|q r] eqn:E2.
      2:{ injection Hs as <-. right. left. apply in_map.
          assert (Hq : In q (series_in_state ct (db_versions db) s STATE_STAGED)) by (rewrite E2; left; reflexivity).
          apply in_series_in_state in Hq as (Hq & Hqs & Hct & Hst). apply filter_In. split.
          - apply in_versions_in_state. auto.
          - apply negb_true_iff, mem_false. rewrite Hqs. exact (model_series_nil _ _ E1). }
      destruct (series_in_state ct (db_versions db) s STATE_UNPUBLISHED) as [|q r] eqn:E3; [discriminate|].
      injection Hs as <-. right. right.
      assert (Hq : In q (series_in_state ct (db_versions db) s STATE_UNPUBLISHED)) by (rewrite E3; left; reflexivity).
      apply in_series_in_state in Hq as (_ & Hqs & _ & _).
      assert (Hx : ~ In s (model_series ct (db_versions db) ++ map v_series (next_model_qs ct (db_versions db))))
        by (rewrite in_app_iff; intros [H|H]; [exact (model_series_nil _ _ E1 H)|exact (next_series_nil _ _ E2 H)]).
      rewrite <- (bottom_model_qs_series ct _ _ Hx) in E3.
      apply first_per_series_complete; [|intros []]. rewrite Hqs. apply find_filter_head. eauto.
  Qed.
End Refinement.

(** Each object of the model has at most one version: what [add_version]
    being called once per object gives. *)
Definition object_versions_unique (ct : nat) (vs : list Version) : Prop :=
  forall v1 v2, In v1 vs -> In v2 vs -> v_content_type v1 = ct -> v_content_type v2 = ct ->
    v_object_id v1 = v_object_id v2 -> v1 = v2.

Lemma resolve_version_of ct db s c v :
  object_versions_unique ct (db_versions db) ->
  resolve ct (db_versions db) s = Some (c_pk c) ->
  In v (db_versions db) -> version_of ct (c_pk c) v = true ->
  v_series v = s /\ v_state v <> STATE_DELETED.
Proof.
  intros Huniq Hs Hv Hof. apply resolve_some in Hs as (u & Hu & Hus & Huct & Huo & Hust).
  unfold version_of in Hof. apply andb_prop in Hof as [Hct Ho]. apply Nat.eqb_eq in Hct, Ho.
  assert (u = v) as -> by (apply Huniq; auto; congruence). auto.
Qed.

Definition example_qs : list Content := [about_v1; about_v2].

(** C6: [get_list] refines the resolution of the spec: a row of the query
    set is listed exactly when it is not DELETED and is the object its
    series shows (the PUBLISHED version's, else the STAGED version's, else
    the first UNPUBLISHED version's). *)
Theorem get_list_refines ct db qs c :
  wf db ->
  In c (get_list ct db qs) <->
  In c qs /\ c_state c <> STATE_DELETED /\ exists s, resolve ct (db_versions db) s = Some (c_pk c).
Proof.
  intros Hwf. rewrite get_list_tiers. unfold exclude_deleted, filter_pks.
  rewrite !filter_In, negb_true_iff, state_eqb_false, mem_In, (tier_pks_resolve ct db (c_pk c) Hwf).
  tauto.
Qed.

Lemma get_list_refines_witness :
  wf example_db /\
  (In about_v1 (get_list 7 example_db example_qs) <->
   In about_v1 example_qs /\ c_state about_v1 <> STATE_DELETED /\
   exists s, resolve 7 (db_versions example_db) s = Some (c_pk about_v1)).
Proof.
  assert (H : wf example_db) by (apply wf_b_sound; vm_compute; reflexivity).
  split; [exact H|]. exact (get_list_refines 7 example_db example_qs about_v1 H).
Defined.

(** [get_list] never lists two objects of one series (spec, section
    8), when each object has one version. *)
Theorem get_list_one_per_series ct db qs c1 c2 v1 v2 :
  wf db -> object_versions_unique ct (db_versions db) -> NoDup (map c_pk qs) ->
  In c1 (get_list ct db qs) -> In c2 (get_list ct db qs) ->
  In v1 (db_versions db) -> version_of ct (c_pk c1) v1 = true ->
  In v2 (db_versions db) -> version_of ct (c_pk c2) v2 = true ->
  v_series v1 = v_series v2 -> c1 = c2.
Proof.
  intros Hwf Huniq Hnd H1 H2 Hv1 Hof1 Hv2 Hof2 Hs.
  apply (get_list_refines ct db qs c1 Hwf) in H1 as (Hc1 & _ & s1 & Hs1).
  apply (get_list_refines ct db qs c2 Hwf) in H2 as (Hc2 & _ & s2 & Hs2).
  destruct (resolve_version_of ct db s1 c1 v1 Huniq Hs1 Hv1 Hof1) as [<- _].
  destruct (resolve_version_of ct db s2 c2 v2 Huniq Hs2 Hv2 Hof2) as [<- _].
  rewrite Hs in Hs1. rewrite Hs1 in Hs2. injection Hs2 as Hpk.
  exact (NoDup_map_inv_in c_pk _ _ _ Hnd Hc1 Hc2 Hpk).
Qed.

Lemma get_list_one_per_series_witness :
  about_v1 = about_v1.
Proof.
  apply (get_list_one_per_series 7 example_db example_qs about_v1 about_v1
           (mkVersion 1 7 10 1 1 STATE_PUBLISHED) (mkVersion 1 7 10 1 1 STATE_PUBLISHED)).
  - apply wf_b_sound. vm_compute. reflexivity.
  - intros v1 v2 [<-|[<-|[]]] [<-|[<-|[]]]; simpl; intros; congruence.
  - simpl. apply (bool_decide_eq_true_1 (NoDup [10; 11])). vm_compute. reflexivity.
  - vm_compute. left. reflexivity.
  - vm_compute. left. reflexivity.
  - simpl. left. reflexivity.
  - reflexivity.
  - simpl. left. reflexivity.
  - reflexivity.
  - reflexivity.
Defined.

(** An object whose version is DELETED is not listed by [get_list],
    even if it was published before, and neither is a DELETED row. *)
Theorem get_list_excludes_deleted ct db qs c v :
  wf db -> object_versions_unique ct (db_versions db) ->
  In v (db_versions db) -> version_of ct (c_pk c) v = true ->
  (v_state v = STATE_DELETED \/ c_state c = STATE_DELETED) ->
  ~ In c (get_list ct db qs).
Proof.
  intros Hwf Huniq Hv Hof Hdel Hin.
  apply (get_list_refines ct db qs c Hwf) in Hin as (_ & Hst & s & Hs).
  destruct (resolve_version_of ct db s c v Huniq Hs Hv Hof) as [_ Hvst]. tauto.
Qed.

Lemma get_list_excludes_deleted_witness :
  let db := final (delete_version 7 (content_model_save 300) 10) example_db in
  ~ In (content_model_save 300 (set_c_state STATE_DELETED about_v1)) (get_list 7 db example_qs).
Proof.
  intros db. apply (get_list_excludes_deleted 7 db example_qs _ (mkVersion 1 7 10 1 1 STATE_DELETED)).
  - apply wf_b_sound. vm_compute. reflexivity.
  - intros v1 v2 H1 H2. vm_compute in H1, H2.
    destruct H1 as [<-|[<-|[]]], H2 as [<-|[<-|[]]]; simpl; intros; congruence.
  - vm_compute. left. reflexivity.
  - vm_compute. reflexivity.
  - left. reflexivity.
Defined.

(** [permitted] lists the rows of the query set that are not DELETED
    and whose version is in [SITE_STATE]: STAGED in a staging deployment,
    PUBLISHED otherwise. *)
Theorem permitted_selects_site_state ct staging db qs c :
  In c (permitted ct staging db qs) <->
  In c qs /\ c_state c <> STATE_DELETED /\
  exists v, In v (db_versions db) /\ v_content_type v = ct /\ v_object_id v = c_pk c /\
    v_state v = (if staging then STATE_STAGED else STATE_PUBLISHED).
Proof.
  unfold permitted, exclude_deleted, filter_pks.
  rewrite !filter_In, negb_true_iff, state_eqb_false, mem_In, in_map_iff.
  split.
  - intros [[Hc [v [Ho Hv]]] Hst]. apply in_versions_in_state in Hv as (Hv & Hct & Hvs).
    split; [exact Hc|split; [exact Hst|]]. exists v. unfold SITE_STATE in Hvs. auto.
  - intros (Hc & Hst & v & Hv & Hct & Ho & Hvs). split; [split; [exact Hc|]|exact Hst].
    exists v. split; [exact Ho|]. apply in_versions_in_state. unfold SITE_STATE. auto.
Qed.
