(* ===== verification/Publish.v ===== *)
(** * Periodic publishing: the two [publish_objects] methods of
    [core/managers.py] and the task of [core/tasks.py]

    [VersionManager.publish_objects] scans the versions that are not
    PUBLISHED; a version whose series has no PUBLISHED version and whose
    content row's [publish_at] has passed gets its content row saved as
    PUBLISHED, and after the scan one bulk update sets all these versions
    to PUBLISHED.  The test that the series has no PUBLISHED version reads
    the table before the bulk update, so two due versions of one series are
    both published; and DELETED versions are scanned too.
    [CoreStateManager.publish_objects] is one bulk update of the content
    rows of a model.

    Python 2 compares [None <= datetime] as true, so a version whose content
    has no [publish_at] is due ([py2_le]); the SQL filter
    [publish_at__lte] of the other method never selects a NULL
    ([sql_le]). *)

From S2P Require Import Prelude Constants Store Versioning Query.

(** [obj.content_object.publish_at <= timezone.now()] in Python 2. *)
Definition py2_le (t : option Z) (now : Z) : bool :=
  match t with
  | None => true
  | Some t => (t <=? now)%Z
  end.

(** [publish_at__lte=now] in SQL: NULL is never selected. *)
Definition sql_le (t : option Z) (now : Z) : bool :=
  match t with
  | None => false
  | Some t => (t <=? now)%Z
  end.

(** [obj.series.versions.filter(state=STATE_PUBLISHED).exists()] *)
Definition series_has_published (db : DB) (s : nat) : bool :=
  existsb (in_series_state s STATE_PUBLISHED) (db_versions db).

(** The rows [self.exclude(state=constants.STATE_PUBLISHED)] yields. *)
Definition unpublished_versions (vs : list Version) : list Version :=
  List.filter (fun v => negb (state_eqb (v_state v) STATE_PUBLISHED)) vs.

Section VersionPublish.
  Context (save : Content -> Content) (now : Z).

  (** One iteration of the loop: [obj.series] raises [DoesNotExist] on a
      dangling series key; [obj.content_object.publish_at] an
      [AttributeError] on a dangling generic key.  The result says whether
      [obj.pk] is appended to [to_publish_ids]. *)
Definition publish_candidate (obj : Version) : M DB bool :=
    db <- mget ;;
    if negb (existsb (pk_is (v_series obj)) (db_series db)) then mraise DoesNotExist
    else if series_has_published db (v_series obj) then mret false
    else match content_object db obj with
         | None => mraise AttributeError
         | Some c =>
             if py2_le (c_publish_at c) now then
               mmodify (write_content (save (set_c_state STATE_PUBLISHED c))) ;;
               mret true
             else mret false
         end.

  (** [for obj in queryset: ...] *)
Fixpoint publish_loop (qs : list Version) : M DB (list nat) :=
    match qs with
    | [] => mret []
    | obj :: qs' =>
        b <- publish_candidate obj ;;
        ids <- publish_loop qs' ;;
        mret (if b then v_pk obj :: ids else ids)
    end.

  (** [VersionManager.publish_objects] *)
Definition version_publish_objects : M DB unit :=
    db <- mget ;;
    to_publish_ids <- publish_loop (unpublished_versions (db_versions db)) ;;
    mmodify (fun db =>
      with_versions (update_where (fun v => mem (v_pk v) to_publish_ids)
                       (set_v_state STATE_PUBLISHED) (db_versions db)) db).
End VersionPublish.

(** What the scan decides for a version, read on the table as it was
    when the scan started: no PUBLISHED version in its series, and a due
    content row. *)
Definition due (now : Z) (db : DB) (v : Version) : bool :=
  match content_object db v with
  | Some c => py2_le (c_publish_at c) now
  | None => false
  end.

Definition publishable (now : Z) (db : DB) (v : Version) : bool :=
  negb (series_has_published db (v_series v)) && due now db v.

(** A version the scan publishes: not PUBLISHED, and publishable. *)
Definition selected (now : Z) (db : DB) (v : Version) : bool :=
  negb (state_eqb (v_state v) STATE_PUBLISHED) && publishable now db v.

(** The [Version] table after the bulk update. *)
Definition publish_selected (now : Z) (db : DB) (vs : list Version) : list Version :=
  map (fun w => if selected now db w then set_v_state STATE_PUBLISHED w else w) vs.

(** The generic key of a version. *)
Definition gkey (v : Version) : nat * nat := (v_content_type v, v_object_id v).

(** [tasks.publish_objects]: [Version.objects.publish_objects()] run at
    time [now]; the content rows are [ContentModel]s. *)
Definition publish_objects (now : Z) : M DB unit :=
  version_publish_objects (content_model_save now) now.

(** The filters of [CoreStateManager.publish_objects] on one row of the
    model's table, in the order the query applies them. *)
Definition publish_row_due (ct : nat) (staging : bool) (now : Z) (db : DB) (c : Content) : bool :=
  mem (c_pk c) (map v_object_id (versions_in_state ct (db_versions db) (SITE_STATE staging))) &&
  (negb (state_eqb (c_state c) STATE_DELETED) &&
   (sql_le (c_publish_at c) now && negb (state_eqb (c_state c) STATE_PUBLISHED))).

(** [CoreStateManager.publish_objects] on the manager of the model with
    content type [ct]: [permitted()], then [publish_at__lte=now], then
    [exclude(state=PUBLISHED)], then one [update(state=PUBLISHED)] (an SQL
    UPDATE: no [save()] runs). *)
Definition state_publish_objects (ct : nat) (staging : bool) (now : Z) : M DB unit :=
  db <- mget ;;
  let queryset :=
    List.filter (fun c => negb (state_eqb (c_state c) STATE_PUBLISHED))
      (List.filter (fun c => sql_le (c_publish_at c) now) (permitted ct staging db (model_rows ct db))) in
  let pks := map c_pk queryset in
  mmodify (fun db =>
    with_content (update_where (fun c => (c_content_type c =? ct) && mem (c_pk c) pks)
                    (set_c_state STATE_PUBLISHED) (db_content db)) db).

(** What the scan needs to run to its end, as a test that computes:
    distinct generic keys, and for each scanned version its series and its
    content row. *)
Definition scan_ready_b (db : DB) (qs : list Version) : bool :=
  bool_decide (NoDup (map gkey qs)) &&
  forallb (fun w => existsb (pk_is (v_series w)) (db_series db) &&
                    bool_decide (is_Some (content_object db w))) qs.

(** ** One iteration, and the loop *)

Lemma content_object_with_versions l db v :
  content_object (with_versions l db) v = content_object db v.
Proof. reflexivity. Qed.


Section Scan.
  Context (save : Content -> Content) (now : Z).
  Hypothesis save_keys :
    forall c, c_content_type (save c) = c_content_type c /\ c_pk (save c) = c_pk c.

Lemma publish_candidate_run obj db c :
    existsb (pk_is (v_series obj)) (db_series db) = true -> content_object db obj = Some c ->
    publish_candidate save now obj db =
      if publishable now db obj
      then (Ok true, write_content (save (set_c_state STATE_PUBLISHED c)) db)
      else (Ok false, db).
  Proof.
    intros Hs Hc. unfold publish_candidate, publishable, due, mbind, mget, mret, mmodify.
    rewrite Hs, Hc. simpl. destruct (series_has_published db (v_series obj)); [reflexivity|].
    simpl. destruct (py2_le (c_publish_at c) now); reflexivity.
  Qed.

  (** Saving the content row of [obj] leaves the rows of other keys. *)
Lemma write_saved_other obj c db w st :
    content_object db obj = Some c -> gkey w <> gkey obj ->
    content_object (write_content (save (set_c_state st c)) db) w = content_object db w.
  Proof.
    intros Hc Hne. apply content_object_write_other.
    apply find_some in Hc as [_ Hc]. unfold same_content in Hc.
    apply andb_prop in Hc as [H1 H2]. apply Nat.eqb_eq in H1, H2.
    destruct (save_keys (set_c_state st c)) as [-> ->]. simpl. rewrite H1, H2.
    intros Heq. apply Hne. unfold gkey. congruence.
  Qed.

Lemma write_saved_same obj c db st :
    content_object db obj = Some c ->
    content_object (write_content (save (set_c_state st c)) db) obj = Some (save (set_c_state st c)).
  Proof.
    intros Hc. apply content_object_write_same; [rewrite Hc; eexists; reflexivity|].
    apply find_some in Hc as [_ Hc]. unfold same_content in *.
    destruct (save_keys (set_c_state st c)) as [-> ->]. exact Hc.
  Qed.

  (** Scanning [qs]: the loop appends exactly the keys of the versions it
      finds publishable, writes their content rows as PUBLISHED and nothing
      else, and does not touch the [Version] or [VersionSeries] tables. *)
Definition scan_ready (db : DB) (qs : list Version) : Prop :=
    NoDup (map gkey qs) /\
    forall w, In w qs ->
      existsb (pk_is (v_series w)) (db_series db) = true /\ is_Some (content_object db w).

Definition scan_result (qs : list Version) (db db' : DB) : Prop :=
    db_versions db' = db_versions db /\ db_series db' = db_series db /\
    (forall w, (forall x, In x qs -> publishable now db x = true -> gkey x <> gkey w) ->
       content_object db' w = content_object db w) /\
    (forall x c, In x qs -> publishable now db x = true -> content_object db x = Some c ->
       content_object db' x = Some (save (set_c_state STATE_PUBLISHED c))).

  (** What the first iteration leaves for the rest of the scan. *)
Lemma scan_step obj qs db c :
    scan_ready db (obj :: qs) -> content_object db obj = Some c ->
    let db1 := if publishable now db obj
               then write_content (save (set_c_state STATE_PUBLISHED c)) db else db in
    publish_candidate save now obj db = (Ok (publishable now db obj), db1) /\
    db_versions db1 = db_versions db /\ db_series db1 = db_series db /\
    (forall w, gkey w <> gkey obj -> content_object db1 w = content_object db w) /\
    (forall w, In w qs -> publishable now db1 w = publishable now db w) /\
    scan_ready db1 qs.
  Proof.
    intros [Hnd Hr] Hc db1. simpl in Hnd. apply NoDup_cons in Hnd as [Hnot Hnd].
    destruct (Hr obj (or_introl eq_refl)) as [Hs _].
    assert (Hv : db_versions db1 = db_versions db /\ db_series db1 = db_series db)
      by (unfold db1; destruct (publishable now db obj); auto).
    assert (Ho : forall w, gkey w <> gkey obj -> content_object db1 w = content_object db w)
      by (intros w Hw; unfold db1; destruct (publishable now db obj);
          [apply (write_saved_other obj c)|]; auto).
    assert (Hq : forall w, In w qs -> gkey w <> gkey obj).
    { intros w Hw Heq. apply Hnot, list_elem_of_In. rewrite <- Heq. apply in_map, Hw. }
    split; [rewrite (publish_candidate_run obj db c Hs Hc); unfold db1;
            destruct (publishable now db obj); reflexivity|].
    split; [tauto|split; [tauto|split; [exact Ho|split]]].
    - intros w Hw. unfold publishable, due, series_has_published.
      rewrite (proj1 Hv), (Ho w (Hq w Hw)). reflexivity.
    - split; [exact Hnd|]. intros w Hw. rewrite (proj2 Hv), (Ho w (Hq w Hw)).
      apply Hr. right. exact Hw.
  Qed.

Lemma publish_loop_run qs db :
    scan_ready db qs ->
    exists db', publish_loop save now qs db =
                  (Ok (map v_pk (List.filter (publishable now db) qs)), db') /\
                scan_result qs db db'.
  Proof.
    revert db. induction qs as [|obj qs IH]; intros db Hready.
    { exists db. split; [reflexivity|]. split; [reflexivity|split; [reflexivity|split]]; [intros; reflexivity|intros x c []]. }
    destruct (proj2 Hready obj (or_introl eq_refl)) as [_ [c Hc]].
    destruct (scan_step obj qs db c Hready Hc) as (Hstep & Hv & Hs & Ho & Hp & Hr1).
    set (db1 := if publishable now db obj
                then write_content (save (set_c_state STATE_PUBLISHED c)) db else db) in *.
    destruct (IH db1 Hr1) as (db' & Hrun & Hv' & Hs' & Ho' & Hw').
    assert (Hf : List.filter (publishable now db1) qs = List.filter (publishable now db) qs)
      by (apply filter_ext_in; exact Hp).
    assert (Hnot : forall x, In x qs -> gkey x <> gkey obj).
    { intros x Hx Heq. destruct Hready as [Hnd _]. simpl in Hnd. apply NoDup_cons in Hnd as [Hn _].
      apply Hn, list_elem_of_In. rewrite <- Heq. apply in_map, Hx. }
    exists db'. split.
    { cbn [publish_loop]. unfold mbind at 1. rewrite Hstep. unfold mbind. rewrite Hrun, Hf.
      simpl. destruct (publishable now db obj); reflexivity. }
    split; [congruence|split; [congruence|split]].
    - intros w Hw. rewrite Ho'.
      + unfold db1. destruct (publishable now db obj) eqn:E; [|reflexivity].
        apply (write_saved_other obj c); [exact Hc|].
        intros Heq. exact (Hw obj (or_introl eq_refl) E (eq_sym Heq)).
      + intros x Hx. rewrite Hp by exact Hx. apply Hw. right. exact Hx.
    - intros x c' [<-|Hx] Hpx Hcx.
      + rewrite Ho'; [|intros y Hy _; exact (Hnot y Hy)].
        unfold db1. rewrite Hpx. rewrite Hc in Hcx. injection Hcx as <-.
        apply write_saved_same. exact Hc.
      + apply Hw'; [exact Hx|rewrite Hp; assumption|].
        rewrite Ho; [exact Hcx|exact (Hnot x Hx)].
  Qed.

Lemma in_scanned now' db vs x :
    In x (List.filter (publishable now' db) (unpublished_versions vs)) <->
    In x vs /\ selected now' db x = true.
  Proof.
    unfold unpublished_versions, selected. rewrite !filter_In, andb_true_iff. tauto.
  Qed.

  (** [pk__in=to_publish_ids] selects the scanned versions, keys being
      unique. *)
Lemma mem_scanned db vs w :
    NoDup (map v_pk vs) -> In w vs ->
    mem (v_pk w) (map v_pk (List.filter (publishable now db) (unpublished_versions vs))) =
    selected now db w.
  Proof.
    intros Hnd Hw. unfold unpublished_versions. rewrite filter_filter_andb.
    exact (mem_map_filter v_pk _ vs w Hnd Hw).
  Qed.

  (** [VersionManager.publish_objects] when every scanned version has its
      series and its content row: it returns, publishes exactly the
      [selected] versions, saves their content rows as PUBLISHED and leaves
      every other row. *)
Lemma version_publish_objects_run db :
    NoDup (map v_pk (db_versions db)) -> scan_ready db (unpublished_versions (db_versions db)) ->
    exists db', version_publish_objects save now db = (Ok tt, db') /\
      db_versions db' = publish_selected now db (db_versions db) /\
      db_series db' = db_series db /\
      (forall w, (forall x, In x (db_versions db) -> selected now db x = true -> gkey x <> gkey w) ->
         content_object db' w = content_object db w) /\
      (forall x c, In x (db_versions db) -> selected now db x = true -> content_object db x = Some c ->
         content_object db' x = Some (save (set_c_state STATE_PUBLISHED c))).
  Proof.
    intros Hnd Hready. destruct (publish_loop_run _ _ Hready) as (db' & Hrun & Hv & Hs & Ho & Hw).
    eexists. split; [unfold version_publish_objects, mbind, mget, mmodify; rewrite Hrun; reflexivity|].
    split; [|split; [exact Hs|split]]; rewrite ?content_object_with_versions.
    - simpl. rewrite Hv. unfold publish_selected. apply map_ext_in. intros w Hin.
      rewrite (mem_scanned db _ w Hnd Hin). reflexivity.
    - intros w Hw'. apply Ho. intros x Hx Hp. apply filter_In in Hx as [Hx Hu].
      apply (Hw' x Hx). unfold selected. rewrite Hu, Hp. reflexivity.
    - intros x c Hx Hsel Hc. unfold selected in Hsel. apply andb_prop in Hsel as [Hu Hp].
      apply Hw; [apply filter_In; auto|exact Hp|exact Hc].
  Qed.

  (** After the bulk update, the versions left to scan are the scanned
      ones that were not selected. *)
Lemma unpublished_publish_selected db vs :
    unpublished_versions (publish_selected now db vs) =
    List.filter (fun u => negb (selected now db u)) (unpublished_versions vs).
  Proof.
    induction vs as [|a vs IH]; [reflexivity|]. unfold unpublished_versions in *.
    unfold publish_selected in *. simpl. destruct (selected now db a) eqn:E.
    - pose proof E as Hu. unfold selected in Hu. apply andb_prop in Hu as [Hu _].
      simpl. rewrite Hu. simpl. rewrite E. exact IH.
    - destruct (negb (state_eqb (v_state a) STATE_PUBLISHED)); simpl; rewrite ?E; simpl; congruence.
  Qed.

  (** The bulk update only raises states to PUBLISHED. *)
Lemma series_published_after db vs s :
    existsb (in_series_state s STATE_PUBLISHED) vs = true ->
    existsb (in_series_state s STATE_PUBLISHED) (publish_selected now db vs) = true.
  Proof.
    intros (w & Hw & Hs)%existsb_exists. apply existsb_exists.
    exists (if selected now db w then set_v_state STATE_PUBLISHED w else w).
    split; [unfold publish_selected; apply (in_map (fun w => if selected now db w then set_v_state STATE_PUBLISHED w else w) _ _ Hw)|]. destruct (selected now db w); [|exact Hs].
    unfold in_series_state in *. apply andb_prop in Hs as [Hs _]. simpl. rewrite Hs, state_eqb_refl. reflexivity.
  Qed.

  (** A scan that finds nothing publishable changes nothing. *)
Lemma publish_loop_none qs db :
    (forall w, In w qs ->
       existsb (pk_is (v_series w)) (db_series db) = true /\ is_Some (content_object db w)) ->
    (forall w, In w qs -> publishable now db w = false) ->
    publish_loop save now qs db = (Ok [], db).
  Proof.
    induction qs as [|obj qs IH]; intros Hr Hp; [reflexivity|].
    destruct (Hr obj (or_introl eq_refl)) as [Hs [c Hc]].
    cbn [publish_loop]. unfold mbind at 1. rewrite (publish_candidate_run obj db c Hs Hc).
    rewrite (Hp obj (or_introl eq_refl)). unfold mbind. rewrite IH; [reflexivity| |]; intros w Hw.
    - apply Hr. right. exact Hw.
    - apply Hp. right. exact Hw.
  Qed.

  (** A version the scan leaves keeps its content row. *)
Lemma unselected_content db db' u :
    scan_ready db (unpublished_versions (db_versions db)) ->
    (forall w, (forall x, In x (db_versions db) -> selected now db x = true -> gkey x <> gkey w) ->
       content_object db' w = content_object db w) ->
    In u (unpublished_versions (db_versions db)) -> selected now db u = false ->
    content_object db' u = content_object db u.
  Proof.
    intros [Hnd _] Ho Hu Hsel. apply Ho. intros x Hx Hx' Heq.
    assert (Hxu : In x (unpublished_versions (db_versions db))).
    { apply filter_In. split; [exact Hx|]. unfold selected in Hx'. apply andb_prop in Hx'. tauto. }
    rewrite (NoDup_map_inv_in gkey _ x u Hnd Hxu Hu Heq) in Hx'. congruence.
  Qed.

  (** A second run right after a run that returned finds nothing to do. *)
Lemma version_publish_objects_idem db db' :
    NoDup (map v_pk (db_versions db)) -> scan_ready db (unpublished_versions (db_versions db)) ->
    version_publish_objects save now db = (Ok tt, db') ->
    version_publish_objects save now db' = (Ok tt, db').
  Proof.
    intros Hnd Hready Hrun.
    destruct (version_publish_objects_run db Hnd Hready) as (db'' & Hrun' & Hv & Hs & Ho & _).
    rewrite Hrun in Hrun'. injection Hrun' as <-.
    assert (Hleft : forall u, In u (unpublished_versions (db_versions db')) ->
              In u (unpublished_versions (db_versions db)) /\ selected now db u = false).
    { intros u Hu. rewrite Hv, unpublished_publish_selected in Hu. apply filter_In in Hu as [Hu Hs'].
      split; [exact Hu|]. destruct (selected now db u); [discriminate|reflexivity]. }
    unfold version_publish_objects, mbind, mget, mmodify.
    rewrite publish_loop_none.
    - simpl. rewrite update_where_none by (intros; reflexivity). destruct db'; reflexivity.
    - intros u Hu. destruct (Hleft u Hu) as [Hu0 Hsel].
      rewrite Hs, (unselected_content db db' u Hready Ho Hu0 Hsel). apply (proj2 Hready u Hu0).
    - intros u Hu. destruct (Hleft u Hu) as [Hu0 Hsel].
      unfold publishable, due, series_has_published.
      rewrite (unselected_content db db' u Hready Ho Hu0 Hsel), Hv.
      unfold selected, publishable, due, series_has_published in Hsel.
      apply filter_In in Hu0 as [_ Hnp]. rewrite Hnp in Hsel. simpl in Hsel.
      destruct (existsb (in_series_state (v_series u) STATE_PUBLISHED) (db_versions db)) eqn:E.
      + rewrite (series_published_after db _ _ E). reflexivity.
      + simpl in Hsel. rewrite Hsel. apply andb_false_r.
  Qed.
End Scan.

Lemma scan_ready_b_sound db qs : scan_ready_b db qs = true -> scan_ready db qs.
Proof.
  unfold scan_ready_b. intros [Hnd Hall]%andb_prop. split; [exact (bool_decide_eq_true_1 _ Hnd)|].
  intros w Hw. pose proof (proj1 (forallb_forall _ _) Hall w Hw) as Hw'.
  apply andb_prop in Hw' as [Hs Hc]. split; [exact Hs|exact (bool_decide_eq_true_1 _ Hc)].
Qed.

Lemma publish_objects_run now db :
  NoDup (map v_pk (db_versions db)) -> scan_ready db (unpublished_versions (db_versions db)) ->
  exists db', publish_objects now db = (Ok tt, db') /\
    db_versions db' = publish_selected now db (db_versions db) /\
    db_series db' = db_series db /\
    (forall w, (forall x, In x (db_versions db) -> selected now db x = true -> gkey x <> gkey w) ->
       content_object db' w = content_object db w) /\
    (forall x c, In x (db_versions db) -> selected now db x = true -> content_object db x = Some c ->
       content_object db' x = Some (content_model_save now (set_c_state STATE_PUBLISHED c))).
Proof. apply version_publish_objects_run. intros c. apply content_model_save_keys. Qed.


(** The [about] series after [delete_version] of its PUBLISHED object 10:
    version 1 DELETED (its content has [publish_at] 100), version 2
    UNPUBLISHED without a [publish_at]. *)
Definition deleted_db : DB := final (delete_version 7 (content_model_save 200) 10) example_db.

(** ** What the periodic task does *)





(** The task is idempotent (spec, section 6): run again right after a
    run that returned, at the same time, it returns and changes nothing. *)
Theorem publish_objects_idempotent now db db' :
  NoDup (map v_pk (db_versions db)) -> scan_ready db (unpublished_versions (db_versions db)) ->
  publish_objects now db = (Ok tt, db') -> publish_objects now db' = (Ok tt, db').
Proof. apply version_publish_objects_idem. intros c. apply content_model_save_keys. Qed.

Lemma publish_objects_idempotent_witness :
  publish_objects 300 deleted_db = (Ok tt, final (publish_objects 300) deleted_db) /\
  publish_objects 300 (final (publish_objects 300) deleted_db) =
    (Ok tt, final (publish_objects 300) deleted_db).
Proof.
  assert (H : publish_objects 300 deleted_db = (Ok tt, final (publish_objects 300) deleted_db))
    by (vm_compute; reflexivity).
  split; [exact H|]. apply (publish_objects_idempotent 300 deleted_db); [| |exact H].
  - apply (bool_decide_eq_true_1 (NoDup _)). vm_compute. reflexivity.
  - apply scan_ready_b_sound. vm_compute. reflexivity.
Defined.

(** A series that has a PUBLISHED version when the task starts is left
    as it was: none of its versions changes. *)
Theorem publish_objects_keeps_published_series now db s :
  NoDup (map v_pk (db_versions db)) -> scan_ready db (unpublished_versions (db_versions db)) ->
  series_has_published db s = true ->
  List.filter (fun v => v_series v =? s) (db_versions (final (publish_objects now) db)) =
  List.filter (fun v => v_series v =? s) (db_versions db).
Proof.
  intros Hnd Hr Hs. destruct (publish_objects_run now db Hnd Hr) as (db' & Hrun & Hv & _).
  unfold final. rewrite Hrun. simpl. rewrite Hv. apply filter_map_fixed.
  intros w _. destruct (selected now db w) eqn:E; [|auto].
  split; [reflexivity|]. intros Hw%Nat.eqb_eq. exfalso. subst s.
  unfold selected, publishable in E. rewrite Hs in E. rewrite andb_false_r in E. discriminate.
Qed.

Lemma publish_objects_keeps_published_series_witness :
  List.filter (fun v => v_series v =? 1) (db_versions (final (publish_objects 300) example_db)) =
  List.filter (fun v => v_series v =? 1) (db_versions example_db).
Proof.
  apply publish_objects_keeps_published_series.
  - apply (bool_decide_eq_true_1 (NoDup _)). vm_compute. reflexivity.
  - apply scan_ready_b_sound. vm_compute. reflexivity.
  - vm_compute. reflexivity.
Defined.

(** ** [CoreStateManager.publish_objects] *)

(** C8: [CoreStateManager.publish_objects] sets to PUBLISHED exactly the
    rows of its model whose version is in the deployment's site state,
    that are neither DELETED nor PUBLISHED and whose [publish_at] is set
    and has passed (a NULL [publish_at] is never selected); it changes
    nothing else, the [Version] table included. *)
Theorem state_publish_objects_publishes_due ct staging now db :
  NoDup (map c_pk (model_rows ct db)) ->
  final (state_publish_objects ct staging now) db =
  with_content (map (fun c => if (c_content_type c =? ct) && publish_row_due ct staging now db c
                              then set_c_state STATE_PUBLISHED c else c) (db_content db)) db.
Proof.
  intros Hnd. unfold final, state_publish_objects, mbind, mget, mmodify. simpl. f_equal.
  unfold update_where. apply map_ext_in. intros c Hc.
  destruct (Nat.eqb_spec (c_content_type c) ct) as [Hct|]; [|reflexivity]. simpl.
  unfold permitted, exclude_deleted, filter_pks, model_rows in *. rewrite !filter_filter_andb.
  rewrite <- (filter_filter_andb (fun c => c_content_type c =? ct) (publish_row_due ct staging now db)).
  rewrite (mem_map_filter c_pk _ _ c Hnd) by (apply filter_In; rewrite Hct, Nat.eqb_refl; auto).
  reflexivity.
Qed.

Lemma state_publish_objects_publishes_due_witness :
  final (state_publish_objects 7 false 300) example_db =
  with_content (map (fun c => if (c_content_type c =? 7) && publish_row_due 7 false 300 example_db c
                              then set_c_state STATE_PUBLISHED c else c) (db_content example_db))
    example_db.
Proof.
  apply state_publish_objects_publishes_due.
  apply (bool_decide_eq_true_1 (NoDup _)). vm_compute. reflexivity.
Defined.
