(* ===== verification/Throttling.v ===== *)
(** * Session throttling: [core/throttling.py]

    [request.session] is a map from keys to values; a throttle key holds
    the list of the attempts' timestamps, oldest first.  A timestamp is a
    [datetime] in microseconds since the epoch (UTC); the session keeps it
    as the string [strftime('%Y-%m-%d %H:%M:%S')], which [check_throttle]
    parses back with [parse_datetime] and [make_aware(..., utc)].  That
    string is a whole number of seconds, and the model stores the number
    ([fmt]): the format is a bijection between such strings and whole
    seconds, so storing the number is storing the string.

    The theorems: the attempt lists stay in order when attempts are
    recorded in time order, and then [check_throttle] answers whether at
    least [num_allowed_in_lockout] attempts lie in the lockout window;
    with [num_allowed_in_lockout = 0] it reads the oldest attempt instead,
    and on a key never recorded it raises [KeyError]. *)

From S2P Require Import Prelude.
From stdpp Require Import gmap.
From Stdlib Require Import Sorting.Sorted.

Definition session := gmap string (list Z).

(** [timestamp.strftime('%Y-%m-%d %H:%M:%S')]: the whole seconds. *)
Definition fmt (ts : Z) : Z := ts / 1000000.

(** [add_to_throttle(request, throttle_key, timestamp)] *)
Definition add_to_throttle (throttle_key : string) (timestamp : Z) (s : session) : session :=
  match s !! throttle_key with
  | Some old_session => <[throttle_key := old_session ++ [fmt timestamp]]> s
  | None => <[throttle_key := [fmt timestamp]]> s
  end.

(** [check_throttle_exists(request, throttle_key)] *)
Definition check_throttle_exists (throttle_key : string) (s : session) : bool :=
  bool_decide (is_Some (s !! throttle_key)).

(** [oldest_timestamp > timezone.now() - lockout_duration], the stored
    seconds read back as a [datetime]. *)
Definition in_window (lockout_duration now : Z) (t : Z) : bool :=
  (now - lockout_duration <? t * 1000000)%Z.

(** [check_throttle]: [session[key]] raises [KeyError] when the key is
    missing (not caught); the [IndexError] of a list too short is. *)
Definition check_throttle (s : session) (throttle_key : string)
    (lockout_duration num_allowed_in_lockout now : Z) : exc bool :=
  match s !! throttle_key with
  | None => Raise KeyError
  | Some l =>
      match py_index l (- num_allowed_in_lockout) with
      | Ok oldest_timestamp => Ok (in_window lockout_duration now oldest_timestamp)
      | Raise IndexError => Ok false
      | Raise e => Raise e
      end
  end.

(** The attempts of a list that lie in the lockout window. *)
Definition recent_count (lockout_duration now : Z) (l : list Z) : nat :=
  length (List.filter (in_window lockout_duration now) l).

(** Recording the attempts [ts] in turn. *)
Fixpoint record (throttle_key : string) (ts : list Z) (s : session) : session :=
  match ts with
  | [] => s
  | t :: ts' => record throttle_key ts' (add_to_throttle throttle_key t s)
  end.

(** Timestamps in order, as a test that computes. *)
Fixpoint ordered (l : list Z) : bool :=
  match l with
  | x :: ((y :: _) as l') => (x <=? y)%Z && ordered l'
  | _ => true
  end.

(** ** The window holds a suffix of an ordered attempt list *)

Lemma in_window_mono lockout_duration now t t' :
  in_window lockout_duration now t = true -> (t <= t')%Z -> in_window lockout_duration now t' = true.
Proof. unfold in_window. intros H%Z.ltb_lt Hle. apply Z.ltb_lt. lia. Qed.

Lemma window_split lockout_duration now l :
  StronglySorted Z.le l ->
  exists l1 l2, l = l1 ++ l2 /\
    Forall (fun t => in_window lockout_duration now t = false) l1 /\
    Forall (fun t => in_window lockout_duration now t = true) l2.
Proof.
  induction 1 as [|x l Hs IH Hall]; [exists [], []; repeat constructor|].
  destruct (in_window lockout_duration now x) eqn:Hx.
  - exists [], (x :: l). split; [reflexivity|split; [constructor|]]. constructor; [exact Hx|].
    apply (Forall_impl _ _ _ Hall). intros y Hy. exact (in_window_mono _ _ x y Hx Hy).
  - destruct IH as (l1 & l2 & -> & H1 & H2). exists (x :: l1), l2. auto.
Qed.

Lemma filter_split {A} (p : A -> bool) l1 l2 :
  Forall (fun x => p x = false) l1 -> Forall (fun x => p x = true) l2 ->
  List.filter p (l1 ++ l2) = l2.
Proof.
  induction 1 as [|x l1 Hx _ IH]; simpl; intros H2; [|rewrite Hx; exact (IH H2)].
  induction H2 as [|y l2 Hy _ IH2]; simpl; [reflexivity|]. rewrite Hy, IH2. reflexivity.
Qed.

(** [check_throttle] on an ordered attempt list, [num_allowed_in_lockout]
    at least 1: [True] exactly when at least that many attempts lie in the
    window. *)
Lemma check_throttle_count s throttle_key l lockout_duration num now :
  s !! throttle_key = Some l -> StronglySorted Z.le l -> (1 <= num)%Z ->
  check_throttle s throttle_key lockout_duration num now =
    Ok (num <=? Z.of_nat (recent_count lockout_duration now l))%Z.
Proof.
  intros Hs Hsort Hn. unfold check_throttle, recent_count. rewrite Hs, (py_index_neg l num Hn).
  destruct (window_split lockout_duration now l Hsort) as (l1 & l2 & -> & H1 & H2).
  rewrite (filter_split _ l1 l2 H1 H2), length_app.
  destruct (Z.leb_spec num (Z.of_nat (length l1 + length l2))) as [Hle|Hgt]; [|f_equal; symmetry; apply Z.leb_gt; lia].
  destruct (Nat.ltb_spec (length l1 + length l2 - Z.to_nat num) (length l1)) as [Hlt|Hge].
  - rewrite nth_error_app1 by exact Hlt.
    destruct (nth_error l1 _) as [x|] eqn:Hx; [|apply nth_error_None in Hx; lia].
    apply nth_error_In in Hx. rewrite (proj1 (List.Forall_forall _ _) H1 x Hx).
    f_equal. symmetry. apply Z.leb_gt. lia.
  - rewrite nth_error_app2 by exact Hge.
    destruct (nth_error l2 _) as [x|] eqn:Hx; [|apply nth_error_None in Hx; lia].
    apply nth_error_In in Hx. rewrite (proj1 (List.Forall_forall _ _) H2 x Hx).
    f_equal. symmetry. apply Z.leb_le. lia.
Qed.

(** ** Recording attempts *)

Lemma add_to_throttle_lookup throttle_key t s :
  add_to_throttle throttle_key t s !! throttle_key =
    Some (default [] (s !! throttle_key) ++ [fmt t]).
Proof. unfold add_to_throttle. destruct (s !! throttle_key); apply lookup_insert_eq. Qed.

Lemma record_lookup throttle_key ts s :
  ts <> [] -> record throttle_key ts s !! throttle_key =
                Some (default [] (s !! throttle_key) ++ map fmt ts).
Proof.
  revert s. induction ts as [|t ts IH]; intros s Hne; [congruence|]. simpl.
  destruct ts as [|t' ts'].
  - simpl. apply add_to_throttle_lookup.
  - rewrite IH by discriminate. rewrite add_to_throttle_lookup. simpl. rewrite <- app_assoc. reflexivity.
Qed.

Lemma fmt_mono t t' : (t <= t')%Z -> (fmt t <= fmt t')%Z.
Proof. intros H. apply Z.div_le_mono; lia. Qed.

Lemma sorted_map_fmt ts : StronglySorted Z.le ts -> StronglySorted Z.le (map fmt ts).
Proof.
  induction 1 as [|t ts _ IH Hall]; simpl; constructor; [exact IH|].
  apply Forall_map. apply (Forall_impl _ _ _ Hall). intros y. apply fmt_mono.
Qed.

Lemma ordered_sorted l : ordered l = true -> StronglySorted Z.le l.
Proof.
  intros H. apply Sorted_StronglySorted; [intros x y z; lia|].
  induction l as [|x [|y l] IH]; [constructor|repeat constructor|].
  simpl in H. apply andb_prop in H as [Hxy Hl]. constructor; [exact (IH Hl)|].
  constructor. apply Z.leb_le, Hxy.
Qed.

(** ** What [check_throttle] answers *)

(** after the attempts [ts] are recorded in time order under a fresh
    key, [check_throttle] with [num_allowed_in_lockout >= 1] is [True]
    exactly when at least [num_allowed_in_lockout] of the recorded
    attempts (at the second [strftime] keeps) lie in the lockout window. *)
Theorem check_throttle_recent throttle_key ts s lockout_duration num now :
  s !! throttle_key = None -> ts <> [] -> ordered ts = true -> (1 <= num)%Z ->
  check_throttle (record throttle_key ts s) throttle_key lockout_duration num now =
    Ok (num <=? Z.of_nat (recent_count lockout_duration now (map fmt ts)))%Z.
Proof.
  intros Hs Hne Hord Hn. apply check_throttle_count; [|apply sorted_map_fmt, ordered_sorted, Hord|exact Hn].
  rewrite (record_lookup _ _ _ Hne), Hs. reflexivity.
Qed.

Lemma check_throttle_recent_witness :
  check_throttle (record "login" [100000000; 200000000; 300000000]%Z ∅) "login" 150000000 2 320000000
    = Ok true.
Proof.
  rewrite (check_throttle_recent "login" [100000000; 200000000; 300000000]%Z ∅ 150000000 2 320000000);
    [vm_compute; reflexivity|reflexivity|discriminate|vm_compute; reflexivity|lia].
Defined.

(** C36: [l[-0]] is [l[0]]: with [num_allowed_in_lockout = 0] the oldest
    attempt is read, so an attempt list whose oldest attempt lies outside
    the window is reported as not throttled, however many attempts follow
    it. *)
Theorem check_throttle_zero_reads_oldest s throttle_key t0 l lockout_duration now :
  s !! throttle_key = Some (t0 :: l) -> in_window lockout_duration now t0 = false ->
  check_throttle s throttle_key lockout_duration 0 now = Ok false.
Proof. intros Hs Ht. unfold check_throttle. rewrite Hs. simpl. rewrite Ht. reflexivity. Qed.

Lemma check_throttle_zero_reads_oldest_witness :
  let s := record "login" [100000000; 300000000; 310000000; 315000000]%Z ∅ in
  check_throttle s "login" 150000000 0 320000000 = Ok false.
Proof.
  intros s. apply (check_throttle_zero_reads_oldest s "login" 100 [300; 310; 315]%Z);
    vm_compute; reflexivity.
Defined.

(** C35: a lockout always ends: once the key has been written, there is a
    time after which [check_throttle] answers [False] for every number of
    allowed attempts, as long as no attempt is added. *)
Theorem check_throttle_eventually_unlocks s throttle_key lockout_duration num_allowed_in_lockout l :
  s !! throttle_key = Some l ->
  exists T, forall now, (T <= now)%Z ->
    check_throttle s throttle_key lockout_duration num_allowed_in_lockout now = Ok false.
Proof.
  intros Hs. exists (lockout_duration + fold_right Z.max 0 l * 1000000)%Z. intros now Hnow.
  unfold check_throttle. rewrite Hs.
  destruct (py_index_cases l (- num_allowed_in_lockout)) as [(x & -> & Hin)| ->]; [|reflexivity].
  unfold in_window. pose proof (fold_max_ge l x Hin). f_equal. apply Z.ltb_ge. lia.
Qed.

Lemma check_throttle_eventually_unlocks_witness :
  let s := record "login" [100000000; 300000000; 310000000]%Z ∅ in
  s !! "login" = Some (map fmt [100000000; 300000000; 310000000]%Z) /\
  exists T, forall now, (T <= now)%Z -> check_throttle s "login" 150000000 2 now = Ok false.
Proof.
  intros s. assert (H : s !! "login" = Some (map fmt [100000000; 300000000; 310000000]%Z))
    by (vm_compute; reflexivity).
  split; [exact H|]. exact (check_throttle_eventually_unlocks s "login" 150000000 2 _ H).
Defined.
