(* ===== verification/Lookups.v ===== *)
(** * Single-object lookups: [core/utils.py] and [core/templatetags/core_widgets.py]

    [get_object_for_current_site_or_404], [get_permitted_object_or_404] and
    [get_permitted_object_for_current_site_or_404] chain the query sets of
    [Query] and end in [QuerySet.get]; a [DoesNotExist] becomes [Http404],
    a [MultipleObjectsReturned] propagates.  The inclusion tags of
    [core_widgets] ([content_block_widget], [content_block_plain],
    [gallery_widget], [image_bannerset_widget], [html_bannerset_widget])
    make the same lookup by slug and put [None] in the context when nothing
    is found.  The keyword arguments of [get] are a predicate [p] on rows;
    the site is the current site's id and [staging] is
    [settings.STAGING]. *)

From S2P Require Import Prelude Constants Store Versioning Query Publish.

(** [except queryset.model.DoesNotExist: raise http.Http404(...)] *)
Definition or_404 {A} (r : exc A) : exc A :=
  match r with
  | Raise DoesNotExist => Raise Http404
  | r => r
  end.

(** [except Model.DoesNotExist: content = None] *)
Definition or_none {A} (r : exc A) : exc (option A) :=
  match r with
  | Ok x => Ok (Some x)
  | Raise DoesNotExist => Ok None
  | Raise e => Raise e
  end.

Section Lookups.
  Context (ct : nat) (staging : bool) (site : nat).

  (** [get_object_for_current_site_or_404(klass, **kwargs)] *)
Definition get_object_for_current_site_or_404 (p : Content -> bool) (db : DB) : exc Content :=
    or_404 (qs_get p (for_current_site site (model_rows ct db))).

  (** [get_permitted_object_or_404(klass, **kwargs)] *)
Definition get_permitted_object_or_404 (p : Content -> bool) (db : DB) : exc Content :=
    or_404 (qs_get p (permitted ct staging db (model_rows ct db))).

  (** [get_permitted_object_for_current_site_or_404(klass, **kwargs)] *)
Definition get_permitted_object_for_current_site_or_404 (p : Content -> bool) (db : DB) : exc Content :=
    or_404 (qs_get p (for_current_site site (permitted ct staging db (model_rows ct db)))).

  (** [get(slug=slug)] *)
Definition slug_is (slug : string) (c : Content) : bool := String.eqb (c_slug c) slug.

  (** The lookup of the inclusion tags, and the two context entries they
      add: the object found (or [None]) and the slug. *)
Definition slug_widget (slug : string) (db : DB) : exc (option Content * string) :=
    match or_none (qs_get (slug_is slug)
                     (for_current_site site (permitted ct staging db (model_rows ct db)))) with
    | Ok content => Ok (content, slug)
    | Raise e => Raise e
    end.

  (** A row a visitor of the current site may see: a row of the model
      whose version is in the deployment's site state, not DELETED, on the
      current site. *)
Definition visible (db : DB) (c : Content) : bool :=
    (c_content_type c =? ct) &&
    mem (c_pk c) (map v_object_id (versions_in_state ct (db_versions db) (SITE_STATE staging))) &&
    negb (state_eqb (c_state c) STATE_DELETED) && on_site site c.
End Lookups.

(** The five inclusion tags, each on its model's content type. *)
Definition content_block_widget (ct_block : nat) := slug_widget ct_block.
Definition content_block_plain (ct_block : nat) := slug_widget ct_block.
Definition gallery_widget (ct_gallery : nat) := slug_widget ct_gallery.
Definition image_bannerset_widget (ct_bannerset : nat) := slug_widget ct_bannerset.
Definition html_bannerset_widget (ct_bannerset : nat) := slug_widget ct_bannerset.

(** ** The chained query sets are one filter *)

Lemma site_permitted_filter ct staging site p db :
  List.filter p (for_current_site site (permitted ct staging db (model_rows ct db))) =
  List.filter (fun c => visible ct staging site db c && p c) (db_content db).
Proof.
  unfold for_current_site, permitted, exclude_deleted, filter_pks, model_rows.
  rewrite !filter_filter_andb. apply filter_ext. intros c. unfold visible. rewrite !andb_assoc. reflexivity.
Qed.

(** [get_permitted_object_for_current_site_or_404] returns the one
    row a visitor of the current site may see that matches the lookup,
    raises [Http404] when there is none and [MultipleObjectsReturned] when
    there are several. *)
Theorem get_permitted_object_for_current_site_or_404_spec ct staging site p db :
  get_permitted_object_for_current_site_or_404 ct staging site p db =
  match List.filter (fun c => visible ct staging site db c && p c) (db_content db) with
  | [c] => Ok c
  | [] => Raise Http404
  | _ :: _ :: _ => Raise MultipleObjectsReturned
  end.
Proof.
  unfold get_permitted_object_for_current_site_or_404, qs_get. rewrite site_permitted_filter.
  destruct (List.filter _ (db_content db)) as [|x [|y t]]; reflexivity.
Qed.

(** The inclusion tags make the same lookup by slug but put [None] in
    the context where the helper raises [Http404]; several visible rows
    with the slug still raise [MultipleObjectsReturned]. *)
Theorem slug_widget_spec ct staging site slug db :
  slug_widget ct staging site slug db =
  match List.filter (fun c => visible ct staging site db c && slug_is slug c) (db_content db) with
  | [c] => Ok (Some c, slug)
  | [] => Ok (None, slug)
  | _ :: _ :: _ => Raise MultipleObjectsReturned
  end.
Proof.
  unfold slug_widget, qs_get. rewrite site_permitted_filter.
  destruct (List.filter _ (db_content db)) as [|x [|y t]]; reflexivity.
Qed.

(** Once the periodic task has published both versions of the [about]
    series, the content-block tag for the slug [about] raises. *)
Example content_block_widget_after_task :
  content_block_widget 7 false 1 "about" (final (publish_objects 300) deleted_db) =
  Raise MultipleObjectsReturned.
Proof. vm_compute. reflexivity. Qed.
