(* ===== verification/Tags.v ===== *)
(** * Breadcrumbs and template tags: [core/nodes.py], [core/utils.py]
    ([create_crumb]), [core/templatetags/core_tags.py] and
    [core/templatetags/core_widgets.py] ([breadcrumb_widget],
    [breadcrumb_url_widget])

    A template context is a map from variable names to the strings they
    render to; [Variable.resolve] raises [VariableDoesNotExist] on a name
    the context lacks.  A tag's token is the list of its bits
    ([token.split_contents()]), its name first.  A gallery's images are the
    list of their primary keys in the order [gallery.images.all()] returns
    them.

    The theorems: the breadcrumb HTML carries the title and the URL as they
    are, without escaping; [gallery_surrounding_image_pks] wraps around to
    the last image for the first one; [letterify] gives a capital letter
    only for [0 <= value < 26]. *)

From S2P Require Import Prelude.
From stdpp Require Import gmap.
From Stdlib Require Import Ascii.

Definition context := gmap string string.

(** The single and the double quote character. *)
Definition squote : ascii := ascii_of_nat 39.
Definition dquote : ascii := ascii_of_nat 34.

Definition is_digit_char (c : ascii) : bool :=
  (48 <=? nat_of_ascii c) && (nat_of_ascii c <=? 57).

(** A literal [Variable]: a number (digits only, here) renders as
    itself; a string between matching quotes renders as its inside. *)
Definition literal (var : string) : option string :=
  let l := String.list_ascii_of_string var in
  if negb (String.eqb var "") && forallb is_digit_char l then Some var
  else match l with
       | c :: rest =>
           match rev rest with
           | d :: mid =>
               if Ascii.eqb c d && (Ascii.eqb c squote || Ascii.eqb c dquote)
               then Some (String.string_of_list_ascii (rev mid)) else None
           | [] => None
           end
       | [] => None
       end.

(** [Variable(var).resolve(context)] *)
Definition resolve (ctx : context) (var : string) : exc string :=
  match literal var with
  | Some v => Ok v
  | None =>
      match ctx !! var with
      | Some v => Ok v
      | None => Raise VariableDoesNotExist
      end
  end.

(** [create_crumb(title, url=None)] *)
Definition create_crumb (title : string) (url : option string) : string :=
  let crumb := "&raquo;"%string in
  match url with
  | Some u =>
      if truthy u then String.append crumb (String.append "<a href='" (String.append u
                         (String.append "'>" (String.append title "</a>"))))
      else String.append crumb (String.append "&nbsp;" title)
  | None => String.append crumb (String.append "&nbsp;" title)
  end.

(** [s.find(c) == -1] *)
Fixpoint has_char (c : ascii) (s : string) : bool :=
  match s with
  | EmptyString => false
  | String d s' => Ascii.eqb c d || has_char c s'
  end.

Fixpoint lstrip_char (c : ascii) (s : string) : string :=
  match s with
  | String d s' => if Ascii.eqb c d then lstrip_char c s' else s
  | EmptyString => EmptyString
  end.

(** [s.strip(c)] *)
Definition strip_char (c : ascii) (s : string) : string :=
  String.string_of_list_ascii (rev (String.list_ascii_of_string
    (lstrip_char c (String.string_of_list_ascii (rev (String.list_ascii_of_string
      (lstrip_char c s))))))).

(** The title of a breadcrumb node: a variable resolved in the context
    (any exception gives [''] under the bare [except]), or a quoted
    literal with its quotes stripped. *)
Definition crumb_title (ctx : context) (title : string) : string :=
  if negb (has_char squote title) && negb (has_char dquote title) then
    match resolve ctx title with
    | Ok t => t
    | Raise _ => ""
    end
  else strip_char dquote (strip_char squote title).

(** [BreadcrumbNode.render]: [self.vars[0]] raises [IndexError] when the
    tag has no argument. *)
Definition breadcrumb_render (vars : list string) (ctx : context) : exc string :=
  match vars with
  | [] => Raise IndexError
  | title :: rest =>
      let url := match rest with
                 | [] => None
                 | u :: _ => match resolve ctx u with Ok v => Some v | Raise _ => None end
                 end in
      Ok (create_crumb (crumb_title ctx title) url)
  end.

(** [UrlBreadcrumbNode.render], with [url_node.render(context)] as
    [url_render]. *)
Definition url_breadcrumb_render (url_render : context -> exc string)
    (title : string) (ctx : context) : exc string :=
  match url_render ctx with
  | Ok url => Ok (create_crumb (crumb_title ctx title) (Some url))
  | Raise e => Raise e
  end.

(** The nodes the breadcrumb tags compile to. *)
Inductive crumb_node :=
| BreadcrumbNode (vars : list string)
| UrlBreadcrumbNode (title : string) (url_bits : list string).

(** [breadcrumb_widget(parser, token)] *)
Definition breadcrumb_widget (bits : list string) : crumb_node := BreadcrumbNode (tail bits).

(** [breadcrumb_url_widget(parser, token)]: [bits.pop(1)] takes the title;
    the rest is handed to Django's [url] tag. *)
Definition breadcrumb_url_widget (bits : list string) : exc crumb_node :=
  if length bits =? 2 then Ok (breadcrumb_widget bits)
  else match bits with
       | name :: title :: rest => Ok (UrlBreadcrumbNode title (name :: rest))
       | _ => Raise IndexError
       end.

(** [gallery_surrounding_image_pks(gallery, gallery_image_pk)]: the
    context entries it returns. *)
Record Surrounding := mkSurrounding {
  next_image_pk : option nat;
  previous_image_pk : option nat
}.

(** The index [enumerate] reaches first for the image. *)
Fixpoint index_of (pk : nat) (l : list nat) : option nat :=
  match l with
  | [] => None
  | x :: l' => if x =? pk then Some 0 else option_map S (index_of pk l')
  end.

(** [gallery_images[j].pk], with [except IndexError: pass]. *)
Definition pk_at (gallery_images : list nat) (j : Z) : option nat :=
  match py_index gallery_images j with
  | Ok pk => Some pk
  | Raise _ => None
  end.

Definition gallery_surrounding_image_pks (gallery_images : list nat) (gallery_image_pk : nat) : Surrounding :=
  match index_of gallery_image_pk gallery_images with
  | Some i => mkSurrounding (pk_at gallery_images (Z.of_nat i - 1)) (pk_at gallery_images (Z.of_nat i + 1))
  | None => mkSurrounding None None
  end.

(** [str(unichr(65 + value))]: [unichr] raises [ValueError] outside the
    code points (a wide build: up to [0x10FFFF]); [str] of a character
    that is not ASCII raises [UnicodeEncodeError]. *)
Definition letterify (value : Z) : exc ascii :=
  let n := (65 + value)%Z in
  if (n <? 0)%Z || (1114111 <? n)%Z then Raise ValueError
  else if (128 <=? n)%Z then Raise UnicodeEncodeError
  else Ok (ascii_of_nat (Z.to_nat n)).

(** ** Galleries *)

Lemma index_of_app pre x post :
  ~ In x pre -> index_of x (pre ++ x :: post) = Some (length pre).
Proof.
  induction pre as [|y pre IH]; simpl; intros Hx; [rewrite Nat.eqb_refl; reflexivity|].
  destruct (Nat.eqb_spec y x) as [->|_]; [tauto|]. rewrite IH by tauto. reflexivity.
Qed.

(** C37: for an image preceded by the images [pre] and followed by the
    images [post], [previous_image_pk] is the first of [post] and
    [next_image_pk] the last of [pre]; for the first image of the gallery
    [gallery_images[-1]] wraps around, and [next_image_pk] is the last
    image of the gallery (the image itself when it is the only one). *)
Theorem gallery_surrounding_image_pks_spec pre x post :
  ~ In x pre ->
  gallery_surrounding_image_pks (pre ++ x :: post) x =
  mkSurrounding (Some (List.last (match pre with [] => x :: post | _ :: _ => pre end) x)) (head post).
Proof.
  intros Hx. unfold gallery_surrounding_image_pks. rewrite (index_of_app _ _ _ Hx). f_equal.
  - unfold pk_at. destruct pre as [|y pre'].
    + rewrite (py_index_last _ x) by discriminate. reflexivity.
    + replace (Z.of_nat (length (y :: pre')) - 1)%Z with (Z.of_nat (length (y :: pre') - 1)) by (simpl; lia).
      rewrite py_index_nonneg, nth_error_app1 by (simpl; lia).
      rewrite (nth_error_last _ x) by discriminate. reflexivity.
  - unfold pk_at. replace (Z.of_nat (length pre) + 1)%Z with (Z.of_nat (S (length pre))) by lia.
    rewrite py_index_nonneg, nth_error_app2 by lia. rewrite Nat.sub_succ_l, Nat.sub_diag by lia.
    destruct post; reflexivity.
Qed.

Lemma gallery_surrounding_image_pks_spec_witness :
  gallery_surrounding_image_pks ([] ++ 3 :: [4; 5]) 3 = mkSurrounding (Some 5) (Some 4).
Proof. apply (gallery_surrounding_image_pks_spec [] 3 [4; 5]). simpl. tauto. Defined.

(** ** [letterify] *)

(** [letterify] returns the character of code [65 + value] exactly
    for [-65 <= value <= 62], raises [UnicodeEncodeError] for the other
    code points and [ValueError] beyond them. *)
Theorem letterify_bounds value :
  match letterify value with
  | Ok c => (-65 <= value <= 62)%Z /\ Z.of_nat (nat_of_ascii c) = (65 + value)%Z
  | Raise UnicodeEncodeError => (63 <= value <= 1114046)%Z
  | Raise ValueError => (value < -65 \/ 1114046 < value)%Z
  | Raise _ => False
  end.
Proof.
  unfold letterify.
  destruct (Z.ltb_spec (65 + value) 0); simpl; [lia|].
  destruct (Z.ltb_spec 1114111 (65 + value)); simpl; [lia|].
  destruct (Z.leb_spec 128 (65 + value)); [lia|]. split; [lia|].
  rewrite nat_ascii_embedding by lia. lia.
Qed.

(** Only [0 <= value < 26] gives a capital letter: [letterify 26] is
    ['['].  *)
Example letterify_past_z : letterify 25 = Ok "Z"%char /\ letterify 26 = Ok "["%char.
Proof. split; reflexivity. Qed.

(** ** Breadcrumbs *)

(** C38: a breadcrumb whose title and URL are context variables renders
    their values into the HTML as they are: neither is escaped, so a
    title or a URL holding markup or a quote ends up in the page as
    markup. *)
Theorem breadcrumb_render_unescaped ctx title_var url_var t u :
  has_char squote title_var = false -> has_char dquote title_var = false ->
  literal title_var = None -> literal url_var = None ->
  ctx !! title_var = Some t -> ctx !! url_var = Some u -> truthy u = true ->
  breadcrumb_render [title_var; url_var] ctx =
    Ok (String.append "&raquo;<a href='" (String.append u (String.append "'>"
          (String.append t "</a>")))).
Proof.
  intros Hq1 Hq2 Hl1 Hl2 Ht Hu Htr. unfold breadcrumb_render, crumb_title, resolve.
  rewrite Hq1, Hq2, Hl1, Hl2, Ht, Hu. simpl. rewrite Htr. reflexivity.
Qed.

Lemma breadcrumb_render_unescaped_witness :
  let ctx : context := <["title" := "<b>x</b>"]> (<["url" := "/a' onclick='f()"]> ∅) in
  breadcrumb_render ["title"; "url"] ctx =
    Ok "&raquo;<a href='/a' onclick='f()'><b>x</b></a>"%string.
Proof.
  intros ctx. rewrite (breadcrumb_render_unescaped ctx "title" "url" "<b>x</b>" "/a' onclick='f()");
    vm_compute; reflexivity.
Defined.
