(* ===== verification/QueryString.v ===== *)
(** * The [smart_query_string] tag: [core/templatetags/core_tags.py] and
    [SmartQueryStringNode] in [core/nodes.py]

    The tag's arguments come in pairs [key value]; the node renders the
    current [request.GET] with each pair's key set to its value, as
    ['?' + '&'.join('%s=%s' % (k, v) for k, v in q.items())].  [q] is a
    Python dict, modelled as a [gmap string string]: the order of
    [q.items()] is the dict's own, and the theorems do not depend on it.

    The next request reads the query string back into [request.GET]
    through [urlparse.parse_qsl(qs, keep_blank_values=True)] (Django's
    [QueryDict]); that parser is not part of the sources and is modelled
    from its Python 2.7 definition ([split_on], [split_once],
    [unquote_plus], [parse_qsl], [query_dict]).

    The theorems: rendering and parsing back gives the same dict when no
    key or value holds one of [& ; = + %]; the node does not quote, so a
    value holding [&] adds a parameter of its own; an odd number of tag
    arguments is a [ValueError] and rendering without any pair an
    [UnboundLocalError]. *)

From S2P Require Import Prelude Tags.
From stdpp Require Import gmap.
From Stdlib Require Import Ascii.

(** ** The tag and the node *)

(** [while additions: addition_pairs.append(additions[0:2]); additions = additions[2:]] *)
Fixpoint chunk2 (additions : list string) : list (list string) :=
  match additions with
  | [] => []
  | [a] => [[a]]
  | a :: b :: rest => [a; b] :: chunk2 rest
  end.

(** [Variable(key) if key else None] *)
Definition opt_var (s : string) : option string := if truthy s then Some s else None.

(** [SmartQueryStringNode.__init__]: [for key, value in addition_pairs]
    unpacks each pair, a [ValueError] for a pair of one. *)
Fixpoint init_pairs (addition_pairs : list (list string)) : exc (list (option string * option string)) :=
  match addition_pairs with
  | [] => Ok []
  | [key; value] :: rest =>
      match init_pairs rest with
      | Ok ps => Ok ((opt_var key, opt_var value) :: ps)
      | Raise e => Raise e
      end
  | _ :: _ => Raise ValueError
  end.

(** [smart_query_string(parser, token)], with the token's bits. *)
Definition smart_query_string (bits : list string) : exc (list (option string * option string)) :=
  init_pairs (chunk2 (tail bits)).

(** ['&'.join(['%s=%s' % (k, v) for k, v in q.items()])] *)
Definition encode (q : gmap string string) : string :=
  String.concat "&" (map (fun kv => String.append kv.1 (String.append "=" kv.2)) (map_to_list q)).

(** The loop of [render]: [qs] is assigned at the end of every
    iteration. *)
Fixpoint render_loop (ctx : context) (pairs : list (option string * option string))
    (q : gmap string string) (qs : option string) : exc (gmap string string * option string) :=
  match pairs with
  | [] => Ok (q, qs)
  | (key, value) :: rest =>
      match key with
      | Some k =>
          match resolve ctx k with
          | Raise e => Raise e
          | Ok k' =>
              match value with
              | Some v =>
                  match resolve ctx v with
                  | Raise e => Raise e
                  | Ok v' => let q' := <[k' := v']> q in render_loop ctx rest q' (Some (encode q'))
                  end
              | None => let q' := delete k' q in render_loop ctx rest q' (Some (encode q'))
              end
          end
      | None => render_loop ctx rest q (Some (encode q))
      end
  end.

(** [SmartQueryStringNode.render]: [request.GET] as [get]; [qs] is unbound
    when there is no pair. *)
Definition render (pairs : list (option string * option string)) (ctx : context)
    (get : gmap string string) : exc string :=
  match render_loop ctx pairs get None with
  | Raise e => Raise e
  | Ok (q, qs) =>
      if bool_decide (q = ∅) then Ok ""
      else match qs with
           | Some s => Ok (String.append "?" s)
           | None => Raise UnboundLocalError
           end
  end.

(** ** Reading a query string back: [urlparse.parse_qsl] and [QueryDict] *)

(** [s.split(sep)] *)
Fixpoint split_on (sep : ascii) (s : string) : list string :=
  match s with
  | EmptyString => [EmptyString]
  | String c s' =>
      if Ascii.eqb c sep then EmptyString :: split_on sep s'
      else match split_on sep s' with
           | x :: r => String c x :: r
           | [] => [String c EmptyString]
           end
  end.

(** [s.split(sep, 1)]: the part before the first [sep], and the rest
    after it when there is one. *)
Fixpoint split_once (sep : ascii) (s : string) : string * option string :=
  match s with
  | EmptyString => (EmptyString, None)
  | String c s' =>
      if Ascii.eqb c sep then (EmptyString, Some s')
      else let (a, b) := split_once sep s' in (String c a, b)
  end.

Definition hex_value (c : ascii) : option nat :=
  let n := nat_of_ascii c in
  if (48 <=? n) && (n <=? 57) then Some (n - 48)
  else if (97 <=? n) && (n <=? 102) then Some (n - 87)
  else if (65 <=? n) && (n <=? 70) then Some (n - 55)
  else None.

(** [urllib.unquote(s.replace('+', ' '))] *)
Fixpoint unquote_plus (s : string) : string :=
  match s with
  | EmptyString => EmptyString
  | String c s' =>
      if Ascii.eqb c "+" then String " " (unquote_plus s')
      else if Ascii.eqb c "%" then
        match s' with
        | String h1 (String h2 rest) =>
            match hex_value h1, hex_value h2 with
            | Some a, Some b => String (ascii_of_nat (16 * a + b)) (unquote_plus rest)
            | _, _ => String c (unquote_plus s')
            end
        | _ => String c (unquote_plus s')
        end
      else String c (unquote_plus s')
  end.

(** One [name=value] field, [keep_blank_values=True]. *)
Definition parse_field (nv : string) : option (string * string) :=
  if String.eqb nv "" then None
  else match split_once "=" nv with
       | (name, Some value) => Some (unquote_plus name, unquote_plus value)
       | (name, None) => Some (unquote_plus name, ""%string)
       end.

(** [urlparse.parse_qsl(qs, keep_blank_values=True)] *)
Definition parse_qsl (qs : string) : list (string * string) :=
  omap parse_field (List.concat (map (split_on ";") (split_on "&" qs))).

(** [request.GET] of a request with query string [qs]: [GET[k]] is the
    last value given for [k]. *)
Definition query_dict (qs : string) : gmap string string := list_to_map (rev (parse_qsl qs)).

(** What a key and a value may hold for the query string to read back as
    written. *)
Definition safe_key (s : string) : bool :=
  negb (has_char "&" s || has_char ";" s || has_char "=" s || has_char "+" s || has_char "%" s).
Definition safe_value (s : string) : bool :=
  negb (has_char "&" s || has_char ";" s || has_char "+" s || has_char "%" s).

(** ** Strings *)

Lemma has_char_app c a b : has_char c (String.append a b) = has_char c a || has_char c b.
Proof. induction a as [|d a IH]; simpl; [reflexivity|]. rewrite IH, orb_assoc. reflexivity. Qed.

Lemma split_on_nosep sep x : has_char sep x = false -> split_on sep x = [x].
Proof.
  induction x as [|c x IH]; simpl; [reflexivity|]. intros [H1 H2]%orb_false_elim.
  rewrite Ascii.eqb_sym, H1, IH by exact H2. reflexivity.
Qed.

Lemma split_on_app sep x y :
  has_char sep x = false -> split_on sep (String.append x (String sep y)) = x :: split_on sep y.
Proof.
  induction x as [|c x IH]; simpl; intros H; [rewrite Ascii.eqb_refl; reflexivity|].
  apply orb_false_elim in H as [H1 H2]. rewrite Ascii.eqb_sym, H1, IH by exact H2. reflexivity.
Qed.

Lemma split_on_concat sep xs :
  xs <> [] -> Forall (fun x => has_char sep x = false) xs ->
  split_on sep (String.concat (String sep EmptyString) xs) = xs.
Proof.
  induction xs as [|x [|y r] IH]; intros Hne Hall; [congruence| |].
  - apply Forall_cons in Hall as [Hx _]. simpl. apply split_on_nosep, Hx.
  - apply Forall_cons in Hall as [Hx Hr].
    change (String.concat (String sep EmptyString) (x :: y :: r)) with
      (String.append x (String sep (String.concat (String sep EmptyString) (y :: r)))).
    rewrite split_on_app by exact Hx. rewrite IH by (discriminate || exact Hr). reflexivity.
Qed.

Lemma split_once_app sep k v :
  has_char sep k = false -> split_once sep (String.append k (String sep v)) = (k, Some v).
Proof.
  induction k as [|c k IH]; simpl; intros H; [rewrite Ascii.eqb_refl; reflexivity|].
  apply orb_false_elim in H as [H1 H2]. rewrite Ascii.eqb_sym, H1, IH by exact H2. reflexivity.
Qed.

Lemma unquote_plus_id s : has_char "+" s = false -> has_char "%" s = false -> unquote_plus s = s.
Proof.
  induction s as [|c s IH]; cbn [unquote_plus has_char]; [reflexivity|].
  intros [H1 H2]%orb_false_elim [H3 H4]%orb_false_elim.
  rewrite Ascii.eqb_sym, H1, Ascii.eqb_sym, H3. rewrite IH by assumption. reflexivity.
Qed.

(** ** Rendering and reading back *)

Definition field (kv : string * string) : string := String.append kv.1 (String.append "=" kv.2).

Lemma safe_key_chars k :
  safe_key k = true -> has_char "&" k = false /\ has_char ";" k = false /\
  has_char "=" k = false /\ has_char "+" k = false /\ has_char "%" k = false.
Proof.
  unfold safe_key. destruct (has_char "&" k), (has_char ";" k), (has_char "=" k),
    (has_char "+" k), (has_char "%" k); intros H; try discriminate H; auto.
Qed.

Lemma safe_value_chars v :
  safe_value v = true -> has_char "&" v = false /\ has_char ";" v = false /\
  has_char "+" v = false /\ has_char "%" v = false.
Proof.
  unfold safe_value. destruct (has_char "&" v), (has_char ";" v),
    (has_char "+" v), (has_char "%" v); intros H; try discriminate H; auto.
Qed.

(** A field [k=v] holds a character [c] other than [=] when [k] or [v]
    does. *)
Lemma has_char_field c k v :
  Ascii.eqb c "=" = false -> has_char c (field (k, v)) = has_char c k || has_char c v.
Proof.
  intros Hc. unfold field. cbn [fst snd]. rewrite has_char_app.
  change (String.append "=" v) with (String "=" v). cbn [has_char]. rewrite Hc. reflexivity.
Qed.

Lemma parse_field_field k v :
  safe_key k = true -> safe_value v = true -> parse_field (field (k, v)) = Some (k, v).
Proof.
  intros (Hk1 & Hk2 & Hk3 & Hk4 & Hk5)%safe_key_chars (Hv1 & Hv2 & Hv3 & Hv4)%safe_value_chars.
  unfold parse_field, field. cbn [fst snd].
  replace (String.eqb _ "") with false by (destruct k; reflexivity).
  change (String.append "=" v) with (String "=" v).
  rewrite split_once_app by exact Hk3. rewrite !unquote_plus_id by assumption. reflexivity.
Qed.

Lemma omap_map_inv {A B} (f : A -> option B) (g : B -> A) l :
  (forall x, In x l -> f (g x) = Some x) -> omap f (map g l) = l.
Proof.
  induction l as [|x l IH]; intros H; [reflexivity|].
  change (omap f (map g (x :: l))) with
    (match f (g x) with Some y => y :: omap f (map g l) | None => omap f (map g l) end).
  rewrite (H x (or_introl eq_refl)), IH by (intros y Hy; apply H; right; exact Hy). reflexivity.
Qed.

Lemma concat_singletons {A} (l : list A) : List.concat (map (fun x => [x]) l) = l.
Proof. induction l as [|x l IH]; simpl; congruence. Qed.

Lemma parse_qsl_concat l :
  l <> [] -> Forall (fun kv => safe_key kv.1 && safe_value kv.2 = true) l ->
  parse_qsl (String.concat "&" (map field l)) = l.
Proof.
  intros Hne Hall.
  assert (Hsafe : forall kv, In kv l -> safe_key kv.1 = true /\ safe_value kv.2 = true)
    by (intros kv Hkv; apply andb_prop, (proj1 (List.Forall_forall _ _) Hall kv Hkv)).
  unfold parse_qsl. rewrite split_on_concat.
  - rewrite map_map, (map_ext_in (fun x => split_on ";" (field x)) (fun x => [field x])).
    2:{ intros [k v] Hkv. destruct (Hsafe _ Hkv) as [(? & ? & ? & ? & ?)%safe_key_chars
          (? & ? & ? & ?)%safe_value_chars]. apply split_on_nosep.
        rewrite has_char_field by reflexivity. cbn [fst snd] in *. apply orb_false_iff. auto. }
    rewrite <- (map_map field (fun x => [x])), concat_singletons.
    apply omap_map_inv. intros [k v] Hkv. destruct (Hsafe _ Hkv) as [Hk Hv].
    exact (parse_field_field k v Hk Hv).
  - destruct l; [congruence|discriminate].
  - apply List.Forall_forall. intros x (kv & <- & Hkv)%in_map_iff. destruct kv as [k v].
    destruct (Hsafe _ Hkv) as [(? & ? & ? & ? & ?)%safe_key_chars (? & ? & ? & ?)%safe_value_chars].
    rewrite has_char_field by reflexivity. cbn [fst snd] in *. apply orb_false_iff. auto.
Qed.

Definition safe_query (q : gmap string string) : Prop :=
  map_Forall (fun k v => safe_key k && safe_value v = true) q.

(** The dict read back from the rendered query string is the dict that
    was rendered. *)
Lemma query_dict_encode q : safe_query q -> query_dict (encode q) = q.
Proof.
  intros Hq. destruct (decide (q = ∅)) as [->|Hne]; [reflexivity|].
  unfold query_dict, encode. rewrite parse_qsl_concat.
  - assert (Hperm : rev (map_to_list q) ≡ₚ map_to_list q) by (symmetry; apply Permutation_rev).
    rewrite (list_to_map_proper (rev (map_to_list q)) (map_to_list q)); [apply list_to_map_to_list| |exact Hperm].
    rewrite Hperm. apply NoDup_fst_map_to_list.
  - intros Hnil. apply Hne, map_to_list_empty_iff, Hnil.
  - apply map_Forall_to_list in Hq. apply (Forall_impl _ _ _ Hq). intros [k v]. auto.
Qed.

Lemma render_one ctx get key_var value_var k v :
  resolve ctx key_var = Ok k -> resolve ctx value_var = Ok v ->
  render [(Some key_var, Some value_var)] ctx get = Ok (String.append "?" (encode (<[k := v]> get))).
Proof.
  intros Hk Hv. unfold render. simpl. rewrite Hk, Hv. simpl.
  rewrite bool_decide_eq_false_2 by apply insert_non_empty. reflexivity.
Qed.

(** The text [{% smart_query_string key value %}] renders, parsed by
    [parse_qsl], gives [request.GET] with [key] set to [value] and every
    other parameter kept, when no key or value holds one of [& ; = + %]
    (a value may hold [=]).  This is the query layer only: a browser
    following the link also cuts it at [#] and decodes character
    references of the HTML attribute it sits in, which are not modelled. *)
Theorem smart_query_string_roundtrip ctx get key_var value_var k v :
  truthy key_var = true -> truthy value_var = true ->
  resolve ctx key_var = Ok k -> resolve ctx value_var = Ok v ->
  safe_query get -> safe_key k = true -> safe_value v = true ->
  exists s,
    match smart_query_string ["smart_query_string"; key_var; value_var] with
    | Ok pairs => render pairs ctx get
    | Raise e => Raise e
    end = Ok (String.append "?" s) /\ query_dict s = <[k := v]> get.
Proof.
  intros Hkt Hvt Hk Hv Hget Hks Hvs. exists (encode (<[k := v]> get)). split.
  - unfold smart_query_string. cbn [tail chunk2 init_pairs]. unfold opt_var. rewrite Hkt, Hvt.
    apply render_one; assumption.
  - apply query_dict_encode. apply map_Forall_insert_2; [rewrite Hks, Hvs; reflexivity|exact Hget].
Qed.

Lemma smart_query_string_roundtrip_witness :
  let ctx : context := <["next" := "3"]> ∅ in
  let get : gmap string string := <["q" := "abc"]> ∅ in
  exists s,
    match smart_query_string ["smart_query_string"; "'page'"; "next"] with
    | Ok pairs => render pairs ctx get
    | Raise e => Raise e
    end = Ok (String.append "?" s) /\ query_dict s = <["page" := "3"]> get.
Proof.
  intros ctx get. apply (smart_query_string_roundtrip ctx get "'page'" "next" "page" "3");
    try (vm_compute; reflexivity).
  apply (bool_decide_eq_true_1 (safe_query get)). vm_compute. reflexivity.
Defined.

(** The node does not quote: a value holding [&] adds a parameter of its
    own to the next request. *)
Example smart_query_string_injects :
  match render [(Some "'page'", Some "next")] (<["next" := "2&admin=1"]> ∅) ∅ with
  | Ok s => query_dict (String.substring 1 (String.length s) s) !! "admin"
  | Raise _ => None
  end = Some "1"%string.
Proof. vm_compute. reflexivity. Qed.

Lemma init_pairs_odd l : Nat.odd (length l) = true -> init_pairs (chunk2 l) = Raise ValueError.
Proof.
  revert l. fix IH 1. intros [|a [|b l]] H; [discriminate|reflexivity|].
  simpl. rewrite IH; [reflexivity|]. exact H.
Qed.

(** [smart_query_string] with an odd number of arguments fails on the
    unpacking of the last pair with [ValueError]; a node without any pair
    renders a non-empty [request.GET] with [qs] unbound,
    [UnboundLocalError]. *)
Theorem smart_query_string_errors bits ctx get :
  (Nat.odd (length (tail bits)) = true -> smart_query_string bits = Raise ValueError) /\
  (get <> ∅ -> render [] ctx get = Raise UnboundLocalError).
Proof.
  split; [apply init_pairs_odd|].
  intros Hne. unfold render. simpl. rewrite bool_decide_eq_false_2 by exact Hne. reflexivity.
Qed.
