(* ===== verification/Mixins.v ===== *)
(** * Access-control view mixins: [core/mixins.py]

    A view is a function from a request to a response or an exception
    ([View]); each mixin wraps the view its [dispatch] (or [get]) calls
    through [super()].  A user carries what the mixins ask of it:
    [is_authenticated()], [is_admin], its groups and the permissions
    [has_perm] grants (the authentication backend's answer, as a set).
    Users compare by primary key, as Django models do; the anonymous user
    has none.  Refusal is [deny]: [PermissionDenied] when the view sets
    [raise_exception], else a redirect to the login page.

    The theorems: each mixin runs the wrapped view only for the users it
    admits; [PermissionOrCreatorRequiredMixin] checks [GET] (and [HEAD],
    which [as_view] aliases to [get]) only, so any other method reaches the
    view unchecked; [MultiplePermissionsRequiredMixin]
    admits exactly the users holding every [all] permission and one [any]
    permission; [FilterMixin] builds its filters from the allowed GET
    parameters only. *)

From S2P Require Import Prelude.
From stdpp Require Import gmap.
From Stdlib Require Import Ascii.

Record User := mkUser {
  u_pk : option nat;
  u_is_authenticated : bool;
  u_is_admin : bool;
  u_groups : list string;
  u_perms : list string
}.

Record Request := mkRequest {
  r_user : User;
  r_method : string;
  r_full_path : string;
  r_get : gmap string string
}.

(** The responses the mixins build; [Handled] is the wrapped view's. *)
Inductive Response :=
| RedirectToLogin (next login_url redirect_field_name : string)
| Handled (what : string).

Definition View := Request -> exc Response.

(** [x in l] for strings. *)
Definition mem_str (x : string) (l : list string) : bool := existsb (String.eqb x) l.

(** [request.user.has_perm(perm)] *)
Definition has_perm (u : User) (perm : string) : bool := mem_str perm (u_perms u).

(** The class attributes every access mixin has. *)
Record AccessConfig := mkAccessConfig {
  login_url : string;
  raise_exception : bool;
  redirect_field_name : string
}.

(** [if self.raise_exception: raise PermissionDenied] else
    [redirect_to_login(request.get_full_path(), self.login_url,
    self.redirect_field_name)] *)
Definition deny (cfg : AccessConfig) (req : Request) : exc Response :=
  if raise_exception cfg then Raise PermissionDenied
  else Ok (RedirectToLogin (r_full_path req) (login_url cfg) (redirect_field_name cfg)).

(** Django's [login_required] decorator, with [settings.LOGIN_URL]. *)
Definition login_required (settings_login_url : string) (view : View) : View :=
  fun req =>
    if u_is_authenticated (r_user req) then view req
    else Ok (RedirectToLogin (r_full_path req) settings_login_url "next").

(** [LoginRequiredMixin.dispatch]: [super().dispatch] under
    [login_required]. *)
Definition login_required_mixin (settings_login_url : string) (super_dispatch : View) : View :=
  login_required settings_login_url super_dispatch.

(** [DeterministicLoginRequiredMixin.dispatch] *)
Definition deterministic_login_required (cfg : AccessConfig)
    (deterministic_function : option (unit -> bool)) (super_dispatch : View) : View :=
  fun req =>
    match deterministic_function with
    | None => Raise ImproperlyConfigured
    | Some f =>
        if negb (u_is_authenticated (r_user req)) && negb (f tt) then deny cfg req
        else super_dispatch req
    end.

(** [GroupRequiredMixin.dispatch], under [login_required]. *)
Definition group_required (settings_login_url : string) (cfg : AccessConfig)
    (groups_required : option (list string)) (super_dispatch : View) : View :=
  login_required settings_login_url (fun req =>
    match groups_required with
    | None => Raise ImproperlyConfigured
    | Some groups =>
        let group_meets_requirements :=
          u_is_admin (r_user req) || existsb (fun g => mem_str g groups) (u_groups (r_user req)) in
        if negb group_meets_requirements then deny cfg req else super_dispatch req
    end).

(** [len(self.permission_required.split(".")) != 2] *)
Definition two_parts (perm : string) : bool :=
  length (List.filter (fun c => Ascii.eqb c "."%char) (String.list_ascii_of_string perm)) =? 1.

(** [PermissionRequiredMixin.dispatch] *)
Definition permission_required (cfg : AccessConfig) (perm_required : option string)
    (super_dispatch : View) : View :=
  fun req =>
    match perm_required with
    | Some p =>
        if negb (two_parts p) then Raise ImproperlyConfigured
        else if negb (has_perm (r_user req) p) then deny cfg req
        else super_dispatch req
    | None => Raise ImproperlyConfigured
    end.

(** [request.user == self.get_object().created_by] *)
Definition same_user (u : User) (created_by : option nat) : bool :=
  match u_pk u, created_by with
  | Some a, Some b => a =? b
  | _, _ => false
  end.

(** [PermissionOrCreatorRequiredMixin.get]: [created_by] is the creator's
    key of the object [self.get_object()] returns. *)
Definition permission_or_creator_get (cfg : AccessConfig) (perm_required : option string)
    (created_by : option nat) (super_get : View) : View :=
  fun req =>
    match perm_required with
    | Some p =>
        if negb (two_parts p) then Raise ImproperlyConfigured
        else if negb (has_perm (r_user req) p) && negb (same_user (r_user req) created_by)
        then deny cfg req
        else super_get req
    | None => Raise ImproperlyConfigured
    end.

(** [View.dispatch] of a view with that mixin: the handler of the request
    method, the mixin's [get] for [GET], and for [HEAD] too, since
    [View.as_view] sets [head = get] on a view that defines no [head]
    (none in the repository does). *)
Definition permission_or_creator_dispatch (cfg : AccessConfig) (perm_required : option string)
    (created_by : option nat) (handler : string -> View) : View :=
  fun req =>
    if String.eqb (r_method req) "GET" || String.eqb (r_method req) "HEAD"
    then permission_or_creator_get cfg perm_required created_by (handler "GET") req
    else handler (r_method req) req.

(** [AdminRequiredMixin.dispatch] *)
Definition admin_required (cfg : AccessConfig) (super_dispatch : View) : View :=
  fun req => if negb (u_is_admin (r_user req)) then deny cfg req else super_dispatch req.

(** A value of the [permissions] dict: a list or tuple of permissions, or
    anything else (with its truth value). *)
Inductive PermValue :=
| PermSeq (perms : list string)
| PermOther (truthy : bool).

Definition perm_truthy (v : PermValue) : bool :=
  match v with
  | PermSeq l => negb (Nat.eqb (length l) 0)
  | PermOther b => b
  end.

(** [self.permissions.get(key) or None] *)
Definition get_or_none (permissions : gmap string PermValue) (key : string) : option PermValue :=
  match permissions !! key with
  | Some v => if perm_truthy v then Some v else None
  | None => None
  end.

(** [_check_perms_keys]: a set value must be a list or a tuple. *)
Definition check_perms_keys (perms : option PermValue) : exc unit :=
  match perms with
  | Some (PermOther _) => Raise ImproperlyConfigured
  | _ => Ok tt
  end.

(** [request.user.has_perms(perms_all)] *)
Definition has_perms (u : User) (perms : list string) : bool := forallb (has_perm u) perms.

(** [MultiplePermissionsRequiredMixin.dispatch]; [None] is a
    [permissions] attribute that is not set (or not a dict). *)
Definition multiple_permissions_required (cfg : AccessConfig)
    (permissions : option (gmap string PermValue)) (super_dispatch : View) : View :=
  fun req =>
    match permissions with
    | None => Raise ImproperlyConfigured
    | Some d =>
        let perms_all := get_or_none d "all" in
        let perms_any := get_or_none d "any" in
        match perms_all, perms_any with
        | None, None => Raise ImproperlyConfigured
        | _, _ =>
            match check_perms_keys perms_all, check_perms_keys perms_any with
            | Raise e, _ | _, Raise e => Raise e
            | Ok _, Ok _ =>
                let all_fails :=
                  match perms_all with Some (PermSeq l) => negb (has_perms (r_user req) l) | _ => false end in
                let any_fails :=
                  match perms_any with Some (PermSeq l) => negb (existsb (has_perm (r_user req)) l) | _ => false end in
                if all_fails then deny cfg req
                else if any_fails then deny cfg req
                else super_dispatch req
            end
        end
    end.

(** [FilterMixin.get_queryset_filters]: [allowed_filters] maps GET
    parameters to field lookups; iteration follows the dict's order. *)
Definition filter_step (get : gmap string string) (filters : gmap string string)
    (item_field : string * string) : gmap string string :=
  match get !! item_field.1 with
  | Some v => if truthy v then <[item_field.2 := v]> filters else filters
  | None => filters
  end.

Definition get_queryset_filters (allowed_filters get : gmap string string) : gmap string string :=
  foldl (filter_step get) ∅ (map_to_list allowed_filters).

(** ** Who reaches the wrapped view *)

Lemma deny_not_handled cfg req w : deny cfg req <> Ok (Handled w).
Proof. unfold deny. destruct (raise_exception cfg); discriminate. Qed.

Lemma mem_str_In x l : mem_str x l = true <-> In x l.
Proof.
  unfold mem_str. rewrite existsb_exists. split.
  - intros [y [Hy Heq]]. apply String.eqb_eq in Heq. subst. exact Hy.
  - intros Hx. exists x. split; [exact Hx|apply String.eqb_refl].
Qed.

(** A guard whose refusal is [deny] passed when the wrapped view's
    response came out. *)
Lemma guard_passed (b : bool) cfg req (r : exc Response) w :
  (if b then deny cfg req else r) = Ok (Handled w) -> b = false /\ r = Ok (Handled w).
Proof. destruct b; [intros H; exfalso; exact (deny_not_handled _ _ _ H)|auto]. Qed.

(** C13: every access mixin runs the view it wraps only for the users it
    admits: an administrator for [AdminRequiredMixin]; an authenticated
    administrator or member of a required group for [GroupRequiredMixin];
    a holder of the permission for [PermissionRequiredMixin]; an
    authenticated user, or any user when the deterministic function says
    so, for [DeterministicLoginRequiredMixin]. *)
Theorem access_mixins_admit_only cfg settings_login_url w req :
  let view : View := fun _ => Ok (Handled w) in
  let u := r_user req in
  (admin_required cfg view req = Ok (Handled w) -> u_is_admin u = true) /\
  (forall groups, group_required settings_login_url cfg (Some groups) view req = Ok (Handled w) ->
     u_is_authenticated u = true /\
     (u_is_admin u = true \/ exists g, In g (u_groups u) /\ In g groups)) /\
  (forall p, permission_required cfg (Some p) view req = Ok (Handled w) -> has_perm u p = true) /\
  (forall f, deterministic_login_required cfg (Some f) view req = Ok (Handled w) ->
     u_is_authenticated u = true \/ f tt = true).
Proof.
  intros view u. unfold admin_required, group_required, login_required, permission_required,
    deterministic_login_required, view, u.
  split; [|split; [|split]].
  - intros [H _]%guard_passed. apply negb_false_iff, H.
  - intros groups H. destruct (u_is_authenticated (r_user req)); [|discriminate H].
    apply guard_passed in H as [H _]. split; [reflexivity|].
    apply negb_false_iff, orb_true_iff in H as [Ha|(g & Hg & Hm)%existsb_exists]; [left; exact Ha|].
    right. exists g. split; [exact Hg|apply mem_str_In, Hm].
  - intros p H. destruct (two_parts p); [|discriminate H].
    apply guard_passed in H as [H _]. apply negb_false_iff, H.
  - intros f H. apply guard_passed in H as [H _].
    apply andb_false_iff in H as [H|H]; apply negb_false_iff in H; auto.
Qed.

(** [PermissionOrCreatorRequiredMixin] overrides [get], not
    [dispatch]: a request of a method other than [GET] and [HEAD] reaches
    the view's handler whoever sends it, while a [GET] or [HEAD] from a
    user who neither holds the permission nor created the object is
    refused. *)
Theorem permission_or_creator_checks_get_only cfg p created_by handler req :
  (String.eqb (r_method req) "GET" || String.eqb (r_method req) "HEAD" = false ->
   permission_or_creator_dispatch cfg (Some p) created_by handler req = handler (r_method req) req) /\
  (String.eqb (r_method req) "GET" || String.eqb (r_method req) "HEAD" = true -> two_parts p = true ->
   has_perm (r_user req) p = false -> same_user (r_user req) created_by = false ->
   permission_or_creator_dispatch cfg (Some p) created_by handler req = deny cfg req).
Proof.
  unfold permission_or_creator_dispatch, permission_or_creator_get. split.
  - intros Hm. rewrite Hm. reflexivity.
  - intros Hm Hp Hperm Hc. rewrite Hm, Hp, Hperm, Hc. reflexivity.
Qed.

(** An anonymous [POST] reaches the handler of a view guarded for [GET]. *)
Example anonymous_post_reaches_handler :
  let anonymous := mkUser None false false [] [] in
  let req := mkRequest anonymous "POST" "/blocks/1/" ∅ in
  permission_or_creator_dispatch (mkAccessConfig "/login/" false "next") (Some "core.change_block")
    (Some 1) (fun m _ => Ok (Handled m)) req = Ok (Handled "POST").
Proof. reflexivity. Qed.

(** with [all] and [any] set to lists, not both empty,
    [MultiplePermissionsRequiredMixin] runs the view exactly for the users
    holding every [all] permission and, when [any] is not empty, one of
    the [any] permissions, and refuses every other user. *)
Theorem multiple_permissions_required_spec cfg d la ly super_dispatch req :
  d !! "all" = Some (PermSeq la) -> d !! "any" = Some (PermSeq ly) -> la <> [] \/ ly <> [] ->
  multiple_permissions_required cfg (Some d) super_dispatch req =
    if has_perms (r_user req) la && (bool_decide (ly = []) || existsb (has_perm (r_user req)) ly)
    then super_dispatch req else deny cfg req.
Proof.
  intros Ha Hy Hne. unfold multiple_permissions_required, get_or_none. rewrite Ha, Hy. cbn [perm_truthy].
  destruct (Nat.eqb_spec (length la) 0) as [Hla%length_zero_iff_nil|Hla];
    destruct (Nat.eqb_spec (length ly) 0) as [Hly%length_zero_iff_nil|Hly]; cbn [negb check_perms_keys].
  - destruct Hne; congruence.
  - subst la. rewrite bool_decide_eq_false_2 by (intros ->; apply Hly; reflexivity).
    destruct (existsb _ _); reflexivity.
  - subst ly. rewrite bool_decide_eq_true_2 by reflexivity. simpl orb. rewrite andb_true_r.
    destruct (has_perms _ _); reflexivity.
  - rewrite bool_decide_eq_false_2 by (intros ->; apply Hly; reflexivity).
    destruct (has_perms _ _), (existsb _ _); reflexivity.
Qed.

Lemma multiple_permissions_required_spec_witness :
  let d : gmap string PermValue := <["all" := PermSeq ["blog.add_post"]]> (<["any" := PermSeq ["blog.delete_post"; "user.change_user"]]> ∅) in
  let req := mkRequest (mkUser (Some 3) true false [] ["blog.add_post"; "user.change_user"]) "GET" "/x/" ∅ in
  multiple_permissions_required (mkAccessConfig "/login/" false "next") (Some d) (fun _ => Ok (Handled "view")) req =
    Ok (Handled "view").
Proof.
  intros d req.
  rewrite (multiple_permissions_required_spec _ d ["blog.add_post"] ["blog.delete_post"; "user.change_user"]);
    [reflexivity|vm_compute; reflexivity|vm_compute; reflexivity|left; discriminate].
Defined.

Lemma filters_fold_sound get l r f v :
  foldl (filter_step get) r l !! f = Some v ->
  (exists item, In (item, f) l /\ get !! item = Some v /\ truthy v = true) \/ r !! f = Some v.
Proof.
  revert r. induction l as [|[item field] l IH]; simpl; intros r H; [right; exact H|].
  destruct (IH _ H) as [(i & Hi & Hg & Ht)|Hr]; [left; exists i; auto|].
  unfold filter_step in Hr. simpl in Hr. destruct (get !! item) as [w|] eqn:Hw; [|right; exact Hr].
  destruct (truthy w) eqn:Htw; [|right; exact Hr].
  destruct (decide (field = f)) as [->|Hne].
  - rewrite lookup_insert_eq in Hr. injection Hr as <-. left. exists item. auto.
  - rewrite lookup_insert_ne in Hr by exact Hne. right. exact Hr.
Qed.

(** Every filter [FilterMixin] applies is on a field lookup that
    [allowed_filters] names, with the non-empty value the request gave
    for a GET parameter mapped to that lookup: no other GET parameter
    reaches the query. *)
Theorem get_queryset_filters_allowed allowed_filters get f v :
  get_queryset_filters allowed_filters get !! f = Some v ->
  exists item, allowed_filters !! item = Some f /\ get !! item = Some v /\ truthy v = true.
Proof.
  intros H. apply filters_fold_sound in H as [(item & Hi & Hg & Ht)|H]; [|discriminate H].
  exists item. split; [|auto]. apply elem_of_map_to_list, list_elem_of_In, Hi.
Qed.

Lemma get_queryset_filters_allowed_witness :
  let allowed : gmap string string := <["cat" := "category__slug"]> ∅ in
  let get : gmap string string := <["cat" := "news"]> (<["is_staff" := "1"]> ∅) in
  get_queryset_filters allowed get !! "category__slug" = Some "news"%string /\
  exists item, allowed !! item = Some "category__slug"%string /\ get !! item = Some "news"%string /\
               truthy "news" = true.
Proof.
  intros allowed get. assert (H : get_queryset_filters allowed get !! "category__slug" = Some "news"%string)
    by (vm_compute; reflexivity).
  split; [exact H|]. exact (get_queryset_filters_allowed allowed get _ _ H).
Defined.
