(* ===== verification/Views.v ===== *)
(** * Core views: [core/views.py]

    [MarkDeleteView.delete] and [ContentBlockUpdate.post] are handlers
    over the database of [Store].  [get_object] is
    [SingleObjectMixin.get_object] on the view's model ([queryset.get(pk=pk)],
    [Http404] when absent); [success_url] is the view's [success_url]
    attribute ([get_success_url] raises [ImproperlyConfigured] when it is
    not set; the model takes a URL without [%] placeholders).

    The theorems: [MarkDeleteView] marks only the content row DELETED and
    leaves its version as it was, so a series whose PUBLISHED object is
    deleted this way disappears from [get_list], UNPUBLISHED siblings
    included, unlike [delete_version]; [ContentBlockUpdate] answers
    [success] without storing the posted content, because it assigns an
    attribute [content] that no field of [ContentModel] has. *)

From S2P Require Import Prelude Constants Store Versioning Query Lookups.

(** [SingleObjectMixin.get_object()] with [pk] from the URL. *)
Definition get_object (ct pk : nat) (db : DB) : exc Content :=
  or_404 (qs_get (fun c => c_pk c =? pk) (model_rows ct db)).

(** [DeletionMixin.get_success_url()] *)
Definition get_success_url (success_url : option string) : exc string :=
  match success_url with
  | Some u => if truthy u then Ok u else Raise ImproperlyConfigured
  | None => Raise ImproperlyConfigured
  end.

(** [MarkDeleteView.delete]: the response is the redirect's URL. *)
Definition mark_delete_view (ct : nat) (save : Content -> Content) (success_url : option string)
    (pk : nat) : M DB string :=
  db <- mget ;;
  obj <- mlift (get_object ct pk db) ;;
  url <- mlift (get_success_url success_url) ;;
  mmodify (mark_deleted save obj) ;;
  mret url.

(** The rows of the [ContentModel] table: every saved [ContentModel] has
    its [leaf_content_type]. *)
Definition content_model_rows (db : DB) : list Content :=
  List.filter (fun c => bool_decide (is_Some (c_leaf_content_type c))) (db_content db).

(** [ContentBlockUpdate.post]: [slug] and [content] are
    [request.POST.get(...)]; [slug=None] selects no row.  The assignment
    [content_block.content = content] sets an attribute that is not a
    field, so [save()] writes the row as it was read.  The result is the
    JSON [success] flag. *)
Definition content_block_update (now : Z) (slug content : option string) : M DB bool :=
  db <- mget ;;
  content_block <- mlift (or_404 (qs_get (fun c => match slug with
                                                   | Some s => String.eqb (c_slug c) s
                                                   | None => false
                                                   end) (content_model_rows db))) ;;
  mmodify (write_content (content_model_save now content_block)) ;;
  mret true.

(** ** [MarkDeleteView] *)

Lemma resolve_published ct db v :
  wf db -> In v (db_versions db) -> v_content_type v = ct -> v_state v = STATE_PUBLISHED ->
  resolve ct (db_versions db) (v_series v) = Some (v_object_id v).
Proof.
  intros Hwf Hv Hct Hst. unfold resolve.
  destruct (series_in_state_head ct db (v_series v) STATE_PUBLISHED v Hwf eq_refl) as [rest ->];
    [apply in_series_in_state; auto|reflexivity].
Qed.

Lemma mark_delete_view_run ct save success_url pk db u db' :
  mark_delete_view ct save success_url pk db = (Ok u, db') ->
  exists obj, get_object ct pk db = Ok obj /\ db' = mark_deleted save obj db.
Proof.
  unfold mark_delete_view, mbind, mget, mlift, mmodify, mret.
  destruct (get_object ct pk db) as [obj|e]; [|discriminate].
  destruct (get_success_url success_url); [|discriminate]. intros [= _ <-]. eauto.
Qed.

(** C14: [MarkDeleteView] on the object of a PUBLISHED version marks the
    content row DELETED and leaves the version PUBLISHED, so [get_list]
    no longer lists any object of that series: its UNPUBLISHED versions
    do not take over, as they do after [delete_version]. *)
Theorem mark_delete_view_hides_series ct now success_url pk db u db' v r w :
  wf db -> object_versions_unique ct (db_versions db) ->
  In v (db_versions db) -> version_of ct pk v = true -> v_state v = STATE_PUBLISHED ->
  mark_delete_view ct (content_model_save now) success_url pk db = (Ok u, db') ->
  In r (get_list ct db' (model_rows ct db')) -> In w (db_versions db') ->
  version_of ct (c_pk r) w = true -> v_series w <> v_series v.
Proof.
  intros Hwf Huniq Hv Hof Hpub Hrun Hr Hw Hofw Hs.
  destruct (mark_delete_view_run _ _ _ _ _ _ _ Hrun) as (obj & Hobj & ->).
  unfold get_object, or_404 in Hobj. destruct (qs_get _ _) as [o|[]] eqn:Hq; try discriminate Hobj.
  injection Hobj as <-. apply qs_get_spec in Hq as (Hin & Hpk & _).
  apply Nat.eqb_eq in Hpk. unfold model_rows in Hin. apply filter_In in Hin as [Hin Hct].
  apply Nat.eqb_eq in Hct. unfold mark_deleted in *.
  destruct (content_model_save_fields now (set_c_state STATE_DELETED o)) as (Hcct & Hcpk & Hcst).
  set (c := content_model_save now (set_c_state STATE_DELETED o)) in *.
  assert (Hwf' : wf (write_content c db)) by (apply wf_write_content, Hwf).
  rewrite get_list_tiers in Hr. unfold exclude_deleted, filter_pks in Hr.
  apply filter_In in Hr as [Hr Hnd]. apply filter_In in Hr as [Hr Htier]. apply mem_In in Htier.
  apply (tier_pks_resolve ct _ _ Hwf') in Htier as [s Hres]. simpl in Hw, Hres.
  destruct (resolve_version_of ct (write_content c db) s r w Huniq Hres Hw Hofw) as [Hws _].
  rewrite Hws in Hs. subst s. unfold version_of in Hof. apply andb_prop in Hof as [Hvct Hvo].
  apply Nat.eqb_eq in Hvct, Hvo. simpl in Hres. rewrite (resolve_published ct db v Hwf Hv Hvct Hpub) in Hres.
  injection Hres as Hrpk. unfold model_rows in Hr. apply filter_In in Hr as [Hr Hrct]. apply Nat.eqb_eq in Hrct.
  assert (Hrc : r = c).
  { apply (write_content_same_key c db r); [|exact Hr|].
    - apply existsb_exists. exists o. split; [exact Hin|]. unfold same_content.
      rewrite Hcct, Hcpk. simpl. rewrite !Nat.eqb_refl. reflexivity.
    - unfold same_content. rewrite Hcct, Hcpk. simpl. rewrite Hrct, <- Hrpk, Hvo, Hct, Hpk, !Nat.eqb_refl. reflexivity. }
  rewrite Hrc, Hcst in Hnd. discriminate Hnd.
Qed.

(** Two series: [about] (object 10 PUBLISHED, object 11 UNPUBLISHED) and
    [contact] (object 12 PUBLISHED). *)
Definition contact_v1 : Content :=
  mkContent 7 12 STATE_PUBLISHED (Some 100%Z) None "Contact" "contact" None None 0 (SitesM2M [1]) (Some 7).

Definition two_series_db : DB :=
  mkDB [mkVersionSeries 1 "about" None; mkVersionSeries 2 "contact" None]
       [mkVersion 1 7 10 1 1 STATE_PUBLISHED; mkVersion 2 7 11 1 2 STATE_UNPUBLISHED;
        mkVersion 3 7 12 2 1 STATE_PUBLISHED]
       [about_v1; about_v2; contact_v1].

Lemma mark_delete_view_hides_series_witness :
  let db' := final (mark_delete_view 7 (content_model_save 300) (Some "/blocks/") 10) two_series_db in
  mark_delete_view 7 (content_model_save 300) (Some "/blocks/") 10 two_series_db = (Ok "/blocks/"%string, db') /\
  v_series (mkVersion 3 7 12 2 1 STATE_PUBLISHED) <> v_series (mkVersion 1 7 10 1 1 STATE_PUBLISHED).
Proof.
  intros db'. assert (Hrun : mark_delete_view 7 (content_model_save 300) (Some "/blocks/") 10 two_series_db =
                             (Ok "/blocks/"%string, db')) by (vm_compute; reflexivity).
  split; [exact Hrun|].
  apply (mark_delete_view_hides_series 7 300 (Some "/blocks/") 10 two_series_db "/blocks/" db'
           (mkVersion 1 7 10 1 1 STATE_PUBLISHED) contact_v1 (mkVersion 3 7 12 2 1 STATE_PUBLISHED)).
  - apply wf_b_sound. vm_compute. reflexivity.
  - intros v1 v2 H1 H2. vm_compute in H1, H2.
    destruct H1 as [<-|[<-|[<-|[]]]], H2 as [<-|[<-|[<-|[]]]]; simpl; intros; congruence.
  - vm_compute. left. reflexivity.
  - reflexivity.
  - reflexivity.
  - exact Hrun.
  - vm_compute. left. reflexivity.
  - vm_compute. right. right. left. reflexivity.
  - reflexivity.
Defined.

(** After [delete_version] of object 10 its UNPUBLISHED sibling 11 is
    listed; after [MarkDeleteView] on object 10 only [contact] is. *)
Example delete_version_vs_mark_delete :
  map c_pk (get_list 7 (final (delete_version 7 (content_model_save 300) 10) two_series_db)
              (model_rows 7 (final (delete_version 7 (content_model_save 300) 10) two_series_db))) = [11; 12] /\
  map c_pk (get_list 7 (final (mark_delete_view 7 (content_model_save 300) (Some "/blocks/") 10) two_series_db)
              (model_rows 7 (final (mark_delete_view 7 (content_model_save 300) (Some "/blocks/") 10) two_series_db))) = [12].
Proof. split; vm_compute; reflexivity. Qed.

(** ** [ContentBlockUpdate] *)

Definition payload (c : Content) : nat * nat * option string * option string :=
  (c_content_type c, c_pk c, c_plain_content c, c_rich_content c).

(** C15: [ContentBlockUpdate.post] answers [success] when the slug names
    one content row, and on every path leaves the content of every row
    as it was: the posted [content] is never stored. *)
Theorem content_block_update_drops_content now slug content db :
  NoDup (map (fun c => (c_content_type c, c_pk c)) (db_content db)) ->
  map payload (db_content (final (content_block_update now slug content) db)) = map payload (db_content db) /\
  (forall b, qs_get (fun c => match slug with Some s => String.eqb (c_slug c) s | None => false end)
               (content_model_rows db) = Ok b ->
             fst (content_block_update now slug content db) = Ok true).
Proof.
  intros Hnd. unfold content_block_update, final, mbind, mget, mlift, mmodify, mret, or_404.
  destruct (qs_get _ _) as [b|[]] eqn:Hq; simpl; split; try reflexivity; try (intros b' Hb'; discriminate Hb').
  apply qs_get_spec in Hq as (Hb & _ & _). unfold content_model_rows in Hb. apply filter_In in Hb as [Hb _].
  destruct (content_model_save_fields now b) as (Hct & Hpk & _).
  destruct (content_model_save_payload now b) as [Hpl Hri].
  unfold write_content. simpl. rewrite Hct, Hpk.
  replace (existsb _ _) with true
    by (symmetry; apply existsb_exists; exists b; split; [exact Hb|unfold same_content; rewrite !Nat.eqb_refl; reflexivity]).
  unfold update_where. rewrite map_map. apply map_ext_in. intros x Hx.
  destruct (same_content (c_content_type b) (c_pk b) x) eqn:E; [|reflexivity].
  unfold same_content in E. apply andb_prop in E as [E1 E2]. apply Nat.eqb_eq in E1, E2.
  assert (x = b) as -> by (apply (NoDup_map_inv_in _ _ x b Hnd Hx Hb); simpl; congruence).
  unfold payload. rewrite Hct, Hpk, Hpl, Hri. reflexivity.
Qed.

Definition block_db : DB :=
  mkDB [] [] [mkContent 9 30 STATE_PUBLISHED (Some 100%Z) None "Footer" "footer" (Some "old") None 0
                (SitesM2M [1]) (Some 9)].

Lemma content_block_update_drops_content_witness :
  map payload (db_content (final (content_block_update 300 (Some "footer") (Some "new")) block_db)) =
  map payload (db_content block_db) /\
  fst (content_block_update 300 (Some "footer") (Some "new") block_db) = Ok true.
Proof.
  destruct (content_block_update_drops_content 300 (Some "footer") (Some "new") block_db) as [H1 H2].
  - apply (bool_decide_eq_true_1 (NoDup _)). vm_compute. reflexivity.
  - split; [exact H1|]. apply (H2 (mkContent 9 30 STATE_PUBLISHED (Some 100%Z) None "Footer" "footer"
                                     (Some "old") None 0 (SitesM2M [1]) (Some 9))).
    vm_compute. reflexivity.
Defined.
