(* ===== verification/Pagination.v ===== *)
(** * AJAX "load more" pagination: [AjaxMorePaginationMixin] in
    [core/mixins.py], over Django's [Paginator]

    [Paginator] and [Page] ([django.core.paginator]) are not part of the
    sources; they are modelled from Django 1.6 with the arguments the mixin
    passes ([orphans=0], [allow_empty_first_page=True]): [int(per_page)],
    [num_pages = ceil(max(1, count) / per_page)], [validate_number],
    [page], and the [Page] methods the mixin reads.  Python's [int()] on
    the GET parameters is [py_int].

    The theorems: a page's [start_index] and [end_index] delimit exactly
    the objects on it; and a client that starts at page 1 and follows
    [next_page_number] while [has_next] receives every object of the query
    set once, in order, after [num_pages] requests. *)

From S2P Require Import Prelude.
From stdpp Require Import gmap.
From Stdlib Require Import Ascii.

(** ** Python's [int()] on a string *)

Definition is_space_char (c : ascii) : bool :=
  let n := nat_of_ascii c in (n =? 32) || ((9 <=? n) && (n <=? 13)).

Definition digit_value (c : ascii) : option Z :=
  let n := nat_of_ascii c in
  if (48 <=? n) && (n <=? 57) then Some (Z.of_nat (n - 48)) else None.

Fixpoint digits_value (acc : Z) (l : list ascii) : option Z :=
  match l with
  | [] => Some acc
  | c :: l' =>
      match digit_value c with
      | Some d => digits_value (10 * acc + d) l'
      | None => None
      end
  end.

Fixpoint lstrip_spaces (l : list ascii) : list ascii :=
  match l with
  | c :: l' => if is_space_char c then lstrip_spaces l' else l
  | [] => []
  end.

Definition strip_spaces (l : list ascii) : list ascii := rev (lstrip_spaces (rev (lstrip_spaces l))).

(** [int(s)]: blanks around, an optional sign, at least one digit. *)
Definition py_int (s : string) : option Z :=
  match strip_spaces (String.list_ascii_of_string s) with
  | [] => None
  | c :: l =>
      if Ascii.eqb c "-" then match l with [] => None | _ => option_map Z.opp (digits_value 0 l) end
      else if Ascii.eqb c "+" then match l with [] => None | _ => digits_value 0 l end
      else digits_value 0 (c :: l)
  end.

(** [str(n)] of a natural number: its decimal digits.  [fuel] bounds the
    number of digits; [n + 1] is enough. *)
Definition digit_char (d : nat) : ascii := ascii_of_nat (48 + d).

Fixpoint digits_rev (fuel n : nat) : list ascii :=
  match fuel with
  | 0 => []
  | S f => if n <? 10 then [digit_char n] else digit_char (n mod 10) :: digits_rev f (n / 10)
  end.

Definition str_nat (n : nat) : string := String.string_of_list_ascii (rev (digits_rev (S n) n)).

(** ** [django.core.paginator.Paginator] *)

Section Paginator.
  Context {A : Type} (object_list : list A) (per_page : Z).

Definition count : Z := Z.of_nat (length object_list).

  (** [num_pages]: [int(ceil(hits / float(per_page)))]. *)
Definition num_pages : exc Z :=
    if (per_page =? 0)%Z then Raise ZeroDivisionError
    else Ok (- ((- Z.max 1 count) / per_page))%Z.

Definition validate_number (number : Z) : exc Z :=
    np <-! num_pages ;;
    if (number <? 1)%Z then Raise EmptyPage
    else if (np <? number)%Z then (if (number =? 1)%Z then Ok number else Raise EmptyPage)
    else Ok number.

  (** A [Page]: its objects and its number. *)
Record Page := mkPage { pg_object_list : list A; pg_number : Z }.

Definition page (number : Z) : exc Page :=
    number <-! validate_number number ;;
    let bottom := ((number - 1) * per_page)%Z in
    let top := (bottom + per_page)%Z in
    let top := if (count <=? top)%Z then count else top in
    Ok (mkPage (py_slice object_list bottom top) number).

Definition has_next (p : Page) : exc bool := np <-! num_pages ;; Ok (pg_number p <? np)%Z.
Definition has_previous (p : Page) : bool := (1 <? pg_number p)%Z.
Definition next_page_number (p : Page) : exc Z := validate_number (pg_number p + 1).
Definition previous_page_number (p : Page) : exc Z := validate_number (pg_number p - 1).
Definition start_index (p : Page) : Z :=
    if (count =? 0)%Z then 0 else (per_page * (pg_number p - 1) + 1)%Z.
Definition end_index (p : Page) : exc Z :=
    np <-! num_pages ;; Ok (if (pg_number p =? np)%Z then count else (pg_number p * per_page))%Z.
End Paginator.

(** ** [AjaxMorePaginationMixin.dispatch] *)

(** The JSON of a page; [content] is the partial template rendered with
    the page's objects, here the objects themselves. *)
Record PageJson (A : Type) := mkPageJson {
  pj_content : list A;
  pj_has_previous : bool;
  pj_has_next : bool;
  pj_previous_page_number : Z;
  pj_next_page_number : Z;
  pj_page_number : Z;
  pj_start_index : Z;
  pj_end_index : Z
}.
Arguments mkPageJson {A}.
Arguments pj_content {A}.
Arguments pj_has_previous {A}.
Arguments pj_has_next {A}.
Arguments pj_previous_page_number {A}.
Arguments pj_next_page_number {A}.
Arguments pj_page_number {A}.
Arguments pj_start_index {A}.
Arguments pj_end_index {A}.

(** [self.paginate_by]: an integer or [None]. *)
Definition int_of_paginate_by (get_value : option string) (attr : option Z) : exc Z :=
  match get_value with
  | Some s => match py_int s with Some n => Ok n | None => Raise ValueError end
  | None => match attr with Some n => Ok n | None => Raise TypeError end
  end.

(** The dispatch: [super_dispatch] is the response of the view the mixin
    wraps, used when the request has no [page] parameter. *)
Definition ajax_more_dispatch {A R} (partial_template_name : option string)
    (get : gmap string string) (queryset : list A) (paginate_by : option Z)
    (super_dispatch : exc R) : exc (PageJson A + R) :=
  match partial_template_name with
  | None => Raise ImproperlyConfigured
  | Some _ =>
      match get !! "page" with
      | None => match super_dispatch with Ok r => Ok (inr r) | Raise e => Raise e end
      | Some page_str =>
          per_page <-! int_of_paginate_by (get !! "paginate_by") paginate_by ;;
          number <-! match py_int page_str with Some n => Ok n | None => Raise PageNotAnInteger end ;;
          object_list <-! page queryset per_page number ;;
          has_next' <-! has_next queryset per_page object_list ;;
          let has_previous' := has_previous object_list in
          previous <-! (if has_previous' then previous_page_number queryset per_page object_list else Ok 0%Z) ;;
          next <-! (if has_next' then next_page_number queryset per_page object_list else Ok 0%Z) ;;
          end_index' <-! end_index queryset per_page object_list ;;
          Ok (inl (mkPageJson (pg_object_list object_list) has_previous' has_next' previous next
                     (pg_number object_list) (start_index queryset per_page object_list) end_index'))
      end
  end.


(** ** [int(str(n)) = n] *)

Lemma digit_value_char d : d < 10 -> digit_value (digit_char d) = Some (Z.of_nat d).
Proof.
  intros Hd. unfold digit_value, digit_char. rewrite nat_ascii_embedding by lia.
  replace ((48 <=? 48 + d) && (48 + d <=? 57)) with true by (symmetry; apply andb_true_iff; split; apply Nat.leb_le; lia).
  f_equal. lia.
Qed.

Lemma digits_value_snoc acc l c :
  digits_value acc (l ++ [c]) =
  match digits_value acc l with Some v => option_map (fun d => 10 * v + d)%Z (digit_value c) | None => None end.
Proof.
  revert acc. induction l as [|x l IH]; intros acc; cbn [app digits_value].
  - destruct (digit_value c); reflexivity.
  - destruct (digit_value x); [apply IH|reflexivity].
Qed.

Lemma digits_rev_value fuel n :
  n < fuel -> digits_value 0 (rev (digits_rev fuel n)) = Some (Z.of_nat n).
Proof.
  revert n. induction fuel as [|f IH]; intros n Hn; [lia|]. cbn [digits_rev].
  destruct (Nat.ltb_spec n 10) as [Hlt|Hge].
  - cbn [rev app digits_value]. rewrite digit_value_char by exact Hlt. reflexivity.
  - cbn [rev]. rewrite digits_value_snoc, IH by (pose proof (Nat.div_lt n 10 ltac:(lia) ltac:(lia)); lia).
    rewrite digit_value_char by (apply Nat.mod_upper_bound; lia). cbn [option_map]. f_equal.
    pose proof (Nat.div_mod n 10 ltac:(lia)). lia.
Qed.

Lemma digit_char_class d :
  d < 10 -> is_space_char (digit_char d) = false /\ Ascii.eqb (digit_char d) "-" = false /\
            Ascii.eqb (digit_char d) "+" = false.
Proof. intros Hd. do 10 (destruct d as [|d]; [vm_compute; auto|]). lia. Qed.

Lemma digits_rev_chars fuel n :
  Forall (fun c => exists d, d < 10 /\ c = digit_char d) (digits_rev fuel n).
Proof.
  revert n. induction fuel as [|f IH]; intros n; cbn [digits_rev]; [constructor|].
  destruct (Nat.ltb_spec n 10); constructor; try apply IH; try constructor;
    eexists; split; [eassumption|reflexivity| |reflexivity]. apply Nat.mod_upper_bound. lia.
Qed.

Lemma lstrip_spaces_id l : Forall (fun c => is_space_char c = false) l -> lstrip_spaces l = l.
Proof. intros [|c l' Hc _]; cbn [lstrip_spaces]; [reflexivity|]. rewrite Hc. reflexivity. Qed.

(** [int(str(n)) = n] for a natural number. *)
Lemma py_int_str_nat n : py_int (str_nat n) = Some (Z.of_nat n).
Proof.
  unfold py_int, str_nat. rewrite String.list_ascii_of_string_of_list_ascii.
  pose proof (digits_rev_chars (S n) n) as Hd. apply Forall_rev in Hd.
  assert (Hs : Forall (fun c => is_space_char c = false) (rev (digits_rev (S n) n))).
  { apply (Forall_impl _ _ _ Hd). intros c (d & Hlt & ->). apply digit_char_class, Hlt. }
  unfold strip_spaces. rewrite (lstrip_spaces_id _ Hs).
  rewrite (lstrip_spaces_id (rev (rev (digits_rev (S n) n)))) by (apply Forall_rev; exact Hs).
  rewrite rev_involutive.
  pose proof (digits_rev_value (S n) n ltac:(lia)) as Hv.
  destruct (rev (digits_rev (S n) n)) as [|c l] eqn:E.
  { apply (f_equal (@rev _)) in E. rewrite rev_involutive in E. cbn [digits_rev rev] in E.
    destruct (n <? 10); discriminate E. }
  apply Forall_cons in Hd as [(d & Hlt & ->) _]. destruct (digit_char_class d Hlt) as (_ & -> & ->).
  exact Hv.
Qed.

(** ** Paging through the whole query set *)

Definition pages {A} (l : list A) (per_page : Z) : Z := (- ((- Z.max 1 (count l)) / per_page))%Z.

Lemma num_pages_ok {A} (l : list A) per_page : (1 <= per_page)%Z -> num_pages l per_page = Ok (pages l per_page).
Proof. intros Hp. unfold num_pages. replace (per_page =? 0)%Z with false by (symmetry; apply Z.eqb_neq; lia). reflexivity. Qed.

Lemma pages_bounds {A} (l : list A) per_page :
  (1 <= per_page)%Z ->
  (1 <= pages l per_page)%Z /\ ((pages l per_page - 1) * per_page < Z.max 1 (count l) <= pages l per_page * per_page)%Z.
Proof.
  intros Hp. unfold pages. set (h := Z.max 1 (count l)).
  pose proof (Z.div_mod (- h) per_page ltac:(lia)) as Hdm.
  pose proof (Z.mod_pos_bound (- h) per_page ltac:(lia)) as Hb.
  assert (Hh : (1 <= h)%Z) by (unfold h; lia). nia.
Qed.

(** The request the script of the partial template sends for page [n]. *)
Definition page_request (n : Z) : gmap string string := <["page" := str_nat (Z.to_nat n)]> ∅.

Lemma page_request_lookups n :
  page_request n !! "page" = Some (str_nat (Z.to_nat n)) /\ page_request n !! "paginate_by" = None.
Proof. unfold page_request. split; [apply lookup_insert_eq|]. rewrite lookup_insert_ne by discriminate. apply lookup_empty. Qed.

(** The page number [k] of the [pages] pages, as the mixin answers it. *)
Lemma ajax_more_page {A R} t (l : list A) per_page (super_dispatch : exc R) k :
  (1 <= per_page)%Z -> (1 <= k <= pages l per_page)%Z ->
  exists j, ajax_more_dispatch (Some t) (page_request k) l (Some per_page) super_dispatch = Ok (inl j) /\
    pj_content j = firstn (Z.to_nat (Z.min (count l) (k * per_page) - (k - 1) * per_page))
                     (skipn (Z.to_nat ((k - 1) * per_page)) l) /\
    pj_has_next j = (k <? pages l per_page)%Z /\
    ((k < pages l per_page)%Z -> pj_next_page_number j = (k + 1)%Z).
Proof.
  intros Hp Hk. destruct (page_request_lookups k) as [Hpg Hpb].
  destruct (pages_bounds l per_page Hp) as [HN1 [HNlo HNhi]].
  pose proof (num_pages_ok l per_page Hp) as Hnp.
  assert (Hc : (0 <= count l)%Z) by (unfold count; lia).
  assert (Hval : forall m, (1 <= m <= pages l per_page)%Z -> validate_number l per_page m = Ok m).
  { intros m Hm. unfold validate_number. rewrite Hnp. cbn [exc_bind].
    replace (m <? 1)%Z with false by (symmetry; apply Z.ltb_ge; lia).
    replace (pages l per_page <? m)%Z with false by (symmetry; apply Z.ltb_ge; lia). reflexivity. }
  unfold ajax_more_dispatch. rewrite Hpg, Hpb. cbn [int_of_paginate_by exc_bind].
  rewrite py_int_str_nat, Z2Nat.id by lia. cbn [exc_bind].
  unfold page at 1. rewrite (Hval k Hk). cbn [exc_bind].
  unfold has_next at 1. rewrite Hnp. cbn [exc_bind pg_number].
  assert (Hkp : ((k - 1) * per_page <= (pages l per_page - 1) * per_page)%Z)
    by (apply Z.mul_le_mono_nonneg_r; lia).
  assert (Htop : (if (count l <=? (k - 1) * per_page + per_page)%Z then count l
                  else ((k - 1) * per_page + per_page)%Z) = Z.min (count l) (k * per_page)).
  { destruct (Z.leb_spec (count l) ((k - 1) * per_page + per_page)); lia. }
  rewrite Htop, py_slice_nonneg by (unfold count in *; nia).
  unfold previous_page_number, next_page_number, end_index, has_previous. cbn [pg_number].
  destruct (Z.ltb_spec 1 k) as [H1|H1]; [rewrite (Hval (k - 1)%Z) by lia|]; cbn [exc_bind];
  destruct (Z.ltb_spec k (pages l per_page)) as [H2|H2]; try rewrite (Hval (k + 1)%Z) by lia;
  cbn [exc_bind]; rewrite Hnp; cbn [exc_bind];
  (eexists; split; [reflexivity|]); cbn [pj_content pj_has_next pj_next_page_number pg_object_list];
  (split; [reflexivity|split; [reflexivity|]]); intros; first [reflexivity|lia].
Qed.

(** The "load more" client: request page [n], append its objects, and go
    on with [next_page_number] while [has_next]; [fuel] bounds the number
    of requests. *)
Fixpoint load_more {A R} (fuel : nat) (fetch : gmap string string -> exc (PageJson A + R)) (n : Z)
    : exc (list A) :=
  match fuel with
  | O => Ok []
  | S f =>
      r <-! fetch (page_request n) ;;
      match r with
      | inl j =>
          if pj_has_next j then rest <-! load_more f fetch (pj_next_page_number j) ;; Ok (pj_content j ++ rest)
          else Ok (pj_content j)
      | inr _ => Ok []
      end
  end.

Lemma load_more_S {A R} f (fetch : gmap string string -> exc (PageJson A + R)) n :
  load_more (S f) fetch n =
    (r <-! fetch (page_request n) ;;
     match r with
     | inl j =>
         if pj_has_next j then rest <-! load_more f fetch (pj_next_page_number j) ;; Ok (pj_content j ++ rest)
         else Ok (pj_content j)
     | inr _ => Ok []
     end).
Proof. reflexivity. Qed.

Lemma load_more_from {A R} t (l : list A) per_page (super_dispatch : exc R) m k :
  (1 <= per_page)%Z -> (1 <= k)%Z -> (pages l per_page - k)%Z = Z.of_nat m ->
  load_more (S m) (fun get => ajax_more_dispatch (Some t) get l (Some per_page) super_dispatch) k =
    Ok (skipn (Z.to_nat ((k - 1) * per_page)) l).
Proof.
  intros Hp. revert k. induction m as [|m IH]; intros k Hk Hm;
    destruct (pages_bounds l per_page Hp) as [HN1 [HNlo HNhi]];
    destruct (ajax_more_page t l per_page super_dispatch k Hp ltac:(lia)) as (j & Hj & Hc & Hn & Hnext);
    rewrite load_more_S, Hj; cbn [exc_bind]; rewrite Hn.
  - replace (k <? pages l per_page)%Z with false by (symmetry; apply Z.ltb_ge; lia).
    rewrite Hc. f_equal. apply firstn_all2. rewrite length_skipn. unfold count in *. nia.
  - replace (k <? pages l per_page)%Z with true by (symmetry; apply Z.ltb_lt; lia).
    rewrite (Hnext ltac:(lia)), (IH (k + 1)%Z) by lia. cbn [exc_bind]. f_equal.
    rewrite Hc. replace (Z.min (count l) (k * per_page)) with (k * per_page)%Z by (unfold count in *; nia).
    replace (Z.to_nat ((k + 1 - 1) * per_page)) with (Z.to_nat (k * per_page - (k - 1) * per_page) + Z.to_nat ((k - 1) * per_page))%nat by nia.
    rewrite <- skipn_skipn, firstn_skipn. reflexivity.
Qed.

(** C34: a client that asks for page 1 and follows [next_page_number]
    while [has_next] receives every object of the query set exactly once,
    in order, after as many requests as there are pages. *)
Theorem load_more_collects_all {A R} t (l : list A) per_page (super_dispatch : exc R) :
  (1 <= per_page)%Z ->
  load_more (Z.to_nat (pages l per_page))
    (fun get => ajax_more_dispatch (Some t) get l (Some per_page) super_dispatch) 1 = Ok l.
Proof.
  intros Hp. destruct (pages_bounds l per_page Hp) as [HN1 _].
  replace (Z.to_nat (pages l per_page)) with (S (Z.to_nat (pages l per_page - 1))) by lia.
  rewrite (load_more_from t l per_page super_dispatch _ 1 Hp) by lia. reflexivity.
Qed.

Lemma load_more_collects_all_witness :
  load_more (Z.to_nat (pages [1; 2; 3; 4; 5] 2))
    (fun get => ajax_more_dispatch (R:=unit) (Some "core/partial.html") get [1; 2; 3; 4; 5] (Some 2%Z) (Ok tt)) 1
  = Ok [1; 2; 3; 4; 5].
Proof. apply load_more_collects_all. lia. Defined.

(** The mixin's error paths: without [partial_template_name] it
    raises [ImproperlyConfigured]; a [page] that is not an integer raises
    [PageNotAnInteger]; a page below 1 or past the last raises
    [EmptyPage]; and [paginate_by=0] in the query string, which any
    visitor can send, raises [ZeroDivisionError]. *)
Theorem ajax_more_errors {A R} (get : gmap string string) (l : list A) paginate_by (super_dispatch : exc R) t s :
  ajax_more_dispatch None get l paginate_by super_dispatch = Raise ImproperlyConfigured /\
  (get !! "page" = Some s -> get !! "paginate_by" = None -> paginate_by <> None -> py_int s = None ->
   ajax_more_dispatch (Some t) get l paginate_by super_dispatch = Raise PageNotAnInteger) /\
  (forall per_page n, get !! "page" = Some s -> get !! "paginate_by" = None -> paginate_by = Some per_page ->
   (1 <= per_page)%Z -> py_int s = Some n -> (n < 1 \/ pages l per_page < n /\ n <> 1)%Z ->
   ajax_more_dispatch (Some t) get l paginate_by super_dispatch = Raise EmptyPage) /\
  (forall n, get !! "page" = Some s -> get !! "paginate_by" = Some "0"%string -> py_int s = Some n ->
   ajax_more_dispatch (Some t) get l paginate_by super_dispatch = Raise ZeroDivisionError).
Proof.
  split; [reflexivity|split; [|split]].
  - intros Hp Hb Hpb Hs. unfold ajax_more_dispatch. rewrite Hp, Hb.
    destruct paginate_by as [pb|]; [|congruence]. cbn [int_of_paginate_by exc_bind]. rewrite Hs. reflexivity.
  - intros per_page n Hp Hb -> Hpp Hs Hn. unfold ajax_more_dispatch. rewrite Hp, Hb.
    cbn [int_of_paginate_by exc_bind]. rewrite Hs. cbn [exc_bind]. unfold page, validate_number.
    rewrite num_pages_ok by exact Hpp. cbn [exc_bind].
    destruct (Z.ltb_spec n 1); [reflexivity|]. destruct (Z.ltb_spec (pages l per_page) n); [|lia].
    replace (n =? 1)%Z with false by (symmetry; apply Z.eqb_neq; lia). reflexivity.
  - intros n Hp Hb Hs. unfold ajax_more_dispatch. rewrite Hp, Hb. cbn [int_of_paginate_by].
    replace (py_int "0") with (Some 0%Z) by reflexivity. cbn [exc_bind]. rewrite Hs. reflexivity.
Qed.
