(* ===== verification/PyDate.v ===== *)
(** * Python's [datetime.date], the part the date widget uses

    Modelled from CPython's [Lib/datetime.py] (the library the code calls,
    not part of the repository): the calendar helpers [_is_leap],
    [_days_in_month], [_days_before_year], [_days_before_month],
    [_ymd2ord], the year computation of [_ord2ymd], the field checks of
    the [date] constructor (after CPython 2.7's C [date_new], which first
    parses its arguments as C ints), and [date - timedelta(days=k)] on ordinals,
    which raises [OverflowError] outside [1 .. date.max].

    The main result, [ord2year_spec], shows that the year [_ord2ymd]
    computes with its 400/100/4/1-year cycles is the year whose days
    contain the ordinal: it is checked by evaluation on one 400-year cycle
    and carried to every ordinal by the period of the calendar. *)

From S2P Require Import Prelude.

#[local] Open Scope Z_scope.

Definition MINYEAR : Z := 1.
Definition MAXYEAR : Z := 9999.
(** [date.max.toordinal()] *)
Definition MAXORDINAL : Z := 3652059.

(** [_is_leap] *)
Definition is_leap (year : Z) : bool :=
  (year mod 4 =? 0) && (negb (year mod 100 =? 0) || (year mod 400 =? 0)).

(** [_DAYS_IN_MONTH] and [_days_in_month] *)
Definition DAYS_IN_MONTH (month : Z) : Z :=
  match month with
  | 1 | 3 | 5 | 7 | 8 | 10 | 12 => 31
  | 4 | 6 | 9 | 11 => 30
  | 2 => 28
  | _ => -1
  end.

Definition days_in_month (year month : Z) : Z :=
  if (month =? 2) && is_leap year then 29 else DAYS_IN_MONTH month.

(** [_DAYS_BEFORE_MONTH] and [_days_before_month] *)
Definition DAYS_BEFORE_MONTH (month : Z) : Z :=
  match month with
  | 1 => 0 | 2 => 31 | 3 => 59 | 4 => 90 | 5 => 120 | 6 => 151
  | 7 => 181 | 8 => 212 | 9 => 243 | 10 => 273 | 11 => 304 | 12 => 334
  | _ => -1
  end.

Definition days_before_month (year month : Z) : Z :=
  DAYS_BEFORE_MONTH month + (if (2 <? month) && is_leap year then 1 else 0).

(** [_days_before_year] *)
Definition days_before_year (year : Z) : Z :=
  let y := year - 1 in y * 365 + y / 4 - y / 100 + y / 400.

(** [_ymd2ord] *)
Definition ymd2ord (year month day : Z) : Z :=
  days_before_year year + days_before_month year month + day.

Record date := mkDate { year : Z; month : Z; day : Z }.

(** [_check_date_fields], run by [date(year, month, day)]. *)
Definition check_date_fields (y m d : Z) : exc date :=
  if negb ((MINYEAR <=? y) && (y <=? MAXYEAR)) then Raise ValueError
  else if negb ((1 <=? m) && (m <=? 12)) then Raise ValueError
  else if negb ((1 <=? d) && (d <=? days_in_month y m)) then Raise ValueError
  else Ok (mkDate y m d).

(** A C [int]: the ["iii"] format with which CPython 2.7's [date_new]
    parses [year], [month] and [day] raises [OverflowError] beyond it. *)
Definition c_int (z : Z) : bool := (-2147483648 <=? z) && (z <=? 2147483647).

(** [datetime.date(year, month, day)] of CPython 2.7 ([date_new]): the
    arguments parsed as C ints, then the field checks. *)
Definition date_new (y m d : Z) : exc date :=
  if c_int y && c_int m && c_int d then check_date_fields y m d else Raise OverflowError.

Definition valid_date (dt : date) : Prop :=
  MINYEAR <= year dt <= MAXYEAR /\ 1 <= month dt <= 12 /\ 1 <= day dt <= days_in_month (year dt) (month dt).

(** [_DI400Y], [_DI100Y], [_DI4Y] *)
Definition DI400Y : Z := 146097.
Definition DI100Y : Z := 36524.
Definition DI4Y : Z := 1461.

(** The year of [_ord2ymd(n)]. *)
Definition ord2year (n : Z) : Z :=
  let n := n - 1 in
  let n400 := n / DI400Y in
  let n := n mod DI400Y in
  let n100 := n / DI100Y in
  let n := n mod DI100Y in
  let n4 := n / DI4Y in
  let n := n mod DI4Y in
  let n1 := n / 365 in
  let year := n400 * 400 + 1 + n100 * 100 + n4 * 4 + n1 in
  if (n1 =? 4) || (n100 =? 4) then year - 1 else year.

(** [(d - timedelta(days=k))] on the ordinal of [d]. *)
Definition sub_days (n k : Z) : exc Z :=
  let r := n - k in
  if (1 <=? r) && (r <=? MAXORDINAL) then Ok r else Raise OverflowError.

(** The reference: [n] lies in the days of [year]. *)
Definition in_year (n y : Z) : Prop := days_before_year y < n <= days_before_year (y + 1).

Definition in_year_b (n y : Z) : bool := (days_before_year y <? n) && (n <=? days_before_year (y + 1)).

(** The check over [count] consecutive ordinals from [lo]. *)
Fixpoint check_ord2year (lo : Z) (count : nat) : bool :=
  match count with
  | O => true
  | S c => in_year_b lo (ord2year lo) && check_ord2year (lo + 1) c
  end.

(** ** The year of an ordinal *)

Lemma check_ord2year_sound lo count :
  check_ord2year lo count = true -> forall n, lo <= n < lo + Z.of_nat count -> in_year n (ord2year n).
Proof.
  revert lo. induction count as [|c IH]; intros lo Hc n Hn; [lia|].
  cbn [check_ord2year] in Hc. apply andb_prop in Hc as [Hb Hc].
  destruct (Z.eq_dec n lo) as [->|Hne].
  - unfold in_year_b in Hb. apply andb_prop in Hb as [H1 H2]. split; [apply Z.ltb_lt, H1|apply Z.leb_le, H2].
  - apply (IH (lo + 1) Hc). lia.
Qed.

(** One 400-year cycle, by evaluation. *)
Lemma ord2year_first_cycle : check_ord2year 1 (Z.to_nat DI400Y) = true.
Proof. vm_compute. reflexivity. Qed.

(** The calendar repeats every 400 years, which have [DI400Y] days. *)
Lemma days_before_year_period y k : days_before_year (y + 400 * k) = days_before_year y + DI400Y * k.
Proof.
  unfold days_before_year, DI400Y. set (y1 := y - 1).
  replace (y + 400 * k - 1) with (y1 + k * 400) by (unfold y1; lia).
  assert (H4 : (y1 + k * 400) / 4 = y1 / 4 + k * 100)
    by (replace (y1 + k * 400) with (y1 + k * 100 * 4) by lia; apply Z.div_add; lia).
  assert (H100 : (y1 + k * 400) / 100 = y1 / 100 + k * 4)
    by (replace (y1 + k * 400) with (y1 + k * 4 * 100) by lia; apply Z.div_add; lia).
  assert (H400 : (y1 + k * 400) / 400 = y1 / 400 + k) by (apply Z.div_add; lia).
  rewrite H4, H100, H400. lia.
Qed.

Lemma ord2year_period n k : ord2year (n + DI400Y * k) = ord2year n + 400 * k.
Proof.
  unfold ord2year. replace (n + DI400Y * k - 1) with (n - 1 + k * DI400Y) by lia.
  rewrite Z.div_add, Z.mod_add by (unfold DI400Y; lia).
  destruct (_ || _); lia.
Qed.

(** [ord2year] agrees with the reference on every positive ordinal. *)
Lemma ord2year_in_year n : 1 <= n -> in_year n (ord2year n).
Proof.
  intros Hn. set (k := (n - 1) / DI400Y). set (r := n - DI400Y * k).
  assert (Hr : 1 <= r < 1 + Z.of_nat (Z.to_nat DI400Y)).
  { pose proof (Z.div_mod (n - 1) DI400Y ltac:(unfold DI400Y; lia)).
    pose proof (Z.mod_pos_bound (n - 1) DI400Y ltac:(unfold DI400Y; lia)).
    rewrite Z2Nat.id by (unfold DI400Y; lia). unfold r, k. lia. }
  pose proof (check_ord2year_sound _ _ ord2year_first_cycle r Hr) as [H1 H2].
  replace n with (r + DI400Y * k) by (unfold r; lia).
  rewrite ord2year_period. unfold in_year.
  replace (ord2year r + 400 * k + 1) with (ord2year r + 1 + 400 * k) by lia.
  rewrite !days_before_year_period. lia.
Qed.

Lemma div_step c y : 0 < c -> y / c = (y - 1) / c + (if y mod c =? 0 then 1 else 0).
Proof.
  intros Hc. pose proof (Z.div_mod y c ltac:(lia)). pose proof (Z.mod_pos_bound y c Hc).
  destruct (y mod c =? 0) eqn:E; [apply Z.eqb_eq in E|apply Z.eqb_neq in E].
  - enough ((y - 1) / c = y / c - 1) by lia.
    symmetry. apply (Z.div_unique _ _ _ (c - 1)); [left; lia|nia].
  - enough ((y - 1) / c = y / c) by lia.
    symmetry. apply (Z.div_unique _ _ _ (y mod c - 1)); [left; lia|nia].
Qed.

Lemma mod_0_weaken a b y : 0 < a -> 0 < b -> y mod (a * b) = 0 -> y mod a = 0.
Proof.
  intros Ha Hb H. apply Z.mod_divide in H; [|lia]. apply Z.mod_divide; [lia|].
  destruct H as [q ->]. exists (q * b). ring.
Qed.

(** A year has 366 days when it is leap, 365 otherwise. *)
Lemma days_before_year_succ y :
  days_before_year (y + 1) = days_before_year y + (if is_leap y then 366 else 365).
Proof.
  unfold days_before_year, is_leap. replace (y + 1 - 1) with y by lia.
  rewrite (div_step 4 y), (div_step 100 y), (div_step 400 y) by lia.
  destruct (y mod 4 =? 0) eqn:E4, (y mod 100 =? 0) eqn:E100, (y mod 400 =? 0) eqn:E400; cbn; try lia.
  - apply Z.eqb_eq in E400. apply Z.eqb_neq in E100. exfalso. apply E100.
    apply (mod_0_weaken 100 4); [lia|lia|exact E400].
  - apply Z.eqb_eq in E100. apply Z.eqb_neq in E4. exfalso. apply E4.
    apply (mod_0_weaken 4 25); [lia|lia|exact E100].
  - apply Z.eqb_eq in E400. apply Z.eqb_neq in E4. exfalso. apply E4.
    apply (mod_0_weaken 4 100); [lia|lia|exact E400].
Qed.

Lemma days_before_year_mono y y' : y <= y' -> days_before_year y <= days_before_year y'.
Proof.
  intros H. replace y' with (y + Z.of_nat (Z.to_nat (y' - y))) by lia.
  induction (Z.to_nat (y' - y)) as [|d IH]; [rewrite Z.add_0_r; lia|].
  replace (y + Z.of_nat (S d)) with (y + Z.of_nat d + 1) by lia.
  rewrite days_before_year_succ. destruct (is_leap _); lia.
Qed.

(** The year of an ordinal is unique. *)
Lemma in_year_unique n y y' : in_year n y -> in_year n y' -> y = y'.
Proof.
  unfold in_year. intros [H1 H2] [H1' H2'].
  destruct (Z.lt_trichotomy y y') as [Hlt|[Heq|Hgt]]; [exfalso|exact Heq|exfalso].
  - pose proof (days_before_year_mono (y + 1) y' ltac:(lia)). lia.
  - pose proof (days_before_year_mono (y' + 1) y ltac:(lia)). lia.
Qed.

Lemma ord2year_of n y : 1 <= n -> in_year n y -> ord2year n = y.
Proof. intros Hn H. exact (in_year_unique n _ _ (ord2year_in_year n Hn) H). Qed.
