(* ===== verification/Images.v ===== *)
(** * Default images and image models: [core/models.py], [core/query.py],
    [core/managers.py]

    [ImageModel.save] gives an image without a file one of the default
    images of its category, drawn by [DefaultImage.objects.permitted()
    .get_random(category)], and names an image without a name after its
    file and today's date.  [DefaultImageQuerySet.get_random] draws with
    [random.choice]: the index it draws is the parameter [pick] of the
    section.  [permitted()] is [CoreStateQuerySet.permitted] on the
    [DefaultImage] table: only default images whose version is in the
    site state are drawn.  [GalleryImage.gallery] and
    [ContentModel.as_leaf_class] are the two other methods of the models
    with logic.

    The theorems: a saved image without a file gets one exactly when a
    permitted default image of its category exists, and the name
    [file YYYY-MM-DD]; a default image that has no version is never
    drawn. *)

From S2P Require Import Prelude Constants Store Query Pagination PyDate.

(** [class DefaultImage(PhotologueImageModel, StateModel)] *)
Record DefaultImage := mkDefaultImage {
  di_pk : nat;
  di_image : string;
  di_category : string;
  di_state : State
}.

(** [DefaultImage.objects.permitted()]: the default images whose version
    (content type [ct]) is in [SITE_STATE], without the DELETED ones. *)
Definition default_images_permitted (ct : nat) (staging : bool) (db : DB) (imgs : list DefaultImage)
    : list DefaultImage :=
  let model_pks := map v_object_id (versions_in_state ct (db_versions db) (SITE_STATE staging)) in
  List.filter (fun i => negb (state_eqb (di_state i) STATE_DELETED))
    (List.filter (fun i => mem (di_pk i) model_pks) imgs).

Section Random.
  (** [random.choice(seq)]: the index [int(random() * len(seq))]. *)
  Context (pick : nat -> nat).

  (** [DefaultImageQuerySet.get_random] *)
Definition get_random (category : option string) (qs : list DefaultImage) : option string :=
    let pre_def_images :=
      List.filter (fun i => match category with Some c => String.eqb (di_category i) c | None => false end) qs in
    match pre_def_images with
    | [] => None
    | _ :: _ => di_image <$> nth_error pre_def_images (pick (length pre_def_images))
    end.
End Random.

(** The image fields of an [ImageModel] row: the file ([None] or a
    name, false when empty) and [image_name]. *)
Record ImageFields := mkImageFields {
  image : option string;
  image_name : option string
}.

Definition file_truthy (f : option string) : bool :=
  match f with Some s => truthy s | None => false end.

(** [timezone.now().strftime('%Y-%m-%d')]: Python 2's [strftime] refuses
    years before 1900. *)
Definition pad2 (n : Z) : string := if (n <? 10)%Z then "0" ++ str_nat (Z.to_nat n) else str_nat (Z.to_nat n).

Definition strftime_ymd (today : date) : exc string :=
  if (year today <? 1900)%Z then Raise ValueError
  else Ok (str_nat (Z.to_nat (year today)) ++ "-" ++ pad2 (month today) ++ "-" ++ pad2 (day today))%string.

(** [ImageModel.save], before [super().save()]: [draw] is the
    [get_random] of the model's [default_image_category]. *)
Definition image_model_save (draw : option string) (today : date) (o : ImageFields) : exc ImageFields :=
  let o := if file_truthy (image o) then o else mkImageFields draw (image_name o) in
  if file_truthy (image o) && negb (match image_name o with Some n => truthy n | None => false end) then
    stamp <-! strftime_ymd today ;;
    Ok (mkImageFields (image o) (Some (default "" (image o) ++ " " ++ stamp)%string))
  else Ok o.

(** [GalleryImage.gallery]: the first of its galleries, or [None]. *)
Definition gallery_of {G} (galleries : list G) : option G := head galleries.

(** [ContentModel.as_leaf_class]: the row of the leaf model with the same
    key; [AttributeError] without a leaf content type. *)
Definition as_leaf_class (db : DB) (c : Content) : exc Content :=
  match c_leaf_content_type c with
  | None => Raise AttributeError
  | Some leaf => qs_get (fun r => c_pk r =? c_pk c) (model_rows leaf db)
  end.

(** ** Lemmas *)

Section RandomLemmas.
  Context (pick : nat -> nat).
  Hypothesis pick_lt : forall n, (0 < n)%nat -> (pick n < n)%nat.

  (** [get_random] draws the file of a default image of the category, and
      draws nothing only when the category has none. *)
Lemma get_random_spec category qs :
    (get_random pick (Some category) qs = None <-> forall i, In i qs -> di_category i <> category) /\
    (forall f, get_random pick (Some category) qs = Some f ->
       exists i, In i qs /\ di_category i = category /\ di_image i = f).
  Proof.
    unfold get_random. set (l := List.filter _ qs).
    assert (Hl : forall i, In i l <-> In i qs /\ di_category i = category)
      by (intros i; unfold l; rewrite filter_In, String.eqb_eq; tauto).
    destruct l as [|x l'] eqn:E.
    - split; [split; [intros _ i Hi Hc; apply (proj2 (Hl i)); auto|reflexivity]|discriminate].
    - assert (Hn : (pick (length (x :: l')) < length (x :: l'))%nat) by (apply pick_lt; cbn; lia).
      destruct (nth_error (x :: l') (pick (length (x :: l')))) as [y|] eqn:Ey.
      2: { apply nth_error_None in Ey. lia. }
      split.
      + split; [discriminate|]. intros H. exfalso. destruct (proj1 (Hl x) (or_introl eq_refl)) as [Hx Hc].
        exact (H x Hx Hc).
      + intros f [= <-]. exists y. apply nth_error_In in Ey. destruct (proj1 (Hl y) Ey). auto.
  Qed.
End RandomLemmas.

(** A default image is drawn only if it has a version in the site state. *)
Lemma default_images_permitted_versioned ct staging db imgs i :
  In i (default_images_permitted ct staging db imgs) ->
  In i imgs /\ di_state i <> STATE_DELETED /\
  exists v, In v (db_versions db) /\ v_content_type v = ct /\ v_state v = SITE_STATE staging /\ v_object_id v = di_pk i.
Proof.
  unfold default_images_permitted. rewrite !filter_In. intros [[Hin Hm] Hd].
  apply negb_true_iff in Hd. split; [exact Hin|split].
  - intros Heq. rewrite Heq in Hd. discriminate Hd.
  - apply mem_In, in_map_iff in Hm as (v & Hv & Hvin). unfold versions_in_state in Hvin.
    apply filter_In in Hvin as [Hvin Hp]. apply andb_prop in Hp as [Hct Hst].
    apply Nat.eqb_eq in Hct. apply state_eqb_true in Hst. eauto.
Qed.

(** [ImageModel.save] of a row without file and name, when a file is
    drawn: the row gets the file and the name [file YYYY-MM-DD]. *)
Lemma image_model_save_draws f today o stamp :
  file_truthy (image o) = false -> image_name o = None -> truthy f = true ->
  strftime_ymd today = Ok stamp ->
  image_model_save (Some f) today o = Ok (mkImageFields (Some f) (Some (f ++ " " ++ stamp)%string)).
Proof.
  intros Hf Hn Ht Hs. unfold image_model_save. rewrite Hf. cbn [image image_name file_truthy].
  rewrite Ht. cbn. rewrite Hs, Hn. reflexivity.
Qed.

(** A row that already has a file and a name is saved unchanged. *)
Lemma image_model_save_keeps draw today o :
  file_truthy (image o) = true -> (match image_name o with Some n => truthy n | None => false end) = true ->
  image_model_save draw today o = Ok o.
Proof. intros Hf Hn. unfold image_model_save. rewrite Hf, Hn, Hf. reflexivity. Qed.

Example strftime_ymd_example : strftime_ymd (mkDate 2014 3 7) = Ok "2014-03-07"%string.
Proof. vm_compute. reflexivity. Qed.
