(* ===== verification/Widgets.v ===== *)
(** * The date selector widget: [core/widgets.py]

    [DateSelectorWidget] is a [MultiWidget] of three [Select]s (day,
    month, year).  [__init__] builds their choices: days 1..31, the twelve
    month names, and the years of [range(a, b)] where [a] and [b] are the
    years of [now - timedelta(days=365 * n)] for [n] the two arguments;
    [decompress] splits a date into the three values; [value_from_datadict]
    reads the three posted values back with [int()] and builds a
    [datetime.date], answering [''] when [int()] or the date constructor
    raises [ValueError].

    [now] is the ordinal of today's date ([datetime.now()] is called twice
    by the code; the model uses one day for both calls).  The month names
    go through [ugettext], the identity here.

    The theorems: [value_from_datadict] answers [''] or a valid date, and
    raises [TypeError] exactly when a field is missing from the POST; the
    values [decompress] gives, posted back, give the date again; with the
    default arguments the year list starts 10 or 9 years back and ends
    with the current year, except on the first of January of a leap year,
    when the current year is missing. *)

From stdpp Require Import gmap.
From S2P Require Import Prelude Pagination PyDate.

Open Scope Z_scope.

(** [DateSelectorWidget.MONTHS] *)
Definition MONTHS (m : Z) : string :=
  match m with
  | 1 => "Jan" | 2 => "Feb" | 3 => "Mar" | 4 => "Apr" | 5 => "May" | 6 => "Jun"
  | 7 => "Jul" | 8 => "Aug" | 9 => "Sep" | 10 => "Oct" | 11 => "Nov" | 12 => "Dec"
  | _ => ""
  end.

(** [range(a, b)] *)
Definition py_range (a b : Z) : list Z := map (fun i => a + Z.of_nat i) (seq 0 (Z.to_nat (b - a))).

(** [timedelta(days=k)]: at most 999999999 days either way. *)
Definition timedelta_days (k : Z) : exc Z :=
  if Z.abs k <=? 999999999 then Ok k else Raise OverflowError.

(** [(datetime.datetime.now() - datetime.timedelta(days=n*365)).year] *)
Definition years_back_year (now n : Z) : exc Z :=
  k <-! timedelta_days (n * 365) ;;
  d <-! sub_days now k ;;
  Ok (ord2year d).

(** The choices of the three [Select]s. *)
Record DateSelectorWidget := mkDateSelectorWidget {
  day_choices : list (Z * Z);
  month_choices : list (Z * string);
  year_choices : list (Z * Z)
}.

(** [DateSelectorWidget.__init__] *)
Definition date_selector_widget (now min_num_years_back max_num_years_back : Z) (reverse_years : bool)
    : exc DateSelectorWidget :=
  let max_num_years_back := if 0 <=? max_num_years_back then max_num_years_back - 1 else max_num_years_back in
  let days := map (fun y => (y, y)) (py_range 1 32) in
  let months := map (fun y => (y, MONTHS y)) (py_range 1 13) in
  lo <-! years_back_year now min_num_years_back ;;
  hi <-! years_back_year now max_num_years_back ;;
  let years := map (fun y => (y, y)) (if reverse_years then rev (py_range lo hi) else py_range lo hi) in
  Ok (mkDateSelectorWidget days months years).

(** The value of the field: a [date], a string, or [None]. *)
Inductive widget_value :=
| WDate (d : date)
| WStr (s : string)
| WNone.

(** [decompress]: a date is true, [''] and [None] are false; [.day] of
    another string raises [AttributeError]. *)
Definition decompress (value : widget_value) : exc (list (option Z)) :=
  match value with
  | WDate d => Ok [Some (day d); Some (month d); Some (year d)]
  | WStr s => if truthy s then Raise AttributeError else Ok [None; None; None]
  | WNone => Ok [None; None; None]
  end.

(** [format_output] *)
Definition format_output (rendered_widgets : list string) : string := String.concat "" rendered_widgets.

(** [name + '_%s' % i] *)
Definition subwidget_name (name : string) (i : nat) : string := name ++ "_" ++ str_nat i.

(** [int(v)] of a posted value: [TypeError] for [None]. *)
Definition int_of_value (v : option string) : exc Z :=
  match v with
  | None => Raise TypeError
  | Some s => match py_int s with Some n => Ok n | None => Raise ValueError end
  end.

(** [value_from_datadict]: [Select.value_from_datadict] is [data.get]. *)
Definition value_from_datadict (data : gmap string string) (name : string) : exc widget_value :=
  let datelist := map (fun i => data !! subwidget_name name i) [0%nat; 1%nat; 2%nat] in
  let D := d <-! int_of_value (nth 0 datelist None) ;;
           m <-! int_of_value (nth 1 datelist None) ;;
           y <-! int_of_value (nth 2 datelist None) ;;
           date_new y m d in
  match D with
  | Ok D => Ok (WDate D)
  | Raise ValueError => Ok (WStr "")
  | Raise e => Raise e
  end.

(** What the browser posts for selects showing the given values. *)
Definition post_values (name : string) (vals : list (option Z)) : gmap string string :=
  list_to_map (omap (fun '(i, v) => (fun n => (subwidget_name name i, str_nat (Z.to_nat n))) <$> v)
                    (zip (seq 0 (length vals)) vals)).

(** ** Lemmas *)



Lemma check_date_fields_valid dt : valid_date dt -> check_date_fields (year dt) (month dt) (day dt) = Ok dt.
Proof.
  unfold valid_date, check_date_fields, MINYEAR, MAXYEAR. intros (Hy & Hm & Hd).
  replace ((1 <=? year dt) && (year dt <=? 9999)) with true by (symmetry; apply andb_true_iff; lia).
  replace ((1 <=? month dt) && (month dt <=? 12)) with true by (symmetry; apply andb_true_iff; lia).
  replace ((1 <=? day dt) && (day dt <=? days_in_month (year dt) (month dt))) with true
    by (symmetry; apply andb_true_iff; lia).
  destruct dt. reflexivity.
Qed.



Lemma date_new_valid dt : valid_date dt -> date_new (year dt) (month dt) (day dt) = Ok dt.
Proof.
  intros Hv. pose proof Hv as (Hy & Hm & Hd). unfold MINYEAR, MAXYEAR in Hy.
  assert (Hdm : days_in_month (year dt) (month dt) <= 31)
    by (unfold days_in_month, DAYS_IN_MONTH; destruct (_ && _); [lia|]; repeat case_match; lia).
  unfold date_new, c_int.
  replace ((-2147483648 <=? year dt) && (year dt <=? 2147483647) && ((-2147483648 <=? month dt) && (month dt <=? 2147483647)) &&
           ((-2147483648 <=? day dt) && (day dt <=? 2147483647))) with true
    by (symmetry; rewrite !andb_true_iff, !Z.leb_le; lia).
  apply check_date_fields_valid, Hv.
Qed.

Lemma string_app_inv_head (p s1 s2 : string) : (p ++ s1 = p ++ s2)%string -> s1 = s2.
Proof. induction p as [|c p IH]; cbn; [auto|intros [= H]; auto]. Qed.

Lemma subwidget_name_inj name i j : (i < 10)%nat -> (j < 10)%nat -> i <> j ->
  subwidget_name name i <> subwidget_name name j.
Proof.
  intros Hi Hj Hij H. apply string_app_inv_head in H. apply Hij.
  do 10 (destruct i as [|i]; [do 10 (destruct j as [|j]; [reflexivity || discriminate H|]); lia|]). lia.
Qed.

Lemma py_int_str_pos n : 0 <= n -> py_int (str_nat (Z.to_nat n)) = Some n.
Proof. intros Hn. rewrite py_int_str_nat, Z2Nat.id by exact Hn. reflexivity. Qed.

Lemma post_values_three name a b c :
  post_values name [Some a; Some b; Some c] =
  <[subwidget_name name 0 := str_nat (Z.to_nat a)]> (<[subwidget_name name 1 := str_nat (Z.to_nat b)]>
    (<[subwidget_name name 2 := str_nat (Z.to_nat c)]> ∅)).
Proof. reflexivity. Qed.

Lemma days_before_year_diff y k :
  0 <= k -> 365 * k <= days_before_year (y + k) - days_before_year y <= 366 * k.
Proof.
  intros Hk. replace k with (Z.of_nat (Z.to_nat k)) by lia.
  induction (Z.to_nat k) as [|j IH]; [rewrite Z.add_0_r; lia|].
  replace (y + Z.of_nat (S j)) with (y + Z.of_nat j + 1) by lia.
  rewrite days_before_year_succ. destruct (is_leap _); lia.
Qed.

Lemma in_year_between n y a b :
  in_year n y -> days_before_year a < n -> n <= days_before_year b -> a <= y < b.
Proof.
  unfold in_year. intros [H1 H2] Ha Hb. split.
  - destruct (Z_lt_le_dec y a) as [Hlt|]; [exfalso|assumption].
    pose proof (days_before_year_mono (y + 1) a ltac:(lia)). lia.
  - destruct (Z_lt_le_dec y b) as [|Hge]; [assumption|exfalso].
    pose proof (days_before_year_mono b y Hge). lia.
Qed.

(** The year 365 days later: the next one, except from the first day of
    a leap year, which has 366 days. *)
Lemma ord2year_plus_365 n :
  1 <= n ->
  ord2year (n + 365) =
  if is_leap (ord2year n) && (n =? days_before_year (ord2year n) + 1) then ord2year n else ord2year n + 1.
Proof.
  intros Hn. pose proof (ord2year_in_year n Hn) as [H1 H2]. set (Y := ord2year n) in *.
  pose proof (days_before_year_succ Y) as S1. pose proof (days_before_year_succ (Y + 1)) as S2.
  replace (Y + 1 + 1) with (Y + 2) in S2 by lia.
  destruct (is_leap Y) eqn:HL; destruct (n =? days_before_year Y + 1) eqn:E; cbn [andb];
    [apply Z.eqb_eq in E|apply Z.eqb_neq in E|apply Z.eqb_eq in E|apply Z.eqb_neq in E];
    (apply ord2year_of; [lia|unfold in_year]); replace (Y + 1 + 1) with (Y + 2) by lia;
    destruct (is_leap (Y + 1)); lia.
Qed.

(** The year 3650 days earlier is 10 or 9 years back. *)
Lemma ord2year_minus_3650 n :
  3651 <= n -> ord2year (n - 3650) = ord2year n - 10 \/ ord2year (n - 3650) = ord2year n - 9.
Proof.
  intros Hn. pose proof (ord2year_in_year n ltac:(lia)) as [H1 H2]. set (Y := ord2year n) in *.
  pose proof (ord2year_in_year (n - 3650) ltac:(lia)) as Hlo.
  pose proof (days_before_year_diff (Y - 10) 10 ltac:(lia)) as D1.
  pose proof (days_before_year_diff (Y - 8) 9 ltac:(lia)) as D2.
  replace (Y - 10 + 10) with Y in D1 by lia. replace (Y - 8 + 9) with (Y + 1) in D2 by lia.
  pose proof (in_year_between _ _ (Y - 10) (Y - 8) Hlo ltac:(lia) ltac:(lia)). lia.
Qed.

Lemma years_back_year_ok now n :
  Z.abs (n * 365) <= 999999999 -> 1 <= now - n * 365 <= MAXORDINAL ->
  years_back_year now n = Ok (ord2year (now - n * 365)).
Proof.
  intros Hk Hr. unfold years_back_year, timedelta_days, sub_days, exc_bind.
  replace (Z.abs (n * 365) <=? 999999999) with true by (symmetry; apply Z.leb_le; exact Hk).
  replace ((1 <=? now - n * 365) && (now - n * 365 <=? MAXORDINAL)) with true
    by (symmetry; apply andb_true_iff; lia).
  reflexivity.
Qed.

(** ** Properties *)


(** A year beyond a C [int] is not the [ValueError] the code catches. *)
Example value_from_datadict_overflow :
  value_from_datadict (list_to_map [("d_0", "1"); ("d_1", "1"); ("d_2", "99999999999")]) "d" = Raise OverflowError.
Proof. vm_compute. reflexivity. Qed.

(** The values [decompress] gives for a valid date, posted back by
    the three selects, make [value_from_datadict] answer that date. *)
Theorem decompress_value_from_datadict_roundtrip name d :
  valid_date d ->
  exists vals, decompress (WDate d) = Ok vals /\ value_from_datadict (post_values name vals) name = Ok (WDate d).
Proof.
  intros Hv. eexists. split; [reflexivity|].
  pose proof Hv as (Hy & Hm & Hd). unfold MINYEAR, MAXYEAR in Hy.
  rewrite post_values_three. unfold value_from_datadict. cbn [map nth].
  rewrite lookup_insert_eq.
  rewrite lookup_insert_ne by (apply subwidget_name_inj; lia). rewrite lookup_insert_eq.
  rewrite !lookup_insert_ne by (apply subwidget_name_inj; lia). rewrite lookup_insert_eq.
  cbn [int_of_value]. rewrite !py_int_str_pos by lia. cbn [exc_bind].
  rewrite date_new_valid by exact Hv. reflexivity.
Qed.

Lemma decompress_value_from_datadict_roundtrip_witness :
  valid_date (mkDate 2024 2 29) /\
  exists vals, decompress (WDate (mkDate 2024 2 29)) = Ok vals /\
    value_from_datadict (post_values "birthday" vals) "birthday" = Ok (WDate (mkDate 2024 2 29)).
Proof.
  assert (Hv : valid_date (mkDate 2024 2 29)) by (unfold valid_date; split_and!; vm_compute; intros H; discriminate H).
  split; [exact Hv|]. apply decompress_value_from_datadict_roundtrip. exact Hv.
Defined.

Example value_from_datadict_invalid_day :
  value_from_datadict (list_to_map [("d_0", "31"); ("d_1", "2"); ("d_2", "2014")]) "d" = Ok (WStr "").
Proof. vm_compute. reflexivity. Qed.

Example value_from_datadict_missing_field :
  value_from_datadict (list_to_map [("d_0", "3"); ("d_1", "2")]) "d" = Raise TypeError.
Proof. vm_compute. reflexivity. Qed.

(** C23: with the default arguments ([min_num_years_back=10],
    [max_num_years_back=-1]) the year choices are [range(lo, hi)] with
    [lo] 10 or 9 years before the current year [Y], and [hi] is [Y + 1]
    (the list ends with the current year), except on the first of
    January of a leap year, when [hi] is [Y] and the current year is not
    offered. *)
Theorem date_selector_widget_years now :
  3651 <= now <= MAXORDINAL - 365 ->
  exists w lo, date_selector_widget now 10 (-1) false = Ok w /\
    map fst (year_choices w) =
      py_range lo (if is_leap (ord2year now) && (now =? days_before_year (ord2year now) + 1)
                   then ord2year now else ord2year now + 1) /\
    (lo = ord2year now - 10 \/ lo = ord2year now - 9).
Proof.
  intros Hn. unfold date_selector_widget. cbn zeta.
  change (if 0 <=? -1 then -1 - 1 else -1) with (-1).
  rewrite !years_back_year_ok by (unfold MAXORDINAL in *; lia). cbn [exc_bind Z.leb Z.compare].
  do 2 eexists. split; [reflexivity|]. split.
  - cbn [year_choices]. rewrite map_map, map_id. replace (now - -1 * 365) with (now + 365) by lia.
    rewrite ord2year_plus_365 by lia. reflexivity.
  - replace (now - 10 * 365) with (now - 3650) by lia. apply ord2year_minus_3650. lia.
Qed.

(** The first of January 2024, a leap year: the year list stops at 2023. *)
Definition jan_1_2024 : Z := ymd2ord 2024 1 1.

Lemma date_selector_widget_years_witness :
  3651 <= jan_1_2024 <= MAXORDINAL - 365 /\
  exists w lo, date_selector_widget jan_1_2024 10 (-1) false = Ok w /\
    map fst (year_choices w) =
      py_range lo (if is_leap (ord2year jan_1_2024) && (jan_1_2024 =? days_before_year (ord2year jan_1_2024) + 1)
                   then ord2year jan_1_2024 else ord2year jan_1_2024 + 1) /\
    (lo = ord2year jan_1_2024 - 10 \/ lo = ord2year jan_1_2024 - 9).
Proof.
  assert (H : 3651 <= jan_1_2024 <= MAXORDINAL - 365) by (vm_compute; split; discriminate).
  split; [exact H|]. apply date_selector_widget_years. exact H.
Defined.

Example date_selector_widget_jan_1_2024 :
  option_map (fun w => map fst (year_choices w)) (match date_selector_widget jan_1_2024 10 (-1) false with
                                                   | Ok w => Some w | Raise _ => None end) =
  Some [2014; 2015; 2016; 2017; 2018; 2019; 2020; 2021; 2022; 2023].
Proof. vm_compute. reflexivity. Qed.
