(* ===== verification/Tagging.v ===== *)
(** * Tagging: [tagging/models.py], [tagging/managers.py],
    [tagging/forms.py], [tagging/views.py] and
    [tagging/templatetags/tagging_widgets.py]

    The store holds the two tables of the app: [Tag] (a [SlugModel] with a
    site, unique on [(title, site)]) and [ContentObjectTag] (a generic key
    [(content_type, object_pk)], a site and a tag).  [TagUpdateForm.save]
    deletes the object's tag links and recreates one per distinct
    submitted title, creating the missing [Tag]s with
    [get_or_create]; the managers and the inclusion tags read the links
    back.  CPython iterates [set(tags)] in the order of its hash table,
    which the model does not compute: [py_set] is a parameter, and the
    theorems that need it assume only that [py_set tags] lists the
    distinct titles once each in some order ([py_set tags ≡ₚ
    remove_dups tags]).

    The theorems: the invariant of the two tables (unique keys, unique
    [(title, site)], links to existing tags) holds after every form save;
    after a save the object carries exactly the submitted titles and no
    other object's links change; [get_tag_counts_for_object_type] and
    [tag_cloud_widget] read [.title] of the strings
    [get_unique_tags_for_object_type] returns, an [AttributeError] as soon
    as one tag exists. *)

From stdpp Require Import gmap.
From Stdlib Require Import Ascii.
From S2P Require Import Prelude Slug Pagination.

(** [class Tag(SlugModel)] *)
Record Tag := mkTag {
  t_pk : nat;
  t_title : string;
  t_slug : string;
  t_description : option string;
  t_site : option nat
}.

(** [class ContentObjectTag(BaseTagAbstractModel)] *)
Record ContentObjectTag := mkContentObjectTag {
  cot_pk : nat;
  cot_content_type : Z;
  cot_object_pk : Z;
  cot_site : option nat;
  cot_tag : nat
}.

#[global] Instance Tag_row : Row Tag := t_pk.
#[global] Instance ContentObjectTag_row : Row ContentObjectTag := cot_pk.

Record TagDB := mkTagDB {
  tdb_tags : list Tag;
  tdb_cots : list ContentObjectTag
}.

Definition with_tags (l : list Tag) (db : TagDB) : TagDB := mkTagDB l (tdb_cots db).
Definition with_cots (l : list ContentObjectTag) (db : TagDB) : TagDB := mkTagDB (tdb_tags db) l.

Definition opt_nat_eqb (a b : option nat) : bool :=
  match a, b with
  | Some x, Some y => x =? y
  | None, None => true
  | _, _ => false
  end.

(** [SlugModel.save] of a tag. *)
Definition tag_save (t : Tag) : Tag :=
  if String.eqb (t_slug t) "" then mkTag (t_pk t) (t_title t) (slugify (t_title t)) (t_description t) (t_site t)
  else t.

(** [Tag.objects.get_or_create(site=site, title=title)] *)
Definition tag_get_or_create (site : option nat) (title : string) : M TagDB Tag :=
  db <- mget ;;
  match qs_get (fun t => opt_nat_eqb (t_site t) site && String.eqb (t_title t) title) (tdb_tags db) with
  | Ok t => mret t
  | Raise DoesNotExist =>
      (* the INSERT of a title longer than [max_length=255] fails in the
         database ([DataError] on PostgreSQL) *)
      if 255 <? String.length title then mraise DataError else
      let t := tag_save (mkTag (fresh_pk (tdb_tags db)) title "" None site) in
      _ <- mput (with_tags (tdb_tags db ++ [t]) db) ;;
      mret t
  | Raise e => mraise e
  end.

(** The links of one object on one site. *)
Definition link_of (site : nat) (ct : Z) (object_pk : Z) (c : ContentObjectTag) : bool :=
  opt_nat_eqb (cot_site c) (Some site) && (cot_content_type c =? ct)%Z && (cot_object_pk c =? object_pk)%Z.

(** The loop of [TagUpdateForm.save]: one unsaved link per title. *)
Fixpoint make_links (site : nat) (ct object_pk : Z) (tags : list string) : M TagDB (list (Z * Z * nat)) :=
  match tags with
  | [] => mret []
  | tag :: rest =>
      tag_model <- tag_get_or_create (Some site) tag ;;
      links <- make_links site ct object_pk rest ;;
      mret ((ct, object_pk, t_pk tag_model) :: links)
  end.

(** The rows of [ContentObjectTag.objects.bulk_create(content_object_tags)],
    keys from the sequence. *)
Definition insert_links (site : nat) (links : list (Z * Z * nat)) (db : TagDB) : TagDB :=
  fold_left (fun db '(ct, opk, tag) =>
               with_cots (tdb_cots db ++ [mkContentObjectTag (fresh_pk (tdb_cots db)) ct opk (Some site) tag]) db)
            links db.

(** A value of a PostgreSQL [integer] column: 32 bits. *)
Definition pg_integer (z : Z) : bool := (-2147483648 <=? z)%Z && (z <=? 2147483647)%Z.

(** [bulk_create] is one INSERT statement.  PostgreSQL converts the
    values first: a [content_type_id] or [object_pk] outside the 32-bit
    [integer] columns fails it with [DataError]; then the column check of
    the [PositiveIntegerField] ([CHECK (object_pk >= 0)]) and the foreign
    key to [ContentType] (the registered ids [content_types]) fail it as a
    whole with [IntegrityError]. *)
Definition link_in_range (l : Z * Z * nat) : bool :=
  let '(ct, opk, _) := l in pg_integer ct && pg_integer opk.

Definition link_ok (content_types : list Z) (l : Z * Z * nat) : bool :=
  let '(ct, opk, _) := l in bool_decide (ct ∈ content_types) && (0 <=? opk)%Z.

Definition bulk_create (content_types : list Z) (site : nat) (links : list (Z * Z * nat)) : M TagDB unit :=
  if negb (forallb link_in_range links) then mraise DataError
  else if forallb (link_ok content_types) links then mmodify (insert_links site links)
  else mraise IntegrityError.

(** [TagUpdateForm.save(tags)] on the current site [site], with the
    cleaned [tag_content_type_id] and [tag_object_pk]; the filter on the
    integer column [object_pk] converts the string with [int()], a
    [ValueError] for a string that is not a number.  [py_set] is the
    iteration order of [set(tags)]. *)
Definition tag_update_form_save (py_set : list string -> list string) (content_types : list Z) (site : nat)
    (ct : Z) (tag_object_pk : string) (tags : list string) : M TagDB (list (Z * Z * nat)) :=
  object_pk <- mlift (match py_int tag_object_pk with Some n => Ok n | None => Raise ValueError end) ;;
  let tags := py_set tags in
  _ <- mmodify (fun db => with_cots (List.filter (fun c => negb (link_of site ct object_pk c)) (tdb_cots db)) db) ;;
  links <- make_links site ct object_pk tags ;;
  _ <- (if bool_decide (links = []) then mret tt else bulk_create content_types site links) ;;
  mret links.

(** [ContentObjectTag.save]: the current site when none is set. *)
Definition content_object_tag_save (current_site : nat) (c : ContentObjectTag) : ContentObjectTag :=
  match cot_site c with
  | None => mkContentObjectTag (cot_pk c) (cot_content_type c) (cot_object_pk c) (Some current_site) (cot_tag c)
  | Some _ => c
  end.

(** The names [tagging/urls.py] registers. *)
Definition urlpatterns : list string := ["retrieve_tags"; "update_tags"].

(** [BaseTagAbstractModel.get_content_object_url]: [reverse] of a name
    in the URLconf [names]. *)
Definition get_content_object_url (names : list string) (c : ContentObjectTag) : exc (string * (Z * Z)) :=
  if bool_decide ("tags-url-redirect" ∈ names) then Ok ("tags-url-redirect", (cot_content_type c, cot_object_pk c))
  else Raise NoReverseMatch.

(** [.select_related('tag')]: the inner join of a link with its tag. *)
Definition with_tag (db : TagDB) (c : ContentObjectTag) : option (ContentObjectTag * Tag) :=
  t ← List.find (fun t => t_pk t =? cot_tag c) (tdb_tags db); Some (c, t).

(** [ContentObjectTagManager.get_tags_for_object(obj, site)]; [site=None]
    is the SQL [IS NULL]. *)
Definition get_tags_for_object (ct object_pk : Z) (site : option nat) (db : TagDB) : list (ContentObjectTag * Tag) :=
  omap (with_tag db)
    (List.filter (fun c => (cot_content_type c =? ct)%Z && (cot_object_pk c =? object_pk)%Z
                           && opt_nat_eqb (cot_site c) site) (tdb_cots db)).

(** [ContentObjectTagManager.get_unique_tags_for_object_type]: the set of
    titles, [get_by_natural_key] resolved by [natural_key]. *)
Definition get_unique_tags_for_object_type (natural_key : string -> string -> option Z)
    (app_label model : string) (site : option nat) (db : TagDB) : exc (list string) :=
  match natural_key app_label model with
  | None => Raise DoesNotExist
  | Some ct =>
      Ok (remove_dups (map (fun '(_, t) => t_title t)
            (omap (with_tag db)
               (List.filter (fun c => (cot_content_type c =? ct)%Z && opt_nat_eqb (cot_site c) site) (tdb_cots db)))))
  end.

(** [tag.title] of a Python string is the bound method [str.title] of
    that string, not an attribute error. *)
Inductive attr := BoundTitle (s : string).

#[global] Instance attr_eq_dec : EqDecision attr.
Proof. solve_decision. Defined.

(** The loop of [get_tag_counts_for_object_type] on [tag_counter_dict]. *)
Fixpoint count_titles (tags : list string) (d : list (attr * nat)) : list (attr * nat) :=
  match tags with
  | [] => d
  | tag :: rest =>
      let title := BoundTitle tag in
      count_titles rest
        (match List.find (fun kv => bool_decide (kv.1 = title)) d with
         | Some _ => map (fun kv => if bool_decide (kv.1 = title) then (kv.1, S kv.2) else kv) d
         | None => d ++ [(title, 1)]
         end)
  end.

Definition get_tag_counts_for_object_type (natural_key : string -> string -> option Z)
    (app_label model : string) (site : option nat) (db : TagDB) : exc (list (attr * nat)) :=
  tags <-! get_unique_tags_for_object_type natural_key app_label model site db ;;
  Ok (count_titles tags []).

(** [tags_widget]: the titles of the object's tags on the current site. *)
Definition tags_widget (site : nat) (ct object_pk : Z) (db : TagDB) : list string :=
  map (fun '(_, t) => t_title t) (get_tags_for_object ct object_pk (Some site) db).

(** [tag_cloud_widget]: [{'title': tag_obj.title}] of each string. *)
Definition tag_cloud_widget (natural_key : string -> string -> option Z)
    (site : nat) (app_label model : string) (db : TagDB) : exc (list attr) :=
  tags <-! get_unique_tags_for_object_type natural_key app_label model (Some site) db ;;
  Ok (map BoundTitle tags).

(** [unicode.title()]: a cased letter after a cased letter is lowered,
    any other letter raised ([Slug.lower] and its converse on ASCII). *)
Definition upper (c : ascii) : ascii :=
  if is_lower c then ascii_of_nat (code c - 32) else c.

Fixpoint py_title_loop (previous_is_cased : bool) (l : list ascii) : list ascii :=
  match l with
  | [] => []
  | c :: rest =>
      let c' := if previous_is_cased then lower c else upper c in
      c' :: py_title_loop (is_upper c' || is_lower c') rest
  end.

Definition py_title (s : string) : string :=
  String.string_of_list_ascii (py_title_loop false (String.list_ascii_of_string s)).

(** The template's [{{ tag.title }}] calls the bound method. *)
Definition render_attr (a : attr) : string :=
  match a with BoundTitle s => py_title s end.

(** [title__icontains=term]: [UPPER(title) LIKE UPPER('%term%')]. *)
Fixpoint prefix_of (p l : list ascii) : bool :=
  match p, l with
  | [], _ => true
  | a :: p', b :: l' => Ascii.eqb a b && prefix_of p' l'
  | _ :: _, [] => false
  end.

Fixpoint infix_of (p l : list ascii) : bool :=
  prefix_of p l || match l with [] => false | _ :: l' => infix_of p l' end.

Definition icontains (term title : string) : bool :=
  infix_of (map lower (String.list_ascii_of_string term)) (map lower (String.list_ascii_of_string title)).

(** [RetrieveTags.get]: the titles of the current site's tags containing
    [request.GET.get('term', '')]. *)
Definition retrieve_tags (site : nat) (get : gmap string string) (db : TagDB) : list string :=
  let term := default "" (get !! "term") in
  map t_title (List.filter (fun t => opt_nat_eqb (t_site t) (Some site) && icontains term (t_title t)) (tdb_tags db)).

(** [TagUpdateForm] cleaning: [IntegerField] and a required [CharField]. *)
Definition tag_update_form_clean (post : gmap string string) : option (Z * string) :=
  ct_s ← post !! "tag_content_type_id";
  ct ← py_int ct_s;
  opk ← post !! "tag_object_pk";
  if String.eqb opk "" then None else Some (ct, opk).

(** [UpdateTags.post]: [form_valid] saves [POST.getlist('tags', [])] and
    answers [{'success': True}], [form_invalid] answers [False]. *)
Definition update_tags (py_set : list string -> list string) (content_types : list Z) (site : nat)
    (post : gmap string string) (tags : list string) : M TagDB bool :=
  match tag_update_form_clean post with
  | Some (ct, opk) => _ <- tag_update_form_save py_set content_types site ct opk tags ;; mret true
  | None => mret false
  end.

(** ** The invariant of the two tables *)

Definition tag_key (t : Tag) : string * option nat := (t_title t, t_site t).

(** Keys are unique, a site's titles are unique ([unique_together], which
    the database does not enforce between two [NULL] sites), every link
    names a tag ([ForeignKey]). *)
Record tag_inv (db : TagDB) : Prop := {
  tinv_tag_pks : NoDup (map t_pk (tdb_tags db));
  tinv_unique : forall t1 t2, In t1 (tdb_tags db) -> In t2 (tdb_tags db) ->
                is_Some (t_site t1) -> tag_key t1 = tag_key t2 -> t1 = t2;
  tinv_cot_pks : NoDup (map cot_pk (tdb_cots db));
  tinv_cot_tags : Forall (fun c => In (cot_tag c) (map t_pk (tdb_tags db))) (tdb_cots db)
}.

#[global] Instance Tag_eq_dec : EqDecision Tag.
Proof. solve_decision. Defined.

(** The invariant as a test, for concrete stores. *)
Definition tag_inv_b (db : TagDB) : bool :=
  bool_decide (NoDup (map t_pk (tdb_tags db))) &&
  forallb (fun t1 => forallb (fun t2 =>
    negb (bool_decide (is_Some (t_site t1))) || negb (bool_decide (tag_key t1 = tag_key t2)) ||
    bool_decide (t1 = t2)) (tdb_tags db)) (tdb_tags db) &&
  bool_decide (NoDup (map cot_pk (tdb_cots db))) &&
  forallb (fun c => bool_decide (cot_tag c ∈ map t_pk (tdb_tags db))) (tdb_cots db).

(** ** Lemmas *)

Lemma opt_nat_eqb_eq a b : opt_nat_eqb a b = true <-> a = b.
Proof.
  destruct a as [x|], b as [y|]; simpl; try (split; congruence).
  rewrite Nat.eqb_eq. split; congruence.
Qed.

Lemma tag_save_fields t :
  t_pk (tag_save t) = t_pk t /\ t_title (tag_save t) = t_title t /\ t_site (tag_save t) = t_site t.
Proof. unfold tag_save. destruct (String.eqb _ _); auto. Qed.

(** The tag a link of the join names: keys are unique. *)
Lemma find_tag_pk (l : list Tag) t :
  NoDup (map t_pk l) -> In t l -> List.find (fun t' => t_pk t' =? t_pk t) l = Some t.
Proof.
  induction l as [|x l IH]; simpl; [tauto|]. intros Hnd%NoDup_cons [->|Hin].
  - rewrite Nat.eqb_refl. reflexivity.
  - destruct Hnd as [Hx Hnd]. destruct (t_pk x =? t_pk t) eqn:E; [|auto].
    apply Nat.eqb_eq in E. exfalso. apply Hx, list_elem_of_In. rewrite E. apply in_map. exact Hin.
Qed.

Lemma tag_inv_snoc_tag db t :
  tag_inv db -> ~ In (t_pk t) (map t_pk (tdb_tags db)) ->
  (forall t', In t' (tdb_tags db) -> tag_key t' <> tag_key t) ->
  tag_inv (with_tags (tdb_tags db ++ [t]) db).
Proof.
  intros [Hp Hu Hc Hf] Hfresh Hkey. constructor; simpl.
  - rewrite map_app. apply NoDup_snoc; auto.
  - intros t1 t2 [H1|[<-|[]]]%in_app_or [H2|[<-|[]]]%in_app_or Hs Hk; auto.
    + exfalso. exact (Hkey t1 H1 Hk).
    + exfalso. exact (Hkey t2 H2 (eq_sym Hk)).
  - exact Hc.
  - eapply Forall_impl; [exact Hf|]. intros c Hin. rewrite map_app. apply in_or_app. auto.
Qed.

(** The filter of [get_or_create] selects the tags of one key. *)
Lemma get_or_create_filter site title t :
  (opt_nat_eqb (t_site t) site && String.eqb (t_title t) title) = true <-> tag_key t = (title, site).
Proof.
  rewrite andb_true_iff, opt_nat_eqb_eq, String.eqb_eq. unfold tag_key.
  split; [intros [-> ->]; reflexivity|intros [= -> ->]; auto].
Qed.

(** [get_or_create] on a site: it keeps the invariant and the links, only
    adds tags, returns the tag of the title, and fails only on a new
    title the column cannot hold. *)
Lemma tag_get_or_create_spec site title db :
  tag_inv db ->
  let '(r, db') := tag_get_or_create (Some site) title db in
  tag_inv db' /\ tdb_cots db' = tdb_cots db /\ (exists new, tdb_tags db' = tdb_tags db ++ new) /\
  match r with
  | Ok t => In t (tdb_tags db') /\ t_title t = title /\ t_site t = Some site
  | Raise e => e = DataError /\ 255 < String.length title
  end.
Proof.
  intros Hi. unfold tag_get_or_create, mbind, mget. cbn -[qs_get Nat.ltb String.length tag_save].
  assert (Hsame : exists new, tdb_tags db = tdb_tags db ++ new) by (exists []; symmetry; apply app_nil_r).
  destruct (qs_get _ (tdb_tags db)) as [t|e] eqn:Hq.
  - apply qs_get_spec in Hq as [Hin [Hp _]]. apply get_or_create_filter in Hp.
    injection Hp as Ht Hs. split_and!; auto.
  - destruct (qs_get_raise _ _ _ Hq) as [->| ->].
    + destruct (255 <? String.length title) eqn:Hl; [cbn; split_and!; auto; apply Nat.ltb_lt, Hl|].
      cbn -[tag_save]. pose proof (tag_save_fields (mkTag (fresh_pk (tdb_tags db)) title "" None (Some site))) as [Hpk [Hti Hsi]].
      cbn [t_pk t_title t_site] in Hpk, Hti, Hsi. split; [|split; [reflexivity|split; [eexists; reflexivity|]]].
      * apply tag_inv_snoc_tag; auto.
        -- rewrite Hpk. apply fresh_pk_not_in.
        -- intros t' Hin Hk. pose proof (qs_get_dne _ _ Hq t' Hin) as Hf.
           rewrite <- not_true_iff_false, get_or_create_filter in Hf. apply Hf.
           rewrite Hk. unfold tag_key. rewrite Hti, Hsi. reflexivity.
      * split; [|auto]. apply in_or_app. right. left. reflexivity.
    + exfalso. refine (qs_get_at_most_one _ _ _ _ Hq).
      * apply (NoDup_map_rows t_pk), Hi.
      * intros x y Hx Hy Hpx Hpy. apply get_or_create_filter in Hpx, Hpy.
        apply (tinv_unique _ Hi); [auto|auto| |congruence].
        unfold tag_key in Hpx. injection Hpx as _ ->. eexists. reflexivity.
Qed.

(** The loop of the form: the tags it returns carry the submitted titles,
    in order, and exist after it. *)
Lemma make_links_spec site ct object_pk tags db :
  tag_inv db ->
  let '(r, db') := make_links site ct object_pk tags db in
  tag_inv db' /\ tdb_cots db' = tdb_cots db /\ (exists new, tdb_tags db' = tdb_tags db ++ new) /\
  match r with
  | Ok links => Forall2 (fun title l => exists t, In t (tdb_tags db') /\ t_title t = title /\
                           t_site t = Some site /\ l = (ct, object_pk, t_pk t)) tags links
  | Raise e => e = DataError /\ Exists (fun t => 255 < String.length t) tags
  end.
Proof.
  revert db. induction tags as [|tag rest IH]; intros db Hi.
  - cbn. split_and!; auto. exists []. symmetry. apply app_nil_r.
  - cbn [make_links]. unfold mbind at 1.
    pose proof (tag_get_or_create_spec site tag db Hi) as Hg.
    destruct (tag_get_or_create (Some site) tag db) as [[t|e] db1].
    2: { destruct Hg as (? & ? & ? & ? & ?). split_and!; auto. }
    destruct Hg as (Hi1 & Hc1 & [new1 Ht1] & Hin & Htitle & Hsite).
    unfold mbind. pose proof (IH db1 Hi1) as Hr.
    destruct (make_links site ct object_pk rest db1) as [[links|e] db2].
    + destruct Hr as (Hi2 & Hc2 & [new2 Ht2] & Hf). cbn.
      split_and!; auto; [congruence|exists (new1 ++ new2); rewrite Ht2, Ht1, app_assoc; reflexivity|].
      constructor; [|exact Hf]. exists t. split_and!; auto.
      rewrite Ht2. apply in_or_app. auto.
    + destruct Hr as (Hi2 & Hc2 & [new2 Ht2] & He & Hl). cbn.
      split_and!; auto; [congruence|exists (new1 ++ new2); rewrite Ht2, Ht1, app_assoc; reflexivity].
Qed.

(** [bulk_create] appends one row per link, with fresh keys. *)
Lemma insert_links_spec site links db :
  exists rows, insert_links site links db = with_cots (tdb_cots db ++ rows) db /\
  Forall2 (fun l r => l = (cot_content_type r, cot_object_pk r, cot_tag r) /\ cot_site r = Some site) links rows /\
  (NoDup (map cot_pk (tdb_cots db)) -> NoDup (map cot_pk (tdb_cots db ++ rows))).
Proof.
  unfold insert_links. revert db. induction links as [|[[ct opk] tag] rest IH]; intros db.
  - exists []. rewrite app_nil_r. destruct db. split_and!; auto.
  - cbn [fold_left].
    set (row := mkContentObjectTag (fresh_pk (tdb_cots db)) ct opk (Some site) tag).
    destruct (IH (with_cots (tdb_cots db ++ [row]) db)) as (rows & Heq & Hf & Hnd).
    exists (row :: rows). rewrite Heq. cbn. rewrite <- app_assoc. split_and!; [reflexivity|constructor; auto|].
    intros H. specialize (Hnd (ltac:(cbn [tdb_cots with_cots]; rewrite map_app; apply NoDup_snoc; [exact H|apply fresh_pk_not_in]))).
    cbn [tdb_cots with_cots] in Hnd. rewrite <- app_assoc in Hnd. exact Hnd.
Qed.

(** The join of the new rows gives back the titles of the loop. *)
Lemma join_titles db tags rows :
  NoDup (map t_pk (tdb_tags db)) ->
  Forall2 (fun title r => exists t, In t (tdb_tags db) /\ t_title t = title /\ t_pk t = cot_tag r) tags rows ->
  map (fun '(_, t) => t_title t) (omap (with_tag db) rows) = tags.
Proof.
  intros Hnd Hf. induction Hf as [|title r tags rows (t & Hin & Htitle & Hpk) _ IH]; [reflexivity|].
  cbn. unfold with_tag at 1. rewrite <- Hpk, (find_tag_pk _ t Hnd Hin). cbn. rewrite IH, Htitle. reflexivity.
Qed.

Lemma tag_inv_delete_links db (p : ContentObjectTag -> bool) :
  tag_inv db -> tag_inv (with_cots (List.filter p (tdb_cots db)) db).
Proof.
  intros [Hp Hu Hc Hf]. constructor; simpl; auto.
  - apply NoDup_map_filter, Hc.
  - apply List.Forall_forall. intros c [Hin _]%filter_In. exact (proj1 (List.Forall_forall _ _) Hf c Hin).
Qed.

(** The links the loop builds after the deletion all belong to the object. *)
Lemma rows_link_of site ct object_pk (links : list (Z * Z * nat)) rows :
  Forall (fun l => exists x, l = (ct, object_pk, x)) links ->
  Forall2 (fun l r => l = (cot_content_type r, cot_object_pk r, cot_tag r) /\ cot_site r = Some site) links rows ->
  List.filter (link_of site ct object_pk) rows = rows.
Proof.
  intros Hl Hf. induction Hf as [|l r links rows [-> Hs] _ IH]; [reflexivity|].
  inversion Hl as [|? ? [x Hx] Hl']; subst. injection Hx as Hct Hopk _.
  cbn. unfold link_of at 1. rewrite Hs, Hct, Hopk. cbn. rewrite Nat.eqb_refl, !Z.eqb_refl, IH; auto.
Qed.

Lemma link_ok_fail content_types ct object_pk (links : list (Z * Z * nat)) :
  Forall (fun l => exists x, l = (ct, object_pk, x)) links ->
  forallb (link_ok content_types) links = false -> ct ∉ content_types \/ (object_pk < 0)%Z.
Proof.
  intros Hf Hb. destruct (decide (ct ∈ content_types)) as [Hin|]; [|auto].
  right. destruct (Z_lt_le_dec object_pk 0) as [|Hle]; [assumption|exfalso].
  enough (forallb (link_ok content_types) links = true) by congruence.
  apply forallb_forall. intros l Hl. destruct (proj1 (List.Forall_forall _ _) Hf l Hl) as [x ->].
  cbn. rewrite bool_decide_eq_true_2 by exact Hin. apply Z.leb_le, Hle.
Qed.

Lemma link_in_range_fail ct object_pk (links : list (Z * Z * nat)) :
  Forall (fun l => exists x, l = (ct, object_pk, x)) links ->
  forallb link_in_range links = false -> pg_integer ct = false \/ pg_integer object_pk = false.
Proof.
  intros Hf Hb. destruct (pg_integer ct) eqn:Hc; [|auto]. destruct (pg_integer object_pk) eqn:Ho; [|auto].
  exfalso. enough (forallb link_in_range links = true) by congruence.
  apply forallb_forall. intros l Hl. destruct (proj1 (List.Forall_forall _ _) Hf l Hl) as [x ->].
  cbn. rewrite Hc, Ho. reflexivity.
Qed.

(** The last step of the form: [bulk_create] when there are links. *)
Lemma bulk_step_spec content_types site ct object_pk titles links db :
  tag_inv db ->
  Forall2 (fun title l => exists t, In t (tdb_tags db) /\ t_title t = title /\
             t_site t = Some site /\ l = (ct, object_pk, t_pk t)) titles links ->
  let '(r, db') := (if bool_decide (links = []) then mret tt else bulk_create content_types site links) db in
  tag_inv db' /\ tdb_tags db' = tdb_tags db /\
  match r with
  | Ok _ => exists rows, tdb_cots db' = tdb_cots db ++ rows /\
            List.filter (link_of site ct object_pk) rows = rows /\
            Forall2 (fun title r => exists t, In t (tdb_tags db) /\ t_title t = title /\ t_pk t = cot_tag r) titles rows
  | Raise e => ((e = DataError /\ (pg_integer ct = false \/ pg_integer object_pk = false)) \/
               (e = IntegrityError /\ (ct ∉ content_types \/ (object_pk < 0)%Z))) /\ db' = db
  end.
Proof.
  intros Hi Hf.
  assert (Hshape : Forall (fun l => exists x, l = (ct, object_pk, x)) links)
    by (apply (Forall2_Forall_snd _ _ _ _ Hf); intros ? ? (t & _ & _ & _ & ->); eauto).
  destruct (bool_decide (links = [])) eqn:Hnil.
  - apply bool_decide_eq_true_1 in Hnil. subst links. apply Forall2_nil_inv_r in Hf. subst titles.
    cbn. split_and!; auto. exists []. rewrite app_nil_r. auto.
  - unfold bulk_create. destruct (forallb link_in_range links) eqn:Hrange.
    2: { cbn. split_and!; auto. left. split; [reflexivity|exact (link_in_range_fail _ _ _ Hshape Hrange)]. }
    destruct (forallb (link_ok content_types) links) eqn:Hok.
    2: { cbn. split_and!; auto. right. split; [reflexivity|exact (link_ok_fail _ _ _ _ Hshape Hok)]. }
    destruct (insert_links_spec site links db) as (rows & Heq & Hrows & Hnd).
    assert (Hboth : Forall2 (fun title r => exists t, In t (tdb_tags db) /\ t_title t = title /\
                              t_pk t = cot_tag r) titles rows).
    { refine (Forall2_trans _ _ _ _ _ _ _ Hf Hrows).
      intros title l r (t & Hin & Ht & _ & ->) ([= _ _ Hpk] & _). eauto. }
    cbn. rewrite Heq. destruct Hi as [Hp Hu Hc Hcot]. split_and!; [constructor; auto|reflexivity|].
    + cbn. apply Forall_app. split; [exact Hcot|].
      apply (Forall2_Forall_snd _ _ _ _ Hboth). intros title r (t & Hin & _ & <-). apply in_map, Hin.
    + exists rows. split_and!; auto. exact (rows_link_of site ct object_pk links rows Hshape Hrows).
Qed.

(** A run of [TagUpdateForm.save], on every path: the invariant holds
    after it, tags are only added, the other objects' links are kept; on
    success the object's links name the distinct submitted titles in
    order, on failure the object is left without links. *)
Lemma tag_update_form_save_run py_set content_types site ct tag_object_pk tags db :
  tag_inv db ->
  let '(r, db') := tag_update_form_save py_set content_types site ct tag_object_pk tags db in
  tag_inv db' /\
  match py_int tag_object_pk with
  | None => r = Raise ValueError /\ db' = db
  | Some n =>
      (exists new, tdb_tags db' = tdb_tags db ++ new) /\
      List.filter (fun c => negb (link_of site ct n c)) (tdb_cots db') =
        List.filter (fun c => negb (link_of site ct n c)) (tdb_cots db) /\
      match r with
      | Ok _ => Forall2 (fun title c => exists t, In t (tdb_tags db') /\ t_title t = title /\ t_pk t = cot_tag c)
                  (py_set tags) (List.filter (link_of site ct n) (tdb_cots db'))
      | Raise e => List.filter (link_of site ct n) (tdb_cots db') = [] /\
                  ((e = DataError /\ (Exists (fun t => 255 < String.length t) (py_set tags) \/
                                      pg_integer ct = false \/ pg_integer n = false)) \/
                   (e = IntegrityError /\ (ct ∉ content_types \/ (n < 0)%Z)))
      end
  end.
Proof.
  intros Hi. unfold tag_update_form_save. unfold mbind at 1, mlift.
  destruct (py_int tag_object_pk) as [n|]; [|cbn; auto].
  unfold mbind at 1, mmodify.
  set (keep := fun c => negb (link_of site ct n c)).
  set (db1 := with_cots (List.filter keep (tdb_cots db)) db).
  pose proof (tag_inv_delete_links db keep Hi) as Hi1.
  pose proof (make_links_spec site ct n (py_set tags) db1 Hi1) as Hm.
  unfold mbind at 1. destruct (make_links site ct n (py_set tags) db1) as [[links|e] db2].
  2: { destruct Hm as (Hi2 & Hc2 & [new Ht2] & He & Hl). cbn.
       rewrite Hc2. cbn. rewrite filter_idem, filter_negb_filter. split_and!; eauto. }
  destruct Hm as (Hi2 & Hc2 & [new Ht2] & Hf).
  pose proof (bulk_step_spec content_types site ct n _ links db2 Hi2 Hf) as Hb.
  unfold mbind. destruct ((if bool_decide (links = []) then mret tt else bulk_create content_types site links) db2)
    as [[u|e] db3].
  - destruct Hb as (Hi3 & Ht3 & rows & Hc3 & Hrl & Hrows). cbn.
    rewrite Hc3, Hc2, Ht3, Ht2. cbn. rewrite !List.filter_app, filter_idem, filter_negb_filter, Hrl.
    pose proof (filter_negb_all _ _ Hrl) as Hk. change (List.filter keep rows = []) in Hk.
    rewrite Hk, app_nil_r. split_and!; eauto.
    eapply Forall2_impl; [exact Hrows|]. rewrite Ht2. auto.
  - destruct Hb as (Hi3 & Ht3 & Herr & ->). cbn.
    rewrite Hc2, Ht2. cbn. rewrite filter_idem, filter_negb_filter. split_and!; eauto.
    destruct Herr as [[-> Herr]|[-> Herr]]; [left|right]; split; auto; tauto.
Qed.

Lemma tag_inv_b_sound db : tag_inv_b db = true -> tag_inv db.
Proof.
  unfold tag_inv_b. intros H. apply andb_prop in H as [H Hc]. apply andb_prop in H as [H Hcp].
  apply andb_prop in H as [Hp Hu]. tb_bool.
  constructor; auto.
  - intros t1 t2 H1 H2 Hs Hk. rewrite forallb_forall in Hu. specialize (Hu t1 H1).
    rewrite forallb_forall in Hu. specialize (Hu t2 H2).
    apply orb_prop in Hu as [[Hu|Hu]%orb_prop|Hu]; tb_bool; tauto.
  - apply List.Forall_forall. intros c Hin. rewrite forallb_forall in Hc.
    specialize (Hc c Hin). apply bool_decide_eq_true_1 in Hc. apply list_elem_of_In, Hc.
Qed.

(** The object's tags read by [tags_widget] are its links on the site. *)
Lemma tags_widget_links site ct object_pk db :
  tags_widget site ct object_pk db =
  map (fun '(_, t) => t_title t) (omap (with_tag db) (List.filter (link_of site ct object_pk) (tdb_cots db))).
Proof.
  unfold tags_widget, get_tags_for_object. do 2 f_equal. apply List.filter_ext. intros c.
  unfold link_of. destruct (opt_nat_eqb _ _), (_ =? ct)%Z, (_ =? object_pk)%Z; reflexivity.
Qed.

Lemma count_titles_fresh tags d :
  NoDup tags -> Forall (fun t => forall kv, In kv d -> kv.1 <> BoundTitle t) tags ->
  count_titles tags d = d ++ map (fun t => (BoundTitle t, 1)) tags.
Proof.
  revert d. induction tags as [|t rest IH]; intros d Hnd Hf; cbn [count_titles].
  - rewrite app_nil_r. reflexivity.
  - apply NoDup_cons in Hnd as [Ht Hnd]. inversion Hf as [|? ? Hd Hf']; subst.
    destruct (List.find _ d) as [kv|] eqn:E.
    { apply find_some in E as [Hin Hp]. tb_bool. exfalso. exact (Hd kv Hin Hp). }
    rewrite IH; [rewrite <- app_assoc; reflexivity|exact Hnd|].
    apply List.Forall_forall. intros t' Hin' kv [Hin|[<-|[]]]%in_app_or.
    + exact (proj1 (List.Forall_forall _ _) Hf' t' Hin' kv Hin).
    + cbn. intros [= ->]. apply Ht, list_elem_of_In, Hin'.
Qed.

Lemma prefix_of_spec p l : prefix_of p l = true <-> exists r, l = p ++ r.
Proof.
  revert l. induction p as [|a p IH]; intros [|b l]; cbn.
  - split; eauto.
  - split; eauto.
  - split; [discriminate|intros [r Hr]; discriminate].
  - rewrite andb_true_iff, Ascii.eqb_eq, IH. split.
    + intros [-> [r ->]]. eauto.
    + intros [r Hr]. injection Hr as -> ->. eauto.
Qed.

Lemma infix_of_spec p l : infix_of p l = true <-> exists a b, l = a ++ p ++ b.
Proof.
  induction l as [|c l IH]; cbn [infix_of]; rewrite orb_true_iff, prefix_of_spec.
  - split; [intros [[r Hr]|H]; [exists [], r; exact Hr|discriminate]|].
    intros ([|x a] & b & Hab); [left; eauto|discriminate].
  - rewrite IH. split.
    + intros [[r Hr]|(a & b & ->)]; [exists [], r; exact Hr|exists (c :: a), b; reflexivity].
    + intros ([|x a] & b & Hab); [left; eauto|right]. injection Hab as -> ->. eauto.
Qed.

(** An example store: tag [news] on object 5 of content type 7, site 1. *)
Definition tagged_db : TagDB :=
  mkTagDB [mkTag 1 "news" "news" None (Some 1)] [mkContentObjectTag 1 7 5 (Some 1) 1].

Definition too_long_title : string := String.string_of_list_ascii (repeat "a"%char 256).

(** ** Properties *)

(** C16: [TagUpdateForm.save] with a numeric, non-negative object key
    and a registered content type that fit PostgreSQL's [integer] columns,
    and titles the column can hold, always succeeds; afterwards
    [tags_widget] lists the distinct submitted titles, each once, in the
    order CPython iterates [set(tags)], and the links of every other
    object are unchanged. *)
Theorem tag_update_form_save_spec py_set content_types site ct tag_object_pk n tags db :
  tag_inv db -> py_int tag_object_pk = Some n -> (0 <= n)%Z -> pg_integer n = true ->
  ct ∈ content_types -> pg_integer ct = true ->
  Forall (fun t => String.length t <= 255) tags -> py_set tags ≡ₚ remove_dups tags ->
  exists links db', tag_update_form_save py_set content_types site ct tag_object_pk tags db = (Ok links, db') /\
    tags_widget site ct n db' = py_set tags /\ tags_widget site ct n db' ≡ₚ remove_dups tags /\
    List.filter (fun c => negb (link_of site ct n c)) (tdb_cots db') =
      List.filter (fun c => negb (link_of site ct n c)) (tdb_cots db).
Proof.
  intros Hi Hn Hn0 Hnr Hct Hctr Hlen Hset.
  pose proof (tag_update_form_save_run py_set content_types site ct tag_object_pk tags db Hi) as Hr.
  rewrite Hn in Hr.
  destruct (tag_update_form_save py_set content_types site ct tag_object_pk tags db) as [[links|e] db'].
  - destruct Hr as (Hi' & _ & Hkeep & Hr).
    assert (Hw : tags_widget site ct n db' = py_set tags)
      by (rewrite tags_widget_links; exact (join_titles db' _ _ (tinv_tag_pks _ Hi') Hr)).
    exists links, db'. rewrite Hw. split_and!; auto.
  - exfalso. destruct Hr as (_ & _ & _ & _ & [[_ [Hl|[Hl|Hl]]]|[_ [Hc|Hc]]]); [|congruence|congruence|tauto|lia].
    apply List.Exists_exists in Hl as (t & Hin & Hlt).
    apply list_elem_of_In in Hin. rewrite Hset, elem_of_remove_dups, list_elem_of_In in Hin.
    pose proof (proj1 (List.Forall_forall _ _) Hlen t Hin) as Hle. cbv beta in Hle, Hlt. lia.
Qed.

(** An iteration order of [set(tags)] other than the submitted one
    (CPython's follows the hashes of the strings). *)
Definition py_set_example (l : list string) : list string := rev (remove_dups l).

Lemma tag_update_form_save_spec_witness :
  exists links db', tag_update_form_save py_set_example [7%Z] 1 7 "5" ["sport"; "news"; "sport"] tagged_db
                      = (Ok links, db') /\
    tags_widget 1 7 5 db' = py_set_example ["sport"; "news"; "sport"] /\
    tags_widget 1 7 5 db' ≡ₚ remove_dups ["sport"; "news"; "sport"] /\
    List.filter (fun c => negb (link_of 1 7 5 c)) (tdb_cots db') =
      List.filter (fun c => negb (link_of 1 7 5 c)) (tdb_cots tagged_db).
Proof.
  apply tag_update_form_save_spec;
    [apply tag_inv_b_sound; vm_compute; reflexivity|vm_compute; reflexivity|lia|reflexivity|left|reflexivity|
     repeat constructor; vm_compute; lia|].
  apply (bool_decide_eq_true_1 _). vm_compute. reflexivity.
Defined.

(** C17: the [UpdateTags] view keeps the invariant of the two tables on
    every path, the failing ones included: keys unique, titles unique per
    site, every link naming an existing tag. *)
Theorem update_tags_preserves_inv py_set content_types site post tags :
  preserves tag_inv (update_tags py_set content_types site post tags).
Proof.
  intros db Hi. unfold final, update_tags.
  destruct (tag_update_form_clean post) as [[ct opk]|]; [|exact Hi].
  unfold mbind. pose proof (tag_update_form_save_run py_set content_types site ct opk tags db Hi) as Hr.
  destruct (tag_update_form_save py_set content_types site ct opk tags db) as [[l|e] db']; apply Hr.
Qed.

(** C18: a [TagUpdateForm.save] that raises after parsing the object key
    has already deleted the object's links and committed the tags it
    created: the object is left with no tags; the only failures are the
    title column or a key beyond PostgreSQL's 32-bit [integer]
    ([DataError]) and the link constraints ([IntegrityError]); a key that is not a number raises [ValueError]
    before any write. *)
Theorem tag_update_form_save_failure py_set content_types site ct tag_object_pk tags db e db' :
  tag_inv db -> tag_update_form_save py_set content_types site ct tag_object_pk tags db = (Raise e, db') ->
  (py_int tag_object_pk = None /\ e = ValueError /\ db' = db) \/
  (exists n, py_int tag_object_pk = Some n /\ tags_widget site ct n db' = [] /\
     (exists new, tdb_tags db' = tdb_tags db ++ new) /\ (e = DataError \/ e = IntegrityError)).
Proof.
  intros Hi Hrun. pose proof (tag_update_form_save_run py_set content_types site ct tag_object_pk tags db Hi) as Hr.
  rewrite Hrun in Hr. destruct (py_int tag_object_pk) as [n|]; [right|left; destruct Hr as (_ & [= ->] & ->); auto].
  destruct Hr as (_ & Hnew & _ & Hnil & He). exists n. split_and!; auto.
  - rewrite tags_widget_links, Hnil. reflexivity.
  - destruct He as [[-> _]|[-> _]]; auto.
Qed.

Lemma tag_update_form_save_failure_witness :
  let r := tag_update_form_save remove_dups [7%Z] 1 7 "5" ["sport"; too_long_title] tagged_db in
  r.1 = Raise DataError /\
  ((py_int "5" = None /\ DataError = ValueError /\ r.2 = tagged_db) \/
   (exists n, py_int "5" = Some n /\ tags_widget 1 7 n r.2 = [] /\
      (exists new, tdb_tags r.2 = tdb_tags tagged_db ++ new) /\ (DataError = DataError \/ DataError = IntegrityError))).
Proof.
  intros r. split; [vm_compute; reflexivity|].
  apply (tag_update_form_save_failure remove_dups [7%Z] 1 7 "5" ["sport"; too_long_title] tagged_db DataError r.2);
    [apply tag_inv_b_sound; vm_compute; reflexivity|vm_compute; reflexivity].
Defined.

(** [get_tag_counts_for_object_type] counts the set that
    [get_unique_tags_for_object_type] returns, keyed by the bound method
    [title] of each string: every distinct title gets the count 1, however
    many objects carry it. *)
Theorem get_tag_counts_for_object_type_spec natural_key app_label model site db :
  get_tag_counts_for_object_type natural_key app_label model site db =
  match get_unique_tags_for_object_type natural_key app_label model site db with
  | Ok tags => Ok (map (fun t => (BoundTitle t, 1)) tags)
  | Raise e => Raise e
  end.
Proof.
  unfold get_tag_counts_for_object_type, exc_bind.
  destruct (get_unique_tags_for_object_type natural_key app_label model site db) as [tags|e] eqn:E; [|reflexivity].
  unfold get_unique_tags_for_object_type in E. destruct (natural_key app_label model); [|discriminate].
  injection E as <-. rewrite count_titles_fresh; [reflexivity|apply NoDup_remove_dups|].
  apply List.Forall_forall. intros t _ kv [].
Qed.

(** C19: [RetrieveTags] answers exactly the titles of the current site's
    tags that contain the [term] parameter, compared in lower case: the
    scan [icontains] decides the substring relation. *)
Theorem retrieve_tags_spec site get db title :
  In title (retrieve_tags site get db) <->
  exists t, In t (tdb_tags db) /\ t_site t = Some site /\ t_title t = title /\
    exists a b, map lower (String.list_ascii_of_string title) =
                a ++ map lower (String.list_ascii_of_string (default "" (get !! "term"))) ++ b.
Proof.
  unfold retrieve_tags. rewrite in_map_iff. split.
  - intros (t & <- & [Hin Hp]%filter_In). apply andb_prop in Hp as [Hs Hc].
    apply opt_nat_eqb_eq in Hs. apply infix_of_spec in Hc. eauto 6.
  - intros (t & Hin & Hs & <- & Hab). exists t. split; [reflexivity|]. apply filter_In. split; [exact Hin|].
    apply andb_true_iff. split; [apply opt_nat_eqb_eq, Hs|apply infix_of_spec, Hab].
Qed.

Example tag_counts_two_objects :
  let db := mkTagDB [mkTag 1 "news" "news" None (Some 1)]
                    [mkContentObjectTag 1 7 5 (Some 1) 1; mkContentObjectTag 2 7 6 (Some 1) 1] in
  get_tag_counts_for_object_type (fun _ _ => Some 7%Z) "blog" "post" (Some 1) db = Ok [(BoundTitle "news", 1)].
Proof. vm_compute. reflexivity. Qed.

Example tag_cloud_renders_title_case :
  map render_attr (map BoundTitle ["django tips"; "they're"]) = ["Django Tips"; "They'Re"].
Proof. vm_compute. reflexivity. Qed.

Example get_tags_for_object_default_site :
  get_tags_for_object 7 5 None tagged_db = [].
Proof. vm_compute. reflexivity. Qed.

Example get_content_object_url_unregistered :
  get_content_object_url urlpatterns (mkContentObjectTag 1 7 5 (Some 1) 1) = Raise NoReverseMatch.
Proof. vm_compute. reflexivity. Qed.
