(* ===== verification/Mailer.v ===== *)
(** * Outbound mail: [mailer/utils.py] and [mailer/models.py]

    [send_mail] builds the message with [create_message] (which fills the
    caller's context dict with [site], [user], [STATIC_URL] and [app_name]
    and renders subject, text and HTML, each either a template name or,
    when no such template exists, the content itself), hands it to the
    connection with [send_messages], renders the three again with the
    same context and records an [OutboundEmail] row with [track_mail].
    Both effects are switched off by [settings.EMAIL_ENABLED].

    The state is the connection's outbox and the [OutboundEmail] table.
    The template engine ([render_to_string], [render_string_to_string])
    and the transport (whether the connection accepts a message) are the
    parameters of the section: library code the module only calls.
    [OutboundEmail.save] fails as PostgreSQL does: [NULL] in the
    non-nullable [message] column ([IntegrityError]), a subject over 250
    characters ([DataError]).

    The theorems: with mail enabled, [send_mail] first hands the message
    to the connection; with an HTML part it then records one row with the
    subject and HTML that were sent and the caller's BCC list (without
    [EMAIL_EXTRA_BCC_LIST]); without one it raises [IntegrityError] after
    the message has gone, and records nothing; a refused message raises
    and records nothing; with mail disabled nothing is sent or
    recorded. *)

From stdpp Require Import gmap.
From Stdlib Require Import Ascii.
From S2P Require Import Prelude.

(** The values the code puts in a template context. *)
Inductive ctx_value :=
| VSite (site_id : nat)
| VUser (user : option nat)
| VStr (s : string).

Abbreviation ctx := (gmap string ctx_value).

(** The settings the module reads. *)
Record Settings := mkSettings {
  EMAIL_ENABLED : bool;
  DEFAULT_FROM_EMAIL : string;
  STATIC_URL : string;
  APP_NAME : string;
  EMAIL_EXTRA_BCC_LIST : option (list string)
}.

(** A file to attach: Django's [File] is true when it has a name. *)
Record Attachment := mkAttachment { att_name : string; att_content : string }.

(** [EmailMultiAlternatives] *)
Record EmailMessage := mkEmailMessage {
  em_subject : string;
  em_body : string;
  em_from : string;
  em_to : list string;
  em_bcc : list string;
  em_alternatives : list (string * string);
  em_attachments : list (string * string)
}.

(** [class OutboundEmail(models.Model)] *)
Record OutboundEmail := mkOutboundEmail {
  oe_pk : nat;
  oe_user : option nat;
  oe_to_addresses : string;
  oe_bcc_addresses : string;
  oe_subject : string;
  oe_message : option string;
  oe_sent_timestamp : Z;
  oe_site : nat
}.

#[global] Instance OutboundEmail_row : Row OutboundEmail := oe_pk.

Record MailState := mkMailState {
  ms_outbox : list EmailMessage;
  ms_outbound : list OutboundEmail
}.

Definition newline : string := String (ascii_of_nat 10) EmptyString.

(** [sep.join(l)] *)
Fixpoint py_join (sep : string) (l : list string) : string :=
  match l with
  | [] => ""
  | [s] => s
  | s :: rest => s ++ sep ++ py_join sep rest
  end.

(** [forbid_multi_line_headers]: a header value with a line break raises
    [BadHeaderError] when the message is built for sending. *)
Definition no_line_break (s : string) : bool :=
  negb (existsb (fun c => (nat_of_ascii c =? 10) || (nat_of_ascii c =? 13)) (String.list_ascii_of_string s)).

Definition headers_ok (m : EmailMessage) : bool :=
  no_line_break (em_subject m) && no_line_break (em_from m) && forallb no_line_break (em_to m).

Section Mailer.
  Context (settings : Settings) (current_site : nat) (now : Z).
  (** [render_to_string(name, context)], [TemplateDoesNotExist] for a
      name that is not a template. *)
  Context (render_to_string : string -> ctx -> exc string).
  (** [core_utils.render_string_to_string(string, context)] *)
  Context (render_string_to_string : string -> ctx -> exc string).
  (** Whether the connection accepts a message ([SMTPException] otherwise). *)
  Context (transport : EmailMessage -> bool).

  (** One [try: render_to_string ... except TemplateDoesNotExist] block. *)
Definition render_one (content : string) (context : ctx) (apply_context_to_string : bool) : exc string :=
    match render_to_string content context with
    | Raise TemplateDoesNotExist =>
        if apply_context_to_string then render_string_to_string content context else Ok content
    | r => r
    end.

  (** [render_content] *)
Definition render_content (subject text_content : string) (html_content : option string)
    (context : option ctx) (apply_context_to_string : bool) : exc (string * string * option string) :=
    let context := default ∅ context in
    subject <-! render_one subject context apply_context_to_string ;;
    text_content <-! render_one text_content context apply_context_to_string ;;
    html_content <-! (match html_content with
                      | Some h => h' <-! render_one h context apply_context_to_string ;; Ok (Some h')
                      | None => Ok None
                      end) ;;
    Ok (subject, text_content, html_content).

  (** The context [create_message] renders with, which is also the
      caller's dict after the call. *)
Definition message_context (context : option ctx) (user : option nat) : ctx :=
    let context := default ∅ context in
    let context := if bool_decide (is_Some (context !! "site")) then context
                   else <["site" := VSite current_site]> context in
    let context := if bool_decide (is_Some (context !! "user")) then context
                   else <["user" := VUser user]> context in
    <["app_name" := VStr (APP_NAME settings)]> (<["STATIC_URL" := VStr (STATIC_URL settings)]> context).

  (** [bcc_addresses + extra_bccers], or [extra_bccers] when the caller's
      list is empty or [None]. *)
Definition message_bcc (bcc_addresses : option (list string)) : list string :=
    let extra_bccers := default [] (EMAIL_EXTRA_BCC_LIST settings) in
    match bcc_addresses with
    | Some (_ :: _ as l) => l ++ extra_bccers
    | _ => extra_bccers
    end.

  (** The attachments: [None] and files without a name are skipped. *)
Definition message_attachments (attachments : option (list (option Attachment))) : list (string * string) :=
    match attachments with
    | None => []
    | Some l => omap (fun a => a ≫= fun f => if truthy (att_name f) then Some (att_name f, att_content f) else None) l
    end.

  (** [create_message] *)
Definition create_message (subject text_content : string) (to_addresses : list string)
    (from_address : string) (bcc_addresses : option (list string)) (html_content : option string)
    (context : option ctx) (attachments : option (list (option Attachment))) (user : option nat)
    (apply_context_to_string : bool) : exc (EmailMessage * ctx) :=
    let context := message_context context user in
    rendered <-! render_content subject text_content html_content (Some context) apply_context_to_string ;;
    let '(subject, text_content, html_content) := rendered in
    let msg := mkEmailMessage subject text_content from_address to_addresses (message_bcc bcc_addresses)
                 (match html_content with Some h => [(h, "text/html")] | None => [] end)
                 (message_attachments attachments) in
    Ok (msg, context).

  (** [send_messages]: the connection sends the messages in turn. *)
Fixpoint connection_send (messages : list EmailMessage) : M MailState unit :=
    match messages with
    | [] => mret tt
    | m :: rest =>
        if negb (headers_ok m) then mraise BadHeaderError
        else if negb (transport m) then mraise TransportError
        else _ <- mmodify (fun st => mkMailState (ms_outbox st ++ [m]) (ms_outbound st)) ;;
             connection_send rest
    end.

Definition send_messages (messages : list EmailMessage) : M MailState unit :=
    if EMAIL_ENABLED settings then connection_send messages else mret tt.

  (** [create_outbound_email]: an unsaved row; [site] must be a [Site]. *)
Definition create_outbound_email (subject : string) (to_addresses : list string) (html_content : option string)
    (bcc_addresses : option (list string)) (site : ctx_value) (user : option nat) : exc OutboundEmail :=
    match site with
    | VSite site_id =>
        Ok (mkOutboundEmail 0 user (py_join newline to_addresses)
              (match bcc_addresses with Some l => py_join newline l | None => "" end)
              subject html_content 0 site_id)
    | _ => Raise ValueError
    end.

  (** The INSERT of a row: [CharField(max_length=250)] and the
      non-nullable [message]. *)
Definition insert_check (e : OutboundEmail) : exc unit :=
    if 250 <? String.length (oe_subject e) then Raise DataError
    else match oe_message e with None => Raise IntegrityError | Some _ => Ok tt end.

  (** [OutboundEmail.save()]: a key from the sequence and [auto_now_add]. *)
Definition outbound_email_save (e : OutboundEmail) : M MailState unit :=
    _ <- mlift (insert_check e) ;;
    mmodify (fun st =>
      let row := mkOutboundEmail (fresh_pk (ms_outbound st)) (oe_user e) (oe_to_addresses e)
                   (oe_bcc_addresses e) (oe_subject e) (oe_message e) now (oe_site e) in
      mkMailState (ms_outbox st) (ms_outbound st ++ [row])).

  (** [save_outbound_emails]: one INSERT for all rows. *)
Definition save_outbound_emails (outbound_emails : list OutboundEmail) : M MailState unit :=
    if EMAIL_ENABLED settings then
      _ <- mlift (fold_right (fun e r => _ <-! insert_check e ;; r) (Ok tt) outbound_emails) ;;
      mmodify (fun st =>
        mkMailState (ms_outbox st)
          (ms_outbound st ++ imap (fun i e => mkOutboundEmail (fresh_pk (ms_outbound st) + i) (oe_user e)
                                     (oe_to_addresses e) (oe_bcc_addresses e) (oe_subject e)
                                     (oe_message e) now (oe_site e)) outbound_emails))
    else mret tt.

  (** [track_mail] *)
Definition track_mail (subject : string) (to_addresses : list string) (html_content : option string)
    (bcc_addresses : option (list string)) (site : ctx_value) (user : option nat) : M MailState unit :=
    if EMAIL_ENABLED settings then
      outbound_email <- mlift (create_outbound_email subject to_addresses html_content bcc_addresses site user) ;;
      outbound_email_save outbound_email
    else mret tt.

  (** [send_mail] *)
Definition send_mail (subject text_content : string) (to_addresses : list string) (from_address : string)
    (bcc_addresses : option (list string)) (html_content : option string) (context : option ctx)
    (attachments : option (list (option Attachment))) (user : option nat)
    (apply_context_to_string : bool) : M MailState unit :=
    created <- mlift (create_message subject text_content to_addresses from_address bcc_addresses
                        html_content context attachments user apply_context_to_string) ;;
    let '(message, context) := created in
    _ <- send_messages [message] ;;
    rendered <- mlift (render_content subject text_content html_content (Some context) apply_context_to_string) ;;
    let '(subject, text_content, html_content) := rendered in
    site <- mlift (match context !! "site" with Some v => Ok v | None => Raise KeyError end) ;;
    track_mail subject to_addresses html_content bcc_addresses site user.

End Mailer.

(** The HTML alternative of a message built by [create_message]. *)
Definition html_part (m : EmailMessage) : option string :=
  match em_alternatives m with
  | (h, _) :: _ => Some h
  | [] => None
  end.

(** [manage.py test_email <address>] *)
Definition test_email_handle (settings : Settings) (current_site : nat) (now : Z)
    (render_to_string render_string_to_string : string -> ctx -> exc string)
    (transport : EmailMessage -> bool) (args : list string) : M MailState unit :=
  match args with
  | [] => mraise IndexError
  | email_address :: _ =>
      send_mail settings current_site now render_to_string render_string_to_string transport
        "Test message" "Test message" [email_address] (DEFAULT_FROM_EMAIL settings) None
        (Some "Test Message") None None None false
  end.

(** ** Lemmas *)

Section MailerLemmas.
  Context (settings : Settings) (current_site : nat) (now : Z).
  Context (render_to_string render_string_to_string : string -> ctx -> exc string).
  Context (transport : EmailMessage -> bool).

Lemma message_context_site context user :
  is_Some (message_context settings current_site context user !! "site").
Proof.
  unfold message_context. cbv zeta. rewrite !lookup_insert_ne by discriminate.
  destruct (bool_decide (is_Some (default ∅ context !! "site"))) eqn:Hs; cbv iota;
    match goal with |- is_Some ((if bool_decide ?P then _ else _) !! _) => destruct (bool_decide P) end;
    rewrite ?lookup_insert_ne by discriminate.
  1,2: exact (bool_decide_eq_true_1 _ Hs).
  all: rewrite lookup_insert_eq; eauto.
Qed.

(** The connection either refuses the message, or appends it to the outbox. *)
Lemma connection_send_one m st :
  connection_send transport [m] st = (Ok tt, mkMailState (ms_outbox st ++ [m]) (ms_outbound st)) /\
    headers_ok m = true /\ transport m = true \/
  (exists e, connection_send transport [m] st = (Raise e, st)).
Proof.
  cbn. destruct (headers_ok m) eqn:Hh; cbn; [|right; eauto].
  destruct (transport m) eqn:Ht; cbn; [left; auto|right; eauto].
Qed.

(** [track_mail] either records nothing, or records one row with the
    subject it was given. *)
Lemma track_mail_effect subject to html bcc site user st :
  let '(r, st') := track_mail settings now subject to html bcc site user st in
  ms_outbox st' = ms_outbox st /\
  (ms_outbound st' = ms_outbound st \/
   exists row, ms_outbound st' = ms_outbound st ++ [row] /\ oe_subject row = subject /\ oe_message row = html).
Proof.
  unfold track_mail. destruct (EMAIL_ENABLED settings); [|cbn; auto].
  unfold mbind, mlift, create_outbound_email. destruct site as [sid| |]; cbn -[Nat.ltb String.length]; auto.
  unfold outbound_email_save, mbind, mlift, insert_check. cbn -[Nat.ltb String.length].
  destruct (250 <? String.length subject); [cbn; auto|]. destruct html; cbn; [|auto].
  split; [reflexivity|right]. eexists. split_and!; reflexivity.
Qed.

Lemma create_message_ok subject text to from bcc html context atts user apply msg c :
  create_message settings current_site render_to_string render_string_to_string
    subject text to from bcc html context atts user apply = Ok (msg, c) ->
  c = message_context settings current_site context user /\
  render_content render_to_string render_string_to_string subject text html (Some c) apply =
    Ok (em_subject msg, em_body msg, html_part msg) /\
  em_to msg = to /\ em_bcc msg = message_bcc settings bcc /\
  (html = None <-> html_part msg = None).
Proof.
  unfold create_message, exc_bind. cbv zeta.
  destruct (render_content _ _ subject text html _ apply) as [[[s t] h]|e] eqn:E; [|discriminate].
  intros [= <- <-]. cbn. split_and!; auto.
  - rewrite E. destruct h; reflexivity.
  - unfold render_content, exc_bind in E. cbv zeta in E.
    set (c0 := default ∅ (Some (message_context settings current_site context user))) in E.
    destruct (render_one render_to_string render_string_to_string subject c0 apply); [|discriminate].
    destruct (render_one render_to_string render_string_to_string text c0 apply); [|discriminate].
    destruct html as [h0|]; cbv iota beta in E.
    + destruct (render_one render_to_string render_string_to_string h0 c0 apply); [|discriminate].
      injection E as _ _ <-. split; intros H; discriminate H.
    + injection E as _ _ <-. split; reflexivity.
Qed.

(** [send_mail] after [create_message]: the render for the tracking row
    repeats the one of the message. *)
Lemma send_mail_run subject text to from bcc html context atts user apply msg c st :
  create_message settings current_site render_to_string render_string_to_string
    subject text to from bcc html context atts user apply = Ok (msg, c) ->
  send_mail settings current_site now render_to_string render_string_to_string transport
    subject text to from bcc html context atts user apply st =
  match send_messages settings transport [msg] st with
  | (Ok _, st1) =>
      match c !! "site" with
      | Some site => track_mail settings now (em_subject msg) to (html_part msg) bcc site user st1
      | None => (Raise KeyError, st1)
      end
  | (Raise e, st1) => (Raise e, st1)
  end.
Proof.
  intros H. pose proof (create_message_ok _ _ _ _ _ _ _ _ _ _ _ _ H) as (_ & Hr & _).
  unfold send_mail, mbind at 1, mlift at 1. rewrite H. cbv iota beta.
  unfold mbind at 1. destruct (send_messages settings transport [msg] st) as [[u|e] st1]; [|reflexivity].
  unfold mbind, mlift. rewrite Hr. cbn. destruct (c !! "site"); reflexivity.
Qed.

Lemma track_mail_enabled subject to html bcc sid user st :
  EMAIL_ENABLED settings = true -> String.length subject <= 250 ->
  track_mail settings now subject to html bcc (VSite sid) user st =
  match html with
  | None => (Raise IntegrityError, st)
  | Some h => (Ok tt, mkMailState (ms_outbox st)
                 (ms_outbound st ++ [mkOutboundEmail (fresh_pk (ms_outbound st)) user (py_join newline to)
                    (match bcc with Some l => py_join newline l | None => "" end) subject (Some h) now sid]))
  end.
Proof.
  intros Hen Hlen. unfold track_mail. rewrite Hen.
  unfold mbind, mlift, create_outbound_email, outbound_email_save, insert_check, mmodify.
  assert (Hl : (250 <? String.length subject) = false) by (apply Nat.ltb_ge; lia).
  cbn -[Nat.ltb String.length fresh_pk]. rewrite Hl. destruct html; reflexivity.
Qed.

(** A message the connection accepts is appended to the outbox. *)
Lemma send_messages_one m st :
  EMAIL_ENABLED settings = true -> headers_ok m = true -> transport m = true ->
  send_messages settings transport [m] st = (Ok tt, mkMailState (ms_outbox st ++ [m]) (ms_outbound st)).
Proof. intros Hen Hh Ht. unfold send_messages. rewrite Hen. cbn. rewrite Hh, Ht. reflexivity. Qed.

Lemma send_mail_raise_early subject text to from bcc html context atts user apply e st :
  create_message settings current_site render_to_string render_string_to_string
    subject text to from bcc html context atts user apply = Raise e ->
  send_mail settings current_site now render_to_string render_string_to_string transport
    subject text to from bcc html context atts user apply st = (Raise e, st).
Proof. intros H. unfold send_mail, mbind, mlift. rewrite H. reflexivity. Qed.
End MailerLemmas.

(** ** Properties *)

(** Settings, a template engine without templates, a context-free string
    renderer and a connection that accepts everything. *)
Definition demo_settings : Settings :=
  mkSettings true "noreply@example.com" "/static/" "site" (Some ["audit@example.com"]).
Definition no_templates : string -> ctx -> exc string := fun _ _ => Raise TemplateDoesNotExist.
Definition as_is : string -> ctx -> exc string := fun s _ => Ok s.

(** C20: with mail enabled, [send_mail] of a message the connection
    accepts appends it to the outbox first (its BCC extended with
    [EMAIL_EXTRA_BCC_LIST]); without an HTML part it then raises
    [IntegrityError] and records no row, the mail having gone; with one
    it records a single [OutboundEmail] row with the subject and HTML
    that were sent, the recipients, the caller's BCC list without the
    extra addresses, the site and the user. *)
Theorem send_mail_spec settings current_site now render_to_string render_string_to_string transport
    subject text to from bcc html context atts user apply msg c sid st :
  EMAIL_ENABLED settings = true ->
  create_message settings current_site render_to_string render_string_to_string
    subject text to from bcc html context atts user apply = Ok (msg, c) ->
  headers_ok msg = true -> transport msg = true -> String.length (em_subject msg) <= 250 ->
  c !! "site" = Some (VSite sid) ->
  let '(r, st') := send_mail settings current_site now render_to_string render_string_to_string transport
                     subject text to from bcc html context atts user apply st in
  ms_outbox st' = ms_outbox st ++ [msg] /\ em_bcc msg = message_bcc settings bcc /\
  match html with
  | None => r = Raise IntegrityError /\ ms_outbound st' = ms_outbound st
  | Some _ => r = Ok tt /\ exists row, ms_outbound st' = ms_outbound st ++ [row] /\
      oe_subject row = em_subject msg /\ oe_message row = html_part msg /\
      oe_to_addresses row = py_join newline to /\
      oe_bcc_addresses row = (match bcc with Some l => py_join newline l | None => "" end) /\
      oe_site row = sid /\ oe_user row = user
  end.
Proof.
  intros Hen Hc Hh Ht Hlen Hs.
  pose proof Hc as Hc'. apply create_message_ok in Hc' as (_ & _ & _ & Hbcc & Hhtml).
  erewrite send_mail_run by exact Hc. rewrite send_messages_one by assumption. rewrite Hs.
  rewrite track_mail_enabled by assumption.
  destruct html as [h0|].
  - destruct (html_part msg) as [h|] eqn:Hp; [|exfalso; discriminate (proj2 Hhtml eq_refl)].
    cbn. split_and!; auto. eexists. split_and!; reflexivity.
  - rewrite (proj1 Hhtml eq_refl). cbn. auto.
Qed.

Lemma send_mail_spec_witness :
  let msg := mkEmailMessage "Welcome" "Hello" "noreply@example.com" ["ann@example.com"]
               ["audit@example.com"] [] [] in
  let '(r, st') := send_mail demo_settings 1 500 no_templates as_is (fun _ => true)
                     "Welcome" "Hello" ["ann@example.com"] "noreply@example.com" None None None None
                     (Some 3) false (mkMailState [] []) in
  ms_outbox st' = [] ++ [msg] /\ em_bcc msg = message_bcc demo_settings None /\
  (r = Raise IntegrityError /\ ms_outbound st' = ms_outbound (mkMailState [] [])).
Proof.
  intros msg.
  apply (send_mail_spec demo_settings 1 500 no_templates as_is (fun _ => true)
           "Welcome" "Hello" ["ann@example.com"] "noreply@example.com" None None None None (Some 3) false
           msg (message_context demo_settings 1 None (Some 3)) 1 (mkMailState [] []));
    [reflexivity|vm_compute; reflexivity|vm_compute; reflexivity|reflexivity|vm_compute; lia|vm_compute; reflexivity].
Defined.

(** C21: [send_mail] never records a row for a message it did not hand to
    the connection: on every path, returned or raised, either the table
    is unchanged, or one message was appended to the outbox and one row
    with that message's subject to the table. *)
Theorem send_mail_tracks_only_sent settings current_site now render_to_string render_string_to_string transport
    subject text to from bcc html context atts user apply st :
  let '(_, st') := send_mail settings current_site now render_to_string render_string_to_string transport
                     subject text to from bcc html context atts user apply st in
  ms_outbound st' = ms_outbound st \/
  exists msg row, ms_outbox st' = ms_outbox st ++ [msg] /\ ms_outbound st' = ms_outbound st ++ [row] /\
    oe_subject row = em_subject msg.
Proof.
  destruct (create_message settings current_site render_to_string render_string_to_string
              subject text to from bcc html context atts user apply) as [[msg c]|e] eqn:Hc.
  2: { erewrite send_mail_raise_early by exact Hc. left. reflexivity. }
  erewrite send_mail_run by exact Hc.
  unfold send_messages. destruct (EMAIL_ENABLED settings) eqn:Hen.
  - destruct (connection_send_one transport msg st) as [(-> & _ & _)|(e & ->)]; [|left; reflexivity].
    destruct (c !! "site") as [site|]; [|left; reflexivity].
    pose proof (track_mail_effect settings now (em_subject msg) to (html_part msg) bcc site user
                  (mkMailState (ms_outbox st ++ [msg]) (ms_outbound st))) as Ht.
    destruct (track_mail settings now (em_subject msg) to (html_part msg) bcc site user _) as [r st'].
    destruct Ht as (Hbox & [Hout|(row & Hout & Hsub & _)]); [left; exact Hout|right].
    exists msg, row. auto.
  - cbn [mret]. destruct (c !! "site") as [site|]; [|left; reflexivity].
    unfold track_mail. rewrite Hen. left. reflexivity.
Qed.

(** With [EMAIL_ENABLED] off, [send_mail] neither sends nor records. *)
Lemma send_mail_disabled settings current_site now render_to_string render_string_to_string transport
    subject text to from bcc html context atts user apply st :
  EMAIL_ENABLED settings = false ->
  final (send_mail settings current_site now render_to_string render_string_to_string transport
           subject text to from bcc html context atts user apply) st = st.
Proof.
  intros Hen. unfold final.
  destruct (create_message settings current_site render_to_string render_string_to_string
              subject text to from bcc html context atts user apply) as [[msg c]|e] eqn:Hc.
  2: { erewrite send_mail_raise_early by exact Hc. reflexivity. }
  erewrite send_mail_run by exact Hc.
  unfold send_messages. rewrite Hen. cbn [mret].
  destruct (c !! "site"); [unfold track_mail; rewrite Hen|]; reflexivity.
Qed.
