(* ===== verification/CoreUtils.v ===== *)
(** * Core utilities: [core/utils.py]

    [respond_with_json], [get_choice_value], [get_client_ip],
    [ensure_unicode] and [not_null_str]; the lookups ([*_or_404]) are in
    [Lookups], [create_crumb] in [Tags], [render_string_to_string] is the
    template engine (a parameter of [Mailer]).

    The theorems: [get_client_ip] returns whatever the client puts before
    the first comma of [X-Forwarded-For]; [get_choice_value] returns a key
    whose (last) display is the one asked for, and [None] only when there
    is none; [ensure_unicode] is [smart_unicode]; [respond_with_json]
    sends its JSON with the default [text/html] content type. *)

From stdpp Require Import gmap.
From Stdlib Require Import Ascii.
From S2P Require Import Prelude Tags QueryString.

(** ** [respond_with_json] *)

(** The Python values [json.dumps] is given. *)
Inductive pyjson :=
| JNone
| JBool (b : bool)
| JInt (n : Z)
| JStr (s : string)
| JList (l : list pyjson)
| JDict (kvs : list (pyjson * pyjson))
| JOther (repr : string).

(** [json.dumps] raises [TypeError] on a value that is not serializable,
    and on a dict key that is not a string, number, boolean or [None]. *)
Fixpoint json_serializable (v : pyjson) : bool :=
  match v with
  | JNone | JBool _ | JInt _ | JStr _ => true
  | JList l => forallb json_serializable l
  | JDict kvs =>
      forallb (fun kv => match kv.1 with JList _ | JDict _ | JOther _ => false | _ => true end
                         && json_serializable kv.2) kvs
  | JOther _ => false
  end.

Record HttpResponse := mkHttpResponse {
  resp_content : pyjson;
  resp_headers : list (string * string)
}.

(** [HttpResponse(content)]: [DEFAULT_CONTENT_TYPE] with its charset. *)
Definition default_content_type : string := "text/html; charset=utf-8".

(** [response[header] = value] *)
Definition set_header (r : HttpResponse) (h v : string) : HttpResponse :=
  mkHttpResponse (resp_content r) ((h, v) :: List.filter (fun hv => negb (String.eqb hv.1 h)) (resp_headers r)).

Definition response_header (r : HttpResponse) (h : string) : option string :=
  snd <$> List.find (fun hv => String.eqb hv.1 h) (resp_headers r).

Definition respond_with_json (response_dict : pyjson) : exc HttpResponse :=
  if json_serializable response_dict then
    let response := mkHttpResponse response_dict [("Content-Type", default_content_type)] in
    let response := set_header response "mimetype" "application/javascript" in
    Ok (set_header response "Access-Control-Allow-Origin" "*")
  else Raise TypeError.

(** ** [get_choice_value] *)

Section Choices.
  Context {K V : Type} `{EqDecision K} `{EqDecision V}.
  (** The order in which [choices_dict.keys()] lists the keys: CPython 2
      uses the hash table's order, any permutation of the keys. *)
  Context (keys_order : list K -> list K).
  Hypothesis keys_order_perm : forall l, Permutation (keys_order l) l.

  (** [dict(choices)]: one entry per key, the last value given for it. *)
Fixpoint dict_of (choices : list (K * V)) : list (K * V) :=
    match choices with
    | [] => []
    | (k, v) :: rest =>
        let d := dict_of rest in
        if bool_decide (k ∈ map fst d) then d else (k, v) :: d
    end.

Definition dict_get (d : list (K * V)) (k : K) : option V :=
    snd <$> List.find (fun kv => bool_decide (kv.1 = k)) d.

Definition get_choice_value (choice_display : V) (choices : list (K * V)) : option K :=
    let choices_dict := dict_of choices in
    List.find (fun key => bool_decide (dict_get choices_dict key = Some choice_display))
      (keys_order (map fst choices_dict)).
End Choices.

(** ** [get_client_ip] *)

(** [request.META]: the CGI variables of the request. *)
Definition get_client_ip (META : gmap string string) : option string :=
  match META !! "HTTP_X_FORWARDED_FOR" with
  | Some x_forwarded_for =>
      if truthy x_forwarded_for then Some (default "" (head (split_on ","%char x_forwarded_for)))
      else META !! "REMOTE_ADDR"
  | None => META !! "REMOTE_ADDR"
  end.

(** ** [ensure_unicode] and [not_null_str] *)

(** The objects these helpers are given. *)
Inductive pyobj :=
| PNone
| PUnicode (s : string)
| PBytes (b : string)
| PObj (unicode_repr : string).

Section Unicode.
  (** [b.decode('utf-8')], [None] when the bytes are not UTF-8. *)
  Context (decode_utf8 : string -> option string).

  (** [django.utils.encoding.smart_unicode] ([force_text]). *)
Definition smart_unicode (o : pyobj) : exc string :=
    match o with
    | PUnicode s => Ok s
    | PBytes b => match decode_utf8 b with Some s => Ok s | None => Raise UnicodeDecodeError end
    | PObj r => Ok r
    | PNone => Ok "None"
    end.

Definition ensure_unicode (the_string : pyobj) : exc string :=
    the_string <-! (match the_string with
                    | PUnicode _ => Ok the_string
                    | _ => s <-! smart_unicode the_string ;; Ok (PUnicode s)
                    end) ;;
    smart_unicode the_string.

Definition not_null_str (obj : pyobj) : exc string :=
    match obj with
    | PNone => Ok ""
    | _ => ensure_unicode obj
    end.
End Unicode.

(** ** Lemmas *)

(** [X-Forwarded-For] is a request header the client sets: the address
    [get_client_ip] returns is any comma-free text the client sends first,
    whatever [REMOTE_ADDR] says. *)
Lemma get_client_ip_forwarded META ip rest :
  ip <> ""%string -> has_char ","%char ip = false ->
  META !! "HTTP_X_FORWARDED_FOR" = Some (ip ++ "," ++ rest)%string ->
  get_client_ip META = Some ip.
Proof.
  intros Hne Hc H. unfold get_client_ip. rewrite H.
  destruct ip as [|c ip]; [contradiction|]. cbn [truthy String.append String.eqb negb].
  change ("," ++ rest)%string with (String ","%char rest).
  rewrite (split_on_app _ (String c ip) rest Hc). reflexivity.
Qed.

Section ChoicesLemmas.
  Context {K V : Type} `{EqDecision K} `{EqDecision V}.
  Context (keys_order : list K -> list K).
  Hypothesis keys_order_perm : forall l, Permutation (keys_order l) l.

  (** The reference: Python's [dict(pairs)[k]] is the value of the last
      pair with key [k]. *)
Fixpoint last_value (choices : list (K * V)) (k : K) : option V :=
    match choices with
    | [] => None
    | (k0, v0) :: rest =>
        match last_value rest k with
        | Some v => Some v
        | None => if bool_decide (k0 = k) then Some v0 else None
        end
    end.

Lemma dict_get_is_Some (d : list (K * V)) k : is_Some (dict_get d k) <-> k ∈ map fst d.
  Proof.
    unfold dict_get. induction d as [|[k0 v0] d IH]; cbn.
    - split; [intros [? Hn]; discriminate Hn|intros Hin; inversion Hin].
    - case_bool_decide as E; [subst; split; [intros _; left|intros _; eexists; reflexivity]|].
      rewrite IH, elem_of_cons. split; [tauto|intros [->|H]; [congruence|exact H]].
  Qed.

Lemma dict_get_cons (k0 : K) (v0 : V) d k :
    dict_get ((k0, v0) :: d) k = if bool_decide (k0 = k) then Some v0 else dict_get d k.
  Proof. unfold dict_get. cbn. destruct (bool_decide (k0 = k)); reflexivity. Qed.

  (** [dict(choices)] keeps, for every key, the last value given. *)
Lemma dict_get_dict_of choices k : dict_get (dict_of choices) k = last_value choices k.
  Proof.
    induction choices as [|[k0 v0] rest IH]; [reflexivity|]. cbn [dict_of last_value].
    rewrite <- IH. case_bool_decide as Hin.
    - destruct (decide (k0 = k)) as [<-|Hne].
      + apply dict_get_is_Some in Hin as [v ->]. reflexivity.
      + rewrite bool_decide_eq_false_2 by exact Hne. destruct (dict_get (dict_of rest) k); reflexivity.
    - rewrite dict_get_cons. destruct (decide (k0 = k)) as [<-|Hne].
      + rewrite !bool_decide_eq_true_2 by reflexivity.
        destruct (dict_get (dict_of rest) k0) eqn:E; [|reflexivity].
        exfalso. apply Hin, dict_get_is_Some. rewrite E. eexists. reflexivity.
      + rewrite !bool_decide_eq_false_2 by exact Hne. destruct (dict_get (dict_of rest) k); reflexivity.
  Qed.

  (** [get_choice_value] answers a key whose value in [dict(choices)] is
      the display asked for, and [None] only when no key has it, in any
      order of the keys. *)
Lemma get_choice_value_spec (display : V) (choices : list (K * V)) :
    (forall k, get_choice_value keys_order display choices = Some k -> last_value choices k = Some display) /\
    (get_choice_value keys_order display choices = None -> forall k, last_value choices k <> Some display).
  Proof.
    unfold get_choice_value. split.
    - intros k Hf. apply find_some in Hf as [_ Hb]. apply bool_decide_eq_true_1 in Hb.
      rewrite <- dict_get_dict_of. exact Hb.
    - intros Hn k Hk. rewrite <- dict_get_dict_of in Hk.
      assert (Hin : k ∈ map fst (dict_of choices)) by (apply dict_get_is_Some; rewrite Hk; eexists; reflexivity).
      assert (Hin' : In k (keys_order (map fst (dict_of choices))))
        by (apply list_elem_of_In; rewrite (keys_order_perm _); exact Hin).
      pose proof (find_none _ _ Hn k Hin') as Hf. cbv beta in Hf.
      rewrite bool_decide_eq_true_2 in Hf by exact Hk. discriminate Hf.
  Qed.
End ChoicesLemmas.

(** [ensure_unicode] converts twice; the second call is the identity, so
    it is [smart_unicode]. *)
Lemma ensure_unicode_smart_unicode decode_utf8 o :
  ensure_unicode decode_utf8 o = smart_unicode decode_utf8 o.
Proof.
  unfold ensure_unicode, exc_bind. destruct o as [|s|b|r]; try reflexivity.
  cbn. destruct (decode_utf8 b); reflexivity.
Qed.

(** [respond_with_json] of a serializable value answers it with the
    default [text/html] content type and a header named [mimetype];
    another value raises [TypeError]. *)
Lemma respond_with_json_headers v :
  match respond_with_json v with
  | Ok r => json_serializable v = true /\ resp_content r = v /\
            response_header r "Content-Type" = Some default_content_type /\
            response_header r "mimetype" = Some "application/javascript"%string /\
            response_header r "Access-Control-Allow-Origin" = Some "*"%string
  | Raise e => json_serializable v = false /\ e = TypeError
  end.
Proof. unfold respond_with_json. destruct (json_serializable v); cbn; auto. Qed.

Example get_choice_value_overridden :
  get_choice_value (K:=Z) (V:=string) (fun l => l) "Draft" [(1%Z, "Draft"); (2%Z, "Live"); (1%Z, "Hidden")] = None.
Proof. reflexivity. Qed.
