(* ===== verification/Fields.v ===== *)
(** * [UUIDField] (core/fields.py) and the Python [uuid] module it calls

    [UUIDField.pre_save] stores [str(uuid.uuid1())] (or its [.hex]) in a
    new row.  The [uuid] module of Python 2.7 is not under src/: [UUID]
    (its [fields] constructor, its accessors, [__str__], [hex] and the
    [hex] constructor) and the pure-Python path of [uuid1] are modelled
    from Lib/uuid.py, on unbounded [Z] with [Z.land], [Z.lor], [Z.shiftl]
    and [Z.shiftr] as Python's long operations.  [uuid1] keeps the module
    global [_last_timestamp]; it is the state of the [M] monad here.  The
    clock reading, [random.randrange(1<<14)] and [getnode()] are inputs. *)
From Stdlib Require Import Ascii Sorted Btauto.
From coqutil Require Import Z.bitblast.
From S2P Require Import Prelude.

#[local] Open Scope Z_scope.

(** ** The [UUID] class *)

Record UUID := mkUUID { uuid_int : Z }.

Inductive Variant := RESERVED_NCS | RFC_4122 | RESERVED_MICROSOFT | RESERVED_FUTURE.

(** [0 <= x < 1 << bits] *)
Definition in_range (x bits : Z) : bool := (0 <=? x) && (x <? Z.shiftl 1 bits).

(** [UUID(fields=(...), version=version)]: the range checks of
    [__init__], the packing, then the RFC 4122 variant and the version. *)
Definition uuid_of_fields (time_low time_mid time_hi_version clock_seq_hi_variant clock_seq_low node : Z)
    (version : Z) : exc UUID :=
  if negb (in_range time_low 32) then Raise ValueError
  else if negb (in_range time_mid 16) then Raise ValueError
  else if negb (in_range time_hi_version 16) then Raise ValueError
  else if negb (in_range clock_seq_hi_variant 8) then Raise ValueError
  else if negb (in_range clock_seq_low 8) then Raise ValueError
  else if negb (in_range node 48) then Raise ValueError
  else
    let clock_seq := Z.lor (Z.shiftl clock_seq_hi_variant 8) clock_seq_low in
    let int := Z.lor (Z.lor (Z.lor (Z.lor (Z.shiftl time_low 96) (Z.shiftl time_mid 80))
                 (Z.shiftl time_hi_version 64)) (Z.shiftl clock_seq 48)) node in
    if negb (in_range int 128) then Raise ValueError
    else if negb ((1 <=? version) && (version <=? 5)) then Raise ValueError
    else
      let int := Z.land int (Z.lnot (Z.shiftl 0xc000 48)) in
      let int := Z.lor int (Z.shiftl 0x8000 48) in
      let int := Z.land int (Z.lnot (Z.shiftl 0xf000 64)) in
      let int := Z.lor int (Z.shiftl version 76) in
      Ok (mkUUID int).

(** The read-only properties of [UUID]. *)
Definition time_low (u : UUID) : Z := Z.shiftr (uuid_int u) 96.
Definition time_mid (u : UUID) : Z := Z.land (Z.shiftr (uuid_int u) 80) 0xffff.
Definition time_hi_version (u : UUID) : Z := Z.land (Z.shiftr (uuid_int u) 64) 0xffff.
Definition clock_seq_hi_variant (u : UUID) : Z := Z.land (Z.shiftr (uuid_int u) 56) 0xff.
Definition clock_seq_low (u : UUID) : Z := Z.land (Z.shiftr (uuid_int u) 48) 0xff.
Definition uuid_time (u : UUID) : Z :=
  Z.lor (Z.lor (Z.shiftl (Z.land (time_hi_version u) 0x0fff) 48) (Z.shiftl (time_mid u) 32)) (time_low u).
Definition uuid_clock_seq (u : UUID) : Z :=
  Z.lor (Z.shiftl (Z.land (clock_seq_hi_variant u) 0x3f) 8) (clock_seq_low u).
Definition uuid_node (u : UUID) : Z := Z.land (uuid_int u) 0xffffffffffff.

Definition uuid_variant (u : UUID) : Variant :=
  if Z.land (uuid_int u) (Z.shiftl 0x8000 48) =? 0 then RESERVED_NCS
  else if Z.land (uuid_int u) (Z.shiftl 0x4000 48) =? 0 then RFC_4122
  else if Z.land (uuid_int u) (Z.shiftl 0x2000 48) =? 0 then RESERVED_MICROSOFT
  else RESERVED_FUTURE.

Definition uuid_version (u : UUID) : option Z :=
  match uuid_variant u with
  | RFC_4122 => Some (Z.land (Z.shiftr (uuid_int u) 76) 0xf)
  | _ => None
  end.

(** ** [%x] formatting *)

Definition hex_char (d : Z) : ascii :=
  if d <? 10 then ascii_of_nat (48 + Z.to_nat d) else ascii_of_nat (87 + Z.to_nat d).

(** The last [k] hexadecimal digits of [n], most significant first. *)
Fixpoint hex_fixed (k : nat) (n : Z) : list ascii :=
  match k with
  | O => []
  | S k => hex_fixed k (n / 16) ++ [hex_char (n mod 16)]
  end.

(** ['%032x' % n]: the digits of [n] (a positive [n] has
    [log2 n / 4 + 1] of them), zero-padded to 32 characters, the sign
    included. *)
Definition format_032x (n : Z) : string :=
  if n <? 0 then String "-" (String.string_of_list_ascii (hex_fixed (Z.to_nat (Z.max 31 (Z.log2 (- n) / 4 + 1))) (- n)))
  else String.string_of_list_ascii (hex_fixed (Z.to_nat (Z.max 32 (Z.log2 n / 4 + 1))) n).

(** [UUID.hex] and [UUID.__str__]. *)
Definition uuid_hex (u : UUID) : string := format_032x (uuid_int u).

Definition uuid_str (u : UUID) : string :=
  let hex := String.list_ascii_of_string (uuid_hex u) in
  String.string_of_list_ascii
    (py_slice hex 0 8 ++ "-"%char :: py_slice hex 8 12 ++ "-"%char :: py_slice hex 12 16 ++
     "-"%char :: py_slice hex 16 20 ++ "-"%char :: drop 20 hex).

(** ** [UUID(hex=...)] *)

Fixpoint list_prefixb (p l : list ascii) : bool :=
  match p, l with
  | [], _ => true
  | c :: p', d :: l' => Ascii.eqb c d && list_prefixb p' l'
  | _ :: _, [] => false
  end.

(** [s.replace(pat, '')], scanning left to right ([fuel] is the length
    of [s]; every step consumes a character). *)
Fixpoint remove_all_fuel (fuel : nat) (pat s : list ascii) : list ascii :=
  match fuel with
  | O => s
  | S f =>
      match s with
      | [] => []
      | c :: r => if list_prefixb pat s then remove_all_fuel f pat (drop (length pat) s)
                 else c :: remove_all_fuel f pat r
      end
  end.
Definition remove_all (pat s : list ascii) : list ascii := remove_all_fuel (length s) pat s.

(** [s.lstrip(chars)] and [s.strip(chars)]. *)
Fixpoint lstrip_chars (chars s : list ascii) : list ascii :=
  match s with
  | [] => []
  | c :: r => if existsb (Ascii.eqb c) chars then lstrip_chars chars r else s
  end.
Definition strip_chars (chars s : list ascii) : list ascii :=
  rev (lstrip_chars chars (rev (lstrip_chars chars s))).

Definition hex_digit_value (c : ascii) : option Z :=
  let n := Z.of_nat (nat_of_ascii c) in
  if (48 <=? n) && (n <=? 57) then Some (n - 48)
  else if (97 <=? n) && (n <=? 102) then Some (n - 87)
  else if (65 <=? n) && (n <=? 70) then Some (n - 55)
  else None.

Fixpoint hex_digits_value (acc : Z) (l : list ascii) : option Z :=
  match l with
  | [] => Some acc
  | c :: r => d ← hex_digit_value c; hex_digits_value (acc * 16 + d) r
  end.

Definition py_whitespace : list ascii := [" "; "009"; "010"; "011"; "012"; "013"]%char.

(** The steps of [long(s, 16)] of Python 2 ([PyLong_FromString]): the
    sign and the whitespace after it, the [0x] prefix, the [L] suffix. *)
Definition py_sign (s : list ascii) : Z * list ascii :=
  match s with
  | "-"%char :: r => (-1, strip_chars py_whitespace r)
  | "+"%char :: r => (1, strip_chars py_whitespace r)
  | _ => (1, s)
  end.

Definition strip_0x (s : list ascii) : list ascii :=
  match s with
  | "0"%char :: c :: r => if Ascii.eqb c "x" || Ascii.eqb c "X" then r else s
  | _ => s
  end.

Definition strip_L (s : list ascii) : list ascii :=
  match rev s with
  | c :: r => if Ascii.eqb c "L" || Ascii.eqb c "l" then rev r else s
  | [] => s
  end.

(** [long(s, 16)]: whitespace, a sign, whitespace, an optional [0x]
    prefix, at least one hexadecimal digit, an optional [L] suffix,
    whitespace. *)
Definition py_long16 (s : list ascii) : exc Z :=
  let '(sign, s) := py_sign (strip_chars py_whitespace s) in
  let s := strip_L (strip_0x s) in
  match s with
  | [] => Raise ValueError
  | _ => match hex_digits_value 0 s with Some v => Ok (sign * v) | None => Raise ValueError end
  end.

Definition uuid_from_hex (hex : string) : exc UUID :=
  let h := remove_all (String.list_ascii_of_string "urn:") (String.list_ascii_of_string hex) in
  let h := remove_all (String.list_ascii_of_string "uuid:") h in
  let h := remove_all ["-"%char] (strip_chars ["{"; "}"]%char h) in
  if negb (length h =? 32)%nat then Raise ValueError
  else
    int <-! py_long16 h ;;
    if negb (in_range int 128) then Raise ValueError else Ok (mkUUID int).

(** ** [uuid1], pure-Python path

    The state is the module global [_last_timestamp]; [nanoseconds] is
    [int(time.time() * 1e9)], [clock_seq] is [random.randrange(1<<14)]
    and [node] is [getnode()].  The global is written before [UUID()] is
    called. *)
Definition uuid1_timestamp (nanoseconds : Z) (_last_timestamp : option Z) : Z :=
  let timestamp := nanoseconds / 100 + 0x01b21dd213814000 in
  match _last_timestamp with
  | Some l => if timestamp <=? l then l + 1 else timestamp
  | None => timestamp
  end.

Definition uuid1 (node nanoseconds clock_seq : Z) : M (option Z) UUID := fun _last_timestamp =>
  let timestamp := uuid1_timestamp nanoseconds _last_timestamp in
  let time_low := Z.land timestamp 0xffffffff in
  let time_mid := Z.land (Z.shiftr timestamp 32) 0xffff in
  let time_hi_version := Z.land (Z.shiftr timestamp 48) 0x0fff in
  let clock_seq_low := Z.land clock_seq 0xff in
  let clock_seq_hi_variant := Z.land (Z.shiftr clock_seq 8) 0x3f in
  (uuid_of_fields time_low time_mid time_hi_version clock_seq_hi_variant clock_seq_low node 1, Some timestamp).

(** ** [UUIDField] *)

Record UUIDField := mkUUIDField {
  max_length : Z;
  blank : bool;
  hex : bool
}.

(** [UUIDField.__init__]: [max_length] defaults to 64, [blank] is forced
    to [True], [hex] is popped with default [False]. *)
Definition uuid_field_init (max_length_kw : option Z) (hex_kw : option bool) : UUIDField :=
  mkUUIDField (default 64 max_length_kw) true (default false hex_kw).

(** [UUIDField.pre_save(model_instance, add)]: [value] is the instance's
    attribute; the result is the value saved, which [setattr] also puts on
    the instance.  One [uuid1()] call on either branch of the
    [hex and ... or ...]. *)
Definition pre_save (node : Z) (f : UUIDField) (value : string) (add : bool)
    (nanoseconds clock_seq : Z) : M (option Z) string :=
  if add then
    u <- uuid1 node nanoseconds clock_seq ;;
    mret (if hex f then uuid_hex u else uuid_str u)
  else mret value.

(** The [varchar(max_length)] column of a [CharField] on PostgreSQL: a
    longer value fails the INSERT with [DataError]. *)
Definition insert_value (f : UUIDField) (value : string) : exc string :=
  if max_length f <? Z.of_nat (String.length value) then Raise DataError else Ok value.

(** Rows created one after another in one process: each INSERT runs
    [pre_save] with [add] set, at the clock reading and random draw of its
    step. *)
Fixpoint save_new_rows (node : Z) (f : UUIDField) (steps : list (Z * Z)) : M (option Z) (list string) :=
  match steps with
  | [] => mret []
  | (nanoseconds, clock_seq) :: rest =>
      v <- pre_save node f "" true nanoseconds clock_seq ;;
      vs <- save_new_rows node f rest ;;
      mret (v :: vs)
  end.

(** ** Bit-level lemmas *)

Lemma testbit_high b k i : 0 <= b < 2 ^ k -> k <= i -> Z.testbit b i = false.
Proof.
  intros Hb Hi. assert (0 <= k).
  { destruct (Z.neg_nonneg_cases k) as [Hk|Hk]; [rewrite Z.pow_neg_r in Hb by exact Hk; lia|exact Hk]. }
  rewrite <- (Z.mod_small b (2 ^ k)) by lia. apply Z.mod_pow2_bits_high. lia.
Qed.

(** Bit-blasting: coqutil's rewriting of [Z.testbit] through the bitwise
    operations, then each comparison of bit indices decided by [lia] where
    the cases already split decide it, split otherwise; the bits below
    zero and above a bounded value are [false]. *)
Ltac decide_ltbs :=
  repeat match goal with
  | |- context [?a <? ?b] =>
      first [ rewrite (proj2 (Z.ltb_lt a b)) by lia
            | rewrite (proj2 (Z.ltb_ge a b)) by lia
            | destruct (Z.ltb_spec a b) ]
  end.

Ltac bits :=
  eapply Z.bits_inj'; intros ?i ?Hi;
  Z.rewrite_bitwise; Z.discover_equal_testbit_indices; decide_ltbs;
  repeat match goal with
  | |- context [Z.testbit ?a ?l] => rewrite (Z.testbit_neg_r a l) by lia
  | H : 0 <= ?b < 2 ^ ?k |- context [Z.testbit ?b ?i] => rewrite (testbit_high b k i H) by lia
  end; try btauto.

Lemma in_range_spec x n : 0 <= n -> in_range x n = true <-> 0 <= x < 2 ^ n.
Proof.
  intros Hn. unfold in_range. rewrite Z.shiftl_1_l, andb_true_iff, Z.leb_le, Z.ltb_lt. reflexivity.
Qed.

(** A value equal to its low [n] bits is an [n]-bit value. *)
Lemma bounded_of_land_ones x n : 0 <= n -> Z.land x (Z.ones n) = x -> 0 <= x < 2 ^ n.
Proof.
  intros Hn H. rewrite Z.land_ones in H by exact Hn. rewrite <- H.
  apply Z.mod_pos_bound. apply Z.pow_pos_nonneg; lia.
Qed.

Lemma land_ones_bounded x n : 0 <= n -> 0 <= Z.land x (Z.ones n) < 2 ^ n.
Proof. intros Hn. rewrite Z.land_ones by exact Hn. apply Z.mod_pos_bound. apply Z.pow_pos_nonneg; lia. Qed.

(** The integer [UUID(fields=..., version=...)] stores. *)
Definition uuid_pack (tl tm thv csh csl node version : Z) : Z :=
  Z.lor (Z.land (Z.lor (Z.land (Z.lor (Z.lor (Z.lor (Z.lor (Z.shiftl tl 96) (Z.shiftl tm 80))
    (Z.shiftl thv 64)) (Z.shiftl (Z.lor (Z.shiftl csh 8) csl) 48)) node)
    (Z.lnot (Z.shiftl 0xc000 48))) (Z.shiftl 0x8000 48)) (Z.lnot (Z.shiftl 0xf000 64)))
    (Z.shiftl version 76).

Ltac masks :=
  change 0xffffffff with (Z.ones 32) in *; change 0xffff with (Z.ones 16) in *;
  change 0x0fff with (Z.ones 12) in *; change 0xff with (Z.ones 8) in *;
  change 0x3f with (Z.ones 6) in *; change 0xf with (Z.ones 4) in *;
  change 0xffffffffffff with (Z.ones 48) in *;
  change 0xc000 with (Z.shiftl (Z.ones 2) 14) in *; change 0x8000 with (Z.shiftl (Z.ones 1) 15) in *;
  change 0x4000 with (Z.shiftl (Z.ones 1) 14) in *; change 0x2000 with (Z.shiftl (Z.ones 1) 13) in *;
  change 0xf000 with (Z.shiftl (Z.ones 4) 12) in *.

Lemma uuid_pack_time_low tl tm thv csh csl node version :
  0 <= tl < 2 ^ 32 -> 0 <= tm < 2 ^ 16 -> 0 <= thv < 2 ^ 16 -> 0 <= csh < 2 ^ 8 -> 0 <= csl < 2 ^ 8 ->
  0 <= node < 2 ^ 48 -> 0 <= version < 2 ^ 4 ->
  time_low (mkUUID (uuid_pack tl tm thv csh csl node version)) = tl.
Proof. intros. unfold time_low, uuid_pack. simpl. masks. bits. Qed.

Section Pack.
Context (tl tm thv csh csl node version : Z).
Hypotheses (Htl : 0 <= tl < 2 ^ 32) (Htm : 0 <= tm < 2 ^ 16) (Hthv : 0 <= thv < 2 ^ 16)
  (Hcsh : 0 <= csh < 2 ^ 8) (Hcsl : 0 <= csl < 2 ^ 8) (Hnode : 0 <= node < 2 ^ 48)
  (Hversion : 0 <= version < 2 ^ 4).
Let u := mkUUID (uuid_pack tl tm thv csh csl node version).

Lemma uuid_pack_bounded : 0 <= uuid_pack tl tm thv csh csl node version < 2 ^ 128.
Proof using All. apply bounded_of_land_ones; [lia|]. unfold uuid_pack. masks. bits. Qed.

(** What the properties of [UUID] read back from the packed integer. *)
Lemma uuid_pack_fields :
  time_low u = tl /\ time_mid u = tm /\
  time_hi_version u = Z.lor (Z.land thv 0x0fff) (Z.shiftl version 12) /\
  clock_seq_hi_variant u = Z.lor (Z.land csh 0x3f) 0x80 /\ clock_seq_low u = csl /\ uuid_node u = node.
Proof using All.
  unfold time_low, time_mid, time_hi_version, clock_seq_hi_variant, clock_seq_low, uuid_node, u, uuid_pack.
  simpl. change 0x80 with (Z.shiftl (Z.ones 1) 7). masks. split_and!; bits.
Qed.

Lemma uuid_pack_variant : uuid_variant u = RFC_4122.
Proof using All.
  unfold uuid_variant, u. simpl.
  assert (E1 : Z.land (uuid_pack tl tm thv csh csl node version) (Z.shiftl 0x8000 48) = Z.shiftl 0x8000 48)
    by (unfold uuid_pack; masks; bits).
  assert (E2 : Z.land (uuid_pack tl tm thv csh csl node version) (Z.shiftl 0x4000 48) = 0)
    by (unfold uuid_pack; masks; bits).
  rewrite E1, E2. reflexivity.
Qed.

Lemma uuid_pack_version : uuid_version u = Some version.
Proof using All.
  unfold uuid_version. rewrite uuid_pack_variant. f_equal.
  unfold u, uuid_pack. simpl. masks. bits.
Qed.

(** [UUID(fields=..., version=...)] accepts in-range fields and a version
    of 1 to 5, and stores the packed integer. *)
Lemma uuid_of_fields_ok :
  1 <= version <= 5 -> uuid_of_fields tl tm thv csh csl node version = Ok u.
Proof using All.
  intros Hv. unfold uuid_of_fields.
  rewrite (proj2 (in_range_spec tl 32 ltac:(lia)) Htl), (proj2 (in_range_spec tm 16 ltac:(lia)) Htm),
    (proj2 (in_range_spec thv 16 ltac:(lia)) Hthv), (proj2 (in_range_spec csh 8 ltac:(lia)) Hcsh),
    (proj2 (in_range_spec csl 8 ltac:(lia)) Hcsl), (proj2 (in_range_spec node 48 ltac:(lia)) Hnode).
  cbn zeta. rewrite (proj2 (in_range_spec _ 128 ltac:(lia))).
  - replace ((1 <=? version) && (version <=? 5)) with true by (symmetry; apply andb_true_iff; lia).
    reflexivity.
  - apply bounded_of_land_ones; [lia|]. masks. bits.
Qed.
End Pack.

(** ** Hexadecimal digits *)

Definition hexdig (c : ascii) : bool := existsb (Ascii.eqb c) (String.list_ascii_of_string "0123456789abcdef").

Ltac hexdig_cases H :=
  apply existsb_exists in H as (? & Hin & Heq); apply Ascii.eqb_eq in Heq; subst;
  simpl in Hin; repeat destruct Hin as [<-|Hin]; [..|contradiction].

Lemma hex_char_spec d : 0 <= d < 16 -> hexdig (hex_char d) = true /\ hex_digit_value (hex_char d) = Some d.
Proof.
  intros Hd.
  assert (d = 0 \/ d = 1 \/ d = 2 \/ d = 3 \/ d = 4 \/ d = 5 \/ d = 6 \/ d = 7 \/ d = 8 \/ d = 9 \/
          d = 10 \/ d = 11 \/ d = 12 \/ d = 13 \/ d = 14 \/ d = 15) as Hc by lia.
  repeat destruct Hc as [->|Hc]; [..|subst]; split; reflexivity.
Qed.

(** A hexadecimal digit is none of the characters the parser treats
    specially. *)
Lemma hexdig_not c x : hexdig c = true -> hexdig x = false -> Ascii.eqb c x = false.
Proof. intros Hc Hx. destruct (Ascii.eqb_spec c x) as [->|]; [congruence|reflexivity]. Qed.

Lemma hexdig_absent c chars :
  hexdig c = true -> forallb (fun x => negb (hexdig x)) chars = true -> existsb (Ascii.eqb c) chars = false.
Proof.
  intros Hc. induction chars as [|x chars IH]; simpl; [reflexivity|].
  intros [Hx Hr]%andb_true_iff. rewrite hexdig_not by (destruct (hexdig x); easy). auto.
Qed.

Lemma hex_fixed_length k n : length (hex_fixed k n) = k.
Proof. revert n. induction k; intros n; simpl; [reflexivity|]. rewrite length_app, IHk. simpl. lia. Qed.

Lemma hex_fixed_hexdig k n : Forall (fun c => hexdig c = true) (hex_fixed k n).
Proof.
  revert n. induction k; intros n; simpl; [constructor|].
  apply Forall_app; split; [apply IHk|]. constructor; [|constructor].
  apply hex_char_spec, Z.mod_pos_bound. lia.
Qed.

Lemma digits_value_app acc l1 l2 :
  hex_digits_value acc (l1 ++ l2) = hex_digits_value acc l1 ≫= λ a, hex_digits_value a l2.
Proof. revert acc. induction l1 as [|c l1 IH]; intros acc; simpl; [reflexivity|]. destruct (hex_digit_value c); simpl; auto. Qed.

Lemma digits_value_hex_fixed k n acc :
  hex_digits_value acc (hex_fixed k n) = Some (acc * 16 ^ Z.of_nat k + n mod 16 ^ Z.of_nat k).
Proof.
  revert n acc. induction k as [|k IH]; intros n acc; simpl.
  - rewrite Z.mod_1_r. f_equal. lia.
  - rewrite digits_value_app, IH. simpl.
    rewrite (proj2 (hex_char_spec _ (Z.mod_pos_bound n 16 ltac:(lia)))). simpl. f_equal.
    rewrite Nat2Z.inj_succ, <- Z.add_1_r, Z.pow_add_r by lia. rewrite Z.pow_1_r.
    rewrite (Z.mul_comm (16 ^ Z.of_nat k) 16), Z.rem_mul_r by (try apply Z.pow_pos_nonneg; lia). ring.
Qed.

Lemma format_032x_small n : 0 <= n < 2 ^ 128 -> format_032x n = String.string_of_list_ascii (hex_fixed 32 n).
Proof.
  intros Hn. unfold format_032x. rewrite (proj2 (Z.ltb_ge n 0)) by lia.
  assert (Z.log2 n < 128).
  { destruct (Z.eq_dec n 0) as [->|]; [simpl; lia|]. apply Z.log2_lt_pow2; lia. }
  assert (Z.log2 n / 4 < 32) by (apply Z.div_lt_upper_bound; lia).
  rewrite Z.max_l by lia. reflexivity.
Qed.

(** ** The parser on digit strings *)

Definition hexdigs (l : list ascii) : Prop := Forall (fun c => hexdig c = true) l.

Lemma remove_all_fuel_absent f c rest s :
  Forall (fun d => Ascii.eqb c d = false) s -> remove_all_fuel f (c :: rest) s = s.
Proof.
  revert f. induction s as [|d s IH]; intros f Hs; destruct f; simpl; try reflexivity.
  inversion Hs as [|? ? Hd Hr]; subst. rewrite Hd. simpl. f_equal. auto.
Qed.

Lemma remove_all_absent c rest s :
  Forall (fun d => Ascii.eqb c d = false) s -> remove_all (c :: rest) s = s.
Proof. apply remove_all_fuel_absent. Qed.

(** [s.replace('-', '')] drops the dashes. *)
Lemma remove_all_dash s :
  remove_all ["-"%char] s = List.filter (fun c => negb (Ascii.eqb "-" c)) s.
Proof.
  unfold remove_all. cut (forall f, (length s <= f)%nat ->
    remove_all_fuel f ["-"%char] s = List.filter (fun c => negb (Ascii.eqb "-" c)) s); [auto|].
  induction s as [|c s IH]; intros f Hf; destruct f as [|f]; [reflexivity|reflexivity|simpl in Hf; lia|].
  cbn -[Ascii.eqb]. destruct (Ascii.eqb "-" c); cbn -[Ascii.eqb]; rewrite IH by (simpl in Hf; lia); reflexivity.
Qed.

Lemma lstrip_chars_id chars s :
  Forall (fun c => existsb (Ascii.eqb c) chars = false) s -> lstrip_chars chars s = s.
Proof. intros Hs. destruct Hs as [|c s Hc _]; simpl; [reflexivity|]. rewrite Hc. reflexivity. Qed.

Lemma strip_chars_id chars s :
  Forall (fun c => existsb (Ascii.eqb c) chars = false) s -> strip_chars chars s = s.
Proof.
  intros Hs. unfold strip_chars. rewrite (lstrip_chars_id chars s Hs).
  rewrite lstrip_chars_id by (apply Forall_rev; exact Hs). apply rev_involutive.
Qed.

Lemma char_not (P : ascii -> bool) c x : P c = true -> P x = false -> Ascii.eqb c x = false.
Proof. intros Hc Hx. destruct (Ascii.eqb_spec c x) as [->|]; [congruence|reflexivity]. Qed.

Lemma chars_absent (P : ascii -> bool) chars s :
  forallb (fun x => negb (P x)) chars = true -> Forall (fun c => P c = true) s ->
  Forall (fun c => existsb (Ascii.eqb c) chars = false) s.
Proof.
  intros Hch Hs. eapply Forall_impl; [exact Hs|]. intros c Hc. clear Hs.
  induction chars as [|x chars IH]; simpl in *; [reflexivity|].
  apply andb_true_iff in Hch as [Hx Hr]. rewrite (char_not P c x) by (destruct (P x); easy). auto.
Qed.

Lemma chars_eqb (P : ascii -> bool) x s :
  P x = false -> Forall (fun c => P c = true) s -> Forall (fun d => Ascii.eqb x d = false) s.
Proof.
  intros Hx Hs. eapply Forall_impl; [exact Hs|]. intros d Hd. rewrite Ascii.eqb_sym. apply (char_not P); assumption.
Qed.

Lemma py_sign_digit c r : hexdig c = true -> py_sign (c :: r) = (1, c :: r).
Proof. intros Hc. hexdig_cases Hc; reflexivity. Qed.

Lemma strip_0x_digits c1 c2 r : hexdig c2 = true -> strip_0x (c1 :: c2 :: r) = c1 :: c2 :: r.
Proof.
  intros Hc. unfold strip_0x.
  rewrite (hexdig_not c2 "x") , (hexdig_not c2 "X") by (assumption || reflexivity).
  destruct c1 as [[] [] [] [] [] [] [] []]; reflexivity.
Qed.

Lemma strip_L_digits s : hexdigs s -> strip_L s = s.
Proof.
  intros Hs. unfold strip_L. destruct (rev s) as [|c r] eqn:E; [reflexivity|].
  assert (Hc : hexdig c = true).
  { apply Forall_rev in Hs. rewrite E in Hs. inversion Hs; assumption. }
  rewrite (hexdig_not c "L"), (hexdig_not c "l") by (assumption || reflexivity). reflexivity.
Qed.

(** [long(s, 16)] of a string of at least two digits is their value. *)
Lemma py_long16_digits s : (2 <= length s)%nat -> hexdigs s ->
  py_long16 s = match hex_digits_value 0 s with Some v => Ok v | None => Raise ValueError end.
Proof.
  intros Hlen Hs. unfold py_long16.
  rewrite strip_chars_id by (apply (chars_absent hexdig); [reflexivity|exact Hs]).
  destruct s as [|c1 [|c2 r]]; simpl in Hlen; try lia.
  inversion Hs as [|? ? H1 Hr]; inversion Hr as [|? ? H2 _]; subst.
  rewrite py_sign_digit by exact H1. cbv beta iota.
  rewrite strip_0x_digits, strip_L_digits by assumption.
  destruct (hex_digits_value 0 _); [f_equal; lia|reflexivity].
Qed.

(** ** Round trips *)

Definition uuid_char (c : ascii) : bool := hexdig c || Ascii.eqb c "-".

Lemma hex_fixed_value n : 0 <= n < 2 ^ 128 -> hex_digits_value 0 (hex_fixed 32 n) = Some n.
Proof. intros Hn. rewrite digits_value_hex_fixed. f_equal. rewrite Z.mod_small; [lia|]. exact Hn. Qed.

Lemma uuid_hex_digits u : 0 <= uuid_int u < 2 ^ 128 ->
  String.list_ascii_of_string (uuid_hex u) = hex_fixed 32 (uuid_int u).
Proof. intros Hu. unfold uuid_hex. rewrite format_032x_small by exact Hu. apply String.list_ascii_of_string_of_list_ascii. Qed.

Lemma filter_dash_hexdigs s : hexdigs s -> List.filter (fun c => negb (Ascii.eqb "-" c)) s = s.
Proof.
  induction 1 as [|c s Hc _ IH]; [reflexivity|]. cbn [List.filter].
  rewrite Ascii.eqb_sym, (char_not hexdig c "-") by (reflexivity || exact Hc). cbn [negb]. f_equal. exact IH.
Qed.

(** The end of [UUID.__init__(hex=...)] on 32 digits. *)
Lemma uuid_from_digits h n :
  hexdigs h -> length h = 32%nat -> hex_digits_value 0 h = Some n -> 0 <= n < 2 ^ 128 ->
  (if negb (length h =? 32)%nat then Raise ValueError
   else int <-! py_long16 h ;; if negb (in_range int 128) then Raise ValueError else Ok (mkUUID int))
  = Ok (mkUUID n).
Proof.
  intros Hh Hlen Hv Hn. rewrite Hlen. simpl. rewrite py_long16_digits by (lia || exact Hh).
  rewrite Hv. simpl. rewrite (proj2 (in_range_spec n 128 ltac:(lia)) Hn). reflexivity.
Qed.

Lemma reassemble (h : list ascii) :
  take 8 h ++ take 4 (drop 8 h) ++ take 4 (drop 12 h) ++ take 4 (drop 16 h) ++ drop 20 h = h.
Proof.
  replace (drop 20 h) with (drop 4 (drop 4 (drop 4 (drop 8 h)))) by (rewrite !drop_drop; reflexivity).
  replace (drop 16 h) with (drop 4 (drop 4 (drop 8 h))) by (rewrite !drop_drop; reflexivity).
  replace (drop 12 h) with (drop 4 (drop 8 h)) by (rewrite !drop_drop; reflexivity).
  rewrite !take_drop. reflexivity.
Qed.

Lemma filter_dash_cons l :
  List.filter (fun c => negb (Ascii.eqb "-" c)) ("-"%char :: l) = List.filter (fun c => negb (Ascii.eqb "-" c)) l.
Proof. reflexivity. Qed.

Ltac uuid_prefix_steps H P :=
  change (String.list_ascii_of_string "urn:") with ["u";"r";"n";":"]%char;
  change (String.list_ascii_of_string "uuid:") with ["u";"u";"i";"d";":"]%char;
  rewrite (remove_all_absent "u" ["r";"n";":"]%char) by (apply (chars_eqb P); [reflexivity|exact H]);
  rewrite (remove_all_absent "u" ["u";"i";"d";":"]%char) by (apply (chars_eqb P); [reflexivity|exact H]);
  rewrite strip_chars_id by (apply (chars_absent P); [reflexivity|exact H]);
  rewrite remove_all_dash.

(** [UUID(hex=u.hex)] is [u]. *)
Lemma uuid_from_hex_hex u : 0 <= uuid_int u < 2 ^ 128 -> uuid_from_hex (uuid_hex u) = Ok u.
Proof.
  intros Hu. destruct u as [n]. simpl in Hu. unfold uuid_from_hex. rewrite uuid_hex_digits by exact Hu.
  cbn [uuid_int]. pose proof (hex_fixed_hexdig 32 n) as Hh.
  uuid_prefix_steps Hh hexdig. rewrite filter_dash_hexdigs by exact Hh.
  apply uuid_from_digits; [exact Hh|apply hex_fixed_length|apply hex_fixed_value; exact Hu|exact Hu].
Qed.

Lemma hexdigs_uuid_chars s : hexdigs s -> Forall (fun c => uuid_char c = true) s.
Proof. intros Hs. eapply Forall_impl; [exact Hs|]. intros c Hc. unfold uuid_char. rewrite Hc. reflexivity. Qed.

(** [UUID(str(u))] is [u]. *)
Lemma uuid_from_hex_str u : 0 <= uuid_int u < 2 ^ 128 -> uuid_from_hex (uuid_str u) = Ok u.
Proof.
  intros Hu. destruct u as [n]. simpl in Hu. unfold uuid_from_hex, uuid_str.
  rewrite String.list_ascii_of_string_of_list_ascii, uuid_hex_digits by exact Hu.
  cbn [uuid_int]. pose proof (hex_fixed_hexdig 32 n) as Hh. pose proof (hex_fixed_length 32 n) as Hlen.
  set (h := hex_fixed 32 n) in *.
  rewrite !py_slice_nonneg by (rewrite ?Hlen; lia). cbn [Z.to_nat Z.sub Pos.to_nat].
  assert (Hs : Forall (fun c => uuid_char c = true)
    (take 8 h ++ "-"%char :: take 4 (drop 8 h) ++ "-"%char :: take 4 (drop 12 h) ++ "-"%char ::
     take 4 (drop 16 h) ++ "-"%char :: drop 20 h)).
  { pose proof (hexdigs_uuid_chars h Hh) as Hu'.
    clearbody h. clear -Hu'. repeat (apply Forall_app_2 || constructor); auto using Forall_take, Forall_drop. }
  uuid_prefix_steps Hs uuid_char.
  rewrite drop_0. repeat (rewrite List.filter_app || rewrite filter_dash_cons).
  rewrite !filter_dash_hexdigs by (apply Forall_take || apply Forall_drop; (apply Forall_drop || idtac); exact Hh).
  rewrite reassemble.
  apply uuid_from_digits; [exact Hh|apply hex_fixed_length|apply hex_fixed_value; exact Hu|exact Hu].
Qed.

(** ** [uuid1] and [pre_save] *)

Definition uuid1_value (node t clock_seq : Z) : UUID :=
  mkUUID (uuid_pack (Z.land t 0xffffffff) (Z.land (Z.shiftr t 32) 0xffff) (Z.land (Z.shiftr t 48) 0x0fff)
    (Z.land (Z.shiftr clock_seq 8) 0x3f) (Z.land clock_seq 0xff) node 1).

Lemma land_ones_le x k n : 0 <= k <= n -> 0 <= Z.land x (Z.ones k) < 2 ^ n.
Proof.
  intros Hk. pose proof (land_ones_bounded x k ltac:(lia)). pose proof (Z.pow_le_mono_r 2 k n ltac:(lia) ltac:(lia)). lia.
Qed.

Lemma uuid1_run node nanoseconds clock_seq last : 0 <= node < 2 ^ 48 ->
  uuid1 node nanoseconds clock_seq last =
  (Ok (uuid1_value node (uuid1_timestamp nanoseconds last) clock_seq), Some (uuid1_timestamp nanoseconds last)).
Proof.
  intros Hn. unfold uuid1. cbv zeta. f_equal. apply uuid_of_fields_ok; try lia; masks; apply land_ones_le; lia.
Qed.

Lemma uuid1_value_fields node t clock_seq : 0 <= node < 2 ^ 48 ->
  uuid_time (uuid1_value node t clock_seq) = t mod 2 ^ 60 /\
  uuid_clock_seq (uuid1_value node t clock_seq) = clock_seq mod 2 ^ 14 /\
  uuid_node (uuid1_value node t clock_seq) = node /\
  uuid_version (uuid1_value node t clock_seq) = Some 1 /\
  uuid_variant (uuid1_value node t clock_seq) = RFC_4122 /\
  0 <= uuid_int (uuid1_value node t clock_seq) < 2 ^ 128.
Proof.
  intros Hn. unfold uuid1_value.
  assert (B : 0 <= Z.land t 0xffffffff < 2 ^ 32 /\ 0 <= Z.land (Z.shiftr t 32) 0xffff < 2 ^ 16 /\
    0 <= Z.land (Z.shiftr t 48) 0x0fff < 2 ^ 16 /\ 0 <= Z.land (Z.shiftr clock_seq 8) 0x3f < 2 ^ 8 /\
    0 <= Z.land clock_seq 0xff < 2 ^ 8 /\ 0 <= 1 < 2 ^ 4).
  { masks. repeat (split; [apply land_ones_le; lia|]). lia. }
  destruct B as (B1 & B2 & B3 & B4 & B5 & B6).
  destruct (uuid_pack_fields _ _ _ _ _ _ _ B1 B2 B3 B4 B5 Hn B6) as (E1 & E2 & E3 & E4 & E5 & E6).
  split; [|split; [|split; [|split; [|split]]]].
  - unfold uuid_time. rewrite E1, E2, E3. rewrite <- Z.land_ones by lia. masks. bits.
  - unfold uuid_clock_seq. rewrite E4, E5. rewrite <- Z.land_ones by lia. change 0x80 with (Z.shiftl (Z.ones 1) 7). masks. bits.
  - exact E6.
  - apply uuid_pack_version; assumption.
  - apply uuid_pack_variant; assumption.
  - apply uuid_pack_bounded; assumption.
Qed.

(** [pre_save] on a new row: one [uuid1()] draw, formatted as the field
    says. *)
Lemma pre_save_add node f value nanoseconds clock_seq last : 0 <= node < 2 ^ 48 ->
  pre_save node f value true nanoseconds clock_seq last =
  (Ok (let u := uuid1_value node (uuid1_timestamp nanoseconds last) clock_seq in
       if hex f then uuid_hex u else uuid_str u), Some (uuid1_timestamp nanoseconds last)).
Proof. intros Hn. unfold pre_save. erewrite mbind_ok by (apply uuid1_run; exact Hn). reflexivity. Qed.

Lemma uuid_from_hex_value (f : UUIDField) u : 0 <= uuid_int u < 2 ^ 128 ->
  uuid_from_hex (if hex f then uuid_hex u else uuid_str u) = Ok u.
Proof. intros Hu. destruct (hex f); [apply uuid_from_hex_hex|apply uuid_from_hex_str]; exact Hu. Qed.

Lemma uuid1_timestamp_bounds nanoseconds last :
  nanoseconds / 100 + 0x01b21dd213814000 <= uuid1_timestamp nanoseconds last /\
  match last with Some l => l < uuid1_timestamp nanoseconds last | None => True end.
Proof.
  unfold uuid1_timestamp. cbv zeta. destruct last as [l|]; [|split; [lia|exact I]].
  destruct (Z.leb_spec (nanoseconds / 100 + 0x01b21dd213814000) l); lia.
Qed.

(** What a value saved by [pre_save] reads back as. *)
Definition decodes_to (v : string) (t : Z) : Prop :=
  exists u, uuid_from_hex v = Ok u /\ uuid_time u = t mod 2 ^ 60.

Definition above (last : option Z) (t : Z) : Prop :=
  match last with Some l => l < t | None => True end.

Definition reaches (last' : option Z) (t : Z) : Prop :=
  exists t', last' = Some t' /\ t <= t'.

Lemma save_new_rows_spec node f steps last : 0 <= node < 2 ^ 48 ->
  exists vs ts last', save_new_rows node f steps last = (Ok vs, last') /\
    Forall2 decodes_to vs ts /\ StronglySorted Z.lt ts /\ Forall (above last) ts /\
    Forall (reaches last') ts /\
    (match last with Some l => reaches last' l | None => True end) /\
    Forall2 (fun s t => fst s / 100 + 0x01b21dd213814000 <= t) steps ts.
Proof.
  intros Hn. revert last. induction steps as [|[ns cs] steps IH]; intros last.
  - exists [], [], last. split_and!; try constructor. destruct last as [l|]; [exists l; split; [reflexivity|lia]|exact I].
  - set (t := uuid1_timestamp ns last). destruct (uuid1_timestamp_bounds ns last) as [Hlo Hab].
    destruct (IH (Some t)) as (vs & ts & last' & Hrun & Hdec & Hsort & Habove & Hreach & Hlast & Hsteps).
    destruct Hlast as (t' & Ht' & Htt').
    exists ((let u := uuid1_value node t cs in if hex f then uuid_hex u else uuid_str u) :: vs), (t :: ts), last'.
    split_and!.
    + cbn [save_new_rows]. erewrite mbind_ok by (apply pre_save_add; exact Hn). fold t. cbv beta.
      erewrite mbind_ok by exact Hrun. reflexivity.
    + constructor; [|exact Hdec]. exists (uuid1_value node t cs).
      destruct (uuid1_value_fields node t cs Hn) as (Htime & _ & _ & _ & _ & Hb).
      split; [cbv zeta; apply uuid_from_hex_value; exact Hb|exact Htime].
    + constructor; [exact Hsort|]. eapply Forall_impl; [exact Habove|]. intros x Hx. exact Hx.
    + constructor; [exact Hab|]. eapply Forall_impl; [exact Habove|]. intros x Hx.
      destruct last as [l|]; [change (l < t) in Hab; change (t < x) in Hx; simpl; lia|exact I].
    + constructor; [exists t'; split; [exact Ht'|exact Htt']|exact Hreach].
    + destruct last as [l|]; [exists t'; split; [exact Ht'|change (l < t) in Hab; lia]|exact I].
    + constructor; [exact Hlo|exact Hsteps].
Qed.

Lemma decodes_to_inj v t t' :
  decodes_to v t -> decodes_to v t' -> 0 <= t < 2 ^ 60 -> 0 <= t' < 2 ^ 60 -> t = t'.
Proof.
  intros (u & Hu & Ht) (u' & Hu' & Ht') Hb Hb'. rewrite Hu in Hu'. injection Hu' as <-.
  rewrite Z.mod_small in Ht, Ht' by assumption. congruence.
Qed.

(** Values that read back as strictly increasing timestamps below [2^60]
    are pairwise distinct. *)
Lemma nodup_of_stamps vs ts :
  Forall2 decodes_to vs ts -> StronglySorted Z.lt ts -> Forall (fun t => 0 <= t < 2 ^ 60) ts -> NoDup vs.
Proof.
  induction 1 as [|v t vs ts Hvt Hrest IH]; intros Hsort Hb; [constructor|].
  inversion Hsort as [|? ? Hsort' Hlt]; subst. inversion Hb as [|? ? Htb Hb']; subst.
  constructor; [|auto]. intros Hin. apply list_elem_of_lookup_1 in Hin as (i & Hi).
  destruct (Forall2_lookup_l _ _ _ _ _ Hrest Hi) as (t' & Hti & Hvt').
  assert (Ht' : 0 <= t' < 2 ^ 60) by (eapply (Forall_lookup_1 (fun t => 0 <= t < 2 ^ 60)); eassumption).
  assert (t < t').
  { eapply List.Forall_forall in Hlt; [exact Hlt|]. apply list_elem_of_In. eapply list_elem_of_lookup_2. exact Hti. }
  pose proof (decodes_to_inj v t t' Hvt Hvt' Htb Ht'). lia.
Qed.

Lemma string_length_of_list l : String.length (String.string_of_list_ascii l) = length l.
Proof. induction l as [|c l IH]; simpl; [reflexivity|]. rewrite IH. reflexivity. Qed.

Lemma uuid_value_length (f : UUIDField) u : 0 <= uuid_int u < 2 ^ 128 ->
  Z.of_nat (String.length (if hex f then uuid_hex u else uuid_str u)) = if hex f then 32 else 36.
Proof.
  intros Hu. assert (Hl : length (String.list_ascii_of_string (uuid_hex u)) = 32%nat)
    by (rewrite uuid_hex_digits by exact Hu; apply hex_fixed_length).
  destruct (hex f).
  - rewrite <- (String.string_of_list_ascii_of_string (uuid_hex u)), string_length_of_list, Hl. reflexivity.
  - unfold uuid_str. rewrite !py_slice_nonneg by (rewrite ?Hl; lia). rewrite string_length_of_list.
    repeat (rewrite length_app || rewrite length_cons || rewrite length_take || rewrite length_drop).
    rewrite Hl. reflexivity.
Qed.

Lemma insert_value_ok f value :
  insert_value f value = Ok value <-> Z.of_nat (String.length value) <= max_length f.
Proof.
  unfold insert_value. destruct (Z.ltb_spec (max_length f) (Z.of_nat (String.length value))) as [Hlt|Hge];
    split; intros Hv; try discriminate; try reflexivity; lia.
Qed.

(** ** Properties *)

(** [uuid1] never raises: it advances [_last_timestamp] to a value above
    the previous one and at least the clock reading, and returns an RFC
    4122 version-1 UUID that carries that timestamp (its low 60 bits), the
    clock sequence (its low 14 bits) and the node. *)
Lemma uuid1_spec node nanoseconds clock_seq last : 0 <= node < 2 ^ 48 ->
  exists u, uuid1 node nanoseconds clock_seq last = (Ok u, Some (uuid1_timestamp nanoseconds last)) /\
    above last (uuid1_timestamp nanoseconds last) /\
    nanoseconds / 100 + 0x01b21dd213814000 <= uuid1_timestamp nanoseconds last /\
    uuid_time u = uuid1_timestamp nanoseconds last mod 2 ^ 60 /\
    uuid_clock_seq u = clock_seq mod 2 ^ 14 /\ uuid_node u = node /\
    uuid_version u = Some 1 /\ uuid_variant u = RFC_4122.
Proof.
  intros Hn. exists (uuid1_value node (uuid1_timestamp nanoseconds last) clock_seq).
  destruct (uuid1_timestamp_bounds nanoseconds last) as [Hlo Hab].
  destruct (uuid1_value_fields node (uuid1_timestamp nanoseconds last) clock_seq Hn) as (E1 & E2 & E3 & E4 & E5 & _).
  split_and!; try assumption. apply uuid1_run, Hn.
Qed.

(** [UUID(str(u))] and [UUID(u.hex)] give back [u]. *)
Lemma uuid_roundtrip u : 0 <= uuid_int u < 2 ^ 128 ->
  uuid_from_hex (uuid_str u) = Ok u /\ uuid_from_hex (uuid_hex u) = Ok u.
Proof. intros Hu. split; [apply uuid_from_hex_str|apply uuid_from_hex_hex]; exact Hu. Qed.

(** C25: [UUIDField.pre_save] on an existing row returns the instance's
    value and leaves [uuid1]'s state alone; on a new row it never raises,
    advances [_last_timestamp] above its previous value and to at least
    the clock reading, and stores a text that [UUID()] reads back as the
    UUID [uuid1] generated, an RFC 4122 version-1 UUID carrying that
    timestamp (low 60 bits), the clock sequence (low 14 bits) and the
    node. *)
Theorem pre_save_spec node f value nanoseconds clock_seq last : 0 <= node < 2 ^ 48 ->
  pre_save node f value false nanoseconds clock_seq last = (Ok value, last) /\
  exists v u t, pre_save node f value true nanoseconds clock_seq last = (Ok v, Some t) /\
    uuid1 node nanoseconds clock_seq last = (Ok u, Some t) /\ uuid_from_hex v = Ok u /\
    above last t /\ nanoseconds / 100 + 0x01b21dd213814000 <= t /\
    uuid_time u = t mod 2 ^ 60 /\ uuid_clock_seq u = clock_seq mod 2 ^ 14 /\ uuid_node u = node /\
    uuid_version u = Some 1 /\ uuid_variant u = RFC_4122.
Proof.
  intros Hn. split; [reflexivity|].
  destruct (uuid1_spec node nanoseconds clock_seq last Hn) as (u & Hrun & Hab & Hlo & E1 & E2 & E3 & E4 & E5).
  exists (if hex f then uuid_hex u else uuid_str u), u, (uuid1_timestamp nanoseconds last).
  rewrite uuid1_run in Hrun by exact Hn. injection Hrun as <-.
  destruct (uuid1_value_fields node (uuid1_timestamp nanoseconds last) clock_seq Hn) as (_ & _ & _ & _ & _ & Hb).
  split_and!; try assumption.
  - rewrite pre_save_add by exact Hn. reflexivity.
  - apply uuid1_run, Hn.
  - apply uuid_from_hex_value, Hb.
Qed.

Lemma pre_save_spec_witness :
  pre_save 0x0242ac110002 (uuid_field_init None None) "old" false 1400000000000000000 0x1234 (Some 0x1e3c5e1f0000000)
    = (Ok "old"%string, Some 0x1e3c5e1f0000000) /\
  exists v u t, pre_save 0x0242ac110002 (uuid_field_init None None) "old" true 1400000000000000000 0x1234
      (Some 0x1e3c5e1f0000000) = (Ok v, Some t) /\
    uuid1 0x0242ac110002 1400000000000000000 0x1234 (Some 0x1e3c5e1f0000000) = (Ok u, Some t) /\
    uuid_from_hex v = Ok u /\ above (Some 0x1e3c5e1f0000000) t /\ 1400000000000000000 / 100 + 0x01b21dd213814000 <= t /\
    uuid_time u = t mod 2 ^ 60 /\ uuid_clock_seq u = 0x1234 mod 2 ^ 14 /\ uuid_node u = 0x0242ac110002 /\
    uuid_version u = Some 1 /\ uuid_variant u = RFC_4122.
Proof. apply pre_save_spec. lia. Defined.

(** C26: On a new row, [UUIDField.pre_save] stores 36 characters (32 with
    [hex=True]), whatever value the instance held; the INSERT into the
    [varchar(max_length)] column succeeds exactly when that length is at
    most [max_length], so the default of 64 always fits and a field
    declared with [max_length] below 36 and no [hex] fails every INSERT. *)
Theorem pre_save_fits node max_length_kw hex_kw value nanoseconds clock_seq last : 0 <= node < 2 ^ 48 ->
  exists v, fst (pre_save node (uuid_field_init max_length_kw hex_kw) value true nanoseconds clock_seq last) = Ok v /\
    Z.of_nat (String.length v) = (if default false hex_kw then 32 else 36) /\
    (insert_value (uuid_field_init max_length_kw hex_kw) v = Ok v <->
     (if default false hex_kw then 32 else 36) <= default 64 max_length_kw).
Proof.
  intros Hn. rewrite pre_save_add by exact Hn. cbn [fst]. eexists. split; [reflexivity|]. cbv zeta.
  destruct (uuid1_value_fields node (uuid1_timestamp nanoseconds last) clock_seq Hn) as (_ & _ & _ & _ & _ & Hb).
  pose proof (uuid_value_length (uuid_field_init max_length_kw hex_kw) _ Hb) as Hl. cbn [hex uuid_field_init] in Hl.
  split; [exact Hl|]. rewrite insert_value_ok. cbn [hex max_length uuid_field_init]. rewrite Hl. reflexivity.
Qed.

Lemma pre_save_fits_witness :
  exists v, fst (pre_save 0x0242ac110002 (uuid_field_init (Some 32) None) "" true 1400000000000000000 0x1234 None) = Ok v /\
    Z.of_nat (String.length v) = (if default false None then 32 else 36) /\
    (insert_value (uuid_field_init (Some 32) None) v = Ok v <->
     (if default false None then 32 else 36) <= default 64 (Some 32)).
Proof. apply pre_save_fits. lia. Defined.

(** C24: The values [UUIDField.pre_save] stores for rows created one after
    another in a process are pairwise distinct, whatever the clock
    readings (even equal or going backwards) and the random clock
    sequences, as long as the clock is after 1970 and the last timestamp
    is below [2^60] (the year 5236). *)
Theorem save_new_rows_unique node f steps last :
  0 <= node < 2 ^ 48 -> Forall (fun s => 0 <= fst s) steps ->
  exists vs last', save_new_rows node f steps last = (Ok vs, last') /\
    ((match last' with Some t => t < 2 ^ 60 | None => True end) -> NoDup vs).
Proof.
  intros Hn Hclock.
  destruct (save_new_rows_spec node f steps last Hn)
    as (vs & ts & last' & Hrun & Hdec & Hsort & _ & Hreach & _ & Hsteps).
  exists vs, last'. split; [exact Hrun|]. intros Hmax. apply (nodup_of_stamps vs ts Hdec Hsort).
  apply List.Forall_forall. intros t Ht. split.
  - apply list_elem_of_In, list_elem_of_lookup_1 in Ht as (i & Hi).
    destruct (Forall2_lookup_r _ _ _ _ _ Hsteps Hi) as ([ns cs] & Hs & Hle).
    pose proof (Forall_lookup_1 (fun s => 0 <= fst s) _ _ _ Hclock Hs) as Hns. simpl in Hns, Hle.
    pose proof (Z.div_pos ns 100 Hns ltac:(lia)). lia.
  - eapply List.Forall_forall in Hreach; [|exact Ht]. destruct Hreach as (t' & -> & Hle). lia.
Qed.

Lemma save_new_rows_unique_witness :
  exists vs last', save_new_rows 0x0242ac110002 (uuid_field_init None None)
      [(1400000000000000000, 5); (1400000000000000000, 5); (1399999999000000000, 5)] None = (Ok vs, last') /\
    ((match last' with Some t => t < 2 ^ 60 | None => True end) -> NoDup vs).
Proof. apply save_new_rows_unique; [lia|repeat constructor; simpl; lia]. Defined.

(** [str(uuid1())] on 14 May 2014 at 16:53:20 UTC, clock sequence
    [0x1234], node [02:42:ac:11:00:02], as CPython prints it. *)
Example uuid1_str_example :
  match uuid1 0x0242ac110002 1400000000000000000 0x1234 None with
  | (Ok u, _) => uuid_str u
  | _ => ""
  end = "165c4000-dabf-11e3-9234-0242ac110002"%string.
Proof. vm_compute. reflexivity. Qed.

(** A [UUIDField(max_length=32)] without [hex=True] fails its INSERT. *)
Example pre_save_max_length_32 :
  exc_bind (fst (pre_save 0x0242ac110002 (uuid_field_init (Some 32) None) "" true 1400000000000000000 0x1234 None))
    (insert_value (uuid_field_init (Some 32) None)) = Raise DataError.
Proof. vm_compute. reflexivity. Qed.
