(* ===== verification/Admin.v ===== *)
(** * The Django admin of the three apps: [core/admin.py],
    [tagging/admin.py], [mailer/admin.py], over the models' field
    declarations

    The models are data here: each model class of [core/models.py],
    [tagging/models.py] and [mailer/models.py] is a [Model] with its
    declared fields, its base classes and the other names its class
    defines (methods, managers, generic foreign keys); [get_field] finds a
    field through the bases as Django's [Options.get_field] does.  The
    models the apps point to and do not define ([Site], the user model,
    [ContentType], photologue's [ImageModel]) are modelled from Django 1.6
    and photologue with the fields the code reaches.

    A [ModelAdmin] is its [list_display], [list_filter], [search_fields]
    and the methods it defines.  [admin.site.register] is [register] over
    the registry, with the checks of Django 1.6: an abstract model or a
    second registration is refused, and with [DEBUG] the admin class is
    validated ([validate_list_display], [validate_list_filter]).
    [get_search_results] is [ModelAdmin.get_search_results]: one
    [icontains] lookup per search field and per word of the search term,
    each lookup resolved as [Query.build_filter] resolves it. *)
From Stdlib Require Import Ascii.
From S2P Require Import Prelude.

(** ** Fields and models *)

(** The field classes the models declare, with the options that shape
    their column: the [max_length] of a [CharField] or [SlugField]
    ([SlugField] defaults to 50).  [RedactorTextField] is a [TextField];
    the parent link of multi-table inheritance is a [OneToOneField]. *)
Inductive FieldKind :=
| AutoField
| CharField (max_length : Z)
| TextField
| SlugField (max_length : Z)
| PositiveIntegerField
| PositiveSmallIntegerField
| DateTimeField
| ImageField
| BooleanField
| ForeignKey (to : string)
| OneToOneField (to : string)
| ManyToManyField (to : string).

(** A declared field: its name, class and [null] option. *)
Record Field := mkFieldN { fname : string; fkind : FieldKind; fnull : bool }.

(** [name = Kind(...)] without [null=True], and with it. *)
Definition mkField (n : string) (k : FieldKind) : Field := mkFieldN n k false.
Definition nullField (n : string) (k : FieldKind) : Field := mkFieldN n k true.

Record Model := mkModel {
  model_name : string;
  abstract : bool;
  bases : list string;
  local_fields : list Field;
  class_attrs : list string
}.

Definition related_model (k : FieldKind) : option string :=
  match k with
  | ForeignKey t | OneToOneField t | ManyToManyField t => Some t
  | _ => None
  end.

(** A field whose class attribute is a descriptor: [hasattr(model, name)]
    holds for it. *)
Definition has_descriptor (k : FieldKind) : bool :=
  match k with
  | ForeignKey _ | OneToOneField _ | ManyToManyField _ | ImageField => true
  | _ => false
  end.

Definition is_m2m (k : FieldKind) : bool :=
  match k with ManyToManyField _ => true | _ => false end.

Definition id_field : Field := mkField "id" AutoField.

(** *** The models the apps use but do not define *)

Definition Site_meta : Model :=
  mkModel "Site" false [] [id_field; mkField "domain" (CharField 100); mkField "name" (CharField 50)]
    ["objects"].

Definition User_meta : Model :=
  mkModel "User" false []
    [id_field; mkField "password" (CharField 128); mkField "last_login" DateTimeField;
     mkField "is_superuser" BooleanField; mkField "groups" (ManyToManyField "Group");
     mkField "user_permissions" (ManyToManyField "Permission"); mkField "username" (CharField 30);
     mkField "first_name" (CharField 30); mkField "last_name" (CharField 30);
     mkField "email" (CharField 75); mkField "is_staff" BooleanField; mkField "is_active" BooleanField;
     mkField "date_joined" DateTimeField]
    ["objects"].

Definition ContentType_meta : Model :=
  mkModel "ContentType" false []
    [id_field; mkField "name" (CharField 100); mkField "app_label" (CharField 100);
     mkField "model" (CharField 100)] ["objects"].

(** photologue's abstract [ImageModel], with the fields the frozen models
    of [core/migrations/0002_...py] record for it. *)
Definition PhotologueImageModel_meta : Model :=
  mkModel "PhotologueImageModel" true []
    [mkField "image" ImageField; nullField "date_taken" DateTimeField;
     mkField "view_count" PositiveIntegerField; mkField "crop_from" (CharField 10);
     nullField "effect" (ForeignKey "PhotoEffect")] ["save"].

(** *** [core/models.py] *)

Definition StateModel_meta : Model :=
  mkModel "StateModel" true []
    [mkField "state" PositiveSmallIntegerField; nullField "publish_at" DateTimeField;
     nullField "retract_at" DateTimeField]
    ["objects"; "mark_deleted"; "save"].

Definition SlugModel_meta : Model :=
  mkModel "SlugModel" true [] [mkField "title" (CharField 255); mkField "slug" (SlugField 255)] ["save"].

Definition AuditModel_meta : Model :=
  mkModel "AuditModel" true []
    [mkField "created_at" DateTimeField; nullField "created_by" (ForeignKey "User");
     mkField "modified_at" DateTimeField; nullField "modified_by" (ForeignKey "User")] [].

Definition ImageModel_meta : Model :=
  mkModel "ImageModel" true ["PhotologueImageModel"] [nullField "image_name" (CharField 512)]
    ["default_image_category"; "save"].

Definition SEOModel_meta : Model :=
  mkModel "SEOModel" true []
    [nullField "meta_description" TextField; nullField "meta_keywords" TextField] [].

Definition BaseContentModel_meta : Model :=
  mkModel "BaseContentModel" true ["ImageModel"; "StateModel"; "SlugModel"; "AuditModel"; "SEOModel"]
    [nullField "plain_content" TextField; nullField "rich_content" TextField;
     mkField "order" PositiveIntegerField; nullField "sites" (ManyToManyField "Site")]
    ["default_image_category"; "objects"].

Definition ContentModel_meta : Model :=
  mkModel "ContentModel" false ["BaseContentModel"]
    [id_field; nullField "leaf_content_type" (ForeignKey "ContentType")] ["as_leaf_class"; "save"].

Definition ContentBlockSet_meta : Model :=
  mkModel "ContentBlockSet" false ["ContentModel"]
    [mkField "contentmodel_ptr" (OneToOneField "ContentModel")] [].

Definition ContentBlock_meta : Model :=
  mkModel "ContentBlock" false ["ContentModel"]
    [mkField "contentmodel_ptr" (OneToOneField "ContentModel");
     mkField "alternative_title" (CharField 255);
     nullField "content_block_parent" (ForeignKey "ContentBlockSet")] [].

Definition DefaultImage_meta : Model :=
  mkModel "DefaultImage" false ["PhotologueImageModel"; "StateModel"]
    [id_field; mkField "category" (CharField 16)] ["objects"].

Definition Banner_meta : Model :=
  mkModel "Banner" true ["StateModel"]
    [mkField "title" (CharField 255); nullField "sites" (ManyToManyField "Site");
     mkField "order" PositiveSmallIntegerField] [].

Definition ImageBanner_meta : Model := mkModel "ImageBanner" false ["Banner"; "ImageModel"] [id_field] [].

Definition HTMLBanner_meta : Model :=
  mkModel "HTMLBanner" false ["Banner"]
    [id_field; nullField "plain_content" TextField; nullField "rich_content" TextField] [].

Definition BannerSet_meta : Model :=
  mkModel "BannerSet" true ["StateModel"]
    [mkField "slug" (SlugField 50); nullField "sites" (ManyToManyField "Site");
     mkField "order" PositiveSmallIntegerField] [].

Definition ImageBannerSet_meta : Model :=
  mkModel "ImageBannerSet" false ["BannerSet"] [id_field; mkField "banners" (ManyToManyField "ImageBanner")] [].

Definition HTMLBannerSet_meta : Model :=
  mkModel "HTMLBannerSet" false ["BannerSet"] [id_field; mkField "banners" (ManyToManyField "HTMLBanner")] [].

Definition GalleryImage_meta : Model :=
  mkModel "GalleryImage" false ["ImageModel"; "StateModel"]
    [id_field; mkField "order" PositiveIntegerField; nullField "sites" (ManyToManyField "Site")] ["gallery"].

Definition Gallery_meta : Model :=
  mkModel "Gallery" false ["ContentModel"]
    [mkField "contentmodel_ptr" (OneToOneField "ContentModel");
     nullField "images" (ManyToManyField "GalleryImage")] ["default_image_category"].

Definition VersionSeries_meta : Model :=
  mkModel "VersionSeries" false []
    [id_field; mkField "slug" (SlugField 255); nullField "staged_slug" (SlugField 255)] [].

Definition Version_meta : Model :=
  mkModel "Version" false []
    [id_field; mkField "content_type" (ForeignKey "ContentType"); mkField "object_id" PositiveIntegerField;
     mkField "series" (ForeignKey "VersionSeries"); mkField "number" PositiveIntegerField;
     mkField "state" PositiveSmallIntegerField]
    ["content_object"; "objects"].

(** *** [tagging/models.py] and [mailer/models.py] *)

Definition BaseTagAbstractModel_meta : Model :=
  mkModel "BaseTagAbstractModel" true []
    [mkField "content_type" (ForeignKey "ContentType"); mkField "object_pk" PositiveIntegerField;
     mkField "site" (ForeignKey "Site")]
    ["content_object"; "get_content_object_url"].

Definition Tag_meta : Model :=
  mkModel "Tag" false ["SlugModel"]
    [id_field; nullField "description" TextField; nullField "site" (ForeignKey "Site")] ["objects"].

Definition ContentObjectTag_meta : Model :=
  mkModel "ContentObjectTag" false ["BaseTagAbstractModel"]
    [id_field; mkField "tag" (ForeignKey "Tag")] ["objects"; "save"].

Definition OutboundEmail_meta : Model :=
  mkModel "OutboundEmail" false []
    [id_field; nullField "user" (ForeignKey "User"); mkField "to_addresses" TextField;
     nullField "bcc_addresses" TextField; mkField "subject" (CharField 250); mkField "message" TextField;
     mkField "sent_timestamp" DateTimeField; mkField "site" (ForeignKey "Site")] [].

(** The app registry: every model class by name. *)
Definition models : list Model :=
  [Site_meta; User_meta; ContentType_meta; PhotologueImageModel_meta; StateModel_meta;
   SlugModel_meta; AuditModel_meta; ImageModel_meta; SEOModel_meta; BaseContentModel_meta;
   ContentModel_meta; ContentBlockSet_meta; ContentBlock_meta; DefaultImage_meta; Banner_meta;
   ImageBanner_meta; HTMLBanner_meta; BannerSet_meta; ImageBannerSet_meta; HTMLBannerSet_meta;
   GalleryImage_meta; Gallery_meta; VersionSeries_meta; Version_meta; BaseTagAbstractModel_meta;
   Tag_meta; ContentObjectTag_meta; OutboundEmail_meta].

Definition get_model (name : string) : option Model :=
  find (fun m => String.eqb (model_name m) name) models.

(** The classes a model inherits from, itself first; [fuel] bounds the
    depth of the hierarchy (4 levels here, [ContentBlock] to
    [PhotologueImageModel]). *)
Fixpoint ancestors (fuel : nat) (m : Model) : list Model :=
  match fuel with
  | O => [m]
  | S f => m :: List.concat (map (fun b => match get_model b with
                                            | Some p => ancestors f p
                                            | None => []
                                            end) (bases m))
  end.

Definition hierarchy_depth : nat := 5.

(** [Options.get_field(name)]: the fields of the model and of all its
    parents, abstract or concrete. *)
Definition get_field (m : Model) (name : string) : option Field :=
  find (fun f => String.eqb (fname f) name) (List.concat (map local_fields (ancestors hierarchy_depth m))).

(** [hasattr(model, name)] *)
Definition model_hasattr (m : Model) (name : string) : bool :=
  existsb (fun a => existsb (String.eqb name) (class_attrs a)) (ancestors hierarchy_depth m) ||
  match get_field m name with Some f => has_descriptor (fkind f) | None => false end.

(** ** Admin classes *)

Record ModelAdmin := mkModelAdmin {
  admin_name : string;
  list_display : list string;
  list_filter : list string;
  search_fields : list string;
  admin_attrs : list string
}.

(** [django.contrib.admin.ModelAdmin] itself: [list_display = ('__str__',)]. *)
Definition DefaultModelAdmin : ModelAdmin := mkModelAdmin "ModelAdmin" ["__str__"] [] [] ["__str__"].

(** [SiteListAdminMixin.site_list]: the domains of [model.sites.all()],
    comma separated. *)
Definition site_list (domains : list string) : string :=
  match domains with
  | [] => ""
  | d :: ds => foldl (fun acc x => acc +:+ ", " +:+ x) d ds
  end.

Definition site_list_attrs : list string := ["site_list"; "__str__"].

Definition ContentModelAdmin : ModelAdmin :=
  mkModelAdmin "ContentModelAdmin" ["title"; "state"; "slug"; "created_at"; "publish_at"; "site_list"]
    ["title"; "state"; "created_at"; "publish_at"] ["title"] site_list_attrs.

Definition BannerSetAdmin : ModelAdmin :=
  mkModelAdmin "BannerSetAdmin" ["slug"; "site_list"] [] [] site_list_attrs.

Definition GalleryAdmin : ModelAdmin :=
  mkModelAdmin "GalleryAdmin" ["slug"; "site_list"] [] [] site_list_attrs.

Definition VersionAdmin : ModelAdmin :=
  mkModelAdmin "VersionAdmin" ["content_type"; "object_id"; "series"; "number"; "state"] [] [] ["__str__"].

Definition TagAdmin : ModelAdmin :=
  mkModelAdmin "TagAdmin" ["title"; "description"; "site"] ["title"; "site"] ["title"; "site"] ["__str__"].

Definition OutboundEmailAdmin : ModelAdmin :=
  mkModelAdmin "OutboundEmailAdmin"
    ["user"; "to_addresses"; "bcc_addresses"; "sent_timestamp"; "subject"; "site"]
    ["user"; "to_addresses"; "bcc_addresses"; "sent_timestamp"; "subject"; "site"]
    ["user__email"; "to_addresses"; "bcc_addresses"; "subject"; "site"] ["__str__"].

(** The [admin.site.register(...)] calls of [core/admin.py],
    [tagging/admin.py] and [mailer/admin.py], in order. *)
Definition core_registrations : list (Model * ModelAdmin) :=
  [(ContentModel_meta, ContentModelAdmin); (ContentBlock_meta, ContentModelAdmin);
   (DefaultImage_meta, DefaultModelAdmin); (ImageBanner_meta, DefaultModelAdmin);
   (HTMLBanner_meta, DefaultModelAdmin); (ImageBannerSet_meta, BannerSetAdmin);
   (HTMLBannerSet_meta, BannerSetAdmin); (ContentBlockSet_meta, BannerSetAdmin);
   (GalleryImage_meta, DefaultModelAdmin); (Gallery_meta, GalleryAdmin);
   (VersionSeries_meta, DefaultModelAdmin); (Version_meta, VersionAdmin)].

Definition tagging_registrations : list (Model * ModelAdmin) :=
  [(Tag_meta, TagAdmin); (ContentObjectTag_meta, DefaultModelAdmin)].

Definition mailer_registrations : list (Model * ModelAdmin) :=
  [(OutboundEmail_meta, OutboundEmailAdmin)].

(** All of them, in the order the apps are loaded. *)
Definition registrations : list (Model * ModelAdmin) :=
  core_registrations ++ tagging_registrations ++ mailer_registrations.

(** ** Validation (django/contrib/admin/validation.py, Django 1.6) *)

(** [s.split('__')] *)
Fixpoint split_dunder_acc (s : string) (cur : string) : list string :=
  match s with
  | EmptyString => [cur]
  | String "_" (String "_" r) => cur :: split_dunder_acc r ""
  | String c r => split_dunder_acc r (cur +:+ String c EmptyString)
  end.
Definition split_dunder (s : string) : list string := split_dunder_acc s "".

Fixpoint exc_iter {A} (f : A -> exc unit) (l : list A) : exc unit :=
  match l with
  | [] => Ok tt
  | x :: r => _ <-! f x ;; exc_iter f r
  end.

(** [validate_list_display]: an item that is not an attribute of the
    admin class must be an attribute of the model that is not a
    [ManyToManyField], or a field. *)
Definition check_list_display_item (ma : ModelAdmin) (m : Model) (item : string) : exc unit :=
  if existsb (String.eqb item) (admin_attrs ma) then Ok tt
  else if model_hasattr m item then
    match get_field m item with
    | Some f => if is_m2m (fkind f) then Raise ImproperlyConfigured else Ok tt
    | None => Ok tt
    end
  else match get_field m item with Some _ => Ok tt | None => Raise ImproperlyConfigured end.

(** [get_fields_from_path(model, path)]: every piece a field, every piece
    but the last a relation. *)
Fixpoint fields_from_path (m : Model) (pieces : list string) : exc unit :=
  match pieces with
  | [] => Ok tt
  | p :: rest =>
      match get_field m p with
      | None => Raise FieldError
      | Some f =>
          match rest with
          | [] => Ok tt
          | _ :: _ =>
              match related_model (fkind f) with
              | None => Raise FieldError
              | Some t => match get_model t with Some m' => fields_from_path m' rest | None => Raise FieldError end
              end
          end
      end
  end.

(** [validate_list_filter], for filters given as field paths; the
    [FieldDoesNotExist] and [NotRelationField] become
    [ImproperlyConfigured]. *)
Definition check_list_filter_item (m : Model) (item : string) : exc unit :=
  match fields_from_path m (split_dunder item) with
  | Ok _ => Ok tt
  | Raise _ => Raise ImproperlyConfigured
  end.

Definition validate (ma : ModelAdmin) (m : Model) : exc unit :=
  _ <-! exc_iter (check_list_display_item ma m) (list_display ma) ;;
  exc_iter (check_list_filter_item m) (list_filter ma).

(** [AdminSite.register(model, admin_class)] with [settings.DEBUG] given. *)
Definition register (debug : bool) (registry : list (string * ModelAdmin)) (m : Model) (ma : ModelAdmin)
    : exc (list (string * ModelAdmin)) :=
  if abstract m then Raise ImproperlyConfigured
  else if existsb (fun r => String.eqb (fst r) (model_name m)) registry then Raise AlreadyRegistered
  else
    _ <-! (if debug then validate ma m else Ok tt) ;;
    Ok (registry ++ [(model_name m, ma)]).

Fixpoint register_all (debug : bool) (registry : list (string * ModelAdmin))
    (regs : list (Model * ModelAdmin)) : exc (list (string * ModelAdmin)) :=
  match regs with
  | [] => Ok registry
  | (m, ma) :: rest => registry' <-! register debug registry m ma ;; register_all debug registry' rest
  end.

(** ** Searching the change list *)

(** Django 1.6's [QUERY_TERMS]. *)
Definition QUERY_TERMS : list string :=
  ["exact"; "iexact"; "contains"; "icontains"; "gt"; "gte"; "lt"; "lte"; "in"; "startswith";
   "istartswith"; "endswith"; "iendswith"; "range"; "year"; "month"; "day"; "week_day"; "hour";
   "minute"; "second"; "isnull"; "search"; "regex"; "iregex"].

(** The lookups [ForeignObject.get_lookup_constraint] accepts. *)
Definition RELATED_LOOKUPS : list string := ["exact"; "lt"; "gt"; "lte"; "gte"; "in"; "isnull"].

Definition mem_s (x : string) (l : list string) : bool := existsb (String.eqb x) l.

(** The traversal of [build_filter] that tells a lookup type from a
    field: it bails out at the first piece that is not a field, or that
    follows a field without a relation. *)
Fixpoint lookup_bails (m : Model) (parts : list string) : bool :=
  match parts with
  | [] => false
  | p :: rest =>
      match get_field m p with
      | None => true
      | Some f =>
          match rest with
          | [] => false
          | _ :: _ =>
              match related_model (fkind f) with
              | None => true
              | Some t => match get_model t with Some m' => lookup_bails m' rest | None => true end
              end
          end
      end
  end.

(** [names_to_path]: the field a path ends on; [FieldError] on a name
    that is no field, or on a join through a field without a relation. *)
Fixpoint names_to_path (m : Model) (parts : list string) : exc Field :=
  match parts with
  | [] => Raise FieldError
  | [p] => match get_field m p with Some f => Ok f | None => Raise FieldError end
  | p :: rest =>
      match get_field m p with
      | None => Raise FieldError
      | Some f =>
          match related_model (fkind f) with
          | None => Raise FieldError
          | Some t => match get_model t with Some m' => names_to_path m' rest | None => Raise FieldError end
          end
      end
  end.

(** [Query.build_filter] of one keyword lookup: the lookup type, the
    field it ends on, and the lookups a relation accepts. *)
Definition build_filter (m : Model) (arg : string) : exc unit :=
  let parts := split_dunder arg in
  let '(path, lookup_type) :=
    if (1 <? length parts)%nat && mem_s (default "" (last parts)) QUERY_TERMS && lookup_bails m parts
    then (removelast parts, default "" (last parts))
    else (parts, "exact") in
  f <-! names_to_path m path ;;
  match related_model (fkind f) with
  | Some _ => if mem_s lookup_type RELATED_LOOKUPS then Ok tt else Raise TypeError
  | None => Ok tt
  end.

(** [construct_search] *)
Definition construct_search (field_name : string) : string :=
  match field_name with
  | String "^" r => r +:+ "__istartswith"
  | String "=" r => r +:+ "__iexact"
  | String "@" r => r +:+ "__search"
  | _ => field_name +:+ "__icontains"
  end.

Definition is_py_space (c : ascii) : bool :=
  existsb (Ascii.eqb c) [" "; "009"; "010"; "011"; "012"; "013"]%char.

(** [s.split()]: the maximal runs of non-whitespace characters. *)
Fixpoint py_split_acc (s : string) (cur : string) : list string :=
  match s with
  | EmptyString => if String.eqb cur "" then [] else [cur]
  | String c r =>
      if is_py_space c then (if String.eqb cur "" then py_split_acc r "" else cur :: py_split_acc r "")
      else py_split_acc r (cur +:+ String c EmptyString)
  end.
Definition py_split (s : string) : list string := py_split_acc s "".

(** [lookup_needs_distinct(opts, lookup_path)] *)
Definition lookup_needs_distinct (m : Model) (lookup_path : string) : exc bool :=
  match get_field m (default "" (head (split_dunder lookup_path))) with
  | Some f => Ok (is_m2m (fkind f))
  | None => Raise FieldDoesNotExist
  end.

(** The loop of [get_search_results] over the words of the term: each
    [queryset.filter(Q | Q | ...)] builds the lookups in order. *)
Fixpoint search_filters (m : Model) (orm_lookups : list string) (bits : list string)
    : exc (list (list (string * string))) :=
  match bits with
  | [] => Ok []
  | bit :: rest =>
      _ <-! exc_iter (build_filter m) orm_lookups ;;
      qs <-! search_filters m orm_lookups rest ;;
      Ok (map (fun l => (l, bit)) orm_lookups :: qs)
  end.

(** The loop that sets [use_distinct]. *)
Fixpoint search_distinct (m : Model) (orm_lookups : list string) : exc bool :=
  match orm_lookups with
  | [] => Ok false
  | l :: rest => d <-! lookup_needs_distinct m l ;; if d then Ok true else search_distinct m rest
  end.

(** [ModelAdmin.get_search_results(request, queryset, search_term)]: the
    filters added to the query set, one OR of the lookups per word, and
    [use_distinct]. *)
Definition get_search_results (ma : ModelAdmin) (m : Model) (search_term : string)
    : exc (list (list (string * string)) * bool) :=
  if negb (bool_decide (search_fields ma = [])) && negb (String.eqb search_term "") then
    let orm_lookups := map construct_search (search_fields ma) in
    qs <-! search_filters m orm_lookups (py_split search_term) ;;
    use_distinct <-! search_distinct m orm_lookups ;;
    Ok (qs, use_distinct)
  else Ok ([], false).

(** ** Lemmas *)

Lemma search_filters_ok m ls bits :
  exc_iter (build_filter m) ls = Ok tt -> exists q, search_filters m ls bits = Ok q.
Proof.
  intros Hok. induction bits as [|b bits (q & IH)]; simpl; [eauto|].
  rewrite Hok. simpl. rewrite IH. simpl. eauto.
Qed.

Lemma search_filters_raise m ls bits e :
  exc_iter (build_filter m) ls = Raise e -> bits <> [] -> search_filters m ls bits = Raise e.
Proof. intros He Hb. destruct bits as [|b bits]; [congruence|]. simpl. rewrite He. reflexivity. Qed.

(** What [get_search_results] does, given what building the lookups
    gives: it raises only what building them raises, and only when there
    are search fields and a word to search for. *)
Lemma get_search_results_cases ma m term r d :
  exc_iter (build_filter m) (map construct_search (search_fields ma)) = r ->
  search_distinct m (map construct_search (search_fields ma)) = Ok d ->
  match get_search_results ma m term with
  | Raise e => r = Raise e /\ search_fields ma <> [] /\ py_split term <> []
  | Ok _ => (exists u, r = Ok u) \/ search_fields ma = [] \/ py_split term = []
  end.
Proof.
  intros Hr Hd. unfold get_search_results.
  destruct (bool_decide_reflect (search_fields ma = [])) as [He|Hne]; simpl; [auto|].
  destruct (String.eqb_spec term "") as [->|Hterm]; simpl; [auto|].
  destruct (decide (py_split term = [])) as [Hs|Hs].
  - rewrite Hs. simpl. rewrite Hd. simpl. auto.
  - destruct r as [[]|e].
    + destruct (search_filters_ok m _ (py_split term) Hr) as (q & Hq). rewrite Hq. simpl.
      rewrite Hd. simpl. eauto.
    + rewrite (search_filters_raise m _ _ e Hr Hs). simpl. auto.
Qed.

(** [site_list] reads [model.sites]: a many-to-many relation to [Site]. *)
Definition site_list_ok (p : Model * ModelAdmin) : bool :=
  negb (mem_s "site_list" (list_display p.2)) ||
  match get_field p.1 "sites" with
  | Some f => match fkind f with ManyToManyField t => String.eqb t "Site" | _ => false end
  | None => false
  end.

Lemma site_list_ok_sound m ma :
  site_list_ok (m, ma) = true -> mem_s "site_list" (list_display ma) = true ->
  exists f, get_field m "sites" = Some f /\ fkind f = ManyToManyField "Site".
Proof.
  unfold site_list_ok. cbn [fst snd]. intros H Hm. rewrite Hm in H. simpl in H.
  destruct (get_field m "sites") as [f|]; [|discriminate].
  destruct (fkind f) eqn:Ek; try discriminate. apply String.eqb_eq in H. subst. eauto.
Qed.

(** ** Properties *)

(** Every [admin.site.register] call of the three [admin.py] modules
    succeeds with [DEBUG] on: no model is abstract or registered twice,
    every [list_display] entry is an admin method, a model attribute that
    is not many-to-many, or a field, every [list_filter] entry a field
    path; and every admin that lists [site_list] is registered for a model
    whose [sites] is a many-to-many relation to [Site]. *)
Theorem admin_registrations_valid :
  register_all true [] registrations = Ok (map (fun p => (model_name p.1, p.2)) registrations) /\
  Forall (fun p => mem_s "site_list" (list_display p.2) = true ->
                   exists f, get_field p.1 "sites" = Some f /\ fkind f = ManyToManyField "Site")
    registrations.
Proof.
  split; [vm_compute; reflexivity|].
  assert (Hall : forallb site_list_ok registrations = true) by (vm_compute; reflexivity).
  apply List.Forall_forall. intros [m ma] Hin.
  apply (site_list_ok_sound m ma). apply (proj1 (forallb_forall _ _) Hall _ Hin).
Qed.

Definition bad_search_admins : list string := ["TagAdmin"; "OutboundEmailAdmin"].

(** C27: searching an admin change list raises only for [TagAdmin] and
    [OutboundEmailAdmin], whose [search_fields] hold the foreign key
    [site]: there any search term with a word raises [TypeError]
    ([site__icontains] is no lookup of a relation); every other
    registered admin returns its filters for every term. *)
Theorem admin_search_errors m ma term :
  In (m, ma) registrations ->
  match get_search_results ma m term with
  | Raise e => e = TypeError /\ mem_s (admin_name ma) bad_search_admins = true /\ py_split term <> []
  | Ok _ => mem_s (admin_name ma) bad_search_admins = false \/ py_split term = []
  end.
Proof.
  intros Hin. simpl in Hin.
  repeat destruct Hin as [Hin|Hin]; try contradiction; injection Hin as <- <-;
  (match goal with
   | |- match get_search_results ?A ?M _ with _ => _ end =>
       pose proof (get_search_results_cases A M term _ _ eq_refl ltac:(vm_compute; reflexivity)) as Hc;
       destruct (get_search_results A M term)
   end;
   [ destruct Hc as [(u & Hu)|[Hs|Hs]]; [vm_compute in Hu| |]; try discriminate; auto
   | destruct Hc as (Hr & _ & Hs); vm_compute in Hr; first [discriminate Hr | injection Hr as <-; auto] ]).
Qed.

Lemma admin_search_errors_witness :
  In (Tag_meta, TagAdmin) registrations /\
  match get_search_results TagAdmin Tag_meta "django tips" with
  | Raise e => e = TypeError /\ mem_s (admin_name TagAdmin) bad_search_admins = true /\ py_split "django tips" <> []
  | Ok _ => mem_s (admin_name TagAdmin) bad_search_admins = false \/ py_split "django tips" = []
  end.
Proof.
  assert (Hin : In (Tag_meta, TagAdmin) registrations) by (simpl; tauto).
  split; [exact Hin|]. exact (admin_search_errors Tag_meta TagAdmin "django tips" Hin).
Defined.

(** A search on the content admin: one [title__icontains] per word. *)
Example content_admin_search :
  get_search_results ContentModelAdmin ContentModel_meta " django  tips "
  = Ok ([[("title__icontains", "django")]; [("title__icontains", "tips")]], false).
Proof. vm_compute. reflexivity. Qed.

(** With [DEBUG], a [list_display] naming the many-to-many [sites] is
    refused when the model is registered. *)
Example register_m2m_list_display :
  register true [] ContentModel_meta
    (mkModelAdmin "ContentModelAdmin" ["title"; "sites"] [] [] ["__str__"]) = Raise ImproperlyConfigured.
Proof. vm_compute. reflexivity. Qed.

Example site_list_example : site_list ["example.com"; "m.example.com"] = "example.com, m.example.com".
Proof. reflexivity. Qed.
