(* ===== verification/Migrations.v ===== *)
(** * The South schema migrations of [tagging/migrations/] and
    [core/migrations/], and the schema the models declare

    A migration is a [forwards] and a [backwards] over the database, each a
    sequence of calls of South's [db] API ([south/db/generic.py] with the
    PostgreSQL backend): [create_table], [delete_table], [add_column],
    [delete_column], [alter_column], [create_unique], [delete_unique].
    The database is a [Schema]: its tables, each with its columns, its
    UNIQUE constraints and its rows, and each call is a handler of the
    state monad of the prelude, raising what PostgreSQL or South raises.
    South runs a migration in one transaction ([transaction]): a migration
    that raises leaves the database as it found it.

    The fields a migration passes ([self.gf(path)(...)]) and the
    frozen models it records ([models = {...}], South's [orm]) are data:
    a [SouthField] is the class path and the keyword arguments, as South
    evaluates them.  [field_column] turns one into its column as Django
    1.6 writes it for PostgreSQL; [frozen_tables] gives the tables of a
    frozen app and [declared_tables] the tables the models of [Admin]
    declare, so that the two can be compared by [schema_diff]. *)
From Stdlib Require Import Ascii.
From stdpp Require Import sorting.
From S2P Require Import Prelude Slug Store Images Admin.

(** ** Fields as South records them *)

(** A keyword argument, evaluated: [orm['app.Model']] is [KOrm]; a
    Python expression the schema does not depend on (a float, a
    callable) is kept as its text. *)
Inductive Kw :=
| KBool (b : bool)
| KInt (z : Z)
| KStr (s : string)
| KOrm (label : string)
| KList (l : list string)
| KTuples (l : list (list string))
| KRaw (expr : string).

(** [self.gf(path)(...)], and the triple [(path, [], {kwargs})] of a
    frozen model. *)
Record SouthField := gf { sf_class : string; sf_kwargs : list (string * Kw) }.

(** One entry of a migration's [models] dict: its key ["app.model"], its
    [Meta] and its fields. *)
Record FrozenModel := frozen {
  fm_key : string;
  fm_meta : list (string * Kw);
  fm_fields : list (string * SouthField)
}.

Definition kw_lookup (k : string) (kws : list (string * Kw)) : option Kw :=
  snd <$> find (fun p => String.eqb p.1 k) kws.

Definition kw_true (k : string) (kws : list (string * Kw)) : bool :=
  match kw_lookup k kws with Some (KBool true) => true | _ => false end.

Definition dj (cls : string) : string := "django.db.models.fields." +:+ cls.

(** ** Columns and tables *)

(** The column types of Django 1.6's PostgreSQL backend
    ([DatabaseCreation.data_types]); a foreign key is an [integer] that
    [REFERENCES] its table. *)
Inductive ColType :=
| CSerial
| CVarchar (n : Z)
| CText
| CPosInt
| CPosSmallInt
| CTimestamp
| CBool
| CDouble
| CRef (table : string)
| COther (cls : string).

Record Column := mkColumn { cname : string; ctype : ColType; cnull : bool }.

Inductive Value := VNull | VInt (z : Z) | VStr (s : string) | VBool (b : bool).

Definition SqlRow := list (string * Value).

Record Table := mkTable {
  tname : string;
  tcols : list Column;
  tuniques : list (list string);
  trows : list SqlRow
}.

Definition Schema := list Table.

#[global] Instance ColType_eq_dec : EqDecision ColType.
Proof. solve_decision. Defined.
#[global] Instance Column_eq_dec : EqDecision Column.
Proof. solve_decision. Defined.
#[global] Instance Value_eq_dec : EqDecision Value.
Proof. solve_decision. Defined.
#[global] Instance Table_eq_dec : EqDecision Table.
Proof. solve_decision. Defined.

(** [str.lower] and the default table name ["app.model"] to
    [app_model]. *)
Definition str_lower (s : string) : string :=
  String.string_of_list_ascii (map lower (String.list_ascii_of_string s)).
Definition dotted_table (key : string) : string :=
  String.string_of_list_ascii
    (map (fun c => if Ascii.eqb c "."%char then "_"%char else c) (String.list_ascii_of_string key)).

(** [Meta.db_table], or Django's default. *)
Definition frozen_db_table (fm : FrozenModel) : string :=
  match kw_lookup "db_table" (fm_meta fm) with
  | Some (KStr t) => t
  | _ => dotted_table (fm_key fm)
  end.

(** [orm['app.Model']]: the frozen model, looked up without case; a model
    the migration did not freeze is a [KeyError]. *)
Definition orm_table (fms : list FrozenModel) (label : string) : exc string :=
  match find (fun fm => String.eqb (fm_key fm) (str_lower label)) fms with
  | Some fm => Ok (frozen_db_table fm)
  | None => Raise KeyError
  end.

Definition is_fk_class (cls : string) : bool :=
  String.eqb cls (dj "related.ForeignKey") || String.eqb cls (dj "related.OneToOneField").

(** [field.db_type()]: the column type of a field class that is not a
    relation.  [ImageField], [EmailField], [URLField] and [CountryField]
    are [CharField]s of their own default length. *)
Definition class_type (cls : string) (kws : list (string * Kw)) : ColType :=
  let ml d := match kw_lookup "max_length" kws with Some (KInt n) => n | _ => d end in
  if String.eqb cls (dj "AutoField") then CSerial
  else if String.eqb cls (dj "CharField") then
    match kw_lookup "max_length" kws with Some (KInt n) => CVarchar n | _ => COther cls end
  else if String.eqb cls (dj "SlugField") then CVarchar (ml 50%Z)
  else if String.eqb cls (dj "files.ImageField") then CVarchar (ml 100%Z)
  else if String.eqb cls (dj "EmailField") then CVarchar (ml 75%Z)
  else if String.eqb cls (dj "URLField") then CVarchar (ml 200%Z)
  else if String.eqb cls "django_countries.fields.CountryField" then CVarchar (ml 2%Z)
  else if String.eqb cls (dj "TextField") || String.eqb cls "ckeditor.fields.RichTextField" then CText
  else if String.eqb cls (dj "PositiveIntegerField") then CPosInt
  else if String.eqb cls (dj "PositiveSmallIntegerField") then CPosSmallInt
  else if String.eqb cls (dj "DateTimeField") then CTimestamp
  else if String.eqb cls (dj "BooleanField") then CBool
  else if String.eqb cls (dj "FloatField") then CDouble
  else COther cls.

(** [column_sql(table, name, field)]: the column of a field, [None] for a
    [ManyToManyField] (its table is made apart); a relation's column is
    its [attname], [name_id]. *)
Definition field_column (fms : list FrozenModel) (nf : string * SouthField) : exc (option Column) :=
  let '(name, f) := nf in
  let null := kw_true "null" (sf_kwargs f) in
  if String.eqb (sf_class f) (dj "related.ManyToManyField") then Ok None
  else if is_fk_class (sf_class f) then
    match kw_lookup "to" (sf_kwargs f) with
    | Some (KOrm label) => t <-! orm_table fms label ;; Ok (Some (mkColumn (name +:+ "_id") (CRef t) null))
    | _ => Raise TypeError
    end
  else Ok (Some (mkColumn name (class_type (sf_class f) (sf_kwargs f)) null)).

Fixpoint exc_omap {A B} (f : A -> exc (option B)) (l : list A) : exc (list B) :=
  match l with
  | [] => Ok []
  | x :: r => o <-! f x ;; rest <-! exc_omap f r ;;
              Ok (match o with Some y => y :: rest | None => rest end)
  end.

(** ** The [db] API *)

Definition table_named (n : string) (t : Table) : bool := String.eqb (tname t) n.

Definition find_table (n : string) (s : Schema) : option Table := find (table_named n) s.

Definition has_column (c : string) (t : Table) : bool := existsb (fun k => String.eqb (cname k) c) (tcols t).

(** The value an existing row takes in a new column: the field's
    [default], or NULL when the column is nullable. *)
Definition kw_value (k : Kw) : option Value :=
  match k with
  | KBool b => Some (VBool b)
  | KInt z => Some (VInt z)
  | KStr s => Some (VStr s)
  | _ => None
  end.

Definition fill_value (f : SouthField) : option Value :=
  match kw_lookup "default" (sf_kwargs f) with
  | Some k => kw_value k
  | None => if kw_true "null" (sf_kwargs f) then Some VNull else None
  end.

(** A value PostgreSQL accepts in a column: a [varchar(n)] holds at most
    [n] characters, a NOT NULL column no NULL. *)
Definition value_fits (c : Column) (v : Value) : bool :=
  match v, ctype c with
  | VNull, _ => cnull c
  | VStr s, CVarchar n => (Z.of_nat (String.length s) <=? n)%Z
  | _, _ => true
  end.

Definition row_value (c : string) (r : SqlRow) : Value :=
  match find (fun p => String.eqb p.1 c) r with Some (_, v) => v | None => VNull end.

(** [db.create_table(name, fields)]: [CREATE TABLE], refused when the
    table exists. *)
Definition create_table (fms : list FrozenModel) (name : string) (fields : list (string * SouthField))
    : M Schema unit :=
  fun s =>
    if existsb (table_named name) s then (Raise ProgrammingError, s)
    else match exc_omap (field_column fms) fields with
         | Ok cols => (Ok tt, s ++ [mkTable name cols [] []])
         | Raise e => (Raise e, s)
         end.

(** [db.delete_table(name)]: [DROP TABLE ... CASCADE]. *)
Definition delete_table (name : string) : M Schema unit :=
  fun s =>
    if existsb (table_named name) s then (Ok tt, List.filter (fun t => negb (table_named name t)) s)
    else (Raise ProgrammingError, s).

(** [db.add_column(table, name, field, keep_default)]: [ALTER TABLE ...
    ADD COLUMN] with the field's default, which fills the existing rows
    (and which [keep_default=False] drops afterwards). *)
Definition add_column (fms : list FrozenModel) (table name : string) (f : SouthField)
    (keep_default : bool) : M Schema unit :=
  fun s =>
    match find_table table s with
    | None => (Raise ProgrammingError, s)
    | Some t =>
        match field_column fms (name, f) with
        | Raise e => (Raise e, s)
        | Ok None => (Ok tt, s)
        | Ok (Some c) =>
            if has_column (cname c) t then (Raise ProgrammingError, s)
            else match fill_value f, trows t with
                 | None, _ :: _ => (Raise IntegrityError, s)
                 | v, _ =>
                     let v := default VNull v in
                     (Ok tt, update_where (table_named table)
                               (fun t => mkTable (tname t) (tcols t ++ [c]) (tuniques t)
                                                 (map (fun r => r ++ [(cname c, v)]) (trows t))) s)
                 end
        end
    end.

(** [db.delete_column(table, column)]: [ALTER TABLE ... DROP COLUMN
    ... CASCADE]; the UNIQUE constraints over the column go with it. *)
Definition delete_column (table col : string) : M Schema unit :=
  fun s =>
    match find_table table s with
    | Some t =>
        if has_column col t then
          (Ok tt, update_where (table_named table)
                    (fun t => mkTable (tname t)
                                (List.filter (fun c => negb (String.eqb (cname c) col)) (tcols t))
                                (List.filter (fun u => negb (existsb (String.eqb col) u)) (tuniques t))
                                (map (List.filter (fun p => negb (String.eqb p.1 col))) (trows t))) s)
        else (Raise ProgrammingError, s)
    | None => (Raise ProgrammingError, s)
    end.

(** The column [name] replaced by [c]. *)
Definition replace_column (name : string) (c : Column) (k : Column) : Column :=
  if String.eqb (cname k) name then c else k.

(** The rows an [alter_column] to [c] refuses: a string too long for
    PostgreSQL, which raises [DataError], and a NULL in a NOT NULL column,
    which raises [IntegrityError]. *)
Definition too_long (c : Column) (rows : list SqlRow) : bool :=
  existsb (fun r => match row_value (cname c) r with
                    | VStr _ as v => negb (value_fits c v) | _ => false end) rows.
Definition null_clash (c : Column) (rows : list SqlRow) : bool :=
  existsb (fun r => negb (value_fits c (row_value (cname c) r))) rows.

(** [db.alter_column(table, name, field)]: [ALTER COLUMN ... TYPE], [SET
    NOT NULL] or [DROP NOT NULL], checked against the rows. *)
Definition alter_column (fms : list FrozenModel) (table name : string) (f : SouthField) : M Schema unit :=
  fun s =>
    match find_table table s with
    | None => (Raise ProgrammingError, s)
    | Some t =>
        match field_column fms (name, f) with
        | Raise e => (Raise e, s)
        | Ok None => (Ok tt, s)
        | Ok (Some c0) =>
            let c := mkColumn name (ctype c0) (cnull c0) in
            if negb (has_column name t) then (Raise ProgrammingError, s)
            else if too_long c (trows t) then (Raise DataError, s)
            else if null_clash c (trows t) then (Raise IntegrityError, s)
            else (Ok tt, update_where (table_named table)
                           (fun t => mkTable (tname t)
                                       (map (replace_column name c) (tcols t))
                                       (tuniques t) (trows t)) s)
        end
    end.

Definition unique_key (cols : list string) (r : SqlRow) : option (list Value) :=
  let vs := map (fun c => row_value c r) cols in
  if existsb (fun v => bool_decide (v = VNull)) vs then None else Some vs.

(** [db.create_unique(table, columns)]: [ADD CONSTRAINT ... UNIQUE];
    PostgreSQL refuses it when two rows already agree on the columns
    (rows with a NULL among them never clash). *)
Definition create_unique (table : string) (cols : list string) : M Schema unit :=
  fun s =>
    match find_table table s with
    | None => (Raise ProgrammingError, s)
    | Some t =>
        if bool_decide (NoDup (omap (unique_key cols) (trows t))) then
          (Ok tt, update_where (table_named table)
                    (fun t => mkTable (tname t) (tcols t) (tuniques t ++ [cols]) (trows t)) s)
        else (Raise IntegrityError, s)
    end.

(** [db.delete_unique(table, columns)]: South finds the constraint over
    that set of columns and raises [ValueError] when there is none. *)
Definition delete_unique (table : string) (cols : list string) : M Schema unit :=
  fun s =>
    match find_table table s with
    | None => (Raise ProgrammingError, s)
    | Some t =>
        if existsb (fun u => bool_decide (u ≡ₚ cols)) (tuniques t) then
          (Ok tt, update_where (table_named table)
                    (fun t => mkTable (tname t) (tcols t)
                                (List.filter (fun u => negb (bool_decide (u ≡ₚ cols))) (tuniques t))
                                (trows t)) s)
        else (Raise ValueError, s)
    end.

(** [db.send_create_signal(app, models)]: a signal, no change to the
    schema. *)
Definition send_create_signal (app : string) (ms : list string) : M Schema unit := mret tt.

(** South runs each migration in a transaction: when it raises, the
    database is rolled back. *)
Definition transaction {A} (m : M Schema A) : M Schema A :=
  fun s => match m s with
           | (Raise e, _) => (Raise e, s)
           | r => r
           end.

(** ** [tagging/migrations/0001_initial.py] *)

(** The frozen models of the migration, South's [orm] while it runs. *)
Definition tagging_0001_models : list FrozenModel :=
  [
   frozen "contenttypes.contenttype"
     [("ordering", KList ["name"]); ("unique_together", KTuples [["app_label"; "model"]]); ("object_name", KStr "ContentType"); ("db_table", KStr "django_content_type")]
     [("app_label", gf "django.db.models.fields.CharField" [("max_length", KInt 100)]);
      ("id", gf "django.db.models.fields.AutoField" [("primary_key", KBool true)]);
      ("model", gf "django.db.models.fields.CharField" [("max_length", KInt 100)]);
      ("name", gf "django.db.models.fields.CharField" [("max_length", KInt 100)])];
   frozen "sites.site"
     [("ordering", KList ["domain"]); ("object_name", KStr "Site"); ("db_table", KStr "django_site")]
     [("domain", gf "django.db.models.fields.CharField" [("max_length", KInt 100)]);
      ("id", gf "django.db.models.fields.AutoField" [("primary_key", KBool true)]);
      ("name", gf "django.db.models.fields.CharField" [("max_length", KInt 50)])];
   frozen "tagging.contentobjecttag"
     [("object_name", KStr "ContentObjectTag")]
     [("content_type", gf "django.db.models.fields.related.ForeignKey" [("related_name", KStr "content_type_set_for_contentobjecttag"); ("to", KOrm "contenttypes.ContentType")]);
      ("id", gf "django.db.models.fields.AutoField" [("primary_key", KBool true)]);
      ("object_pk", gf "django.db.models.fields.PositiveIntegerField" []);
      ("site", gf "django.db.models.fields.related.ForeignKey" [("to", KOrm "sites.Site")]);
      ("tag", gf "django.db.models.fields.related.ForeignKey" [("related_name", KStr "content_object_tags"); ("to", KOrm "tagging.Tag")])];
   frozen "tagging.tag"
     [("unique_together", KTuples [["title"; "site"]]); ("object_name", KStr "Tag")]
     [("description", gf "django.db.models.fields.TextField" [("null", KBool true); ("blank", KBool true)]);
      ("id", gf "django.db.models.fields.AutoField" [("primary_key", KBool true)]);
      ("site", gf "django.db.models.fields.related.ForeignKey" [("to", KOrm "sites.Site"); ("null", KBool true); ("blank", KBool true)]);
      ("title", gf "django.db.models.fields.CharField" [("max_length", KInt 32); ("db_index", KBool true)])]
  ].

Definition tagging_0001_forwards : M Schema unit :=
  create_table tagging_0001_models "tagging_tag"
    [("id", gf (dj "AutoField") [("primary_key", KBool true)]);
     ("title", gf (dj "CharField") [("max_length", KInt 32); ("db_index", KBool true)]);
     ("description", gf (dj "TextField") [("null", KBool true); ("blank", KBool true)]);
     ("site", gf (dj "related.ForeignKey")
                [("to", KOrm "sites.Site"); ("null", KBool true); ("blank", KBool true)])] ;;
  send_create_signal "tagging" ["Tag"] ;;
  create_unique "tagging_tag" ["title"; "site_id"] ;;
  create_table tagging_0001_models "tagging_contentobjecttag"
    [("id", gf (dj "AutoField") [("primary_key", KBool true)]);
     ("content_type", gf (dj "related.ForeignKey")
                        [("related_name", KStr "content_type_set_for_contentobjecttag");
                         ("to", KOrm "contenttypes.ContentType")]);
     ("object_pk", gf (dj "PositiveIntegerField") []);
     ("site", gf (dj "related.ForeignKey") [("to", KOrm "sites.Site")]);
     ("tag", gf (dj "related.ForeignKey")
               [("related_name", KStr "content_object_tags"); ("to", KOrm "tagging.Tag")])] ;;
  send_create_signal "tagging" ["ContentObjectTag"].

Definition tagging_0001_backwards : M Schema unit :=
  delete_unique "tagging_tag" ["title"; "site_id"] ;;
  delete_table "tagging_tag" ;;
  delete_table "tagging_contentobjecttag".

(** ** [tagging/migrations/0002_auto__add_field_tag_slug__chg_field_tag_title.py] *)

Definition tagging_0002_models : list FrozenModel :=
  [
   frozen "contenttypes.contenttype"
     [("ordering", KList ["name"]); ("unique_together", KTuples [["app_label"; "model"]]); ("object_name", KStr "ContentType"); ("db_table", KStr "django_content_type")]
     [("app_label", gf "django.db.models.fields.CharField" [("max_length", KInt 100)]);
      ("id", gf "django.db.models.fields.AutoField" [("primary_key", KBool true)]);
      ("model", gf "django.db.models.fields.CharField" [("max_length", KInt 100)]);
      ("name", gf "django.db.models.fields.CharField" [("max_length", KInt 100)])];
   frozen "sites.site"
     [("ordering", KList ["domain"]); ("object_name", KStr "Site"); ("db_table", KStr "django_site")]
     [("domain", gf "django.db.models.fields.CharField" [("max_length", KInt 100)]);
      ("id", gf "django.db.models.fields.AutoField" [("primary_key", KBool true)]);
      ("name", gf "django.db.models.fields.CharField" [("max_length", KInt 50)])];
   frozen "tagging.contentobjecttag"
     [("object_name", KStr "ContentObjectTag")]
     [("content_type", gf "django.db.models.fields.related.ForeignKey" [("related_name", KStr "content_type_set_for_contentobjecttag"); ("to", KOrm "contenttypes.ContentType")]);
      ("id", gf "django.db.models.fields.AutoField" [("primary_key", KBool true)]);
      ("object_pk", gf "django.db.models.fields.PositiveIntegerField" []);
      ("site", gf "django.db.models.fields.related.ForeignKey" [("to", KOrm "sites.Site")]);
      ("tag", gf "django.db.models.fields.related.ForeignKey" [("related_name", KStr "content_object_tags"); ("to", KOrm "tagging.Tag")])];
   frozen "tagging.tag"
     [("unique_together", KTuples [["title"; "site"]]); ("object_name", KStr "Tag")]
     [("description", gf "django.db.models.fields.TextField" [("null", KBool true); ("blank", KBool true)]);
      ("id", gf "django.db.models.fields.AutoField" [("primary_key", KBool true)]);
      ("site", gf "django.db.models.fields.related.ForeignKey" [("to", KOrm "sites.Site"); ("null", KBool true); ("blank", KBool true)]);
      ("slug", gf "django.db.models.fields.SlugField" [("max_length", KInt 255)]);
      ("title", gf "django.db.models.fields.CharField" [("max_length", KInt 255); ("db_index", KBool true)])]
  ].

Definition tagging_0002_forwards : M Schema unit :=
  add_column tagging_0002_models "tagging_tag" "slug"
    (gf (dj "SlugField") [("default", KStr ""); ("max_length", KInt 255)]) false ;;
  alter_column tagging_0002_models "tagging_tag" "title" (gf (dj "CharField") [("max_length", KInt 255)]).

Definition tagging_0002_backwards : M Schema unit :=
  delete_column "tagging_tag" "slug" ;;
  alter_column tagging_0002_models "tagging_tag" "title" (gf (dj "CharField") [("max_length", KInt 32)]).

(** ** [core/migrations/0002_auto__add_polymorphiccontentmodel__del_field_contentmodel_polymorphic_.py] *)

(** The frozen models of the migration, one per entry of its [models]
    dict. *)
Definition core_0002_auth_group : FrozenModel :=
  frozen "auth.group"
    [("object_name", KStr "Group")]
    [("id", gf "django.db.models.fields.AutoField" [("primary_key", KBool true)]);
     ("name", gf "django.db.models.fields.CharField" [("unique", KBool true); ("max_length", KInt 80)]);
     ("permissions", gf "django.db.models.fields.related.ManyToManyField" [("to", KOrm "auth.Permission"); ("symmetrical", KBool false); ("blank", KBool true)])].

Definition core_0002_auth_permission : FrozenModel :=
  frozen "auth.permission"
    [("ordering", KList ["content_type__app_label"; "content_type__model"; "codename"]); ("unique_together", KTuples [["content_type"; "codename"]]); ("object_name", KStr "Permission")]
    [("codename", gf "django.db.models.fields.CharField" [("max_length", KInt 100)]);
     ("content_type", gf "django.db.models.fields.related.ForeignKey" [("to", KOrm "contenttypes.ContentType")]);
     ("id", gf "django.db.models.fields.AutoField" [("primary_key", KBool true)]);
     ("name", gf "django.db.models.fields.CharField" [("max_length", KInt 50)])].

Definition core_0002_authentication_enduser : FrozenModel :=
  frozen "authentication.enduser"
    [("object_name", KStr "EndUser")]
    [("city", gf "django.db.models.fields.CharField" [("max_length", KInt 255); ("null", KBool true); ("blank", KBool true)]);
     ("company", gf "django.db.models.fields.CharField" [("max_length", KInt 255); ("null", KBool true); ("blank", KBool true)]);
     ("country", gf "django_countries.fields.CountryField" [("max_length", KInt 2); ("null", KBool true); ("blank", KBool true)]);
     ("crop_from", gf "django.db.models.fields.CharField" [("default", KStr "center"); ("max_length", KInt 10); ("blank", KBool true)]);
     ("date_joined", gf "django.db.models.fields.DateTimeField" [("auto_now_add", KBool true); ("null", KBool true); ("blank", KBool true)]);
     ("date_taken", gf "django.db.models.fields.DateTimeField" [("null", KBool true); ("blank", KBool true)]);
     ("effect", gf "django.db.models.fields.related.ForeignKey" [("blank", KBool true); ("related_name", KStr "enduser_related"); ("null", KBool true); ("to", KOrm "photologue.PhotoEffect")]);
     ("email", gf "django.db.models.fields.EmailField" [("db_index", KBool true); ("max_length", KInt 255); ("unique", KBool true); ("null", KBool true); ("blank", KBool true)]);
     ("first_name", gf "django.db.models.fields.CharField" [("max_length", KInt 255); ("null", KBool true); ("blank", KBool true)]);
     ("groups", gf "django.db.models.fields.related.ManyToManyField" [("symmetrical", KBool false); ("related_name", KStr "user_set"); ("blank", KBool true); ("to", KOrm "auth.Group")]);
     ("id", gf "django.db.models.fields.AutoField" [("primary_key", KBool true)]);
     ("image", gf "django.db.models.fields.files.ImageField" [("max_length", KInt 100); ("blank", KBool true)]);
     ("is_active", gf "django.db.models.fields.BooleanField" [("default", KBool true)]);
     ("is_admin", gf "django.db.models.fields.BooleanField" [("default", KBool false)]);
     ("is_console_user", gf "django.db.models.fields.BooleanField" [("default", KBool false)]);
     ("is_regular_user", gf "django.db.models.fields.BooleanField" [("default", KBool true)]);
     ("is_superuser", gf "django.db.models.fields.BooleanField" [("default", KBool false)]);
     ("job_title", gf "django.db.models.fields.CharField" [("max_length", KInt 255); ("null", KBool true); ("blank", KBool true)]);
     ("last_login", gf "django.db.models.fields.DateTimeField" [("default", KRaw "datetime.datetime.now")]);
     ("last_name", gf "django.db.models.fields.CharField" [("max_length", KInt 255); ("null", KBool true); ("blank", KBool true)]);
     ("mobile_number", gf "django.db.models.fields.CharField" [("max_length", KInt 16); ("null", KBool true); ("blank", KBool true)]);
     ("password", gf "django.db.models.fields.CharField" [("max_length", KInt 128)]);
     ("phone_number", gf "django.db.models.fields.CharField" [("max_length", KInt 16); ("null", KBool true); ("blank", KBool true)]);
     ("state_province", gf "django.db.models.fields.CharField" [("max_length", KInt 255); ("null", KBool true); ("blank", KBool true)]);
     ("street_address", gf "django.db.models.fields.TextField" [("null", KBool true); ("blank", KBool true)]);
     ("title", gf "django.db.models.fields.CharField" [("max_length", KInt 8); ("null", KBool true); ("blank", KBool true)]);
     ("user_permissions", gf "django.db.models.fields.related.ManyToManyField" [("symmetrical", KBool false); ("related_name", KStr "user_set"); ("blank", KBool true); ("to", KOrm "auth.Permission")]);
     ("username", gf "django.db.models.fields.CharField" [("db_index", KBool true); ("max_length", KInt 255); ("unique", KBool true); ("null", KBool true); ("blank", KBool true)]);
     ("view_count", gf "django.db.models.fields.PositiveIntegerField" [("default", KInt 0)]);
     ("web_address", gf "django.db.models.fields.URLField" [("max_length", KInt 200); ("null", KBool true); ("blank", KBool true)]);
     ("zip_postal_code", gf "django.db.models.fields.CharField" [("max_length", KInt 8); ("null", KBool true); ("blank", KBool true)])].

Definition core_0002_contenttypes_contenttype : FrozenModel :=
  frozen "contenttypes.contenttype"
    [("ordering", KList ["name"]); ("unique_together", KTuples [["app_label"; "model"]]); ("object_name", KStr "ContentType"); ("db_table", KStr "django_content_type")]
    [("app_label", gf "django.db.models.fields.CharField" [("max_length", KInt 100)]);
     ("id", gf "django.db.models.fields.AutoField" [("primary_key", KBool true)]);
     ("model", gf "django.db.models.fields.CharField" [("max_length", KInt 100)]);
     ("name", gf "django.db.models.fields.CharField" [("max_length", KInt 100)])].

Definition core_0002_contentblock : FrozenModel :=
  frozen "core.contentblock"
    [("ordering", KList ["order"; "-publish_at"]); ("object_name", KStr "ContentBlock"); ("_ormbases", KList ["core.ContentModel"])]
    [("contentmodel_ptr", gf "django.db.models.fields.related.OneToOneField" [("to", KOrm "core.ContentModel"); ("unique", KBool true); ("primary_key", KBool true)])].

Definition core_0002_contentmodel : FrozenModel :=
  frozen "core.contentmodel"
    [("ordering", KList ["order"; "-publish_at"]); ("object_name", KStr "ContentModel")]
    [("created_at", gf "django.db.models.fields.DateTimeField" [("auto_now_add", KBool true); ("blank", KBool true)]);
     ("created_by", gf "django.db.models.fields.related.ForeignKey" [("blank", KBool true); ("related_name", KStr "contentmodel_created_content"); ("null", KBool true); ("to", KOrm "authentication.EndUser")]);
     ("crop_from", gf "django.db.models.fields.CharField" [("default", KStr "center"); ("max_length", KInt 10); ("blank", KBool true)]);
     ("date_taken", gf "django.db.models.fields.DateTimeField" [("null", KBool true); ("blank", KBool true)]);
     ("effect", gf "django.db.models.fields.related.ForeignKey" [("blank", KBool true); ("related_name", KStr "contentmodel_related"); ("null", KBool true); ("to", KOrm "photologue.PhotoEffect")]);
     ("id", gf "django.db.models.fields.AutoField" [("primary_key", KBool true)]);
     ("image", gf "django.db.models.fields.files.ImageField" [("max_length", KInt 100); ("blank", KBool true)]);
     ("image_name", gf "django.db.models.fields.CharField" [("max_length", KInt 512); ("null", KBool true); ("blank", KBool true)]);
     ("leaf_content_type", gf "django.db.models.fields.related.ForeignKey" [("to", KOrm "contenttypes.ContentType"); ("null", KBool true)]);
     ("modified_at", gf "django.db.models.fields.DateTimeField" [("auto_now_add", KBool true); ("blank", KBool true)]);
     ("modified_by", gf "django.db.models.fields.related.ForeignKey" [("blank", KBool true); ("related_name", KStr "contentmodel_modified_content"); ("null", KBool true); ("to", KOrm "authentication.EndUser")]);
     ("order", gf "django.db.models.fields.PositiveIntegerField" [("default", KInt 0); ("db_index", KBool true)]);
     ("plain_content", gf "django.db.models.fields.TextField" [("null", KBool true); ("blank", KBool true)]);
     ("publish_at", gf "django.db.models.fields.DateTimeField" [("db_index", KBool true); ("null", KBool true); ("blank", KBool true)]);
     ("retract_at", gf "django.db.models.fields.DateTimeField" [("null", KBool true); ("blank", KBool true)]);
     ("rich_content", gf "ckeditor.fields.RichTextField" [("null", KBool true); ("blank", KBool true)]);
     ("sites", gf "django.db.models.fields.related.ManyToManyField" [("symmetrical", KBool false); ("to", KOrm "sites.Site"); ("null", KBool true); ("blank", KBool true)]);
     ("slug", gf "django.db.models.fields.SlugField" [("max_length", KInt 255)]);
     ("state", gf "django.db.models.fields.PositiveSmallIntegerField" [("default", KInt 0)]);
     ("title", gf "django.db.models.fields.CharField" [("max_length", KInt 255); ("db_index", KBool true)]);
     ("view_count", gf "django.db.models.fields.PositiveIntegerField" [("default", KInt 0)])].

Definition core_0002_defaultimage : FrozenModel :=
  frozen "core.defaultimage"
    [("object_name", KStr "DefaultImage")]
    [("category", gf "django.db.models.fields.CharField" [("max_length", KInt 16)]);
     ("crop_from", gf "django.db.models.fields.CharField" [("default", KStr "center"); ("max_length", KInt 10); ("blank", KBool true)]);
     ("date_taken", gf "django.db.models.fields.DateTimeField" [("null", KBool true); ("blank", KBool true)]);
     ("effect", gf "django.db.models.fields.related.ForeignKey" [("blank", KBool true); ("related_name", KStr "defaultimage_related"); ("null", KBool true); ("to", KOrm "photologue.PhotoEffect")]);
     ("id", gf "django.db.models.fields.AutoField" [("primary_key", KBool true)]);
     ("image", gf "django.db.models.fields.files.ImageField" [("max_length", KInt 100); ("blank", KBool true)]);
     ("publish_at", gf "django.db.models.fields.DateTimeField" [("db_index", KBool true); ("null", KBool true); ("blank", KBool true)]);
     ("retract_at", gf "django.db.models.fields.DateTimeField" [("null", KBool true); ("blank", KBool true)]);
     ("state", gf "django.db.models.fields.PositiveSmallIntegerField" [("default", KInt 0)]);
     ("view_count", gf "django.db.models.fields.PositiveIntegerField" [("default", KInt 0)])].

Definition core_0002_gallery : FrozenModel :=
  frozen "core.gallery"
    [("ordering", KList ["order"; "-publish_at"]); ("object_name", KStr "Gallery"); ("_ormbases", KList ["core.ContentModel"])]
    [("contentmodel_ptr", gf "django.db.models.fields.related.OneToOneField" [("to", KOrm "core.ContentModel"); ("unique", KBool true); ("primary_key", KBool true)]);
     ("images", gf "django.db.models.fields.related.ManyToManyField" [("blank", KBool true); ("related_name", KStr "galleries"); ("null", KBool true); ("symmetrical", KBool false); ("to", KOrm "core.GalleryImage")])].

Definition core_0002_galleryimage : FrozenModel :=
  frozen "core.galleryimage"
    [("ordering", KList ["order"; "-publish_at"]); ("object_name", KStr "GalleryImage")]
    [("crop_from", gf "django.db.models.fields.CharField" [("default", KStr "center"); ("max_length", KInt 10); ("blank", KBool true)]);
     ("date_taken", gf "django.db.models.fields.DateTimeField" [("null", KBool true); ("blank", KBool true)]);
     ("effect", gf "django.db.models.fields.related.ForeignKey" [("blank", KBool true); ("related_name", KStr "galleryimage_related"); ("null", KBool true); ("to", KOrm "photologue.PhotoEffect")]);
     ("id", gf "django.db.models.fields.AutoField" [("primary_key", KBool true)]);
     ("image", gf "django.db.models.fields.files.ImageField" [("max_length", KInt 100); ("blank", KBool true)]);
     ("image_name", gf "django.db.models.fields.CharField" [("max_length", KInt 512); ("null", KBool true); ("blank", KBool true)]);
     ("order", gf "django.db.models.fields.PositiveIntegerField" [("default", KInt 0); ("db_index", KBool true)]);
     ("publish_at", gf "django.db.models.fields.DateTimeField" [("db_index", KBool true); ("null", KBool true); ("blank", KBool true)]);
     ("retract_at", gf "django.db.models.fields.DateTimeField" [("null", KBool true); ("blank", KBool true)]);
     ("sites", gf "django.db.models.fields.related.ManyToManyField" [("symmetrical", KBool false); ("to", KOrm "sites.Site"); ("null", KBool true); ("blank", KBool true)]);
     ("state", gf "django.db.models.fields.PositiveSmallIntegerField" [("default", KInt 0)]);
     ("view_count", gf "django.db.models.fields.PositiveIntegerField" [("default", KInt 0)])].

Definition core_0002_htmlbanner : FrozenModel :=
  frozen "core.htmlbanner"
    [("ordering", KList ["order"; "-publish_at"]); ("object_name", KStr "HTMLBanner")]
    [("id", gf "django.db.models.fields.AutoField" [("primary_key", KBool true)]);
     ("order", gf "django.db.models.fields.PositiveSmallIntegerField" [("default", KInt 0); ("db_index", KBool true)]);
     ("plain_content", gf "django.db.models.fields.TextField" [("null", KBool true); ("blank", KBool true)]);
     ("publish_at", gf "django.db.models.fields.DateTimeField" [("db_index", KBool true); ("null", KBool true); ("blank", KBool true)]);
     ("retract_at", gf "django.db.models.fields.DateTimeField" [("null", KBool true); ("blank", KBool true)]);
     ("rich_content", gf "ckeditor.fields.RichTextField" [("null", KBool true); ("blank", KBool true)]);
     ("sites", gf "django.db.models.fields.related.ManyToManyField" [("symmetrical", KBool false); ("to", KOrm "sites.Site"); ("null", KBool true); ("blank", KBool true)]);
     ("state", gf "django.db.models.fields.PositiveSmallIntegerField" [("default", KInt 0)]);
     ("title", gf "django.db.models.fields.CharField" [("max_length", KInt 255)])].

Definition core_0002_htmlbannerset : FrozenModel :=
  frozen "core.htmlbannerset"
    [("ordering", KList ["order"; "-publish_at"]); ("object_name", KStr "HTMLBannerSet")]
    [("banners", gf "django.db.models.fields.related.ManyToManyField" [("related_name", KStr "banner_sets"); ("symmetrical", KBool false); ("to", KOrm "core.HTMLBanner")]);
     ("id", gf "django.db.models.fields.AutoField" [("primary_key", KBool true)]);
     ("order", gf "django.db.models.fields.PositiveSmallIntegerField" [("default", KInt 0); ("db_index", KBool true)]);
     ("publish_at", gf "django.db.models.fields.DateTimeField" [("db_index", KBool true); ("null", KBool true); ("blank", KBool true)]);
     ("retract_at", gf "django.db.models.fields.DateTimeField" [("null", KBool true); ("blank", KBool true)]);
     ("sites", gf "django.db.models.fields.related.ManyToManyField" [("symmetrical", KBool false); ("to", KOrm "sites.Site"); ("null", KBool true); ("blank", KBool true)]);
     ("slug", gf "django.db.models.fields.SlugField" [("max_length", KInt 50)]);
     ("state", gf "django.db.models.fields.PositiveSmallIntegerField" [("default", KInt 0)])].

Definition core_0002_imagebanner : FrozenModel :=
  frozen "core.imagebanner"
    [("ordering", KList ["order"; "-publish_at"]); ("object_name", KStr "ImageBanner")]
    [("crop_from", gf "django.db.models.fields.CharField" [("default", KStr "center"); ("max_length", KInt 10); ("blank", KBool true)]);
     ("date_taken", gf "django.db.models.fields.DateTimeField" [("null", KBool true); ("blank", KBool true)]);
     ("effect", gf "django.db.models.fields.related.ForeignKey" [("blank", KBool true); ("related_name", KStr "imagebanner_related"); ("null", KBool true); ("to", KOrm "photologue.PhotoEffect")]);
     ("id", gf "django.db.models.fields.AutoField" [("primary_key", KBool true)]);
     ("image", gf "django.db.models.fields.files.ImageField" [("max_length", KInt 100); ("blank", KBool true)]);
     ("image_name", gf "django.db.models.fields.CharField" [("max_length", KInt 512); ("null", KBool true); ("blank", KBool true)]);
     ("order", gf "django.db.models.fields.PositiveSmallIntegerField" [("default", KInt 0); ("db_index", KBool true)]);
     ("publish_at", gf "django.db.models.fields.DateTimeField" [("db_index", KBool true); ("null", KBool true); ("blank", KBool true)]);
     ("retract_at", gf "django.db.models.fields.DateTimeField" [("null", KBool true); ("blank", KBool true)]);
     ("sites", gf "django.db.models.fields.related.ManyToManyField" [("symmetrical", KBool false); ("to", KOrm "sites.Site"); ("null", KBool true); ("blank", KBool true)]);
     ("state", gf "django.db.models.fields.PositiveSmallIntegerField" [("default", KInt 0)]);
     ("title", gf "django.db.models.fields.CharField" [("max_length", KInt 255)]);
     ("view_count", gf "django.db.models.fields.PositiveIntegerField" [("default", KInt 0)])].

Definition core_0002_imagebannerset : FrozenModel :=
  frozen "core.imagebannerset"
    [("ordering", KList ["order"; "-publish_at"]); ("object_name", KStr "ImageBannerSet")]
    [("banners", gf "django.db.models.fields.related.ManyToManyField" [("related_name", KStr "banner_sets"); ("symmetrical", KBool false); ("to", KOrm "core.ImageBanner")]);
     ("id", gf "django.db.models.fields.AutoField" [("primary_key", KBool true)]);
     ("order", gf "django.db.models.fields.PositiveSmallIntegerField" [("default", KInt 0); ("db_index", KBool true)]);
     ("publish_at", gf "django.db.models.fields.DateTimeField" [("db_index", KBool true); ("null", KBool true); ("blank", KBool true)]);
     ("retract_at", gf "django.db.models.fields.DateTimeField" [("null", KBool true); ("blank", KBool true)]);
     ("sites", gf "django.db.models.fields.related.ManyToManyField" [("symmetrical", KBool false); ("to", KOrm "sites.Site"); ("null", KBool true); ("blank", KBool true)]);
     ("slug", gf "django.db.models.fields.SlugField" [("max_length", KInt 50)]);
     ("state", gf "django.db.models.fields.PositiveSmallIntegerField" [("default", KInt 0)])].

Definition core_0002_polymorphiccontentmodel : FrozenModel :=
  frozen "core.polymorphiccontentmodel"
    [("ordering", KList ["order"; "-publish_at"]); ("object_name", KStr "PolymorphicContentModel")]
    [("created_at", gf "django.db.models.fields.DateTimeField" [("auto_now_add", KBool true); ("blank", KBool true)]);
     ("created_by", gf "django.db.models.fields.related.ForeignKey" [("blank", KBool true); ("related_name", KStr "polymorphiccontentmodel_created_content"); ("null", KBool true); ("to", KOrm "authentication.EndUser")]);
     ("crop_from", gf "django.db.models.fields.CharField" [("default", KStr "center"); ("max_length", KInt 10); ("blank", KBool true)]);
     ("date_taken", gf "django.db.models.fields.DateTimeField" [("null", KBool true); ("blank", KBool true)]);
     ("effect", gf "django.db.models.fields.related.ForeignKey" [("blank", KBool true); ("related_name", KStr "polymorphiccontentmodel_related"); ("null", KBool true); ("to", KOrm "photologue.PhotoEffect")]);
     ("id", gf "django.db.models.fields.AutoField" [("primary_key", KBool true)]);
     ("image", gf "django.db.models.fields.files.ImageField" [("max_length", KInt 100); ("blank", KBool true)]);
     ("image_name", gf "django.db.models.fields.CharField" [("max_length", KInt 512); ("null", KBool true); ("blank", KBool true)]);
     ("modified_at", gf "django.db.models.fields.DateTimeField" [("auto_now_add", KBool true); ("blank", KBool true)]);
     ("modified_by", gf "django.db.models.fields.related.ForeignKey" [("blank", KBool true); ("related_name", KStr "polymorphiccontentmodel_modified_content"); ("null", KBool true); ("to", KOrm "authentication.EndUser")]);
     ("order", gf "django.db.models.fields.PositiveIntegerField" [("default", KInt 0); ("db_index", KBool true)]);
     ("plain_content", gf "django.db.models.fields.TextField" [("null", KBool true); ("blank", KBool true)]);
     ("polymorphic_ctype", gf "django.db.models.fields.related.ForeignKey" [("related_name", KStr "polymorphic_core.polymorphiccontentmodel_set"); ("null", KBool true); ("to", KOrm "contenttypes.ContentType")]);
     ("publish_at", gf "django.db.models.fields.DateTimeField" [("db_index", KBool true); ("null", KBool true); ("blank", KBool true)]);
     ("retract_at", gf "django.db.models.fields.DateTimeField" [("null", KBool true); ("blank", KBool true)]);
     ("rich_content", gf "ckeditor.fields.RichTextField" [("null", KBool true); ("blank", KBool true)]);
     ("sites", gf "django.db.models.fields.related.ManyToManyField" [("symmetrical", KBool false); ("to", KOrm "sites.Site"); ("null", KBool true); ("blank", KBool true)]);
     ("slug", gf "django.db.models.fields.SlugField" [("max_length", KInt 255)]);
     ("state", gf "django.db.models.fields.PositiveSmallIntegerField" [("default", KInt 0)]);
     ("title", gf "django.db.models.fields.CharField" [("max_length", KInt 255); ("db_index", KBool true)]);
     ("view_count", gf "django.db.models.fields.PositiveIntegerField" [("default", KInt 0)])].

Definition core_0002_photologue_photoeffect : FrozenModel :=
  frozen "photologue.photoeffect"
    [("object_name", KStr "PhotoEffect")]
    [("background_color", gf "django.db.models.fields.CharField" [("default", KStr "#FFFFFF"); ("max_length", KInt 7)]);
     ("brightness", gf "django.db.models.fields.FloatField" [("default", KRaw "1.0")]);
     ("color", gf "django.db.models.fields.FloatField" [("default", KRaw "1.0")]);
     ("contrast", gf "django.db.models.fields.FloatField" [("default", KRaw "1.0")]);
     ("description", gf "django.db.models.fields.TextField" [("blank", KBool true)]);
     ("filters", gf "django.db.models.fields.CharField" [("max_length", KInt 200); ("blank", KBool true)]);
     ("id", gf "django.db.models.fields.AutoField" [("primary_key", KBool true)]);
     ("name", gf "django.db.models.fields.CharField" [("unique", KBool true); ("max_length", KInt 30)]);
     ("reflection_size", gf "django.db.models.fields.FloatField" [("default", KInt 0)]);
     ("reflection_strength", gf "django.db.models.fields.FloatField" [("default", KRaw "0.6")]);
     ("sharpness", gf "django.db.models.fields.FloatField" [("default", KRaw "1.0")]);
     ("transpose_method", gf "django.db.models.fields.CharField" [("max_length", KInt 15); ("blank", KBool true)])].

Definition core_0002_sites_site : FrozenModel :=
  frozen "sites.site"
    [("ordering", KList ["domain"]); ("object_name", KStr "Site"); ("db_table", KStr "django_site")]
    [("domain", gf "django.db.models.fields.CharField" [("max_length", KInt 100)]);
     ("id", gf "django.db.models.fields.AutoField" [("primary_key", KBool true)]);
     ("name", gf "django.db.models.fields.CharField" [("max_length", KInt 50)])].

Definition core_0002_models : list FrozenModel :=
  [core_0002_auth_group; core_0002_auth_permission; core_0002_authentication_enduser; core_0002_contenttypes_contenttype; core_0002_contentblock; core_0002_contentmodel; core_0002_defaultimage; core_0002_gallery; core_0002_galleryimage; core_0002_htmlbanner; core_0002_htmlbannerset; core_0002_imagebanner; core_0002_imagebannerset; core_0002_polymorphiccontentmodel; core_0002_photologue_photoeffect; core_0002_sites_site].

(** [db.shorten_name(u'core_polymorphiccontentmodel_sites')]: South
    truncates only names longer than PostgreSQL's 63 characters, and this
    one has 34. *)
Definition m2m_table_name : string := "core_polymorphiccontentmodel_sites".

Definition core_0002_forwards : M Schema unit :=
  create_table core_0002_models "core_polymorphiccontentmodel"
    [("id", gf (dj "AutoField") [("primary_key", KBool true)]);
     ("polymorphic_ctype", gf (dj "related.ForeignKey")
        [("related_name", KStr "polymorphic_core.polymorphiccontentmodel_set"); ("null", KBool true);
         ("to", KOrm "contenttypes.ContentType")]);
     ("image", gf (dj "files.ImageField") [("max_length", KInt 100); ("blank", KBool true)]);
     ("date_taken", gf (dj "DateTimeField") [("null", KBool true); ("blank", KBool true)]);
     ("view_count", gf (dj "PositiveIntegerField") [("default", KInt 0)]);
     ("crop_from", gf (dj "CharField")
        [("default", KStr "center"); ("max_length", KInt 10); ("blank", KBool true)]);
     ("effect", gf (dj "related.ForeignKey")
        [("blank", KBool true); ("related_name", KStr "polymorphiccontentmodel_related");
         ("null", KBool true); ("to", KOrm "photologue.PhotoEffect")]);
     ("state", gf (dj "PositiveSmallIntegerField") [("default", KInt 0)]);
     ("publish_at", gf (dj "DateTimeField")
        [("db_index", KBool true); ("null", KBool true); ("blank", KBool true)]);
     ("retract_at", gf (dj "DateTimeField") [("null", KBool true); ("blank", KBool true)]);
     ("title", gf (dj "CharField") [("max_length", KInt 255); ("db_index", KBool true)]);
     ("slug", gf (dj "SlugField") [("max_length", KInt 255)]);
     ("created_at", gf (dj "DateTimeField") [("auto_now_add", KBool true); ("blank", KBool true)]);
     ("created_by", gf (dj "related.ForeignKey")
        [("blank", KBool true); ("related_name", KStr "polymorphiccontentmodel_created_content");
         ("null", KBool true); ("to", KOrm "authentication.EndUser")]);
     ("modified_at", gf (dj "DateTimeField") [("auto_now_add", KBool true); ("blank", KBool true)]);
     ("modified_by", gf (dj "related.ForeignKey")
        [("blank", KBool true); ("related_name", KStr "polymorphiccontentmodel_modified_content");
         ("null", KBool true); ("to", KOrm "authentication.EndUser")]);
     ("image_name", gf (dj "CharField")
        [("max_length", KInt 512); ("null", KBool true); ("blank", KBool true)]);
     ("plain_content", gf (dj "TextField") [("null", KBool true); ("blank", KBool true)]);
     ("rich_content", gf "ckeditor.fields.RichTextField" [("null", KBool true); ("blank", KBool true)]);
     ("order", gf (dj "PositiveIntegerField") [("default", KInt 0); ("db_index", KBool true)])] ;;
  send_create_signal "core" ["PolymorphicContentModel"] ;;
  (* [models.AutoField(...)] and [models.ForeignKey(orm[...], null=False)]:
     field instances, the model passed as [to] *)
  create_table core_0002_models m2m_table_name
    [("id", gf (dj "AutoField")
              [("verbose_name", KStr "ID"); ("primary_key", KBool true); ("auto_created", KBool true)]);
     ("polymorphiccontentmodel", gf (dj "related.ForeignKey")
        [("to", KOrm "core.polymorphiccontentmodel"); ("null", KBool false)]);
     ("site", gf (dj "related.ForeignKey") [("to", KOrm "sites.site"); ("null", KBool false)])] ;;
  create_unique m2m_table_name ["polymorphiccontentmodel_id"; "site_id"] ;;
  delete_column "core_contentmodel" "polymorphic_ctype_id" ;;
  add_column core_0002_models "core_contentmodel" "leaf_content_type"
    (gf (dj "related.ForeignKey") [("to", KOrm "contenttypes.ContentType"); ("null", KBool true)]) false.

Definition core_0002_backwards : M Schema unit :=
  delete_table "core_polymorphiccontentmodel" ;;
  delete_table m2m_table_name ;;
  add_column core_0002_models "core_contentmodel" "polymorphic_ctype"
    (gf (dj "related.ForeignKey")
       [("related_name", KStr "polymorphic_core.contentmodel_set"); ("null", KBool true);
        ("to", KOrm "contenttypes.ContentType")]) false ;;
  delete_column "core_contentmodel" "leaf_content_type_id".

(** ** The tables of a frozen app *)

Definition frozen_app (app : string) (fm : FrozenModel) : bool :=
  String.prefix (app +:+ ".") (fm_key fm).

Fixpoint after_dot (l : list ascii) : list ascii :=
  match l with
  | [] => []
  | c :: r => if Ascii.eqb c "."%char then r else after_dot r
  end.

(** The part of ["app.Model"] after the dot, lower case: [model_name]. *)
Definition label_model (label : string) : string :=
  str_lower (String.string_of_list_ascii (after_dot (String.list_ascii_of_string label))).

Definition frozen_attname (fm : FrozenModel) (n : string) : string :=
  match find (fun p => String.eqb p.1 n) (fm_fields fm) with
  | Some (_, f) => if is_fk_class (sf_class f) then n +:+ "_id" else n
  | None => n
  end.

(** The table Django makes for a [ManyToManyField] [field] of a model
    stored in [table]: [table_field], with the two foreign keys and their
    UNIQUE pair. *)
Definition m2m_table (table from field : string) (to_table to : string) : Table :=
  let a := from +:+ "_id" in
  let b := to +:+ "_id" in
  mkTable (table +:+ "_" +:+ field)
    [mkColumn "id" CSerial false; mkColumn a (CRef table) false; mkColumn b (CRef to_table) false]
    [[a; b]] [].

Definition frozen_m2m (fms : list FrozenModel) (fm : FrozenModel) (nf : string * SouthField) : exc (list Table) :=
  let '(n, f) := nf in
  if String.eqb (sf_class f) (dj "related.ManyToManyField") then
    match kw_lookup "to" (sf_kwargs f) with
    | Some (KOrm label) =>
        t <-! orm_table fms label ;;
        Ok [m2m_table (frozen_db_table fm) (label_model (fm_key fm)) n t (label_model label)]
    | _ => Raise TypeError
    end
  else Ok [].

Fixpoint exc_concat_map {A B} (f : A -> exc (list B)) (l : list A) : exc (list B) :=
  match l with
  | [] => Ok []
  | x :: r => a <-! f x ;; b <-! exc_concat_map f r ;; Ok (a ++ b)
  end.

Definition frozen_model_tables (fms : list FrozenModel) (fm : FrozenModel) : exc (list Table) :=
  cols <-! exc_omap (field_column fms) (fm_fields fm) ;;
  m2ms <-! exc_concat_map (frozen_m2m fms fm) (fm_fields fm) ;;
  let uniques := match kw_lookup "unique_together" (fm_meta fm) with
                 | Some (KTuples l) => map (map (frozen_attname fm)) l
                 | _ => []
                 end in
  Ok (mkTable (frozen_db_table fm) cols uniques [] :: m2ms).

(** The tables the frozen models of [app] stand for. *)
Definition frozen_tables (fms : list FrozenModel) (app : string) : exc (list Table) :=
  exc_concat_map (frozen_model_tables fms) (List.filter (frozen_app app) fms).

(** ** The tables the models declare *)

(** The concrete models of [core/models.py] and [tagging/models.py]. *)
Definition core_models : list Model :=
  [ContentModel_meta; ContentBlockSet_meta; ContentBlock_meta; DefaultImage_meta; ImageBanner_meta;
   HTMLBanner_meta; ImageBannerSet_meta; HTMLBannerSet_meta; GalleryImage_meta; Gallery_meta;
   VersionSeries_meta; Version_meta].
Definition tagging_models : list Model := [Tag_meta; ContentObjectTag_meta].

(** [settings.AUTH_USER_MODEL]: the user model the frozen models of
    [core/migrations/0002_...py] point to. *)
Definition auth_user_table : string := "authentication_enduser".

(** [Model._meta.db_table] of a model the code names. *)
Definition db_table_of (name : string) : string :=
  if String.eqb name "Site" then "django_site"
  else if String.eqb name "ContentType" then "django_content_type"
  else if String.eqb name "User" then auth_user_table
  else if String.eqb name "PhotoEffect" then "photologue_photoeffect"
  else if existsb (fun m => String.eqb (model_name m) name) tagging_models then "tagging_" +:+ str_lower name
  else if String.eqb name "OutboundEmail" then "mailer_outboundemail"
  else "core_" +:+ str_lower name.

(** [Meta.unique_together]: [Tag]'s [[('title', 'site')]] is the only
    one. *)
Definition unique_together (m : Model) : list (list string) :=
  if String.eqb (model_name m) "Tag" then [["title"; "site"]] else [].

(** The fields a model inherits from its abstract bases: Django copies
    them into the child; a concrete base keeps its own (the child gets the
    parent link instead). *)
Fixpoint abstract_fields (fuel : nat) (names : list string) : list Field :=
  match fuel with
  | O => []
  | S f => List.concat (map (fun b => match get_model b with
                                       | Some p => if abstract p then local_fields p ++ abstract_fields f (bases p)
                                                   else []
                                       | None => []
                                       end) names)
  end.

Definition concrete_fields (m : Model) : list Field :=
  local_fields m ++ abstract_fields hierarchy_depth (bases m).

(** The column of a declared field ([None] for a [ManyToManyField]). *)
Definition declared_column (f : Field) : option Column :=
  let n := fname f in
  match fkind f with
  | AutoField => Some (mkColumn n CSerial (fnull f))
  | CharField ml | SlugField ml => Some (mkColumn n (CVarchar ml) (fnull f))
  | TextField => Some (mkColumn n CText (fnull f))
  | PositiveIntegerField => Some (mkColumn n CPosInt (fnull f))
  | PositiveSmallIntegerField => Some (mkColumn n CPosSmallInt (fnull f))
  | DateTimeField => Some (mkColumn n CTimestamp (fnull f))
  | ImageField => Some (mkColumn n (CVarchar 100) (fnull f))
  | BooleanField => Some (mkColumn n CBool (fnull f))
  | ForeignKey t | OneToOneField t => Some (mkColumn (n +:+ "_id") (CRef (db_table_of t)) (fnull f))
  | ManyToManyField _ => None
  end.

Definition declared_attname (m : Model) (n : string) : string :=
  match find (fun f => String.eqb (fname f) n) (concrete_fields m) with
  | Some f => match fkind f with ForeignKey _ | OneToOneField _ => n +:+ "_id" | _ => n end
  | None => n
  end.

Definition declared_tables_of (m : Model) : list Table :=
  let table := db_table_of (model_name m) in
  mkTable table (omap declared_column (concrete_fields m))
    (map (map (declared_attname m)) (unique_together m)) []
  :: omap (fun f => match fkind f with
                    | ManyToManyField t =>
                        Some (m2m_table table (str_lower (model_name m)) (fname f) (db_table_of t) (str_lower t))
                    | _ => None
                    end) (concrete_fields m).

Definition declared_tables (ms : list Model) : list Table := List.concat (map declared_tables_of ms).

(** ** Comparing two schemas *)

Inductive Drift :=
| TableMissing (t : string)
| TableExtra (t : string)
| ColumnMissing (t c : string)
| ColumnExtra (t c : string)
| ColumnDiffers (t : string) (declared migrated : Column)
| UniqueDiffers (t : string).

Definition find_column (n : string) (t : Table) : option Column :=
  find (fun c => String.eqb (cname c) n) (tcols t).

Definition table_diff (d m : Table) : list Drift :=
  List.concat (map (fun c => match find_column (cname c) m with
                             | None => [ColumnMissing (tname d) (cname c)]
                             | Some c' => if decide (c = c') then [] else [ColumnDiffers (tname d) c c']
                             end) (tcols d))
  ++ map (fun c => ColumnExtra (tname d) (cname c))
         (List.filter (fun c => negb (has_column (cname c) d)) (tcols m))
  ++ (if bool_decide (tuniques d ≡ₚ tuniques m) then [] else [UniqueDiffers (tname d)]).

(** What the [declared] tables have that the [migrated] ones lack, and
    the other way round. *)
Definition schema_diff (declared migrated : list Table) : list Drift :=
  List.concat (map (fun d => match find_table (tname d) migrated with
                             | None => [TableMissing (tname d)]
                             | Some m => table_diff d m
                             end) declared)
  ++ map (fun m => TableExtra (tname m))
         (List.filter (fun m => negb (existsb (table_named (tname m)) declared)) migrated).

(** ** Locality: a migration changes only the tables it names *)

Lemma find_app_false {A} (p : A -> bool) l r :
  (forall x, In x l -> p x = false) -> find p (l ++ r) = find p r.
Proof. intros H. induction l as [|x l IH]; simpl; [reflexivity|]. rewrite H by (left; reflexivity). auto with datatypes. Qed.

Lemma existsb_app_false {A} (p : A -> bool) l r :
  (forall x, In x l -> p x = false) -> existsb p (l ++ r) = existsb p r.
Proof. intros H. induction l as [|x l IH]; simpl; [reflexivity|]. rewrite H by (left; reflexivity). auto with datatypes. Qed.

Lemma update_where_app_false {A} (p : A -> bool) f l r :
  (forall x, In x l -> p x = false) -> update_where p f (l ++ r) = l ++ update_where p f r.
Proof. intros H. unfold update_where. rewrite map_app. f_equal. apply update_where_none. exact H. Qed.

Lemma filter_app_false {A} (p : A -> bool) l r :
  (forall x, In x l -> p x = false) -> List.filter (fun x => negb (p x)) (l ++ r) = l ++ List.filter (fun x => negb (p x)) r.
Proof.
  intros H. rewrite List.filter_app. f_equal. induction l as [|x l IH]; simpl; [reflexivity|].
  rewrite H by (left; reflexivity). simpl. f_equal. auto with datatypes.
Qed.

Definition fresh_for (names : list string) (s : Schema) : Prop :=
  Forall (fun t => ~ In (tname t) names) s.

(** [m] leaves alone the tables in front of the ones it names: run on
    [s ++ ts], it runs on [ts]. *)
Definition frame (names : list string) (m : M Schema unit) : Prop :=
  forall s ts, fresh_for names s -> m (s ++ ts) = (fst (m ts), s ++ snd (m ts)).

Lemma named_false names s n :
  fresh_for names s -> In n names -> forall t, In t s -> table_named n t = false.
Proof.
  intros Hs Hn t Ht. unfold table_named. apply String.eqb_neq. intros Heq.
  unfold fresh_for in Hs. rewrite List.Forall_forall in Hs. apply (Hs t Ht). rewrite Heq. exact Hn.
Qed.

(** Moves a call past the tables it does not name, then closes the
    branches of the call. *)
Ltac framed Hs Hn :=
  let H := fresh in
  pose proof (named_false _ _ _ Hs Hn) as H;
  unfold find_table;
  rewrite ?(find_app_false _ _ _ H), ?(existsb_app_false _ _ _ H);
  repeat (case_match; try reflexivity);
  cbn [fst snd]; rewrite ?(update_where_app_false _ _ _ _ H), ?(filter_app_false _ _ _ H), ?app_assoc;
  reflexivity.

Lemma frame_bind names (m : M Schema unit) (k : unit -> M Schema unit) :
  frame names m -> (forall a, frame names (k a)) -> frame names (mbind m k).
Proof.
  intros Hm Hk s ts Hs. unfold mbind. rewrite (Hm s ts Hs).
  destruct (m ts) as [[a|e] ts']; simpl; [apply Hk; exact Hs | reflexivity].
Qed.

Lemma create_table_frame names fms n fields : In n names -> frame names (create_table fms n fields).
Proof.
  intros Hn s ts Hs. unfold create_table. framed Hs Hn.
Qed.

Lemma delete_table_frame names n : In n names -> frame names (delete_table n).
Proof. intros Hn s ts Hs. unfold delete_table. framed Hs Hn. Qed.

Lemma add_column_frame names fms n c f kd : In n names -> frame names (add_column fms n c f kd).
Proof.
  intros Hn s ts Hs. unfold add_column. framed Hs Hn.
Qed.

Lemma delete_column_frame names n c : In n names -> frame names (delete_column n c).
Proof. intros Hn s ts Hs. unfold delete_column. framed Hs Hn. Qed.

Lemma alter_column_frame names fms n c f : In n names -> frame names (alter_column fms n c f).
Proof. intros Hn s ts Hs. unfold alter_column. framed Hs Hn. Qed.

Lemma create_unique_frame names n cols : In n names -> frame names (create_unique n cols).
Proof. intros Hn s ts Hs. unfold create_unique. framed Hs Hn. Qed.

Lemma delete_unique_frame names n cols : In n names -> frame names (delete_unique n cols).
Proof. intros Hn s ts Hs. unfold delete_unique. framed Hs Hn. Qed.

Lemma send_create_signal_frame names app ms : frame names (send_create_signal app ms).
Proof. intros s ts Hs. reflexivity. Qed.

#[export] Hint Resolve create_table_frame delete_table_frame add_column_frame delete_column_frame
  alter_column_frame create_unique_frame delete_unique_frame send_create_signal_frame : tb.
#[export] Hint Extern 1 (In _ _) => simpl; tauto : tb.

(** A migration is framed when each of its calls is. *)
Ltac solve_frame :=
  repeat (apply frame_bind; [|intros _]); eauto with tb.

Definition tagging_table_names : list string := ["tagging_tag"; "tagging_contentobjecttag"].

Lemma tagging_forwards_frame :
  frame tagging_table_names (tagging_0001_forwards ;; tagging_0002_forwards).
Proof. unfold tagging_0001_forwards, tagging_0002_forwards. solve_frame. Qed.

(** C28: On a database without the tagging tables, [migrate tagging]
    (0001 then 0002 forwards) adds exactly the tables [tagging/models.py]
    declares, column for column with their types, NULLs and the UNIQUE
    pair, and the frozen models of 0002 record that same schema; the
    tables already there are left as they were. *)
Theorem tagging_migrations_declared_schema (s : Schema) :
  fresh_for tagging_table_names s ->
  exists T, (tagging_0001_forwards ;; tagging_0002_forwards) s = (Ok tt, s ++ T) /\
            schema_diff (declared_tables tagging_models) T = [] /\
            exists F, frozen_tables tagging_0002_models "tagging" = Ok F /\ schema_diff F T = [].
Proof.
  intros Hs. pose proof (tagging_forwards_frame s [] Hs) as H. rewrite app_nil_r in H.
  exists (snd ((tagging_0001_forwards ;; tagging_0002_forwards) [])). split; [rewrite H; f_equal; vm_compute; reflexivity|].
  split; [vm_compute; reflexivity|]. eexists; split; vm_compute; reflexivity.
Qed.

Lemma tagging_migrations_declared_schema_witness :
  fresh_for tagging_table_names [mkTable "django_site" [] [] []] /\
  exists T, (tagging_0001_forwards ;; tagging_0002_forwards) [mkTable "django_site" [] [] []] =
              (Ok tt, [mkTable "django_site" [] [] []] ++ T) /\
            schema_diff (declared_tables tagging_models) T = [] /\
            exists F, frozen_tables tagging_0002_models "tagging" = Ok F /\ schema_diff F T = [].
Proof.
  assert (H : fresh_for tagging_table_names [mkTable "django_site" [] [] []])
    by (repeat constructor; simpl; intuition discriminate).
  split; [exact H | apply (tagging_migrations_declared_schema _ H)].
Defined.

(** ** Calls on a table in place *)

Section Located.
Context (n : string) (pre post : Schema).
Context (Hpre : fresh_for [n] pre) (Hpost : fresh_for [n] post).

Lemma find_located t : tname t = n -> find_table n (pre ++ t :: post) = Some t.
Proof.
  intros Ht. unfold find_table. rewrite (find_app_false _ _ _ (named_false _ _ _ Hpre (or_introl eq_refl))).
  simpl. unfold table_named. rewrite Ht, String.eqb_refl. reflexivity.
Qed.

Lemma update_located t f : tname t = n ->
  update_where (table_named n) f (pre ++ t :: post) = pre ++ f t :: post.
Proof.
  intros Ht. rewrite (update_where_app_false _ _ _ _ (named_false _ _ _ Hpre (or_introl eq_refl))).
  f_equal. unfold update_where. simpl. unfold table_named at 1. rewrite Ht, String.eqb_refl. f_equal.
  apply update_where_none. exact (named_false _ _ _ Hpost (or_introl eq_refl)).
Qed.

Lemma add_column_located fms t name f kd c v :
  tname t = n -> field_column fms (name, f) = Ok (Some c) -> has_column (cname c) t = false ->
  fill_value f = Some v ->
  add_column fms n name f kd (pre ++ t :: post) =
    (Ok tt, pre ++ mkTable (tname t) (tcols t ++ [c]) (tuniques t)
                     (map (fun r => r ++ [(cname c, v)]) (trows t)) :: post).
Proof.
  intros Ht Hc Hh Hv. unfold add_column. rewrite find_located, Hc, Hh, Hv by exact Ht.
  rewrite update_located by exact Ht. reflexivity.
Qed.

Lemma delete_column_located t col :
  tname t = n -> has_column col t = true ->
  delete_column n col (pre ++ t :: post) =
    (Ok tt, pre ++ mkTable (tname t)
                     (List.filter (fun c => negb (String.eqb (cname c) col)) (tcols t))
                     (List.filter (fun u => negb (existsb (String.eqb col) u)) (tuniques t))
                     (map (List.filter (fun p => negb (String.eqb p.1 col))) (trows t)) :: post).
Proof.
  intros Ht Hh. unfold delete_column. rewrite find_located, Hh by exact Ht.
  rewrite update_located by exact Ht. reflexivity.
Qed.

Lemma alter_column_located fms t name f c :
  tname t = n -> field_column fms (name, f) = Ok (Some c) -> cname c = name -> has_column name t = true ->
  too_long c (trows t) = false -> null_clash c (trows t) = false ->
  alter_column fms n name f (pre ++ t :: post) =
    (Ok tt, pre ++ mkTable (tname t) (map (replace_column name c) (tcols t))
                     (tuniques t) (trows t) :: post).
Proof.
  intros Ht Hc Hn Hh Hl Hz. unfold alter_column. rewrite find_located, Hc, Hh by exact Ht.
  destruct c as [cn ct cz]; simpl in *; subst cn. rewrite Hl, Hz.
  rewrite update_located by exact Ht. reflexivity.
Qed.

Lemma alter_column_long fms t name f c :
  tname t = n -> field_column fms (name, f) = Ok (Some c) -> cname c = name -> has_column name t = true ->
  too_long c (trows t) = true ->
  alter_column fms n name f (pre ++ t :: post) = (Raise DataError, pre ++ t :: post).
Proof.
  intros Ht Hc Hn Hh Hl. unfold alter_column. rewrite find_located, Hc, Hh by exact Ht.
  destruct c as [cn ct cz]; simpl in *; subst cn. rewrite Hl. reflexivity.
Qed.

End Located.

(** ** Rows and columns through a column added and dropped *)

Lemma row_value_snoc_other k k' v r :
  k <> k' -> row_value k (r ++ [(k', v)]) = row_value k r.
Proof.
  intros Hk. unfold row_value. induction r as [|[a w] r IH]; simpl.
  - rewrite (proj2 (String.eqb_neq k' k)) by congruence. reflexivity.
  - destruct (String.eqb a k); [reflexivity|exact IH].
Qed.

Lemma row_value_filter_other k k' r :
  k <> k' -> row_value k (List.filter (fun p => negb (String.eqb p.1 k')) r) = row_value k r.
Proof.
  intros Hk. unfold row_value. induction r as [|[a v] r IH]; [reflexivity|]. simpl.
  destruct (String.eqb_spec a k'); simpl.
  - rewrite (proj2 (String.eqb_neq a k)) by congruence. exact IH.
  - destruct (String.eqb a k); [reflexivity|exact IH].
Qed.

Lemma filter_snoc_fresh k v (r : SqlRow) :
  existsb (fun p => String.eqb p.1 k) r = false ->
  List.filter (fun p => negb (String.eqb p.1 k)) (r ++ [(k, v)]) = r.
Proof.
  intros Hr. rewrite List.filter_app. simpl. rewrite String.eqb_refl. simpl. rewrite app_nil_r.
  induction r as [|[a w] r IH]; [reflexivity|]. simpl in *.
  apply orb_false_iff in Hr as [Ha Hr]. rewrite Ha. simpl. f_equal. exact (IH Hr).
Qed.

Lemma has_column_app c t k cols u r : has_column c (mkTable k (tcols t ++ cols) u r) =
  has_column c t || existsb (fun k => String.eqb (cname k) c) cols.
Proof. unfold has_column. simpl. apply existsb_app. Qed.

Lemma has_column_map_same c k (f : Column -> Column) t u r :
  (forall x, cname (f x) = cname x) ->
  has_column c (mkTable k (map f (tcols t)) u r) = has_column c t.
Proof.
  intros Hf. unfold has_column. simpl. induction (tcols t) as [|x l IH]; simpl; [reflexivity|].
  rewrite Hf, IH. reflexivity.
Qed.

Lemma existsb_name_filter c c' (l : list Column) : c <> c' ->
  existsb (fun k => String.eqb (cname k) c) (List.filter (fun k => negb (String.eqb (cname k) c')) l) =
  existsb (fun k => String.eqb (cname k) c) l.
Proof.
  intros Hc. induction l as [|k l IH]; [reflexivity|]. simpl.
  destruct (String.eqb_spec (cname k) c'); simpl; rewrite IH; [|reflexivity].
  rewrite (proj2 (String.eqb_neq (cname k) c)) by congruence. reflexivity.
Qed.

Lemma filter_all_true {A} (p : A -> bool) l : Forall (fun x => p x = true) l -> List.filter p l = l.
Proof. induction 1 as [|x l Hx _ IH]; simpl; [reflexivity|]. rewrite Hx, IH. reflexivity. Qed.

Lemma too_long_false c rows :
  Forall (fun r => forall x, row_value (cname c) r = VStr x -> value_fits c (VStr x) = true) rows ->
  too_long c rows = false.
Proof.
  intros H. unfold too_long. apply not_true_iff_false. rewrite existsb_exists. intros [r [Hr Hv]].
  rewrite List.Forall_forall in H. specialize (H r Hr).
  destruct (row_value (cname c) r); try discriminate. rewrite (H _ eq_refl) in Hv. discriminate.
Qed.

Lemma null_clash_false c rows :
  Forall (fun r => value_fits c (row_value (cname c) r) = true) rows -> null_clash c rows = false.
Proof.
  intros H. unfold null_clash. apply not_true_iff_false. rewrite existsb_exists. intros [r [Hr Hv]].
  rewrite List.Forall_forall in H. rewrite (H r Hr) in Hv. discriminate.
Qed.

(** ** [tagging/migrations/0002]: forwards, then backwards *)

Definition title32 : Column := mkColumn "title" (CVarchar 32) false.
Definition title255 : Column := mkColumn "title" (CVarchar 255) false.
Definition slug255 : Column := mkColumn "slug" (CVarchar 255) false.

(** [tagging_tag] as 0001 leaves it: no [slug] column, key or UNIQUE
    constraint, [title] a NOT NULL [varchar(32)], and in every row a
    [title] string of at most 32 characters. *)
Definition tag_table_0001 (t : Table) : bool :=
  String.eqb (tname t) "tagging_tag" && negb (has_column "slug" t) && has_column "title" t &&
  forallb (fun c => negb (String.eqb (cname c) "title") || bool_decide (c = title32)) (tcols t) &&
  forallb (fun u => negb (existsb (String.eqb "slug") u)) (tuniques t) &&
  forallb (fun r => negb (existsb (fun p => String.eqb p.1 "slug") r) &&
                    match row_value "title" r with
                    | VStr x => (String.length x <=? 32)%nat
                    | _ => false
                    end) (trows t).

Lemma tag_table_0001_spec t : tag_table_0001 t = true ->
  tname t = "tagging_tag" /\ has_column "slug" t = false /\ has_column "title" t = true /\
  Forall (fun c => cname c = "title" -> c = title32) (tcols t) /\
  Forall (fun u => negb (existsb (String.eqb "slug") u) = true) (tuniques t) /\
  Forall (fun r => existsb (fun p => String.eqb p.1 "slug") r = false /\
                   exists x, row_value "title" r = VStr x /\ (String.length x <= 32)%nat) (trows t).
Proof.
  unfold tag_table_0001. intros H. repeat rewrite andb_true_iff in H.
  destruct H as [[[[[Hn Hs] Ht] Hc] Hu] Hr].
  apply String.eqb_eq in Hn. apply negb_true_iff in Hs.
  repeat split; try assumption; apply List.Forall_forall; intros x Hx.
  - rewrite forallb_forall in Hc. specialize (Hc x Hx). intros Hx'.
    rewrite Hx', String.eqb_refl in Hc. simpl in Hc. exact (bool_decide_eq_true_1 _ Hc).
  - rewrite forallb_forall in Hu. exact (Hu x Hx).
  - rewrite forallb_forall in Hr. specialize (Hr x Hx). apply andb_true_iff in Hr as [Hs' Hv].
    split; [exact (proj1 (negb_true_iff _) Hs')|].
    destruct (row_value "title" x); try discriminate. eexists; split; [reflexivity|]. apply Nat.leb_le, Hv.
Qed.

Lemma titles_fit n rows : (32 <= n)%Z ->
  Forall (fun r => exists x, row_value "title" r = VStr x /\ (String.length x <= 32)%nat) rows ->
  too_long (mkColumn "title" (CVarchar n) false) rows = false /\
  null_clash (mkColumn "title" (CVarchar n) false) rows = false.
Proof.
  intros Hn Hr. split; [apply too_long_false | apply null_clash_false];
    refine (List.Forall_impl _ _ Hr); simpl; intros r [x [Hx Hl]]; [intros y Hy|];
    rewrite ?Hx in *; simplify_eq; simpl; apply Z.leb_le; lia.
Qed.

(** A column added to every row and dropped again leaves the rows as
    they were. *)
Lemma add_drop_rows k v (rows : list SqlRow) :
  Forall (fun r => existsb (fun p => String.eqb p.1 k) r = false) rows ->
  map (List.filter (fun p => negb (String.eqb p.1 k))) (map (fun r => r ++ [(k, v)]) rows) = rows.
Proof.
  intros Hr. rewrite map_map. rewrite <- (map_id rows) at 2. apply map_ext_in. intros r Hin.
  apply filter_snoc_fresh. rewrite List.Forall_forall in Hr. exact (Hr r Hin).
Qed.

Definition retitle (c : Column) : Column -> Column := replace_column "title" c.

Lemma retitle_name c k : cname c = "title" -> cname (retitle c k) = cname k.
Proof. intros Hc. unfold retitle, replace_column. destruct (String.eqb_spec (cname k) "title"); congruence. Qed.

(** [slug] added, [title] widened, [slug] dropped: the columns are the
    old ones with [title] widened. *)
Lemma drop_slug_cols (cols : list Column) :
  existsb (fun k => String.eqb (cname k) "slug") cols = false ->
  List.filter (fun c => negb (String.eqb (cname c) "slug")) (map (retitle title255) (cols ++ [slug255]))
  = map (retitle title255) cols.
Proof.
  intros Hs. rewrite map_app, List.filter_app. simpl. rewrite app_nil_r. apply filter_all_true.
  apply List.Forall_map, List.Forall_forall. intros c Hin. rewrite retitle_name by reflexivity.
  apply negb_true_iff, not_true_iff_false. intros Hcs. apply not_true_iff_false in Hs. apply Hs.
  apply existsb_exists. eauto.
Qed.

Lemma retitle_back (cols : list Column) :
  Forall (fun c => cname c = "title" -> c = title32) cols ->
  map (retitle title32) (map (retitle title255) cols) = cols.
Proof.
  intros Hc. rewrite map_map. rewrite <- (map_id cols) at 2. apply map_ext_in. intros c Hin.
  rewrite List.Forall_forall in Hc. unfold retitle, replace_column.
  destruct (String.eqb_spec (cname c) "title") as [He|He]; simpl; [symmetry; apply Hc; assumption|].
  rewrite (proj2 (String.eqb_neq _ _) He). reflexivity.
Qed.

(** C32: On a [tagging_tag] as 0001 leaves it, where every title has at
    most 32 characters, migrating 0002 forwards and then backwards gives
    back the database it started from: the [slug] column comes and goes,
    [title] is widened to 255 and narrowed to 32 again, and no row, column
    or constraint of any table changes. *)
Theorem tagging_0002_roundtrip (pre post : Schema) (t : Table) :
  fresh_for ["tagging_tag"] pre -> fresh_for ["tagging_tag"] post -> tag_table_0001 t = true ->
  (tagging_0002_forwards ;; tagging_0002_backwards) (pre ++ t :: post) = (Ok tt, pre ++ t :: post).
Proof.
  intros Hpre Hpost Ht. destruct (tag_table_0001_spec t Ht) as (Hn & Hs & Htl & Hc & Hu & Hr).
  assert (Hr1 := Hr). apply (List.Forall_impl _ (fun r H => proj2 H)) in Hr1.
  unfold tagging_0002_forwards, tagging_0002_backwards, mbind.
  rewrite (add_column_located _ _ _ Hpre Hpost _ t _ _ _ slug255 (VStr "")) by (reflexivity || assumption).
  cbv beta iota.
  destruct (titles_fit 255 (map (fun r => r ++ [("slug", VStr "")]) (trows t)) ltac:(lia)) as [Hl1 Hz1].
  { apply List.Forall_map. refine (List.Forall_impl _ _ Hr1). intros r Hx.
    rewrite row_value_snoc_other by discriminate. exact Hx. }
  rewrite (alter_column_located _ _ _ Hpre Hpost _ _ _ _ title255); try reflexivity; try assumption.
  2: rewrite has_column_app, Htl; reflexivity.
  cbv beta iota. rewrite (delete_column_located _ _ _ Hpre Hpost); [|exact Hn|].
  2: rewrite has_column_map_same, has_column_app by (intros; apply retitle_name; reflexivity);
     apply orb_true_r.
  cbv beta iota. cbn [tcols tname tuniques trows]. fold (retitle title255).
  rewrite drop_slug_cols, add_drop_rows by (exact Hs || exact (List.Forall_impl _ (fun r H => proj1 H) Hr)).
  destruct (titles_fit 32 (trows t) ltac:(lia) Hr1) as [Hl3 Hz3].
  rewrite (alter_column_located _ _ _ Hpre Hpost _ _ _ _ title32); try reflexivity; try assumption.
  2: rewrite has_column_map_same by (intros; apply retitle_name; reflexivity); exact Htl.
  cbn [tcols tname tuniques trows]. fold (retitle title32).
  rewrite filter_all_true by exact Hu. rewrite retitle_back by exact Hc.
  destruct t; simpl in *; reflexivity.
Qed.

Lemma too_long_filtered c k rows : cname c <> k ->
  too_long c (map (List.filter (fun p => negb (String.eqb p.1 k))) rows) = too_long c rows.
Proof.
  intros Hk. unfold too_long. induction rows as [|r rows IH]; [reflexivity|]. simpl.
  f_equal; [|exact IH]. rewrite row_value_filter_other by exact Hk. reflexivity.
Qed.

Lemma too_long_title32 rows :
  Exists (fun r => exists x, row_value "title" r = VStr x /\ (32 < String.length x)%nat) rows ->
  too_long title32 rows = true.
Proof.
  intros H. unfold too_long. apply existsb_exists. apply List.Exists_exists in H as [r [Hin [x [Hx Hl]]]].
  exists r. split; [exact Hin|]. simpl. rewrite Hx. simpl. apply negb_true_iff, Z.leb_gt. lia.
Qed.

(** C33: Once a tag has a title longer than 32 characters, which
    [Tag.title], a [CharField(max_length=255)] since 0002, admits,
    migrating 0002 backwards raises [DataError], and South's transaction
    leaves the database as it was: the migration cannot be reversed. *)
Theorem tagging_0002_backwards_long_title (pre post : Schema) (t : Table) :
  fresh_for ["tagging_tag"] pre -> fresh_for ["tagging_tag"] post ->
  tname t = "tagging_tag" -> has_column "slug" t = true -> has_column "title" t = true ->
  Exists (fun r => exists x, row_value "title" r = VStr x /\ (32 < String.length x)%nat) (trows t) ->
  transaction tagging_0002_backwards (pre ++ t :: post) = (Raise DataError, pre ++ t :: post).
Proof.
  intros Hpre Hpost Hn Hs Htl Hlong. unfold transaction, tagging_0002_backwards, mbind.
  rewrite (delete_column_located _ _ _ Hpre Hpost) by assumption. cbv beta iota.
  rewrite (alter_column_long _ _ _ Hpre _ _ _ _ title32); try reflexivity; try assumption.
  - unfold has_column. simpl. rewrite existsb_name_filter by discriminate. exact Htl.
  - simpl trows. rewrite too_long_filtered by discriminate. apply too_long_title32, Hlong.
Qed.

Definition tag_row (id : Z) (title : string) : SqlRow :=
  [("id", VInt id); ("title", VStr title); ("description", VNull); ("site_id", VInt 1)].

Definition tag_table_at_0001 : Table :=
  mkTable "tagging_tag"
    [mkColumn "id" CSerial false; title32; mkColumn "description" CText true;
     mkColumn "site_id" (CRef "django_site") true]
    [["title"; "site_id"]] [tag_row 1 "django"; tag_row 2 "rocq"].

Lemma tagging_0002_roundtrip_witness :
  fresh_for ["tagging_tag"] [mkTable "django_site" [] [] []] /\ tag_table_0001 tag_table_at_0001 = true /\
  (tagging_0002_forwards ;; tagging_0002_backwards) ([mkTable "django_site" [] [] []] ++ tag_table_at_0001 :: [])
    = (Ok tt, [mkTable "django_site" [] [] []] ++ tag_table_at_0001 :: []).
Proof.
  assert (Hf : fresh_for ["tagging_tag"] [mkTable "django_site" [] [] []])
    by (repeat constructor; simpl; intuition discriminate).
  assert (Ht : tag_table_0001 tag_table_at_0001 = true) by reflexivity.
  split; [exact Hf|]. split; [exact Ht|]. exact (tagging_0002_roundtrip _ [] _ Hf (List.Forall_nil _) Ht).
Defined.

Definition long_title : string := "a tag title of more than thirty-two characters".

Definition tag_table_at_0002 : Table :=
  mkTable "tagging_tag"
    [mkColumn "id" CSerial false; title255; mkColumn "description" CText true;
     mkColumn "site_id" (CRef "django_site") true; slug255]
    [["title"; "site_id"]]
    [tag_row 1 "django" ++ [("slug", VStr "django")];
     tag_row 2 long_title ++ [("slug", VStr "a-tag-title")]].

Lemma tagging_0002_backwards_long_title_witness :
  transaction tagging_0002_backwards ([] ++ tag_table_at_0002 :: [])
    = (Raise DataError, [] ++ tag_table_at_0002 :: []).
Proof.
  apply (tagging_0002_backwards_long_title [] [] tag_table_at_0002 (List.Forall_nil _) (List.Forall_nil _));
    try reflexivity.
  apply List.Exists_cons_tl, List.Exists_cons_hd. exists long_title. split; [reflexivity|]. vm_compute. lia.
Defined.

(** ** What the core migration leaves *)

(** The frozen models of core 0002, South's record of the schema
    the core migrations leave, lack what [core/models.py] declares since:
    the [ContentBlockSet], [VersionSeries] and [Version] tables,
    [ContentBlock.alternative_title] and [content_block_parent], and the
    [SEOModel] columns of [ContentModel]; and they keep the two
    [PolymorphicContentModel] tables no model declares.  Every other
    table agrees column for column, type and NULL included. *)
Theorem core_migrations_schema_drift :
  exists F, frozen_tables core_0002_models "core" = Ok F /\
  schema_diff (declared_tables core_models) F =
    [ColumnMissing "core_contentmodel" "meta_description"; ColumnMissing "core_contentmodel" "meta_keywords";
     TableMissing "core_contentblockset";
     ColumnMissing "core_contentblock" "alternative_title";
     ColumnMissing "core_contentblock" "content_block_parent_id";
     TableMissing "core_versionseries"; TableMissing "core_version";
     TableExtra "core_polymorphiccontentmodel"; TableExtra "core_polymorphiccontentmodel_sites"].
Proof. eexists; split; vm_compute; reflexivity. Qed.

(** A call that never brings a table named [n] into being. *)
Definition no_create (n : string) (m : M Schema unit) : Prop :=
  forall s, ~ In n (map tname s) -> ~ In n (map tname (snd (m s))).

Lemma names_update_where p f (s : Schema) :
  (forall t, tname (f t) = tname t) -> map tname (update_where p f s) = map tname s.
Proof.
  intros Hf. unfold update_where. rewrite map_map. apply map_ext. intros t. destruct (p t); auto.
Qed.

Lemma no_create_bind n (m : M Schema unit) k :
  no_create n m -> (forall a, no_create n (k a)) -> no_create n (mbind m k).
Proof.
  intros Hm Hk s Hs. unfold mbind. specialize (Hm s Hs).
  destruct (m s) as [[a|e] s']; simpl in *; [apply Hk|]; exact Hm.
Qed.

(** The calls that only change tables in place, or drop them. *)
Ltac in_place :=
  intros s Hs; repeat (case_match; simpl; try exact Hs);
  try (rewrite names_update_where by reflexivity; exact Hs);
  try (intros Hin; apply Hs; rewrite in_map_iff in Hin |- *;
       destruct Hin as [t [Ht Hin]]; exists t; split; [exact Ht|];
       apply List.filter_In in Hin; tauto).

Lemma create_table_no_create n fms name fields : name <> n -> no_create n (create_table fms name fields).
Proof.
  intros Hn. unfold create_table. in_place. rewrite map_app. simpl. rewrite in_app_iff. simpl.
  intros [Hin|[He|[]]]; [exact (Hs Hin)|exact (Hn He)].
Qed.

Lemma delete_table_no_create n name : no_create n (delete_table name).
Proof. unfold delete_table. in_place. Qed.
Lemma add_column_no_create n fms t c f kd : no_create n (add_column fms t c f kd).
Proof. unfold add_column. in_place. Qed.
Lemma delete_column_no_create n t c : no_create n (delete_column t c).
Proof. unfold delete_column. in_place. Qed.
Lemma alter_column_no_create n fms t c f : no_create n (alter_column fms t c f).
Proof. unfold alter_column. in_place. Qed.
Lemma create_unique_no_create n t cols : no_create n (create_unique t cols).
Proof. unfold create_unique. in_place. Qed.
Lemma delete_unique_no_create n t cols : no_create n (delete_unique t cols).
Proof. unfold delete_unique. in_place. Qed.
Lemma send_create_signal_no_create n app ms : no_create n (send_create_signal app ms).
Proof. intros s Hs. exact Hs. Qed.

#[export] Hint Resolve create_table_no_create delete_table_no_create add_column_no_create
  delete_column_no_create alter_column_no_create create_unique_no_create delete_unique_no_create
  send_create_signal_no_create : tb.

Lemma transaction_no_create n m : no_create n m -> no_create n (transaction m).
Proof. intros Hm s Hs. unfold transaction. specialize (Hm s Hs). destruct (m s) as [[]]; simpl; auto. Qed.

(** Every direction of the repository's migrations. *)
Definition migrations : list (M Schema unit) :=
  [tagging_0001_forwards; tagging_0001_backwards; tagging_0002_forwards; tagging_0002_backwards;
   core_0002_forwards; core_0002_backwards].

(** [./manage.py migrate]: the migrations of a plan, in order, each in
    its transaction, up to the first that raises. *)
Fixpoint migrate (plan : list (M Schema unit)) : M Schema unit :=
  match plan with
  | [] => mret tt
  | m :: r => transaction m ;; migrate r
  end.

Definition unmigrated_tables : list string := ["core_versionseries"; "core_version"; "core_contentblockset"].

Lemma migrations_no_create n : In n unmigrated_tables -> Forall (no_create n) migrations.
Proof.
  intros Hn. unfold migrations, tagging_0001_forwards, tagging_0001_backwards, tagging_0002_forwards,
    tagging_0002_backwards, core_0002_forwards, core_0002_backwards.
  simpl in Hn. repeat constructor; repeat (apply no_create_bind; [|intros _]); eauto with tb;
    apply create_table_no_create; unfold m2m_table_name; intuition (subst; discriminate).
Qed.

(** C29: Whatever plan of the repository's migrations South runs, on a
    database without them, it never creates the [VersionSeries],
    [Version] or [ContentBlockSet] tables [core/models.py] declares: the
    queries of [core/managers.py] and [core/utils.py] on them have no
    table to run on. *)
Theorem migrate_never_creates_version_tables (plan : list (M Schema unit)) (s : Schema) (n : string) :
  Forall (fun m => In m migrations) plan -> In n unmigrated_tables -> ~ In n (map tname s) ->
  ~ In n (map tname (snd (migrate plan s))).
Proof.
  intros Hplan Hn. pose proof (migrations_no_create n Hn) as Hall. rewrite List.Forall_forall in Hall.
  revert s. induction Hplan as [|m plan Hm _ IH]; intros s Hs; [exact Hs|].
  simpl. apply (no_create_bind n (transaction m) (fun _ => migrate plan)); [|intros _; exact IH|exact Hs].
  apply transaction_no_create, Hall, Hm.
Qed.

Lemma migrate_never_creates_version_tables_witness :
  ~ In "core_version" (map tname (snd (migrate [tagging_0001_forwards; tagging_0002_forwards; core_0002_forwards] []))).
Proof.
  apply migrate_never_creates_version_tables.
  - repeat constructor; unfold migrations; simpl; tauto.
  - simpl; tauto.
  - simpl; tauto.
Defined.

(** ** [tagging/migrations/0001]: forwards, then backwards *)

Lemma tagging_0001_frame :
  frame tagging_table_names (tagging_0001_forwards ;; tagging_0001_backwards).
Proof. unfold tagging_0001_forwards, tagging_0001_backwards. solve_frame. Qed.

(** C31: On any database without the tagging tables, migrating tagging
    0001 forwards and then backwards succeeds and gives back the database
    it started from: the two tables and the UNIQUE pair it creates are
    exactly the ones its [backwards] drops. *)
Theorem tagging_0001_roundtrip (s : Schema) :
  fresh_for tagging_table_names s ->
  (tagging_0001_forwards ;; tagging_0001_backwards) s = (Ok tt, s).
Proof.
  intros Hs. pose proof (tagging_0001_frame s [] Hs) as H. rewrite !app_nil_r in H.
  rewrite H. f_equal; vm_compute; reflexivity.
Qed.

Lemma tagging_0001_roundtrip_witness :
  (tagging_0001_forwards ;; tagging_0001_backwards) [mkTable "django_site" [] [] []] =
    (Ok tt, [mkTable "django_site" [] [] []]).
Proof.
  apply tagging_0001_roundtrip. repeat constructor; simpl; intuition discriminate.
Defined.

(** ** [core/migrations/0002] run on a database *)

Lemma existsb_fresh n s : fresh_for [n] s -> existsb (table_named n) s = false.
Proof.
  intros Hs. apply not_true_iff_false. rewrite existsb_exists. intros [t [Ht Hn]].
  rewrite (named_false [n] s n Hs (or_introl eq_refl) t Ht) in Hn. discriminate.
Qed.

Lemma fresh_for_app names s1 s2 : fresh_for names s1 -> fresh_for names s2 -> fresh_for names (s1 ++ s2).
Proof. intros H1 H2. apply List.Forall_app. split; assumption. Qed.

Lemma fresh_for_sub names names' s : incl names' names -> fresh_for names s -> fresh_for names' s.
Proof. intros Hi. apply List.Forall_impl. intros t Ht Hin. exact (Ht (Hi _ Hin)). Qed.

Lemma create_table_fresh fms name fields cols s :
  fresh_for [name] s -> exc_omap (field_column fms) fields = Ok cols ->
  create_table fms name fields s = (Ok tt, s ++ [mkTable name cols [] []]).
Proof. intros Hs Hc. unfold create_table. rewrite existsb_fresh, Hc by exact Hs. reflexivity. Qed.

Lemma create_unique_located n pre post t cols :
  fresh_for [n] pre -> fresh_for [n] post -> tname t = n -> NoDup (omap (unique_key cols) (trows t)) ->
  create_unique n cols (pre ++ t :: post) =
    (Ok tt, pre ++ mkTable (tname t) (tcols t) (tuniques t ++ [cols]) (trows t) :: post).
Proof.
  intros Hpre Hpost Ht Hnd. unfold create_unique. rewrite (find_located n pre post Hpre t Ht).
  rewrite bool_decide_eq_true_2 by exact Hnd. rewrite (update_located n pre post Hpre Hpost) by exact Ht.
  reflexivity.
Qed.

Definition core_0002_table_names : list string :=
  ["core_contentmodel"; "core_polymorphiccontentmodel"; m2m_table_name].

(** The ORM reading [leaf_content_type_id] into
    [ContentModel.leaf_content_type]: NULL is [None]. *)
Definition load_leaf (r : SqlRow) : option nat :=
  match row_value "leaf_content_type_id" r with VInt z => Some (Z.to_nat z) | _ => None end.

Definition without (col : string) (r : SqlRow) : SqlRow := List.filter (fun p => negb (String.eqb p.1 col)) r.

Lemma fresh_names names s n : fresh_for names s -> In n names -> fresh_for [n] s.
Proof. intros Hs Hn. apply (fresh_for_sub names); [intros x [<-|[]]; exact Hn|exact Hs]. Qed.

Lemma existsb_name_filter_self c (l : list Column) :
  existsb (fun k => String.eqb (cname k) c) (List.filter (fun k => negb (String.eqb (cname k) c)) l) = false.
Proof.
  induction l as [|k l IH]; [reflexivity|]. simpl.
  destruct (String.eqb (cname k) c) eqn:E; simpl; [exact IH|rewrite E; exact IH].
Qed.

Lemma row_value_snoc_fresh k v (r : SqlRow) :
  existsb (fun p => String.eqb p.1 k) r = false -> row_value k (r ++ [(k, v)]) = v.
Proof.
  unfold row_value. induction r as [|[a w] r IH]; simpl; [rewrite String.eqb_refl; reflexivity|].
  intros H. apply orb_false_iff in H as [Ha H]. rewrite Ha. exact (IH H).
Qed.

Lemma existsb_filter_false {A} (p q : A -> bool) l : existsb p l = false -> existsb p (List.filter q l) = false.
Proof. induction l as [|x l IH]; simpl; [auto|]. intros H. apply orb_false_iff in H as [Hx H]. destruct (q x); simpl; rewrite ?Hx; auto. Qed.

(** Every key of every row names a column of the table: what the
    database guarantees of a row. *)
Definition rows_match_columns (t : Table) : Prop :=
  Forall (fun r => Forall (fun p => has_column p.1 t = true) r) (trows t).

(** C30: Run on a database whose [core_contentmodel] table has a
    [polymorphic_ctype_id] column (and no other tables of the migration),
    [core/migrations/0002_auto.forwards] succeeds: it creates
    [core_polymorphiccontentmodel] and the m2m table after the existing
    tables, drops [polymorphic_ctype_id] with its values, and adds
    [leaf_content_type_id] as NULL on every existing row.  Every row the
    ORM then loads has [leaf_content_type = None], so [as_leaf_class]
    raises [AttributeError] on all content that existed before the
    migration: the migration has no data step that copies the old
    polymorphic type into the new column. *)
Theorem core_0002_forwards_orphans_content (pre post : Schema) (t : Table) :
  fresh_for core_0002_table_names pre -> fresh_for core_0002_table_names post ->
  tname t = "core_contentmodel" -> has_column "polymorphic_ctype_id" t = true ->
  has_column "leaf_content_type_id" t = false -> rows_match_columns t ->
  exists t' T, core_0002_forwards (pre ++ t :: post) = (Ok tt, pre ++ t' :: post ++ T) /\
    map tname T = ["core_polymorphiccontentmodel"; m2m_table_name] /\
    tname t' = "core_contentmodel" /\ has_column "polymorphic_ctype_id" t' = false /\
    trows t' = map (fun r => without "polymorphic_ctype_id" r ++ [("leaf_content_type_id", VNull)]) (trows t) /\
    forall r db c, In r (trows t') -> c_leaf_content_type c = load_leaf r -> as_leaf_class db c = Raise AttributeError.
Proof.
  intros Hpre Hpost Hn Hp Hl Hrm.
  assert (Hall : fresh_for ["core_polymorphiccontentmodel"] (pre ++ t :: post)).
  { apply fresh_for_app; [apply (fresh_names _ _ _ Hpre); simpl; tauto|].
    constructor; [rewrite Hn; simpl; intuition discriminate|apply (fresh_names _ _ _ Hpost); simpl; tauto]. }
  unfold core_0002_forwards, mbind.
  erewrite create_table_fresh; [|exact Hall|cbv; reflexivity].
  cbv beta iota.
  match goal with |- context [(pre ++ t :: post) ++ [?X]] => set (P := X) end.
  unfold send_create_signal, mret. cbv beta iota.
  replace ((pre ++ t :: post) ++ [P]) with (pre ++ t :: (post ++ [P])) by (rewrite <- app_assoc; reflexivity).
  assert (Hall2 : fresh_for [m2m_table_name] (pre ++ t :: (post ++ [P]))).
  { apply fresh_for_app; [apply (fresh_names _ _ _ Hpre); simpl; tauto|].
    constructor; [rewrite Hn; simpl; intuition discriminate|].
    apply fresh_for_app; [apply (fresh_names _ _ _ Hpost); simpl; tauto|].
    constructor; [simpl; intuition discriminate|constructor]. }
  erewrite create_table_fresh; [|exact Hall2|cbv; reflexivity].
  cbv beta iota.
  match goal with |- context [(pre ++ t :: (post ++ [P])) ++ [?X]] => set (Mt := X) end.
  rewrite (create_unique_located m2m_table_name (pre ++ t :: (post ++ [P])) [] Mt); [|exact Hall2|constructor|reflexivity|constructor].
  cbv beta iota.
  match goal with |- context [(pre ++ t :: (post ++ [P])) ++ [?X]] => set (M' := X) end.
  replace ((pre ++ t :: (post ++ [P])) ++ [M']) with (pre ++ t :: (post ++ [P; M'])) by (rewrite <- app_assoc; simpl; rewrite <- app_assoc; reflexivity).
  assert (Hpost' : fresh_for ["core_contentmodel"] (post ++ [P; M'])).
  { apply fresh_for_app; [apply (fresh_names _ _ _ Hpost); simpl; tauto|].
    repeat constructor; simpl; intuition discriminate. }
  assert (Hpre' : fresh_for ["core_contentmodel"] pre) by (apply (fresh_names _ _ _ Hpre); simpl; tauto).
  rewrite (delete_column_located _ _ _ Hpre' Hpost') by assumption.
  cbv beta iota.
  rewrite (add_column_located _ _ _ Hpre' Hpost' _ _ _ _ _ (mkColumn "leaf_content_type_id" (CRef "django_content_type") true) VNull);
    [|simpl; exact Hn|reflexivity| |reflexivity].
  2: { unfold has_column. cbn [tcols cname]. rewrite existsb_name_filter by discriminate. exact Hl. }
  eexists; exists [P; M']. split; [reflexivity|]. split; [reflexivity|]. split; [simpl; exact Hn|].
  split; [rewrite has_column_app; unfold has_column; cbn [tcols]; rewrite existsb_name_filter_self; reflexivity|].
  split; [simpl; rewrite map_map; reflexivity|].
  intros r db c Hin Hc. simpl in Hin. rewrite map_map in Hin. apply in_map_iff in Hin as (r0 & <- & Hr0).
  unfold as_leaf_class. rewrite Hc. unfold load_leaf. rewrite row_value_snoc_fresh; [reflexivity|].
  apply existsb_filter_false. apply not_true_iff_false. intros Hex. apply existsb_exists in Hex as ([k v] & Hkv & Hk).
  simpl in Hk. apply String.eqb_eq in Hk. subst k.
  unfold rows_match_columns in Hrm. rewrite List.Forall_forall in Hrm. specialize (Hrm r0 Hr0).
  rewrite List.Forall_forall in Hrm. specialize (Hrm _ Hkv). simpl in Hrm. congruence.
Qed.

Lemma core_0002_forwards_orphans_content_witness :
  exists t' T, core_0002_forwards
    [mkTable "core_contentmodel" [mkColumn "id" CSerial false; mkColumn "polymorphic_ctype_id" (CRef "django_content_type") true]
       [] [[("id", VInt 1); ("polymorphic_ctype_id", VInt 7)]]] = (Ok tt, t' :: T) /\
    forall r db c, In r (trows t') -> c_leaf_content_type c = load_leaf r -> as_leaf_class db c = Raise AttributeError.
Proof.
  destruct (core_0002_forwards_orphans_content []
    [] (mkTable "core_contentmodel" [mkColumn "id" CSerial false; mkColumn "polymorphic_ctype_id" (CRef "django_content_type") true]
       [] [[("id", VInt 1); ("polymorphic_ctype_id", VInt 7)]]))
    as (t' & T & Hrun & _ & _ & _ & _ & Hleaf);
    [constructor|constructor|reflexivity|reflexivity|reflexivity|repeat constructor|].
  exists t', T. split; [exact Hrun|exact Hleaf].
Defined.
